(** * quantum-safe-mesh: the authentication and key-exchange layer

    A shallow embedding of the Go sources

      - [pkg/pqc/dilithium.go], [pkg/pqc/kyber.go], [pkg/pqc/utils.go]
      - [pkg/models/types.go]
      - [cmd/auth/main.go]     (the Identity Registry)
      - [cmd/gateway/main.go]  (the Requesting Party)
      - [cmd/backend/main.go]  (the Responding Party)

    Conventions.

      - A Go [string] and a Go [[]byte] are both sequences of 8-bit bytes;
        both are embedded as [string] (a list of [ascii], one per byte).
      - A function returning [(T, error)] returns [outcome T]; a function
        returning only [error] returns [option error] ([None] is [nil]).
      - [time.Now()], [rand.Reader] and the HTTP peers are inputs of the
        function that uses them.
      - The lattice primitives of [github.com/cloudflare/circl] are opaque:
        they are the fields of the classes [mode3.Scheme] and
        [kyber768.Scheme]; what the library documents about them is stated
        in [mode3.Correct].
      - [encoding/json], [encoding/base64] and [time] of the Go standard
        library are embedded for the Go types that this program sends
        through them. *)

From Stdlib Require Import ZArith NArith Ascii String Bool Lia List DecimalString.
From stdpp Require Import gmap strings list sorting.

Local Open Scope stdpp_scope.

Set Warnings "-register-all".

(** ** Bytes *)

Abbreviation bytes := string.

Definition byte_val (c : ascii) : N := N_of_ascii c.

Definition len (s : string) : nat := String.length s.

Fixpoint repeat_byte (c : ascii) (n : nat) : string :=
  match n with
  | O => ""
  | S n => String c (repeat_byte c n)
  end.

Fixpoint take_bytes (n : nat) (s : string) : string :=
  match n, s with
  | S n, String c s => String c (take_bytes n s)
  | _, _ => ""
  end.

(** [pad_to n c s]: the first [n] bytes of [s] followed by [c]s. *)
Fixpoint pad_to (n : nat) (c : ascii) (s : string) : string :=
  match n with
  | O => ""
  | S n =>
      match s with
      | String a s => String a (pad_to n c s)
      | EmptyString => String c (pad_to n c "")
      end
  end.

(** The bytes of a slice that may be [nil]. *)
Definition slice_bytes (b : option bytes) : bytes := default "" b.

(** ** Errors and outcomes *)

(** A Go [error] built by [fmt.Errorf]: the format's literal text, the
    numbers it prints, and the wrapped cause of a [%w]. *)
Inductive error : Type :=
| Errorf (msg : string)
| ErrorfSize (msg : string) (expected got : nat)
| ErrorfInt (msg : string) (n : nat)
| ErrorfWrap (msg : string) (cause : error).

(** What a call does: return a value with a [nil] error, return an error,
    or panic. *)
Inductive outcome (A : Type) : Type :=
| Ok (a : A)
| Fail (e : error)
| Panics (msg : string).
Arguments Ok {A} a.
Arguments Fail {A} e.
Arguments Panics {A} msg.

Definition bind {A B} (x : outcome A) (k : A → outcome B) : outcome B :=
  match x with
  | Ok a => k a
  | Fail e => Fail e
  | Panics m => Panics m
  end.

(** [wrap msg x] is the Go idiom
    [if err != nil { return nil, fmt.Errorf(msg + ": %w", err) }]. *)
Definition wrap {A} (msg : string) (x : outcome A) : outcome A :=
  match x with
  | Fail e => Fail (ErrorfWrap msg e)
  | _ => x
  end.

(** ** The circl primitives *)

(** [github.com/cloudflare/circl/sign/dilithium/mode3]. [GenerateKey]
    reads its randomness from the reader it is given; [None] is a reader
    that fails. *)
Module mode3.
Class Scheme : Type := {
  PublicKey : Type;
  PrivateKey : Type;
  PublicKeySize : nat;
  PrivateKeySize : nat;
  SignatureSize : nat;
  GenerateKey : option bytes → option (PublicKey * PrivateKey);
  PublicKey_Bytes : PublicKey → bytes;
  PrivateKey_Bytes : PrivateKey → bytes;
  PublicKey_UnmarshalBinary : bytes → option PublicKey;
  PrivateKey_UnmarshalBinary : bytes → option PrivateKey;
  SignTo : PrivateKey → bytes → bytes;
  Verify : PublicKey → bytes → bytes → bool;
}.

(** What the library promises: packed keys have the parameter set's
    sizes and unpack to the key they came from, signatures have the
    parameter set's size, and a signature made with a generated private
    key verifies under the public key generated with it. *)
Class Correct (S : Scheme) : Prop := {
  PublicKey_Bytes_size : ∀ pk, len (PublicKey_Bytes pk) = PublicKeySize;
  PrivateKey_Bytes_size : ∀ sk, len (PrivateKey_Bytes sk) = PrivateKeySize;
  PublicKey_Unmarshal_Bytes :
    ∀ pk, PublicKey_UnmarshalBinary (PublicKey_Bytes pk) = Some pk;
  PrivateKey_Unmarshal_Bytes :
    ∀ sk, PrivateKey_UnmarshalBinary (PrivateKey_Bytes sk) = Some sk;
  SignTo_size : ∀ sk msg, len (SignTo sk msg) = SignatureSize;
  Verify_SignTo :
    ∀ seed pk sk msg,
      GenerateKey seed = Some (pk, sk) → Verify pk msg (SignTo sk msg) = true;
}.
End mode3.

(** [github.com/cloudflare/circl/kem/kyber/kyber768]. [Unpack] and
  [DecapsulateTo] panic on a buffer of the wrong length ([None]). *)
Module kyber768.
Class Scheme : Type := {
  PublicKey : Type;
  PrivateKey : Type;
  GenerateKeyPair : option bytes → option (PublicKey * PrivateKey);
  PublicKey_MarshalBinary : PublicKey → bytes;
  PrivateKey_MarshalBinary : PrivateKey → bytes;
  PublicKey_Unpack : bytes → option PublicKey;
  PrivateKey_Unpack : bytes → option PrivateKey;
  (** [EncapsulateTo pk seed] is [(ciphertext, sharedSecret)]. *)
  EncapsulateTo : PublicKey → bytes → bytes * bytes;
  DecapsulateTo : PrivateKey → bytes → option bytes;
}.
End kyber768.

(** ** Package [pqc]: [dilithium.go] and [kyber.go] *)

Module pqc.
Section Primitives.
Context `{SigS : mode3.Scheme} `{KemS : kyber768.Scheme}.

Record DilithiumKeyPair : Type := {
  PublicKey : mode3.PublicKey;
  PrivateKey : mode3.PrivateKey;
}.

Definition GenerateDilithiumKeyPair (rand : option bytes)
  : outcome DilithiumKeyPair :=
  match mode3.GenerateKey rand with
  | None => Fail (ErrorfWrap "failed to generate Dilithium keypair"
                    (Errorf "rand"))
  | Some (publicKey, privateKey) =>
      Ok {| PublicKey := publicKey; PrivateKey := privateKey |}
  end.

Definition Sign (d : DilithiumKeyPair) (data : bytes) : outcome bytes :=
  let signature := mode3.SignTo (PrivateKey d) data in
  Ok signature.

Definition GetPublicKeyBytes (d : DilithiumKeyPair) : bytes :=
  mode3.PublicKey_Bytes (PublicKey d).

Definition GetPrivateKeyBytes (d : DilithiumKeyPair) : bytes :=
  mode3.PrivateKey_Bytes (PrivateKey d).

Definition VerifyDilithiumSignature (publicKeyBytes data signature : bytes)
  : option error :=
  if negb (len publicKeyBytes =? mode3.PublicKeySize)%nat then
    Some (ErrorfSize "invalid public key size"
            mode3.PublicKeySize (len publicKeyBytes))
  else
    match mode3.PublicKey_UnmarshalBinary publicKeyBytes with
    | None => Some (ErrorfWrap "failed to unmarshal public key"
                      (Errorf "packed public key must be of mode3.PublicKeySize bytes"))
    | Some publicKey =>
        if negb (mode3.Verify publicKey data signature) then
          Some (Errorf "invalid signature")
        else None
    end.

Definition LoadDilithiumKeyPair (publicKeyBytes privateKeyBytes : bytes)
  : outcome DilithiumKeyPair :=
  if negb (len publicKeyBytes =? mode3.PublicKeySize)%nat then
    Fail (ErrorfSize "invalid public key size"
            mode3.PublicKeySize (len publicKeyBytes))
  else if negb (len privateKeyBytes =? mode3.PrivateKeySize)%nat then
    Fail (ErrorfSize "invalid private key size"
            mode3.PrivateKeySize (len privateKeyBytes))
  else
    match mode3.PublicKey_UnmarshalBinary publicKeyBytes with
    | None => Fail (ErrorfWrap "failed to unmarshal public key"
                      (Errorf "packed public key must be of mode3.PublicKeySize bytes"))
    | Some publicKey =>
        match mode3.PrivateKey_UnmarshalBinary privateKeyBytes with
        | None => Fail (ErrorfWrap "failed to unmarshal private key"
                          (Errorf "packed private key must be of mode3.PrivateKeySize bytes"))
        | Some privateKey =>
            Ok {| PublicKey := publicKey; PrivateKey := privateKey |}
        end
    end.

(** [kyber.go] *)

Record KyberKeyPair : Type := {
  KPublicKey : kyber768.PublicKey;
  KPrivateKey : kyber768.PrivateKey;
}.

Definition GenerateKyberKeyPair (rand : option bytes) : outcome KyberKeyPair :=
  match kyber768.GenerateKeyPair rand with
  | None => Fail (ErrorfWrap "failed to generate Kyber keypair" (Errorf "rand"))
  | Some (publicKey, privateKey) =>
      Ok {| KPublicKey := publicKey; KPrivateKey := privateKey |}
  end.

Definition KGetPublicKeyBytes (k : KyberKeyPair) : bytes :=
  kyber768.PublicKey_MarshalBinary (KPublicKey k).

Definition KGetPrivateKeyBytes (k : KyberKeyPair) : bytes :=
  kyber768.PrivateKey_MarshalBinary (KPrivateKey k).

(** [rand.Read(seed)] fills a 32-byte seed or fails. *)
Definition Encapsulate (k : KyberKeyPair) (rand : option bytes)
  : outcome (bytes * bytes) :=
  match rand with
  | None => Fail (ErrorfWrap "failed to generate random seed" (Errorf "rand"))
  | Some seed => Ok (kyber768.EncapsulateTo (KPublicKey k) seed)
  end.

Definition Decapsulate (k : KyberKeyPair) (ciphertext : bytes) : outcome bytes :=
  match kyber768.DecapsulateTo (KPrivateKey k) ciphertext with
  | None => Panics "ct must be of length CiphertextSize"
  | Some sharedSecret => Ok sharedSecret
  end.

Definition EncapsulateWithPublicKey (publicKeyBytes : bytes) (rand : option bytes)
  : outcome (bytes * bytes) :=
  if negb (len publicKeyBytes =? 1184)%nat then
    Fail (ErrorfSize "invalid public key size" 1184 (len publicKeyBytes))
  else
    match kyber768.PublicKey_Unpack publicKeyBytes with
    | None => Panics "buf must be of length PublicKeySize"
    | Some publicKey =>
        match rand with
        | None => Fail (ErrorfWrap "failed to generate random seed" (Errorf "rand"))
        | Some seed => Ok (kyber768.EncapsulateTo publicKey seed)
        end
    end.

Definition LoadKyberKeyPair (publicKeyBytes privateKeyBytes : bytes)
  : outcome KyberKeyPair :=
  if negb (len publicKeyBytes =? 1184)%nat then
    Fail (ErrorfSize "invalid public key size" 1184 (len publicKeyBytes))
  else if negb (len privateKeyBytes =? 2400)%nat then
    Fail (ErrorfSize "invalid private key size" 2400 (len privateKeyBytes))
  else
    match kyber768.PublicKey_Unpack publicKeyBytes,
          kyber768.PrivateKey_Unpack privateKeyBytes with
    | Some publicKey, Some privateKey =>
        Ok {| KPublicKey := publicKey; KPrivateKey := privateKey |}
    | _, _ => Panics "buf must be of the packed key size"
    end.
End Primitives.
End pqc.

(** ** Text helpers shared by the standard-library embeddings *)

Definition dq : string := String "034"%char "".
Definition bslash : ascii := "092"%char.

Definition hexdigit (n : N) : ascii :=
  if (n <? 10)%N then ascii_of_N (48 + n) else ascii_of_N (87 + n).

Definition hexval (c : ascii) : option N :=
  let n := byte_val c in
  if ((48 <=? n) && (n <=? 57))%N then Some (n - 48)%N
  else if ((97 <=? n) && (n <=? 102))%N then Some (n - 87)%N
  else if ((65 <=? n) && (n <=? 70))%N then Some (n - 55)%N
  else None.

Definition is_digit (c : ascii) : bool :=
  let n := byte_val c in ((48 <=? n) && (n <=? 57))%N.

Definition digit_val (c : ascii) : N := (byte_val c - 48)%N.

Definition in_range (lo hi : N) (c : ascii) : bool :=
  ((lo <=? byte_val c) && (byte_val c <=? hi))%N.

(** [utf8.DecodeRuneInString]: the number of bytes of the well-formed
    UTF-8 sequence at the head of [s], or [0] when the head is not one
    (Go then reports [RuneError] with size 1). *)
Definition utf8_size (s : string) : nat :=
  match s with
  | String c0 r0 =>
      if in_range 0 127 c0 then 1
      else
        match r0 with
        | String c1 r1 =>
            if in_range 194 223 c0 then
              if in_range 128 191 c1 then 2 else 0
            else
              match r1 with
              | String c2 r2 =>
                  let second_ok :=
                    if in_range 224 224 c0 then in_range 160 191 c1
                    else if in_range 237 237 c0 then in_range 128 159 c1
                    else in_range 128 191 c1 in
                  if in_range 224 239 c0 then
                    if second_ok && in_range 128 191 c2 then 3 else 0
                  else
                    match r2 with
                    | String c3 _ =>
                        let second_ok4 :=
                          if in_range 240 240 c0 then in_range 144 191 c1
                          else if in_range 244 244 c0 then in_range 128 143 c1
                          else in_range 128 191 c1 in
                        if in_range 240 244 c0 && second_ok4
                           && in_range 128 191 c2 && in_range 128 191 c3
                        then 4 else 0
                    | EmptyString => 0
                    end
              | EmptyString => 0
              end
        | EmptyString => 0
        end
  | EmptyString => 0
  end.

(** [utf8.AppendRune] for a code point below [0x110000] that is not a
    surrogate. *)
Definition utf8_encode (r : N) : string :=
  if (r <? 128)%N then String (ascii_of_N r) ""
  else if (r <? 2048)%N then
    String (ascii_of_N (192 + r / 64))
      (String (ascii_of_N (128 + r mod 64)) "")
  else if (r <? 65536)%N then
    String (ascii_of_N (224 + r / 4096))
      (String (ascii_of_N (128 + (r / 64) mod 64))
         (String (ascii_of_N (128 + r mod 64)) ""))
  else
    String (ascii_of_N (240 + r / 262144))
      (String (ascii_of_N (128 + (r / 4096) mod 64))
         (String (ascii_of_N (128 + (r / 64) mod 64))
            (String (ascii_of_N (128 + r mod 64)) ""))).

(** U+FFFD, the replacement character, as UTF-8: EF BF BD. *)
Definition replacement_char : string :=
  String "239"%char (String "191"%char (String "189"%char "")).

Fixpoint drop_bytes (n : nat) (s : string) : string :=
  match n, s with
  | S n, String _ s => drop_bytes n s
  | _, _ => s
  end.

(** The bytes of [s] that come before its suffix [rest]. *)
Definition span_before (s rest : string) : string :=
  take_bytes (len s - len rest) s.

Fixpoint string_forallb (p : ascii → bool) (s : string) : bool :=
  match s with
  | EmptyString => true
  | String c s => p c && string_forallb p s
  end.

Definition lower (c : ascii) : ascii :=
  if in_range 65 90 c then ascii_of_N (byte_val c + 32) else c.

(** [strings.ToLower] on a text in ASCII. *)
Fixpoint to_lower (s : string) : string :=
  match s with
  | EmptyString => ""
  | String c s => String (lower c) (to_lower s)
  end.

Definition upper (c : ascii) : ascii :=
  if in_range 97 122 c then ascii_of_N (byte_val c - 32) else c.

(** [foldName] of [encoding/json]: two member names match when their
    folded names are equal.  A letter of ASCII is put in upper case; a
    rune outside ASCII is replaced by the smallest rune that
    [unicode.SimpleFold] relates it to.  Two such runes are related to a
    letter of ASCII: U+017F (C5 BF), the long s, to [S], and U+212A
    (E2 84 AA), the Kelvin sign, to [K].  Every other rune outside ASCII
    folds to a rune outside ASCII; its bytes are kept as written, which
    tells it apart from every byte of a name in ASCII, as the names of
    the fields of this program are. *)
Fixpoint foldName (s : string) : string :=
  match s with
  | String "197" (String "191" rest) => String "S" (foldName rest)
  | String "226" (String "132" (String "170" rest)) => String "K" (foldName rest)
  | String c rest => String (upper c) (foldName rest)
  | EmptyString => ""
  end.

(** Does the member name [key] match the field name [name]? *)
Definition equal_fold (key name : string) : bool :=
  String.eqb (foldName key) (foldName name).

(** ** [encoding/base64]: [StdEncoding] *)

Module base64.

Definition encode_sextet (n : N) : ascii :=
  if (n <? 26)%N then ascii_of_N (65 + n)
  else if (n <? 52)%N then ascii_of_N (71 + n)
  else if (n <? 62)%N then ascii_of_N (n - 4)
  else if (n =? 62)%N then "+"%char
  else "/"%char.

Definition decode_sextet (c : ascii) : option N :=
  let n := byte_val c in
  if in_range 65 90 c then Some (n - 65)%N
  else if in_range 97 122 c then Some (n - 71)%N
  else if in_range 48 57 c then Some (n + 4)%N
  else if Ascii.eqb c "+" then Some 62%N
  else if Ascii.eqb c "/" then Some 63%N
  else None.

Definition pad : ascii := "="%char.

Fixpoint EncodeToString (src : bytes) : string :=
  match src with
  | EmptyString => ""
  | String a EmptyString =>
      let x := byte_val a in
      String (encode_sextet (x / 4))
        (String (encode_sextet ((x mod 4) * 16))
           (String pad (String pad "")))
  | String a (String b EmptyString) =>
      let x := byte_val a in
      let y := byte_val b in
      String (encode_sextet (x / 4))
        (String (encode_sextet ((x mod 4) * 16 + y / 16))
           (String (encode_sextet ((y mod 16) * 4))
              (String pad "")))
  | String a (String b (String c rest)) =>
      let x := byte_val a in
      let y := byte_val b in
      let z := byte_val c in
      String (encode_sextet (x / 4))
        (String (encode_sextet ((x mod 4) * 16 + y / 16))
           (String (encode_sextet ((y mod 16) * 4 + z / 64))
              (String (encode_sextet (z mod 64)) (EncodeToString rest))))
  end.

Definition byte_of (n : N) : ascii := ascii_of_N (n mod 256).

(** The quanta of four characters; padding is accepted only at the end. *)
Fixpoint decode_quanta (s : string) : option bytes :=
  match s with
  | EmptyString => Some ""
  | String a (String b (String c (String d rest))) =>
      match decode_sextet a, decode_sextet b with
      | Some x, Some y =>
          if Ascii.eqb c pad then
            if Ascii.eqb d pad && String.eqb rest ""
            then Some (String (byte_of (x * 4 + y / 16)) "")
            else None
          else
            match decode_sextet c with
            | Some z =>
                if Ascii.eqb d pad then
                  if String.eqb rest ""
                  then Some (String (byte_of (x * 4 + y / 16))
                               (String (byte_of (y * 16 + z / 4)) ""))
                  else None
                else
                  match decode_sextet d with
                  | Some w =>
                      match decode_quanta rest with
                      | Some out =>
                          Some (String (byte_of (x * 4 + y / 16))
                                  (String (byte_of (y * 16 + z / 4))
                                     (String (byte_of (z * 64 + w)) out)))
                      | None => None
                      end
                  | None => None
                  end
            | None => None
            end
      | _, _ => None
      end
  | _ => None
  end.

Fixpoint drop_newlines (s : string) : string :=
  match s with
  | EmptyString => ""
  | String c rest =>
      if Ascii.eqb c "010" || Ascii.eqb c "013" then drop_newlines rest
      else String c (drop_newlines rest)
  end.

(** [StdEncoding.DecodeString]: carriage returns and line feeds are
    ignored. *)
Definition DecodeString (s : string) : option bytes :=
  decode_quanta (drop_newlines s).

End base64.

(** ** [time]: a [time.Time] and its JSON form

    A [time.Time] is kept as the RFC 3339 text that [Time.MarshalJSON]
    writes for it (layout [2006-01-02T15:04:05.999999999Z07:00]);
    [Time.UnmarshalJSON] checks a text against that layout and stores the
    text that marshalling the result writes back: at most nine fraction
    digits, no trailing zero in the fraction, and [Z] for a zero offset.
    Calendar arithmetic is not part of this program. *)

Module time.

Record Time : Type := { RFC3339Nano : string }.

Definition zero : Time := {| RFC3339Nano := "0001-01-01T00:00:00Z" |}.

Definition two_digits (a b : ascii) : option N :=
  if is_digit a && is_digit b then Some (digit_val a * 10 + digit_val b)%N
  else None.

Definition days_in (year month : N) : N :=
  if (month =? 2)%N then
    if ((year mod 4 =? 0) && (negb (year mod 100 =? 0) || (year mod 400 =? 0)))%N
    then 29%N else 28%N
  else if ((month =? 4) || (month =? 6) || (month =? 9) || (month =? 11))%N
       then 30%N else 31%N.

Fixpoint take_digits (s : string) : string :=
  match s with
  | String c rest => if is_digit c then String c (take_digits rest) else ""
  | EmptyString => ""
  end.

(** [s] without its trailing zeros. *)
Fixpoint trim_zeros (s : string) : string :=
  match s with
  | EmptyString => ""
  | String c rest =>
      match trim_zeros rest with
      | EmptyString => if Ascii.eqb c "0" then "" else String c ""
      | t => String c t
      end
  end.

Definition normal_fraction (digits : string) : string :=
  match trim_zeros (take_bytes 9 digits) with
  | EmptyString => ""
  | t => String "." t
  end.

(** The zone: [Z], or a sign, two digits of hours, a colon and two
    digits of minutes. *)
Definition parse_zone (s : string) : option string :=
  match s with
  | String z EmptyString => if Ascii.eqb z "Z" then Some "Z" else None
  | String sg (String h1 (String h2 (String c (String m1 (String m2 EmptyString))))) =>
      if (Ascii.eqb sg "+" || Ascii.eqb sg "-") && Ascii.eqb c ":" then
        match two_digits h1 h2, two_digits m1 m2 with
        | Some h, Some m =>
            if ((h <? 24) && (m <? 60))%N then
              if ((h =? 0) && (m =? 0))%N then Some "Z" else Some s
            else None
        | _, _ => None
        end
      else None
  | _ => None
  end.

(** The fraction of a second, when there is one: the digits after the
    dot, and what follows them. *)
Definition split_fraction (rest : string) : option string * string :=
  match rest with
  | String c r =>
      if Ascii.eqb c "." then
        let ds := take_digits r in (Some ds, drop_bytes (len ds) r)
      else (None, rest)
  | EmptyString => (None, rest)
  end.

Definition parseStrictRFC3339 (s : string) : option Time :=
  match s with
  | String y1 (String y2 (String y3 (String y4 (String c1
      (String mo1 (String mo2 (String c2 (String d1 (String d2 (String c3
        (String h1 (String h2 (String c4 (String mi1 (String mi2 (String c5
          (String s1 (String s2 rest)))))))))))))))))) =>
      if Ascii.eqb c1 "-" && Ascii.eqb c2 "-" && Ascii.eqb c3 "T"
         && Ascii.eqb c4 ":" && Ascii.eqb c5 ":" then
        match two_digits y1 y2, two_digits y3 y4, two_digits mo1 mo2,
              two_digits d1 d2, two_digits h1 h2, two_digits mi1 mi2,
              two_digits s1 s2 with
        | Some yh, Some yl, Some mo, Some d, Some h, Some mi, Some sec =>
            if ((1 <=? mo) && (mo <=? 12) && (1 <=? d)
                && (d <=? days_in (yh * 100 + yl) mo)
                && (h <? 24) && (mi <? 60) && (sec <? 60))%N then
              let '(fraction, after) := split_fraction rest in
              let fraction_ok :=
                match fraction with
                | Some EmptyString => false
                | _ => true
                end in
              if fraction_ok then
                match parse_zone after with
                | Some zone =>
                    Some {| RFC3339Nano :=
                              take_bytes 19 s
                              +:+ normal_fraction (default "" fraction)
                              +:+ zone |}
                | None => None
                end
              else None
            else None
        | _, _, _, _, _, _, _ => None
        end
      else None
  | _ => None
  end.

Definition MarshalJSON (t : Time) : string :=
  dq +:+ RFC3339Nano t +:+ dq.

(** The last byte of [s] and what precedes it. *)
Fixpoint unsnoc (s : string) : option (string * ascii) :=
  match s with
  | EmptyString => None
  | String c EmptyString => Some ("", c)
  | String c rest =>
      match unsnoc rest with
      | Some (init, l) => Some (String c init, l)
      | None => None
      end
  end.

(** [UnmarshalJSON data] on a receiver holding [t]: [null] leaves the
    receiver as it is; anything else must be a quoted RFC 3339 text. *)
Definition UnmarshalJSON (t : Time) (data : string) : option Time :=
  if String.eqb data "null" then Some t
  else
    match data with
    | String q rest =>
        match unsnoc rest with
        | Some (body, q') =>
            if Ascii.eqb q "034" && Ascii.eqb q' "034"
            then parseStrictRFC3339 body else None
        | None => None
        end
    | EmptyString => None
    end.

(** A value that [time.Now()] can return: marshalling it and reading the
    text back gives the same value. *)
Definition well_formed (t : Time) : Prop :=
  parseStrictRFC3339 (RFC3339Nano t) = Some t.

End time.

(** ** [strconv]: a [float64] and its decimal forms

    [encoding/json] reads a number into an [interface{}] with
    [strconv.ParseFloat] and writes a [float64] with
    [strconv.AppendFloat].  A finite [float64] is a sign, a mantissa
    below [2^53] and an exponent: the value is [mant * 2^exp], with
    [2^52 <= mant] and [-1074 <= exp <= 971], or [mant < 2^52] and
    [exp = -1074].  The text of a JSON number denotes no infinity and no
    NaN. *)

Module strconv.

Local Open Scope Z_scope.

Record float64 : Type := { neg : bool; mant : Z; exp : Z }.

Definition itoa (n : Z) : string :=
  DecimalString.NilZero.string_of_int (Z.to_int n).

Fixpoint atoi (acc : Z) (digits : string) : Z :=
  match digits with
  | EmptyString => acc
  | String c rest => atoi (acc * 10 + Z.of_N (digit_val c)) rest
  end.

(** The integer nearest to [num / den], the even one of two that are
    equally near. *)
Definition round_even (num den : Z) : Z :=
  let q := num / den in
  let r := num mod den in
  match 2 * r ?= den with
  | Lt => q
  | Gt => q + 1
  | Eq => if Z.even q then q else q + 1
  end.

(** [n / d] divided by [2^e], as a fraction. *)
Definition scaled (n d e : Z) : Z * Z :=
  if 0 <=? e then (n, d * 2 ^ e) else (n * 2 ^ (- e), d).

(** The [float64] nearest to [n / d], for [n >= 0] and [d > 0], ties to
    the even mantissa (IEEE 754 round-to-nearest-even); nothing when
    the result would be [2^1024] or more. *)
Definition nearest (sign : bool) (n d : Z) : option float64 :=
  if n =? 0 then Some {| neg := sign; mant := 0; exp := -1074 |}
  else
    let l := Z.log2 n - Z.log2 d in
    let e1 := Z.max (l - 52) (-1074) in
    let '(num1, den1) := scaled n d e1 in
    let e := if (num1 / den1 <? 2 ^ 52) && (-1074 <? e1) then e1 - 1 else e1 in
    let '(num, den) := scaled n d e in
    let m := round_even num den in
    let '(m, e) := if m =? 2 ^ 53 then (2 ^ 52, e + 1) else (m, e) in
    if 971 <? e then None
    else Some {| neg := sign; mant := m; exp := if m =? 0 then -1074 else e |}.

(** The digits of an exponent: once the number read is 10000 or more,
    further digits are skipped. *)
Fixpoint exponent_digits (acc : Z) (digits : string) : Z :=
  match digits with
  | EmptyString => acc
  | String c rest =>
      exponent_digits (if acc <? 10000 then acc * 10 + Z.of_N (digit_val c) else acc) rest
  end.

(** [strconv.ParseFloat(s, 64)] for the text of a JSON number: a sign,
    digits, a fraction, an exponent.  The result is the [float64]
    nearest to the number denoted; nothing stands for the error
    [ErrRange]. *)
Definition ParseFloat (s : string) : option float64 :=
  let '(sign, s1) := match s with
                     | String "-" r => (true, r)
                     | _ => (false, s)
                     end in
  let int_part := time.take_digits s1 in
  let s2 := drop_bytes (len int_part) s1 in
  let '(frac_part, s3) :=
    match s2 with
    | String "." r => let f := time.take_digits r in (f, drop_bytes (len f) r)
    | _ => ("", s2)
    end in
  let e :=
    match s3 with
    | String c r =>
        if Ascii.eqb c "e" || Ascii.eqb c "E" then
          match r with
          | String "-" r' => - exponent_digits 0 (time.take_digits r')
          | String "+" r' => exponent_digits 0 (time.take_digits r')
          | _ => exponent_digits 0 (time.take_digits r)
          end
        else 0
    | EmptyString => 0
    end in
  let digits := atoi 0 (int_part +:+ frac_part) in
  let e10 := e - Z.of_nat (len frac_part) in
  if 0 <=? e10 then nearest sign (digits * 10 ^ e10) 1
  else nearest sign digits (10 ^ (- e10)).

(** The digits of a decimal without its trailing zeros, and the number
    of zeros removed. *)
Definition trim_trailing_zeros (digits : string) : string :=
  match time.trim_zeros digits with
  | EmptyString => "0"
  | t => t
  end.

(** The value [mant * 2^exp] as [N / 10^k]: every finite [float64] is a
    decimal fraction. *)
Definition exact_decimal (f : float64) : Z * Z :=
  if 0 <=? exp f then (mant f * 2 ^ exp f, 0)
  else (mant f * 5 ^ (- exp f), - exp f).

Definition same_value (a : option float64) (f : float64) : bool :=
  match a with
  | Some g => (mant g =? mant f) && (exp g =? exp f)
  | None => false
  end.

(** The decimal [c * 10^(-k)]. *)
Definition decimal_value (c k : Z) : option float64 :=
  if 0 <=? k then nearest false c (10 ^ k) else nearest false (c * 10 ^ (- k)) 1.

(** The shortest decimal that [ParseFloat] reads back as [f], and of the
    decimals of that length the one nearest to [f]: its digits without
    trailing zeros, and the position [dp] of the decimal point (the value
    is [0.digits * 10^dp]).  [n] digits are tried for [n] from 1 up;
    17 digits are always enough. *)
Fixpoint shortest_from (fuel : nat) (n : Z) (f : float64) : string * Z :=
  let '(N, k) := exact_decimal f in
  let all := itoa N in
  let nd := Z.of_nat (len all) in
  match fuel with
  | O => (trim_trailing_zeros all, nd - k)
  | S fuel =>
      if nd <=? n then (trim_trailing_zeros all, nd - k)
      else
        let t := 10 ^ (nd - n) in
        let low := N / t in
        let r := N mod t in
        let high := low + 1 in
        let k' := k - (nd - n) in
        let low_ok := same_value (decimal_value low k') f in
        let high_ok := same_value (decimal_value high k') f in
        let pick (c : Z) :=
          (trim_trailing_zeros (itoa c), Z.of_nat (len (itoa c)) - k') in
        if low_ok && high_ok then
          match 2 * r ?= t with
          | Lt => pick low
          | Gt => pick high
          | Eq => if Z.even low then pick low else pick high
          end
        else if low_ok then pick low
        else if high_ok then pick high
        else shortest_from fuel (n + 1) f
  end.

Definition shortest (f : float64) : string * Z := shortest_from 17%nat 1 f.

Fixpoint zeros (n : nat) : string :=
  match n with
  | O => ""
  | S n => String "0" (zeros n)
  end.

(** The format [%e] with the shortest digits: one digit, the others
    after a point, and an exponent of two digits at least. *)
Definition fmtE (sign : bool) (digits : string) (dp : Z) : string :=
  let e := dp - 1 in
  (if sign then "-" else "")
  +:+ match digits with
      | String d EmptyString => String d ""
      | String d rest => String d (String "." rest)
      | EmptyString => "0"
      end
  +:+ "e" +:+ (if e <? 0 then "-" else "+")
  +:+ (if Z.abs e <? 10 then "0" else "") +:+ itoa (Z.abs e).

(** The format [%f] with the shortest digits. *)
Definition fmtF (sign : bool) (digits : string) (dp : Z) : string :=
  let nd := Z.of_nat (len digits) in
  (if sign then "-" else "")
  +:+ (if 0 <? dp then
         take_bytes (Z.to_nat dp) digits +:+ zeros (Z.to_nat (dp - nd))
       else "0")
  +:+ (if dp <? nd then
         "." +:+ zeros (Z.to_nat (- dp)) +:+ drop_bytes (Z.to_nat dp) digits
       else "").

Definition is_zero (f : float64) : bool := mant f =? 0.

(** [a < b] for two values that are not negative. *)
Definition lt_abs (a b : float64) : bool :=
  (exp a <? exp b) || ((exp a =? exp b) && (mant a <? mant b)).

(** The last three bytes [e-0] [d] of an exponent become [e-] [d]. *)
Fixpoint clean_exponent (s : string) : string :=
  match s with
  | String "e" (String sg (String "0" (String d EmptyString))) =>
      if Ascii.eqb sg "-" || Ascii.eqb sg "+"
      then String "e" (String sg (String d ""))
      else s
  | String c rest => String c (clean_exponent rest)
  | EmptyString => ""
  end.

(** What [encoding/json] writes for a [float64]: the shortest digits, in
    the format [%f], or in the format [%e] when the value is not zero
    and is below [1e-6] or at least [1e21]. *)
Definition json_float (f : float64) : string :=
  if is_zero f then (if neg f then "-0" else "0")
  else
    let '(digits, dp) := shortest f in
    let small := match nearest false 1 (10 ^ 6) with
                 | Some b => lt_abs f b
                 | None => false
                 end in
    let large := match nearest false (10 ^ 21) 1 with
                 | Some b => negb (lt_abs f b)
                 | None => false
                 end in
    if small || large then clean_exponent (fmtE (neg f) digits dp)
    else fmtF (neg f) digits dp.

(** The integer part of [f]: the fraction is discarded. *)
Definition trunc (f : float64) : Z :=
  let a := if 0 <=? exp f then mant f * 2 ^ exp f else mant f / 2 ^ (- exp f) in
  if neg f then - a else a.

(** The conversion [byte(f)] as the Go compiler writes it for amd64, the
    platform this program is built for: the value is converted to a
    32-bit integer by truncation, which gives [0x80000000] when the
    integer part is outside the range of 32 bits, and the low eight bits
    are kept.  (The language leaves the result to the implementation
    when the integer part is not below 256.) *)
Definition to_uint8 (f : float64) : ascii :=
  let t := trunc f in
  let i32 := if (- 2 ^ 31 <=? t) && (t <? 2 ^ 31) then t else - 2 ^ 31 in
  ascii_of_N (Z.to_N (i32 mod 256)).

End strconv.

(** ** [encoding/json]: strings, the scanner, [Compact] *)

Module json.

(** *** Writing a string ([appendString] with [escapeHTML] set)

    Bytes from 0x20 to 0x7f are copied, except the double quote, the
    backslash and the three HTML characters; control characters get a
    short or a [\u00xx] escape; a byte that does not start a well-formed
    UTF-8 sequence becomes the six-character escape of U+FFFD; U+2028 and
    U+2029 are escaped; every other sequence is copied. *)

Definition html_safe (c : ascii) : bool :=
  (32 <=? byte_val c)%N && (byte_val c <? 128)%N
  && negb (Ascii.eqb c "034") && negb (Ascii.eqb c bslash)
  && negb (Ascii.eqb c "<") && negb (Ascii.eqb c ">") && negb (Ascii.eqb c "&").

Definition escape_ascii (c : ascii) : string :=
  if Ascii.eqb c "034" || Ascii.eqb c bslash then String bslash (String c "")
  else if Ascii.eqb c "008" then String bslash "b"
  else if Ascii.eqb c "012" then String bslash "f"
  else if Ascii.eqb c "010" then String bslash "n"
  else if Ascii.eqb c "013" then String bslash "r"
  else if Ascii.eqb c "009" then String bslash "t"
  else String bslash
         (String "u" (String "0" (String "0"
            (String (hexdigit (byte_val c / 16))
               (String (hexdigit (byte_val c mod 16)) ""))))).

(** Is the head of [s] the UTF-8 form E2 80 A8 / E2 80 A9 of U+2028 /
    U+2029?  The result is the last hexadecimal digit of the escape. *)
Definition line_separator (s : string) : option ascii :=
  match s with
  | String "226" (String "128" (String "168" _)) => Some "8"%char
  | String "226" (String "128" (String "169" _)) => Some "9"%char
  | _ => None
  end.

(** [pending] bytes of the rune in progress remain; they are copied when
    [copying] is set and dropped otherwise. *)
Fixpoint escape_from (pending : nat) (copying : bool) (s : string) : string :=
  match s with
  | EmptyString => ""
  | String c rest =>
      match pending with
      | S p =>
          if copying then String c (escape_from p copying rest)
          else escape_from p copying rest
      | O =>
          if (byte_val c <? 128)%N then
            if html_safe c then String c (escape_from 0 true rest)
            else escape_ascii c +:+ escape_from 0 true rest
          else
            match utf8_size s with
            | O => String bslash "ufffd" +:+ escape_from 0 true rest
            | S n =>
                match line_separator s with
                | Some h =>
                    String bslash "u202" +:+ String h (escape_from 2 false rest)
                | None => String c (escape_from n true rest)
                end
            end
      end
  end.

Definition appendString (s : string) : string :=
  dq +:+ escape_from 0 true s +:+ dq.

(** *** Reading a string literal

    [scan_string_body s] reads a literal whose opening quote has been
    consumed: the text up to the closing quote, escapes as written, and
    what follows the closing quote. *)

Definition simple_escape (e : ascii) : bool :=
  Ascii.eqb e "034" || Ascii.eqb e bslash || Ascii.eqb e "/" || Ascii.eqb e "b"
  || Ascii.eqb e "f" || Ascii.eqb e "n" || Ascii.eqb e "r" || Ascii.eqb e "t".

Definition is_hex (c : ascii) : bool :=
  match hexval c with Some _ => true | None => false end.

Fixpoint scan_string_body (s : string) : option (string * string) :=
  match s with
  | EmptyString => None
  | String c rest =>
      if Ascii.eqb c "034" then Some ("", rest)
      else if Ascii.eqb c bslash then
        match rest with
        | String e rest1 =>
            if simple_escape e then
              match scan_string_body rest1 with
              | Some (body, r) => Some (String c (String e body), r)
              | None => None
              end
            else if Ascii.eqb e "u" then
              match rest1 with
              | String h1 (String h2 (String h3 (String h4 rest2))) =>
                  if is_hex h1 && is_hex h2 && is_hex h3 && is_hex h4 then
                    match scan_string_body rest2 with
                    | Some (body, r) =>
                        Some (String c (String e (String h1 (String h2
                                (String h3 (String h4 body))))), r)
                    | None => None
                    end
                  else None
              | _ => None
              end
            else None
        | EmptyString => None
        end
      else if (byte_val c <? 32)%N then None
      else
        match scan_string_body rest with
        | Some (body, r) => Some (String c body, r)
        | None => None
        end
  end.

Definition getu4 (s : string) : option N :=
  match s with
  | String h1 (String h2 (String h3 (String h4 _))) =>
      match hexval h1, hexval h2, hexval h3, hexval h4 with
      | Some a, Some b, Some c, Some d => Some (((a * 16 + b) * 16 + c) * 16 + d)%N
      | _, _, _, _ => None
      end
  | _ => None
  end.

(** [getu4] of a [\uXXXX] escape at the head of [s]. *)
Definition getu4_escaped (s : string) : option N :=
  match s with
  | String c (String e r) =>
      if Ascii.eqb c bslash && Ascii.eqb e "u" then getu4 r else None
  | _ => None
  end.

Definition is_surrogate (r : N) : bool := (55296 <=? r)%N && (r <? 57344)%N.

(** [utf16.DecodeRune]; [None] stands for the replacement character. *)
Definition utf16_DecodeRune (r1 r2 : N) : option N :=
  if (55296 <=? r1)%N && (r1 <? 56320)%N && (56320 <=? r2)%N && (r2 <? 57344)%N
  then Some ((r1 - 55296) * 1024 + (r2 - 56320) + 65536)%N
  else None.

Definition unescape_simple (e : ascii) : ascii :=
  if Ascii.eqb e "b" then "008"%char
  else if Ascii.eqb e "f" then "012"%char
  else if Ascii.eqb e "n" then "010"%char
  else if Ascii.eqb e "r" then "013"%char
  else if Ascii.eqb e "t" then "009"%char
  else e.

(** [unquote]: the Go string denoted by the text between the quotes of a
    literal.  Escapes are resolved, a lone surrogate escape and an
    ill-formed UTF-8 byte both become U+FFFD. *)
Fixpoint unquote_from (fuel : nat) (s : string) : option string :=
  match fuel with
  | O => match s with EmptyString => Some "" | _ => None end
  | S fuel =>
      match s with
      | EmptyString => Some ""
      | String c rest =>
          if Ascii.eqb c bslash then
            match rest with
            | String e rest1 =>
                if Ascii.eqb e "u" then
                  match getu4 rest1 with
                  | None => None
                  | Some rr =>
                      let rest2 := drop_bytes 4 rest1 in
                      if is_surrogate rr then
                        match getu4_escaped rest2 with
                        | Some rr1 =>
                            match utf16_DecodeRune rr rr1 with
                            | Some dec =>
                                option_map (String.append (utf8_encode dec))
                                  (unquote_from fuel (drop_bytes 6 rest2))
                            | None =>
                                option_map (String.append replacement_char)
                                  (unquote_from fuel rest2)
                            end
                        | None =>
                            option_map (String.append replacement_char)
                              (unquote_from fuel rest2)
                        end
                      else
                        option_map (String.append (utf8_encode rr))
                          (unquote_from fuel rest2)
                  end
                else if simple_escape e || Ascii.eqb e "'" then
                  option_map (String (unescape_simple e)) (unquote_from fuel rest1)
                else None
            | EmptyString => None
            end
          else if Ascii.eqb c "034" || (byte_val c <? 32)%N then None
          else if (byte_val c <? 128)%N then
            option_map (String c) (unquote_from fuel rest)
          else
            match utf8_size s with
            | O => option_map (String.append replacement_char)
                     (unquote_from fuel rest)
            | S n =>
                option_map (String.append (take_bytes (S n) s))
                  (unquote_from fuel (drop_bytes n rest))
            end
      end
  end.

Definition unquote (body : string) : option string :=
  unquote_from (len body) body.

(** *** The scanner *)

Definition is_space (c : ascii) : bool :=
  Ascii.eqb c " " || Ascii.eqb c "009" || Ascii.eqb c "010" || Ascii.eqb c "013".

Fixpoint skip_ws (s : string) : string :=
  match s with
  | String c rest => if is_space c then skip_ws rest else s
  | EmptyString => ""
  end.

Fixpoint skip_digits (s : string) : string :=
  match s with
  | String c rest => if is_digit c then skip_digits rest else s
  | EmptyString => ""
  end.

Definition starts_with_digit (s : string) : bool :=
  match s with String c _ => is_digit c | EmptyString => false end.

(** A number: an optional minus sign, then 0 or a digit from 1 to 9
    followed by digits, then an optional fraction (a dot and digits) and
    an optional exponent (e or E, an optional sign, digits).  The result
    is what follows the number. *)
Definition scan_number (s : string) : option string :=
  let s1 := match s with
            | String "-" r => r
            | _ => s
            end in
  match s1 with
  | String c r =>
      if negb (is_digit c) then None
      else
        let s2 := if Ascii.eqb c "0" then r else skip_digits r in
        let s3 := match s2 with
                  | String "." r2 =>
                      if starts_with_digit r2 then Some (skip_digits r2) else None
                  | _ => Some s2
                  end in
        match s3 with
        | None => None
        | Some s3 =>
            match s3 with
            | String e r3 =>
                if Ascii.eqb e "e" || Ascii.eqb e "E" then
                  let r4 := match r3 with
                            | String "+" r => r
                            | String "-" r => r
                            | _ => r3
                            end in
                  if starts_with_digit r4 then Some (skip_digits r4) else None
                else Some s3
            | EmptyString => Some s3
            end
        end
  | EmptyString => None
  end.

Fixpoint strip_prefix (p s : string) : option string :=
  match p, s with
  | EmptyString, _ => Some s
  | String a p, String b s => if Ascii.eqb a b then strip_prefix p s else None
  | _, EmptyString => None
  end.

Inductive scan_mode : Type :=
| MValue     (* a value starts here *)
| MElems     (* inside an array, a value starts here *)
| MMembers.  (* inside an object, a key starts here *)

(** The scanner keeps a stack of the arrays and objects it is inside of
    and gives up when the stack grows beyond this size. *)
Definition maxNestingDepth : N := 10000.

(** [scan fuel depth mode s] reads one value (or the remaining elements
    or members up to the closing bracket) at the head of [s] and answers
    what follows it; [depth] is the number of arrays and objects that are
    open.  An opening bracket is pushed on the stack before what follows
    it is looked at. *)
Fixpoint scan (fuel : nat) (depth : N) (mode : scan_mode) (s : string) : option string :=
  match fuel with
  | O => None
  | S fuel =>
      match mode with
      | MValue =>
          match s with
          | String c r =>
              if Ascii.eqb c "{" then
                if (maxNestingDepth <? depth + 1)%N then None
                else
                  match skip_ws r with
                  | String "}" r1 => Some r1
                  | r1 => scan fuel (depth + 1) MMembers r1
                  end
              else if Ascii.eqb c "[" then
                if (maxNestingDepth <? depth + 1)%N then None
                else
                  match skip_ws r with
                  | String "]" r1 => Some r1
                  | r1 => scan fuel (depth + 1) MElems r1
                  end
              else if Ascii.eqb c "034" then option_map snd (scan_string_body r)
              else if Ascii.eqb c "t" then strip_prefix "true" s
              else if Ascii.eqb c "f" then strip_prefix "false" s
              else if Ascii.eqb c "n" then strip_prefix "null" s
              else scan_number s
          | EmptyString => None
          end
      | MElems =>
          match scan fuel depth MValue s with
          | Some r1 =>
              match skip_ws r1 with
              | String "," r2 => scan fuel depth MElems (skip_ws r2)
              | String "]" r2 => Some r2
              | _ => None
              end
          | None => None
          end
      | MMembers =>
          match s with
          | String "034" r =>
              match scan_string_body r with
              | Some (_, r1) =>
                  match skip_ws r1 with
                  | String ":" r2 =>
                      match scan fuel depth MValue (skip_ws r2) with
                      | Some r3 =>
                          match skip_ws r3 with
                          | String "," r4 => scan fuel depth MMembers (skip_ws r4)
                          | String "}" r4 => Some r4
                          | _ => None
                          end
                      | None => None
                      end
                  | _ => None
                  end
              | None => None
              end
          | _ => None
          end
      end
  end.

Definition scan_fuel (s : string) : nat := 2 * len s + 2.

(** The first value of [s] after leading white space: its text exactly as
    written, and what follows it.  The scanner starts with an empty
    stack. *)
Definition read_value (s : string) : option (string * string) :=
  let s1 := skip_ws s in
  match scan (scan_fuel s1) 0 MValue s1 with
  | Some rest => Some (span_before s1 rest, rest)
  | None => None
  end.

(** [json.Valid]: exactly one value, white space around it. *)
Definition Valid (s : string) : bool :=
  match read_value s with
  | Some (_, rest) => String.eqb (skip_ws rest) ""
  | None => false
  end.

(** *** [Compact] with [escapeHTML]

    White space outside string literals is dropped; the HTML characters
    and U+2028 / U+2029 are replaced by their escapes. *)
Fixpoint compact_from (in_string escaped : bool) (drop : nat) (s : string) : string :=
  match s with
  | EmptyString => ""
  | String c rest =>
      match drop with
      | S d => compact_from in_string escaped d rest
      | O =>
          if Ascii.eqb c "<" || Ascii.eqb c ">" || Ascii.eqb c "&" then
            escape_ascii c +:+ compact_from in_string false 0 rest
          else
            match line_separator s with
            | Some h =>
                String bslash "u202" +:+ String h (compact_from in_string false 2 rest)
            | None =>
                if in_string then
                  if escaped then String c (compact_from true false 0 rest)
                  else if Ascii.eqb c bslash then
                    String c (compact_from true true 0 rest)
                  else if Ascii.eqb c "034" then
                    String c (compact_from false false 0 rest)
                  else String c (compact_from true false 0 rest)
                else if is_space c then compact_from false false 0 rest
                else if Ascii.eqb c "034" then
                  String c (compact_from true false 0 rest)
                else String c (compact_from false false 0 rest)
            end
      end
  end.

Definition Compact (s : string) : option string :=
  if Valid s then Some (compact_from false false 0 s) else None.


(** *** Splitting objects and arrays

    [object_members raw] lists the members of the object text [raw]: the
    key as written between its quotes, and the text of the value.
    [array_elements raw] lists the texts of the elements of an array. *)

Fixpoint read_members (fuel : nat) (s : string) : option (list (string * string)) :=
  match fuel with
  | O => None
  | S fuel =>
      match s with
      | String "034" r =>
          match scan_string_body r with
          | Some (k, r1) =>
              match skip_ws r1 with
              | String ":" r2 =>
                  match read_value r2 with
                  | Some (v, r3) =>
                      match skip_ws r3 with
                      | String "," r4 =>
                          option_map (cons (k, v)) (read_members fuel (skip_ws r4))
                      | String "}" _ => Some [(k, v)]
                      | _ => None
                      end
                  | None => None
                  end
              | _ => None
              end
          | None => None
          end
      | _ => None
      end
  end.

Definition object_members (raw : string) : option (list (string * string)) :=
  match raw with
  | String "{" r =>
      match skip_ws r with
      | String "}" _ => Some []
      | r1 => read_members (len r1) r1
      end
  | _ => None
  end.

Fixpoint read_elements (fuel : nat) (s : string) : option (list string) :=
  match fuel with
  | O => None
  | S fuel =>
      match read_value s with
      | Some (v, r1) =>
          match skip_ws r1 with
          | String "," r2 => option_map (cons v) (read_elements fuel r2)
          | String "]" _ => Some [v]
          | _ => None
          end
      | None => None
      end
  end.

Definition array_elements (raw : string) : option (list string) :=
  match raw with
  | String "[" r =>
      match skip_ws r with
      | String "]" _ => Some []
      | r1 => read_elements (len r1) r1
      end
  | _ => None
  end.

(** The text between the quotes of a string literal. *)
Definition literal_body (raw : string) : option string :=
  match raw with
  | String "034" r =>
      match scan_string_body r with
      | Some (body, EmptyString) => Some body
      | _ => None
      end
  | _ => None
  end.

(** *** Values held in an [interface{}]

    What [Unmarshal] stores in an [interface{}] ([nil], [bool],
    [float64], [string], [[]interface{}], [map[string]interface{}]), and
    the Go values this program puts in one before marshalling ([int],
    [[]byte], [time.Time]). *)
Inductive any : Type :=
| ANil
| ABool (b : bool)
| AFloat64 (f : strconv.float64)
| AInt (n : Z)
| AString (s : string)
| ABytes (b : option bytes)
| ATime (t : time.Time)
| ASlice (l : list any)
| AMap (m : list (string * any)).

Fixpoint to_any (fuel : nat) (raw : string) : option any :=
  match fuel with
  | O => None
  | S fuel =>
      match raw with
      | String c _ =>
          if Ascii.eqb c "{" then
            ms ← object_members raw;
            m ← mapM (λ kv : string * string,
                        k ← unquote kv.1; a ← to_any fuel kv.2; Some (k, a)) ms;
            Some (AMap m)
          else if Ascii.eqb c "[" then
            es ← array_elements raw;
            l ← mapM (to_any fuel) es;
            Some (ASlice l)
          else if Ascii.eqb c "034" then
            body ← literal_body raw; s ← unquote body; Some (AString s)
          else if String.eqb raw "true" then Some (ABool true)
          else if String.eqb raw "false" then Some (ABool false)
          else if String.eqb raw "null" then Some ANil
          else f ← strconv.ParseFloat raw; Some (AFloat64 f)
      | EmptyString => None
      end
  end.

(** [json.Unmarshal(data, &v)] for [v] an [interface{}].  A number that
    [strconv.ParseFloat] reports as out of range makes the call fail. *)
Definition Unmarshal_any (data : string) : option any :=
  if Valid data then
    match read_value data with
    | Some (raw, _) => to_any (len raw) raw
    | None => None
    end
  else None.

(** The value of a key in a [map[string]interface{}]: when a key was
    written twice, the last value is the one stored. *)
Fixpoint map_lookup (m : list (string * any)) (k : string) : option any :=
  match m with
  | [] => None
  | (k', v) :: m =>
      match map_lookup m k with
      | Some v' => Some v'
      | None => if String.eqb k' k then Some v else None
      end
  end.

(** [json.Unmarshal(data, &m)] for [m] a [map[string]interface{}]. *)
Definition Unmarshal_map (data : string) : option (list (string * any)) :=
  match Unmarshal_any data with
  | Some (AMap m) => Some m
  | Some ANil => Some []
  | _ => None
  end.

(** Keys of a Go map are written in increasing byte order. *)
Fixpoint insert_sorted {A} (k : string) (v : A) (l : list (string * A)) : list (string * A) :=
  match l with
  | [] => [(k, v)]
  | (k', v') :: l' =>
      if String.eqb k k' then (k, v) :: l'
      else if String.ltb k k' then (k, v) :: l
      else (k', v') :: insert_sorted k v l'
  end.

Definition sort_members {A} (l : list (string * A)) : list (string * A) :=
  foldl (λ acc kv, insert_sorted kv.1 kv.2 acc) [] l.

Fixpoint join (sep : string) (l : list string) : string :=
  match l with
  | [] => ""
  | [x] => x
  | x :: l' => x +:+ sep +:+ join sep l'
  end.

Definition itoa (n : Z) : string :=
  DecimalString.NilZero.string_of_int (Z.to_int n).

Definition Marshal_bytes (b : option bytes) : string :=
  match b with
  | None => "null"
  | Some x => dq +:+ base64.EncodeToString x +:+ dq
  end.

Definition member (k v : string) : string := appendString k +:+ ":" +:+ v.

Fixpoint Marshal_any (a : any) : string :=
  match a with
  | ANil => "null"
  | ABool b => if b then "true" else "false"
  | AFloat64 f => strconv.json_float f
  | AInt n => itoa n
  | AString s => appendString s
  | ABytes b => Marshal_bytes b
  | ATime t => time.MarshalJSON t
  | ASlice l => "[" +:+ join "," (map Marshal_any l) +:+ "]"
  | AMap m =>
      "{" +:+ join "," (map (λ kv : string * string, member kv.1 kv.2)
                          (sort_members
                             (map (λ kv : string * any, (kv.1, Marshal_any kv.2)) m)))
          +:+ "}"
  end.

(** A [json.RawMessage]: [nil] is written as [null]; other contents go
    through [Compact], which fails on text that is not valid JSON. *)
Definition Marshal_RawMessage (m : option bytes) : option string :=
  match m with
  | None => Some "null"
  | Some raw => Compact raw
  end.

(** [map[string]string] *)
Definition Marshal_string_map (m : gmap string string) : string :=
  "{" +:+ join "," (map (λ kv : string * string, member kv.1 (appendString kv.2))
                      (sort_members (map_to_list m)))
      +:+ "}".

(** *** Reading a value into a Go variable of a given type

    Each function takes the current content of the variable and the text
    of the value; [null] leaves a string, a bool or a time as it is and
    makes a slice or a map [nil]. *)

Definition is_null (raw : string) : bool := String.eqb raw "null".

Definition decode_string (cur : string) (raw : string) : option string :=
  if is_null raw then Some cur
  else body ← literal_body raw; unquote body.

Definition decode_bool (cur : bool) (raw : string) : option bool :=
  if is_null raw then Some cur
  else if String.eqb raw "true" then Some true
  else if String.eqb raw "false" then Some false
  else None.

Fixpoint parse_decimal (acc : N) (s : string) : option N :=
  match s with
  | EmptyString => Some acc
  | String c rest =>
      if is_digit c then parse_decimal (acc * 10 + digit_val c) rest else None
  end.

(** A value read into a [uint8] that holds [cur]: [null] leaves it as
    it is; anything else must be the decimal text of a number below
    256. *)
Definition decode_uint8 (cur : ascii) (raw : string) : option ascii :=
  if is_null raw then Some cur
  else
    match raw with
    | EmptyString => None
    | _ =>
        n ← parse_decimal 0 raw;
        if (n <? 256)%N then Some (ascii_of_N n) else None
    end.

Definition string_of_list (l : list ascii) : string :=
  foldr String "" l.

(** The elements of an array read one after the other into the elements
    of a slice.  [store] is what the backing array of the slice holds
    from the element in turn on; beyond the end of [store] the array
    holds zeros.  The result is the elements read and what the array
    holds after them. *)
Fixpoint decode_elements (store : bytes) (es : list string) : option (bytes * bytes) :=
  match es with
  | [] => Some ("", store)
  | e :: es' =>
      let '(cur, store') := match store with
                            | String c rest => (c, rest)
                            | EmptyString => ("000"%char, "")
                            end in
      b ← decode_uint8 cur e;
      '(out, spare) ← decode_elements store' es';
      Some (String b out, spare)
  end.

(** A value read into a [[]byte] that holds [cur], with [spare] in its
    backing array after the last element: [null] makes the slice [nil];
    a string is decoded as base64 into a new slice; the elements of an
    array are read into the elements that the slice and its backing
    array already hold, and an empty array gives a new empty slice.  The
    result is the slice and what its backing array holds after it. *)
Definition decode_bytes (cur : option bytes) (spare : bytes) (raw : string)
  : option (option bytes * bytes) :=
  if is_null raw then Some (None, "")
  else
    match raw with
    | String "[" _ =>
        es ← array_elements raw;
        match es with
        | [] => Some (Some "", "")
        | _ =>
            '(out, spare') ← decode_elements (slice_bytes cur +:+ spare) es;
            Some (Some out, spare')
        end
    | _ =>
        body ← literal_body raw;
        s ← unquote body;
        b ← base64.DecodeString s;
        Some (Some b, "")
    end.

Definition decode_RawMessage (raw : string) : option (option bytes) :=
  Some (Some raw).

Definition decode_string_map (cur : gmap string string) (raw : string)
  : option (gmap string string) :=
  if is_null raw then Some ∅
  else
    ms ← object_members raw;
    foldl (λ acc (kv : string * string),
             m ← acc; k ← unquote kv.1; v ← decode_string "" kv.2;
             Some (<[k := v]> m))
          (Some cur) ms.

(** What the backing arrays of the [[]byte] fields of a struct hold
    beyond the lengths of the slices, by member name.  A member written
    twice is read twice into the same field, and an array is read into
    the elements that are there. *)
Definition spares : Type := gmap string bytes.

Definition spare (sp : spares) (name : string) : bytes := default "" (sp !! name).

(** A struct: the first value of the input must be [null] or an object;
    [set key raw] stores the member [key] in the field whose name matches
    it, ignoring the case of letters, and leaves the struct as it is when
    no field matches. *)
Definition decode_struct {T} (set : string → string → T * spares → option (T * spares))
    (zero : T) (input : string) : option T :=
  match read_value input with
  | None => None
  | Some (raw, _) =>
      if is_null raw then Some zero
      else
        ms ← object_members raw;
        fst <$> foldl (λ acc (kv : string * string),
                         t ← acc; k ← unquote kv.1; set k kv.2 t)
                      (Some (zero, ∅)) ms
  end.

End json.

(** ** Package [models]: [types.go]

    A [[]byte] field is an [option bytes]: [None] is the [nil] slice,
    which [encoding/json] writes as [null].  A [json.RawMessage] is an
    [option bytes] for the same reason. *)

Module models.

Record ServiceKeyPair : Type := {
  skp_ServiceID : string;
  skp_PublicKey : option bytes;
  skp_PrivateKey : option bytes;
}.

Record ServiceRequest : Type := {
  req_ServiceID : string;
  req_Timestamp : time.Time;
  req_Data : option bytes;
  req_Signature : option bytes;
  req_Headers : gmap string string;
}.

Record ServiceResponse : Type := {
  resp_ServiceID : string;
  resp_Timestamp : time.Time;
  resp_Data : option bytes;
  resp_Signature : option bytes;
  resp_Headers : gmap string string;
  resp_Success : bool;
  resp_Error : string;
}.

Record KeyExchangeRequest : Type := {
  kx_ServiceID : string;
  kx_KyberPublicKey : option bytes;
  kx_Timestamp : time.Time;
  kx_Signature : option bytes;
}.

Record KeyExchangeResponse : Type := {
  kxr_Ciphertext : option bytes;
  kxr_SharedSecret : option bytes;
  kxr_Timestamp : time.Time;
  kxr_Signature : option bytes;
}.

(** *** [json.Marshal] of each struct, field by field in declaration
    order; a field tagged [omitempty] is left out when it is empty. *)

Definition is_empty_bytes (b : option bytes) : bool :=
  match b with
  | None => true
  | Some x => String.eqb x ""
  end.

Definition object_of (fields : list string) : string :=
  "{" +:+ json.join "," fields +:+ "}".

Definition Marshal_ServiceKeyPair (k : ServiceKeyPair) : string :=
  object_of
    ([ json.member "service_id" (json.appendString (skp_ServiceID k));
       json.member "public_key" (json.Marshal_bytes (skp_PublicKey k)) ]
     ++ (if is_empty_bytes (skp_PrivateKey k) then []
         else [ json.member "private_key" (json.Marshal_bytes (skp_PrivateKey k)) ])).

Definition headers_field (h : gmap string string) : list string :=
  if decide (h = ∅) then []
  else [ json.member "headers" (json.Marshal_string_map h) ].

Definition raw_message_error : error :=
  Errorf "json: error calling MarshalJSON for type json.RawMessage".

Definition Marshal_ServiceRequest (r : ServiceRequest) : outcome bytes :=
  match json.Marshal_RawMessage (req_Data r) with
  | None => Fail raw_message_error
  | Some data =>
      Ok (object_of
            ([ json.member "service_id" (json.appendString (req_ServiceID r));
               json.member "timestamp" (time.MarshalJSON (req_Timestamp r));
               json.member "data" data;
               json.member "signature" (json.Marshal_bytes (req_Signature r)) ]
             ++ headers_field (req_Headers r)))
  end.

Definition Marshal_ServiceResponse (r : ServiceResponse) : outcome bytes :=
  match json.Marshal_RawMessage (resp_Data r) with
  | None => Fail raw_message_error
  | Some data =>
      Ok (object_of
            ([ json.member "service_id" (json.appendString (resp_ServiceID r));
               json.member "timestamp" (time.MarshalJSON (resp_Timestamp r));
               json.member "data" data;
               json.member "signature" (json.Marshal_bytes (resp_Signature r)) ]
             ++ headers_field (resp_Headers r)
             ++ [ json.member "success" (if resp_Success r then "true" else "false") ]
             ++ (if String.eqb (resp_Error r) "" then []
                 else [ json.member "error" (json.appendString (resp_Error r)) ])))
  end.

Definition Marshal_KeyExchangeRequest (r : KeyExchangeRequest) : string :=
  object_of
    [ json.member "service_id" (json.appendString (kx_ServiceID r));
      json.member "kyber_public_key" (json.Marshal_bytes (kx_KyberPublicKey r));
      json.member "timestamp" (time.MarshalJSON (kx_Timestamp r));
      json.member "signature" (json.Marshal_bytes (kx_Signature r)) ].

Definition Marshal_KeyExchangeResponse (r : KeyExchangeResponse) : string :=
  object_of
    ([ json.member "ciphertext" (json.Marshal_bytes (kxr_Ciphertext r)) ]
     ++ (if is_empty_bytes (kxr_SharedSecret r) then []
         else [ json.member "shared_secret" (json.Marshal_bytes (kxr_SharedSecret r)) ])
     ++ [ json.member "timestamp" (time.MarshalJSON (kxr_Timestamp r));
          json.member "signature" (json.Marshal_bytes (kxr_Signature r)) ]).

(** *** [json.Decoder.Decode] into each struct *)

Definition zero_ServiceKeyPair : ServiceKeyPair :=
  {| skp_ServiceID := ""; skp_PublicKey := None; skp_PrivateKey := None |}.

Definition set_ServiceKeyPair (key raw : string) (st : ServiceKeyPair * json.spares)
  : option (ServiceKeyPair * json.spares) :=
  let '(k, sp) := st in
  if equal_fold key "service_id" then
    v ← json.decode_string (skp_ServiceID k) raw;
    Some ({| skp_ServiceID := v; skp_PublicKey := skp_PublicKey k;
            skp_PrivateKey := skp_PrivateKey k |}, sp)
  else if equal_fold key "public_key" then
    '(v, s) ← json.decode_bytes (skp_PublicKey k) (json.spare sp "public_key") raw;
    Some ({| skp_ServiceID := skp_ServiceID k; skp_PublicKey := v;
            skp_PrivateKey := skp_PrivateKey k |}, <[ "public_key" := s ]> sp)
  else if equal_fold key "private_key" then
    '(v, s) ← json.decode_bytes (skp_PrivateKey k) (json.spare sp "private_key") raw;
    Some ({| skp_ServiceID := skp_ServiceID k; skp_PublicKey := skp_PublicKey k;
            skp_PrivateKey := v |}, <[ "private_key" := s ]> sp)
  else Some (k, sp).

Definition Decode_ServiceKeyPair : string → option ServiceKeyPair :=
  json.decode_struct set_ServiceKeyPair zero_ServiceKeyPair.

Definition zero_ServiceRequest : ServiceRequest :=
  {| req_ServiceID := ""; req_Timestamp := time.zero; req_Data := None;
     req_Signature := None; req_Headers := ∅ |}.

Definition set_ServiceRequest (key raw : string) (st : ServiceRequest * json.spares)
  : option (ServiceRequest * json.spares) :=
  let '(r, sp) := st in
  if equal_fold key "service_id" then
    v ← json.decode_string (req_ServiceID r) raw;
    Some ({| req_ServiceID := v; req_Timestamp := req_Timestamp r;
            req_Data := req_Data r; req_Signature := req_Signature r;
            req_Headers := req_Headers r |}, sp)
  else if equal_fold key "timestamp" then
    v ← time.UnmarshalJSON (req_Timestamp r) raw;
    Some ({| req_ServiceID := req_ServiceID r; req_Timestamp := v;
            req_Data := req_Data r; req_Signature := req_Signature r;
            req_Headers := req_Headers r |}, sp)
  else if equal_fold key "data" then
    v ← json.decode_RawMessage raw;
    Some ({| req_ServiceID := req_ServiceID r; req_Timestamp := req_Timestamp r;
            req_Data := v; req_Signature := req_Signature r;
            req_Headers := req_Headers r |}, sp)
  else if equal_fold key "signature" then
    '(v, s) ← json.decode_bytes (req_Signature r) (json.spare sp "signature") raw;
    Some ({| req_ServiceID := req_ServiceID r; req_Timestamp := req_Timestamp r;
            req_Data := req_Data r; req_Signature := v;
            req_Headers := req_Headers r |}, <[ "signature" := s ]> sp)
  else if equal_fold key "headers" then
    v ← json.decode_string_map (req_Headers r) raw;
    Some ({| req_ServiceID := req_ServiceID r; req_Timestamp := req_Timestamp r;
            req_Data := req_Data r; req_Signature := req_Signature r;
            req_Headers := v |}, sp)
  else Some (r, sp).

Definition Decode_ServiceRequest : string → option ServiceRequest :=
  json.decode_struct set_ServiceRequest zero_ServiceRequest.

Definition zero_ServiceResponse : ServiceResponse :=
  {| resp_ServiceID := ""; resp_Timestamp := time.zero; resp_Data := None;
     resp_Signature := None; resp_Headers := ∅; resp_Success := false;
     resp_Error := "" |}.

Definition set_ServiceResponse (key raw : string) (st : ServiceResponse * json.spares)
  : option (ServiceResponse * json.spares) :=
  let '(r, sp) := st in
  if equal_fold key "service_id" then
    v ← json.decode_string (resp_ServiceID r) raw;
    Some ({| resp_ServiceID := v; resp_Timestamp := resp_Timestamp r;
            resp_Data := resp_Data r; resp_Signature := resp_Signature r;
            resp_Headers := resp_Headers r; resp_Success := resp_Success r;
            resp_Error := resp_Error r |}, sp)
  else if equal_fold key "timestamp" then
    v ← time.UnmarshalJSON (resp_Timestamp r) raw;
    Some ({| resp_ServiceID := resp_ServiceID r; resp_Timestamp := v;
            resp_Data := resp_Data r; resp_Signature := resp_Signature r;
            resp_Headers := resp_Headers r; resp_Success := resp_Success r;
            resp_Error := resp_Error r |}, sp)
  else if equal_fold key "data" then
    v ← json.decode_RawMessage raw;
    Some ({| resp_ServiceID := resp_ServiceID r; resp_Timestamp := resp_Timestamp r;
            resp_Data := v; resp_Signature := resp_Signature r;
            resp_Headers := resp_Headers r; resp_Success := resp_Success r;
            resp_Error := resp_Error r |}, sp)
  else if equal_fold key "signature" then
    '(v, s) ← json.decode_bytes (resp_Signature r) (json.spare sp "signature") raw;
    Some ({| resp_ServiceID := resp_ServiceID r; resp_Timestamp := resp_Timestamp r;
            resp_Data := resp_Data r; resp_Signature := v;
            resp_Headers := resp_Headers r; resp_Success := resp_Success r;
            resp_Error := resp_Error r |}, <[ "signature" := s ]> sp)
  else if equal_fold key "headers" then
    v ← json.decode_string_map (resp_Headers r) raw;
    Some ({| resp_ServiceID := resp_ServiceID r; resp_Timestamp := resp_Timestamp r;
            resp_Data := resp_Data r; resp_Signature := resp_Signature r;
            resp_Headers := v; resp_Success := resp_Success r;
            resp_Error := resp_Error r |}, sp)
  else if equal_fold key "success" then
    v ← json.decode_bool (resp_Success r) raw;
    Some ({| resp_ServiceID := resp_ServiceID r; resp_Timestamp := resp_Timestamp r;
            resp_Data := resp_Data r; resp_Signature := resp_Signature r;
            resp_Headers := resp_Headers r; resp_Success := v;
            resp_Error := resp_Error r |}, sp)
  else if equal_fold key "error" then
    v ← json.decode_string (resp_Error r) raw;
    Some ({| resp_ServiceID := resp_ServiceID r; resp_Timestamp := resp_Timestamp r;
            resp_Data := resp_Data r; resp_Signature := resp_Signature r;
            resp_Headers := resp_Headers r; resp_Success := resp_Success r;
            resp_Error := v |}, sp)
  else Some (r, sp).

Definition Decode_ServiceResponse : string → option ServiceResponse :=
  json.decode_struct set_ServiceResponse zero_ServiceResponse.

Definition zero_KeyExchangeRequest : KeyExchangeRequest :=
  {| kx_ServiceID := ""; kx_KyberPublicKey := None; kx_Timestamp := time.zero;
     kx_Signature := None |}.

Definition set_KeyExchangeRequest (key raw : string) (st : KeyExchangeRequest * json.spares)
  : option (KeyExchangeRequest * json.spares) :=
  let '(r, sp) := st in
  if equal_fold key "service_id" then
    v ← json.decode_string (kx_ServiceID r) raw;
    Some ({| kx_ServiceID := v; kx_KyberPublicKey := kx_KyberPublicKey r;
            kx_Timestamp := kx_Timestamp r; kx_Signature := kx_Signature r |}, sp)
  else if equal_fold key "kyber_public_key" then
    '(v, s) ← json.decode_bytes (kx_KyberPublicKey r) (json.spare sp "kyber_public_key") raw;
    Some ({| kx_ServiceID := kx_ServiceID r; kx_KyberPublicKey := v;
            kx_Timestamp := kx_Timestamp r; kx_Signature := kx_Signature r |}, <[ "kyber_public_key" := s ]> sp)
  else if equal_fold key "timestamp" then
    v ← time.UnmarshalJSON (kx_Timestamp r) raw;
    Some ({| kx_ServiceID := kx_ServiceID r; kx_KyberPublicKey := kx_KyberPublicKey r;
            kx_Timestamp := v; kx_Signature := kx_Signature r |}, sp)
  else if equal_fold key "signature" then
    '(v, s) ← json.decode_bytes (kx_Signature r) (json.spare sp "signature") raw;
    Some ({| kx_ServiceID := kx_ServiceID r; kx_KyberPublicKey := kx_KyberPublicKey r;
            kx_Timestamp := kx_Timestamp r; kx_Signature := v |}, <[ "signature" := s ]> sp)
  else Some (r, sp).

Definition Decode_KeyExchangeRequest : string → option KeyExchangeRequest :=
  json.decode_struct set_KeyExchangeRequest zero_KeyExchangeRequest.

Definition zero_KeyExchangeResponse : KeyExchangeResponse :=
  {| kxr_Ciphertext := None; kxr_SharedSecret := None; kxr_Timestamp := time.zero;
     kxr_Signature := None |}.

Definition set_KeyExchangeResponse (key raw : string) (st : KeyExchangeResponse * json.spares)
  : option (KeyExchangeResponse * json.spares) :=
  let '(r, sp) := st in
  if equal_fold key "ciphertext" then
    '(v, s) ← json.decode_bytes (kxr_Ciphertext r) (json.spare sp "ciphertext") raw;
    Some ({| kxr_Ciphertext := v; kxr_SharedSecret := kxr_SharedSecret r;
            kxr_Timestamp := kxr_Timestamp r; kxr_Signature := kxr_Signature r |}, <[ "ciphertext" := s ]> sp)
  else if equal_fold key "shared_secret" then
    '(v, s) ← json.decode_bytes (kxr_SharedSecret r) (json.spare sp "shared_secret") raw;
    Some ({| kxr_Ciphertext := kxr_Ciphertext r; kxr_SharedSecret := v;
            kxr_Timestamp := kxr_Timestamp r; kxr_Signature := kxr_Signature r |}, <[ "shared_secret" := s ]> sp)
  else if equal_fold key "timestamp" then
    v ← time.UnmarshalJSON (kxr_Timestamp r) raw;
    Some ({| kxr_Ciphertext := kxr_Ciphertext r; kxr_SharedSecret := kxr_SharedSecret r;
            kxr_Timestamp := v; kxr_Signature := kxr_Signature r |}, sp)
  else if equal_fold key "signature" then
    '(v, s) ← json.decode_bytes (kxr_Signature r) (json.spare sp "signature") raw;
    Some ({| kxr_Ciphertext := kxr_Ciphertext r; kxr_SharedSecret := kxr_SharedSecret r;
            kxr_Timestamp := kxr_Timestamp r; kxr_Signature := v |}, <[ "signature" := s ]> sp)
  else Some (r, sp).

Definition Decode_KeyExchangeResponse : string → option KeyExchangeResponse :=
  json.decode_struct set_KeyExchangeResponse zero_KeyExchangeResponse.

End models.

(** ** [net/http]: what a handler is given and what it answers *)

Module http.

Definition StatusOK : nat := 200.
Definition StatusBadRequest : nat := 400.
Definition StatusUnauthorized : nat := 401.
Definition StatusNotFound : nat := 404.
Definition StatusInternalServerError : nat := 500.
Definition StatusServiceUnavailable : nat := 503.

(** An inbound request: [r.Method], [r.URL.Path], [r.Header] and the
    result of [io.ReadAll(r.Body)] ([None] when reading fails). *)
Record Request : Type := {
  Method : string;
  Path : string;
  Header : gmap string (list string);
  Body : option bytes;
}.

(** What was written to the [ResponseWriter], or what a client call
    returned. *)
Record Response : Type := {
  StatusCode : nat;
  RespHeader : gmap string string;
  RespBody : bytes;
}.

Definition newline : string := String "010"%char "".

(** [http.Error(w, msg, code)] *)
Definition Error (msg : string) (code : nat) : Response :=
  {| StatusCode := code;
     RespHeader := {[ "Content-Type" := "text/plain; charset=utf-8";
                      "X-Content-Type-Options" := "nosniff" ]};
     RespBody := msg +:+ newline |}.

(** [w.Header().Set("Content-Type", "application/json")] followed by
    [json.NewEncoder(w).Encode(v)], where [text] is [json.Marshal(v)]:
    the encoder writes the text and a line feed, or nothing when
    marshalling fails. *)
Definition EncodeJSON (extra : gmap string string) (code : nat) (text : outcome bytes)
  : Response :=
  {| StatusCode := code;
     RespHeader := <[ "Content-Type" := "application/json" ]> extra;
     RespBody := match text with
                 | Ok t => t +:+ newline
                 | _ => ""
                 end |}.

(** A handler that panicked: the server recovers the panic and closes
    the connection; nothing is answered. *)
Definition Aborted : Response :=
  {| StatusCode := 0; RespHeader := ∅; RespBody := "" |}.

(** An outbound request made with [http.Post], [http.Get] or
    [client.Do]. *)
Record Outbound : Type := {
  OutMethod : string;
  OutURL : string;
  OutHeader : gmap string string;
  OutBody : bytes;
}.

End http.

(** ** [cmd/auth/main.go]: the Identity Registry

    A handler takes the service, the request and the readings of
    [time.Now()] it makes, and answers the new service and what it wrote
    to the [ResponseWriter].  The mutex only serialises accesses to the
    map; one handler call is one atomic step here. *)

Module auth.
Section Primitives.
Context `{SigS : mode3.Scheme} `{KemS : kyber768.Scheme}.

Record AuthService : Type := {
  dilithiumKeyPair : pqc.DilithiumKeyPair;
  kyberKeyPair : pqc.KyberKeyPair;
  serviceRegistry : gmap string (option bytes);
  serviceID : string;
}.

(** [loaded] is the result of [pqc.LoadKeyPair(serviceID)]; the two
    readers are those handed to the key generators when loading fails. *)
Definition NewAuthService
    (loaded : outcome (pqc.DilithiumKeyPair * pqc.KyberKeyPair))
    (rand1 rand2 : option bytes) : outcome AuthService :=
  let serviceID := "auth-service" in
  let keys :=
    match loaded with
    | Ok kp => Ok kp
    | _ =>
        match pqc.GenerateDilithiumKeyPair rand1 with
        | Ok d =>
            match pqc.GenerateKyberKeyPair rand2 with
            | Ok k => Ok (d, k)
            | Fail e => Fail (ErrorfWrap "failed to generate Kyber keypair" e)
            | Panics m => Panics m
            end
        | Fail e => Fail (ErrorfWrap "failed to generate Dilithium keypair" e)
        | Panics m => Panics m
        end
    end in
  match keys with
  | Ok (d, k) =>
      Ok {| dilithiumKeyPair := d;
            kyberKeyPair := k;
            serviceRegistry := {[ serviceID := Some (pqc.GetPublicKeyBytes d) ]};
            serviceID := serviceID |}
  | Fail e => Fail e
  | Panics m => Panics m
  end.

(** The signed envelope every handler but [keyExchange] answers with. *)
Definition signedResponse (as_ : AuthService) (now : time.Time)
    (responseData : bytes) (signature : bytes) : models.ServiceResponse :=
  {| models.resp_ServiceID := serviceID as_;
     models.resp_Timestamp := now;
     models.resp_Data := Some responseData;
     models.resp_Signature := Some signature;
     models.resp_Headers := ∅;
     models.resp_Success := true;
     models.resp_Error := "" |}.

Definition sign_and_send (as_ : AuthService) (now : time.Time) (responseData : bytes)
  : http.Response :=
  match pqc.Sign (dilithiumKeyPair as_) responseData with
  | Ok signature =>
      http.EncodeJSON ∅ http.StatusOK
        (models.Marshal_ServiceResponse (signedResponse as_ now responseData signature))
  | _ => http.Error "Internal server error" http.StatusInternalServerError
  end.

Definition registerService (as_ : AuthService) (r : http.Request)
    (now1 now2 : time.Time) : AuthService * http.Response :=
  match r.(http.Body) ≫= models.Decode_ServiceKeyPair with
  | None => (as_, http.Error "Invalid request body" http.StatusBadRequest)
  | Some keyPair =>
      let as' :=
        {| dilithiumKeyPair := dilithiumKeyPair as_;
           kyberKeyPair := kyberKeyPair as_;
           serviceRegistry :=
             <[ models.skp_ServiceID keyPair := models.skp_PublicKey keyPair ]>
               (serviceRegistry as_);
           serviceID := serviceID as_ |} in
      let response :=
        json.AMap [ ("status", json.AString "success");
                    ("service_id", json.AString (models.skp_ServiceID keyPair));
                    ("message", json.AString "Service registered successfully");
                    ("timestamp", json.ATime now1) ] in
      let responseData := json.Marshal_any response in
      (as', sign_and_send as' now2 responseData)
  end.

(** [serviceID] is [mux.Vars(r)["serviceID"]]. *)
Definition getPublicKey (as_ : AuthService) (serviceID : string)
    (now1 now2 : time.Time) : http.Response :=
  match serviceRegistry as_ !! serviceID with
  | None => http.Error "Service not found" http.StatusNotFound
  | Some publicKey =>
      let response :=
        json.AMap [ ("service_id", json.AString serviceID);
                    ("public_key", json.ABytes publicKey);
                    ("timestamp", json.ATime now1) ] in
      let responseData := json.Marshal_any response in
      sign_and_send as_ now2 responseData
  end.

(** The bytes a key-exchange request is signed over. *)
Definition keyExchangeRequestData (serviceID : string) (kyberPublicKey : option bytes)
    (timestamp : time.Time) : bytes :=
  json.Marshal_any
    (json.AMap [ ("service_id", json.AString serviceID);
                 ("kyber_public_key", json.ABytes kyberPublicKey);
                 ("timestamp", json.ATime timestamp) ]).

(** A panic of the handler: [net/http] recovers it and closes the
    connection without an answer. *)
Definition keyExchange (as_ : AuthService) (r : http.Request)
    (rand : option bytes) (now : time.Time) : http.Response :=
  match r.(http.Body) ≫= models.Decode_KeyExchangeRequest with
  | None => http.Error "Invalid request body" http.StatusBadRequest
  | Some request =>
      match serviceRegistry as_ !! models.kx_ServiceID request with
      | None => http.Error "Service not registered" http.StatusUnauthorized
      | Some servicePublicKey =>
          let requestData :=
            keyExchangeRequestData (models.kx_ServiceID request)
              (models.kx_KyberPublicKey request) (models.kx_Timestamp request) in
          match pqc.VerifyDilithiumSignature (slice_bytes servicePublicKey)
                  requestData (slice_bytes (models.kx_Signature request)) with
          | Some _ => http.Error "Invalid signature" http.StatusUnauthorized
          | None =>
              match pqc.EncapsulateWithPublicKey
                      (slice_bytes (models.kx_KyberPublicKey request)) rand with
              | Ok (ciphertext, _) =>
                  let response :=
                    {| models.kxr_Ciphertext := Some ciphertext;
                       models.kxr_SharedSecret := None;
                       models.kxr_Timestamp := now;
                       models.kxr_Signature := None |} in
                  let responseData := models.Marshal_KeyExchangeResponse response in
                  match pqc.Sign (dilithiumKeyPair as_) responseData with
                  | Ok signature =>
                      let response :=
                        {| models.kxr_Ciphertext := models.kxr_Ciphertext response;
                           models.kxr_SharedSecret := models.kxr_SharedSecret response;
                           models.kxr_Timestamp := models.kxr_Timestamp response;
                           models.kxr_Signature := Some signature |} in
                      http.EncodeJSON ∅ http.StatusOK
                        (Ok (models.Marshal_KeyExchangeResponse response))
                  | _ => http.Error "Internal server error"
                           http.StatusInternalServerError
                  end
              | Fail _ => http.Error "Encapsulation failed"
                            http.StatusInternalServerError
              | Panics _ => http.Aborted
              end
          end
      end
  end.

(** The keys of a Go map are visited in no fixed order; the list is the
    one order [map_to_list] gives. *)
Definition listServices (as_ : AuthService) (now1 now2 : time.Time) : http.Response :=
  let services := (map_to_list (serviceRegistry as_)).*1 in
  let response :=
    json.AMap [ ("services", json.ASlice (map json.AString services));
                ("count", json.AInt (Z.of_nat (length services)));
                ("timestamp", json.ATime now1) ] in
  let responseData := json.Marshal_any response in
  sign_and_send as_ now2 responseData.

End Primitives.
End auth.

(** ** [pkg/pqc/utils.go]: [DeserializePublicKeyFromJSON] *)

Module pqcutil.

(** What [%T] prints for the value held in an [interface{}]. *)
Definition type_name (a : json.any) : string :=
  match a with
  | json.ANil => "<nil>"
  | json.ABool _ => "bool"
  | json.AFloat64 _ => "float64"
  | json.AInt _ => "int"
  | json.AString _ => "string"
  | json.ABytes _ => "[]uint8"
  | json.ATime _ => "time.Time"
  | json.ASlice _ => "[]interface {}"
  | json.AMap _ => "map[string]interface {}"
  end.

(** The Go conversion [byte(b)] of a [float64]. *)
Definition byte_of_float64 (f : strconv.float64) : ascii := strconv.to_uint8 f.

(** The loop over a [[]interface{}] that both decoders share: every
    element must hold a [float64]; [index] is where the loop stands. *)
Fixpoint bytes_of_floats (index : nat) (l : list json.any) : nat + bytes :=
  match l with
  | [] => inr ""
  | json.AFloat64 f :: l' =>
      match bytes_of_floats (S index) l' with
      | inr rest => inr (String (byte_of_float64 f) rest)
      | inl i => inl i
      end
  | _ :: _ => inl index
  end.

(** The errors of the function carry the text its formats print.  The
    cause wrapped for a string that is no base64 is the library's
    [base64.CorruptInputError]; it is kept as a tag, without the byte
    position its text ends with. *)
Definition DeserializePublicKeyFromJSON (keyData : list (string * json.any))
  : outcome bytes :=
  match json.map_lookup keyData "public_key" with
  | None => Fail (Errorf "public_key field not found in response")
  | Some publicKeyRaw =>
      match publicKeyRaw with
      | json.AString keyString =>
          match base64.DecodeString keyString with
          | Some pubKey => Ok pubKey
          | None => Fail (ErrorfWrap "failed to decode base64 public key"
                            (Errorf "illegal base64 data"))
          end
      | json.ASlice publicKeySlice =>
          match bytes_of_floats 0 publicKeySlice with
          | inr pubKey => Ok pubKey
          | inl i =>
              Fail (Errorf ("invalid public key byte format at index "
                            +:+ strconv.itoa (Z.of_nat i)
                            +:+ ": expected float64 but got "
                            +:+ type_name (default json.ANil (publicKeySlice !! i))))
          end
      | json.ABytes directBytes => Ok (slice_bytes directBytes)
      | _ =>
          Fail (Errorf ("invalid public key format: expected string (base64), "
                        +:+ "[]interface{} (JSON array), or []byte, but got "
                        +:+ type_name publicKeyRaw))
      end
  end.

End pqcutil.

(** ** The network seen from a client

    A transport answers an outbound request with the response the peer
    wrote, or with nothing when the call fails (refused connection,
    timeout). *)
Definition Transport : Type := http.Outbound → option http.Response.

Definition http_Get (url : string) : http.Outbound :=
  {| http.OutMethod := "GET"; http.OutURL := url; http.OutHeader := ∅;
     http.OutBody := "" |}.

Definition http_Post (url contentType : string) (body : bytes) : http.Outbound :=
  {| http.OutMethod := "POST"; http.OutURL := url;
     http.OutHeader := {[ "Content-Type" := contentType ]};
     http.OutBody := body |}.

(** ** [net/url]: [Parse]

    [http.NewRequest] parses the URL it is given with [url.Parse] and
    fails when that fails.  [RawPath] and [RawFragment], which only
    record how the path and the fragment were escaped, are left out of
    the record. *)
Module url.

Record URL : Type := {
  Scheme : string;
  Opaque : string;
  User : option (string * option string);
  Host : string;
  Path : string;
  ForceQuery : bool;
  RawQuery : string;
  Fragment : string;
}.

(** [strings.Cut(s, sep)] for a separator of one byte: what precedes the
    first [sep], and what follows it when there is one. *)
Fixpoint cut (sep : ascii) (s : string) : string * option string :=
  match s with
  | EmptyString => ("", None)
  | String c rest =>
      if Ascii.eqb c sep then ("", Some rest)
      else let '(before, after) := cut sep rest in (String c before, after)
  end.

(** What precedes the last [sep] of [s] and what follows it. *)
Fixpoint cut_last (sep : ascii) (s : string) : option (string * string) :=
  match s with
  | EmptyString => None
  | String c rest =>
      match cut_last sep rest with
      | Some (before, after) => Some (String c before, after)
      | None => if Ascii.eqb c sep then Some ("", rest) else None
      end
  end.

Definition contains (sep : ascii) (s : string) : bool :=
  match cut sep s with
  | (_, Some _) => true
  | (_, None) => false
  end.

Definition has_prefix (p s : string) : bool :=
  match json.strip_prefix p s with
  | Some _ => true
  | None => false
  end.

Definition is_ctl (c : ascii) : bool := (byte_val c <? 32)%N || (byte_val c =? 127)%N.

Definition stringContainsCTLByte (s : string) : bool :=
  negb (string_forallb (λ c, negb (is_ctl c)) s).

Definition is_alpha (c : ascii) : bool := in_range 97 122 c || in_range 65 90 c.

(** [getScheme]: the scheme and what follows its colon; an empty scheme
    when the text does not start with one; nothing for the error
    [missing protocol scheme]. *)
Fixpoint scheme_end (i : nat) (s : string) : option (option nat) :=
  match s with
  | EmptyString => Some None
  | String c rest =>
      if is_alpha c then scheme_end (S i) rest
      else if is_digit c || Ascii.eqb c "+" || Ascii.eqb c "-" || Ascii.eqb c "." then
        match i with
        | O => Some None
        | _ => scheme_end (S i) rest
        end
      else if Ascii.eqb c ":" then
        match i with
        | O => None
        | _ => Some (Some i)
        end
      else Some None
  end.

Definition getScheme (rawURL : string) : option (string * string) :=
  match scheme_end 0 rawURL with
  | None => None
  | Some None => Some ("", rawURL)
  | Some (Some i) => Some (take_bytes i rawURL, drop_bytes (S i) rawURL)
  end.

Inductive encoding : Type :=
| encodePath
| encodeHost
| encodeZone
| encodeUserPassword
| encodeFragment.

Definition one_of (set : string) (c : ascii) : bool :=
  negb (string_forallb (λ x, negb (Ascii.eqb x c)) set).

(** [shouldEscape c encodeHost]: may the byte [c] not stand as it is in
    a host? *)
Definition shouldEscape_host (c : ascii) : bool :=
  if is_alpha c || is_digit c then false
  else if one_of ("!$&'()*+,;=:[]<>" +:+ dq) c then false
  else if one_of "-_.~" c then false
  else true.

Definition unhex (c : ascii) : N := default 0%N (hexval c).

(** [unescape s mode]: the escapes [%XX] of [s] replaced by the bytes
    they stand for; nothing for an [EscapeError] or an
    [InvalidHostError]. *)
Fixpoint unescape (mode : encoding) (s : string) : option string :=
  match s with
  | EmptyString => Some ""
  | String c rest =>
      if Ascii.eqb c "%" then
        match rest with
        | String h1 (String h2 rest') =>
            if negb (json.is_hex h1 && json.is_hex h2) then None
            else
              let v := ascii_of_N (unhex h1 * 16 + unhex h2) in
              let is_25 := Ascii.eqb h1 "2" && Ascii.eqb h2 "5" in
              let refused :=
                match mode with
                | encodeHost => (unhex h1 <? 8)%N && negb is_25
                | encodeZone =>
                    negb is_25 && negb (Ascii.eqb v " ") && shouldEscape_host v
                | _ => false
                end in
              if refused then None
              else option_map (String v) (unescape mode rest')
        | _ => None
        end
      else
        let refused :=
          match mode with
          | encodeHost | encodeZone => (byte_val c <? 128)%N && shouldEscape_host c
          | _ => false
          end in
        if refused then None else option_map (String c) (unescape mode rest)
  end.

Definition validOptionalPort (port : string) : bool :=
  match port with
  | EmptyString => true
  | String c digits => Ascii.eqb c ":" && string_forallb is_digit digits
  end.

(** The byte offset of the first [%25] of [s]. *)
Fixpoint index_percent25 (s : string) : option nat :=
  match s with
  | EmptyString => None
  | String c rest =>
      if has_prefix "%25" s then Some 0
      else option_map S (index_percent25 rest)
  end.

(** [parseHost]: a host with an optional port; a host in brackets is an
    IP literal, which may name a zone after [%25]. *)
Definition parseHost (host : string) : option string :=
  if has_prefix "[" host then
    match cut_last "]" host with
    | None => None
    | Some (before, colonPort) =>
        if negb (validOptionalPort colonPort) then None
        else
          match index_percent25 before with
          | Some zone =>
              host1 ← unescape encodeHost (take_bytes zone host);
              host2 ← unescape encodeZone (drop_bytes zone before);
              host3 ← unescape encodeHost (drop_bytes (len before) host);
              Some (host1 +:+ host2 +:+ host3)
          | None => unescape encodeHost host
          end
    end
  else
    match cut_last ":" host with
    | Some (before, port) =>
        if negb (validOptionalPort (String ":" port)) then None
        else unescape encodeHost host
    | None => unescape encodeHost host
    end.

Definition validUserinfo (s : string) : bool :=
  string_forallb
    (λ c, is_alpha c || is_digit c || one_of "-._:~!$&'()*+,;=%@" c) s.

Definition parseAuthority (authority : string)
  : option (option (string * option string) * string) :=
  match cut_last "@" authority with
  | None => host ← parseHost authority; Some (None, host)
  | Some (userinfo, hostport) =>
      host ← parseHost hostport;
      if negb (validUserinfo userinfo) then None
      else
        match cut ":" userinfo with
        | (username, None) =>
            username ← unescape encodeUserPassword username;
            Some (Some (username, None), host)
        | (username, Some password) =>
            username ← unescape encodeUserPassword username;
            password ← unescape encodeUserPassword password;
            Some (Some (username, Some password), host)
        end
  end.

Fixpoint count (sep : ascii) (s : string) : nat :=
  match s with
  | EmptyString => 0
  | String c rest => (if Ascii.eqb c sep then 1 else 0) + count sep rest
  end.

(** [parse rawURL false]: a URL without its fragment. *)
Definition parse (rawURL : string) : option URL :=
  if stringContainsCTLByte rawURL then None
  else if String.eqb rawURL "*" then
    Some {| Scheme := ""; Opaque := ""; User := None; Host := ""; Path := "*";
            ForceQuery := false; RawQuery := ""; Fragment := "" |}
  else
    '(scheme, rest) ← getScheme rawURL;
    let scheme := to_lower scheme in
    let '(rest, forceQuery, rawQuery) :=
      let '(before, after) := cut "?" rest in
      match time.unsnoc rest with
      | Some (init, c) =>
          if Ascii.eqb c "?" && (count "?" rest =? 1)%nat then (init, true, "")
          else (before, false, default "" after)
      | None => (before, false, default "" after)
      end in
    if negb (has_prefix "/" rest) && negb (String.eqb scheme "") then
      Some {| Scheme := scheme; Opaque := rest; User := None; Host := ""; Path := "";
              ForceQuery := forceQuery; RawQuery := rawQuery; Fragment := "" |}
    else if negb (has_prefix "/" rest) && contains ":" (cut "/" rest).1 then None
    else
      let with_authority :=
        (negb (String.eqb scheme "") || negb (has_prefix "///" rest))
        && has_prefix "//" rest in
      '(user, host, rest) ←
        (if with_authority then
           let '(authority, path) := cut "/" (drop_bytes 2 rest) in
           '(user, host) ← parseAuthority authority;
           Some (user, host,
                 match path with
                 | Some p => String "/" p
                 | None => ""
                 end)
         else Some (None, "", rest));
      path ← unescape encodePath rest;
      Some {| Scheme := scheme; Opaque := ""; User := user; Host := host; Path := path;
              ForceQuery := forceQuery; RawQuery := rawQuery; Fragment := "" |}.

(** [url.Parse]: the fragment is cut off at the first [#] and
    unescaped. *)
Definition Parse (rawURL : string) : option URL :=
  let '(u, frag) := cut "#" rawURL in
  url ← parse u;
  match frag with
  | None | Some EmptyString => Some url
  | Some f =>
      fragment ← unescape encodeFragment f;
      Some {| Scheme := Scheme url; Opaque := Opaque url; User := User url;
              Host := Host url; Path := Path url; ForceQuery := ForceQuery url;
              RawQuery := RawQuery url; Fragment := fragment |}
  end.

End url.

(** Does [http.NewRequest] accept the URL?  It fails when [url.Parse]
    does, and only then for the method [POST]. *)
Definition url_ok (s : string) : bool :=
  match url.Parse s with
  | Some _ => true
  | None => false
  end.

(** The texts that [url.Parse] takes apart without changing them: a
    scheme (a letter, then letters, digits, [+], [-] and [.]), an
    authority (no slash, no [?], no [#], no control byte), and a path
    that starts with a slash and holds no [?], no [#], no [%] and no
    control byte. *)
Definition scheme_byte (c : ascii) : bool :=
  url.is_alpha c || is_digit c || Ascii.eqb c "+" || Ascii.eqb c "-" || Ascii.eqb c ".".

Definition scheme_text (s : string) : bool :=
  match s with
  | String c rest => url.is_alpha c && string_forallb scheme_byte rest
  | EmptyString => false
  end.

Definition authority_byte (c : ascii) : bool :=
  negb (url.is_ctl c) && negb (Ascii.eqb c "/") && negb (Ascii.eqb c "?")
  && negb (Ascii.eqb c "#").

Definition authority_text (a : string) : bool := string_forallb authority_byte a.

Definition path_byte (c : ascii) : bool :=
  negb (url.is_ctl c) && negb (Ascii.eqb c "?") && negb (Ascii.eqb c "#")
  && negb (Ascii.eqb c "%").

Definition plain_path (p : string) : bool :=
  url.has_prefix "/" p && string_forallb path_byte p.

(** ** [cmd/gateway/main.go]: the Requesting Party *)

Module gateway.
Section Primitives.
Context `{SigS : mode3.Scheme} `{KemS : kyber768.Scheme}.

Record APIGateway : Type := {
  dilithiumKeyPair : pqc.DilithiumKeyPair;
  kyberKeyPair : pqc.KyberKeyPair;
  serviceID : string;
  authServiceURL : string;
  backendServiceURL : string;
  publicKeyCache : gmap string bytes;
}.

Definition with_cache (gw : APIGateway) (cache : gmap string bytes) : APIGateway :=
  {| dilithiumKeyPair := dilithiumKeyPair gw;
     kyberKeyPair := kyberKeyPair gw;
     serviceID := serviceID gw;
     authServiceURL := authServiceURL gw;
     backendServiceURL := backendServiceURL gw;
     publicKeyCache := cache |}.

Definition registration (gw : APIGateway) : http.Outbound :=
  http_Post (authServiceURL gw +:+ "/register") "application/json"
    (models.Marshal_ServiceKeyPair
       {| models.skp_ServiceID := serviceID gw;
          models.skp_PublicKey := Some (pqc.GetPublicKeyBytes (dilithiumKeyPair gw));
          models.skp_PrivateKey := None |}).

Definition registerWithAuthService (gw : APIGateway) (net : Transport) : option error :=
  match net (registration gw) with
  | None => Some (ErrorfWrap "failed to register with auth service" (Errorf "transport"))
  | Some resp =>
      if negb (http.StatusCode resp =? http.StatusOK)%nat then
        Some (ErrorfInt "auth service registration failed with status"
                (http.StatusCode resp))
      else None
  end.

(** [authURL] and [backendURL] are what [getEnvOrDefault] returned.  The
    constructor then calls [registerWithAuthService] and only logs a
    warning when it fails. *)
Definition NewAPIGateway
    (loaded : outcome (pqc.DilithiumKeyPair * pqc.KyberKeyPair))
    (rand1 rand2 : option bytes) (authURL backendURL : string)
  : outcome APIGateway :=
  let keys :=
    match loaded with
    | Ok kp => Ok kp
    | _ =>
        match pqc.GenerateDilithiumKeyPair rand1 with
        | Ok d =>
            match pqc.GenerateKyberKeyPair rand2 with
            | Ok k => Ok (d, k)
            | Fail e => Fail (ErrorfWrap "failed to generate Kyber keypair" e)
            | Panics m => Panics m
            end
        | Fail e => Fail (ErrorfWrap "failed to generate Dilithium keypair" e)
        | Panics m => Panics m
        end
    end in
  match keys with
  | Ok (d, k) =>
      Ok {| dilithiumKeyPair := d; kyberKeyPair := k;
            serviceID := "api-gateway";
            authServiceURL := authURL;
            backendServiceURL := backendURL;
            publicKeyCache := ∅ |}
  | Fail e => Fail e
  | Panics m => Panics m
  end.

Definition lookup (gw : APIGateway) (serviceID : string) : http.Outbound :=
  http_Get (authServiceURL gw +:+ "/public-key/" +:+ serviceID).

(** [getServicePublicKey] answers the gateway after the call, its Go
    result, and the outbound requests it made. *)
Definition getServicePublicKey (gw : APIGateway) (net : Transport) (serviceID : string)
  : APIGateway * outcome bytes * list http.Outbound :=
  match publicKeyCache gw !! serviceID with
  | Some publicKey => (gw, Ok publicKey, [])
  | None =>
      let req := lookup gw serviceID in
      match net req with
      | None =>
          (gw, Fail (ErrorfWrap "failed to fetch public key" (Errorf "transport")), [req])
      | Some resp =>
          if negb (http.StatusCode resp =? http.StatusOK)%nat then
            (gw, Fail (ErrorfInt "failed to get public key, status"
                         (http.StatusCode resp)), [req])
          else
            match models.Decode_ServiceResponse (http.RespBody resp) with
            | None =>
                (gw, Fail (ErrorfWrap "failed to decode response" (Errorf "json")), [req])
            | Some response =>
                match json.Unmarshal_map (slice_bytes (models.resp_Data response)) with
                | None =>
                    (gw, Fail (ErrorfWrap "failed to unmarshal key data" (Errorf "json")),
                     [req])
                | Some keyData =>
                    match pqcutil.DeserializePublicKeyFromJSON keyData with
                    | Ok publicKeyBytes =>
                        (with_cache gw (<[ serviceID := publicKeyBytes ]> (publicKeyCache gw)),
                         Ok publicKeyBytes, [req])
                    | Fail e =>
                        (gw, Fail (ErrorfWrap "failed to deserialize public key" e), [req])
                    | Panics m => (gw, Panics m, [req])
                    end
                end
            end
      end
  end.

(** [verifyRequest] is defined by the gateway but no handler calls it. *)
Definition verifyRequest (gw : APIGateway) (net : Transport) (r : http.Request)
    (serviceID : string) : APIGateway * option error :=
  match default [] (http.Header r !! "X-Signature") with
  | [] | "" :: _ => (gw, Some (Errorf "missing signature header"))
  | signature :: _ =>
      match getServicePublicKey gw net serviceID with
      | (gw', Ok publicKey, _) =>
          match http.Body r with
          | None => (gw', Some (ErrorfWrap "failed to read request body" (Errorf "io")))
          | Some body =>
              match pqc.VerifyDilithiumSignature publicKey body signature with
              | Some e => (gw', Some (ErrorfWrap "signature verification failed" e))
              | None => (gw', None)
              end
          end
      | (gw', Fail e, _) => (gw', Some (ErrorfWrap "failed to get public key" e))
      | (gw', Panics m, _) => (gw', Some (Errorf m))
      end
  end.

(** The envelope built from an inbound request, before it is signed. *)
Definition requestData (gw : APIGateway) (r : http.Request) (body : bytes)
    (now : time.Time) : models.ServiceRequest :=
  let requestBody := if (len body =? 0)%nat then "{}" else body in
  {| models.req_ServiceID := serviceID gw;
     models.req_Timestamp := now;
     models.req_Data := Some requestBody;
     models.req_Signature := None;
     models.req_Headers := omap head (http.Header r) |}.

Definition with_signature (rq : models.ServiceRequest) (signature : option bytes)
  : models.ServiceRequest :=
  {| models.req_ServiceID := models.req_ServiceID rq;
     models.req_Timestamp := models.req_Timestamp rq;
     models.req_Data := models.req_Data rq;
     models.req_Signature := signature;
     models.req_Headers := models.req_Headers rq |}.

(** The request sent to the backend: [http.NewRequest("POST", ...)] with
    the two headers set on it. *)
Definition backendRequest (gw : APIGateway) (path : string) (signedPayload : bytes)
  : http.Outbound :=
  {| http.OutMethod := "POST";
     http.OutURL := backendServiceURL gw +:+ path;
     http.OutHeader := {[ "Content-Type" := "application/json";
                          "X-Service-ID" := serviceID gw ]};
     http.OutBody := signedPayload |}.

(** [forwardToBackend] answers the gateway after the call, what it wrote
    to the client, and the outbound requests it made, in order. *)
Definition forwardToBackend (gw : APIGateway) (net : Transport) (r : http.Request)
    (now : time.Time) : APIGateway * http.Response * list http.Outbound :=
  match http.Body r with
  | None => (gw, http.Error "Failed to read request" http.StatusInternalServerError, [])
  | Some body =>
      let rq := requestData gw r body now in
      match models.Marshal_ServiceRequest rq with
      | Ok requestPayload =>
          match pqc.Sign (dilithiumKeyPair gw) requestPayload with
          | Ok signature =>
              let rq := with_signature rq (Some signature) in
              let signedPayload :=
                match models.Marshal_ServiceRequest rq with
                | Ok p => p
                | _ => ""
                end in
              if negb (url_ok (backendServiceURL gw +:+ http.Path r)) then
                (gw, http.Error "Internal server error" http.StatusInternalServerError, [])
              else
                let req := backendRequest gw (http.Path r) signedPayload in
                match net req with
                | None =>
                    (gw, http.Error "Backend service unavailable"
                           http.StatusServiceUnavailable, [req])
                | Some resp =>
                    match models.Decode_ServiceResponse (http.RespBody resp) with
                    | None =>
                        (gw, http.Error "Invalid backend response"
                               http.StatusInternalServerError, [req])
                    | Some backendResponse =>
                        match getServicePublicKey gw net "backend-service" with
                        | (gw', Ok backendPublicKey, calls) =>
                            match pqc.VerifyDilithiumSignature backendPublicKey
                                    (slice_bytes (models.resp_Data backendResponse))
                                    (slice_bytes (models.resp_Signature backendResponse)) with
                            | Some _ =>
                                (gw', http.Error "Invalid backend signature"
                                        http.StatusUnauthorized, req :: calls)
                            | None =>
                                (gw',
                                 http.EncodeJSON {[ "X-Gateway-Service" := serviceID gw ]}
                                   (http.StatusCode resp)
                                   (models.Marshal_ServiceResponse backendResponse),
                                 req :: calls)
                            end
                        | (gw', _, calls) =>
                            (gw', http.Error "Authentication error"
                                    http.StatusInternalServerError, req :: calls)
                        end
                    end
                end
          | _ => (gw, http.Error "Internal server error"
                        http.StatusInternalServerError, [])
          end
      | _ => (gw, http.Error "Internal server error" http.StatusInternalServerError, [])
      end
  end.

Definition handleRequest (gw : APIGateway) (net : Transport) (r : http.Request)
    (now : time.Time) : APIGateway * http.Response * list http.Outbound :=
  if String.eqb (http.Path r) "/health" then
    (gw, {| http.StatusCode := http.StatusOK; http.RespHeader := ∅;
            http.RespBody := "Gateway OK" |}, [])
  else forwardToBackend gw net r now.

Definition keyExchangeRequest (gw : APIGateway) (now : time.Time)
  : models.KeyExchangeRequest :=
  {| models.kx_ServiceID := serviceID gw;
     models.kx_KyberPublicKey := Some (pqc.KGetPublicKeyBytes (kyberKeyPair gw));
     models.kx_Timestamp := now;
     models.kx_Signature := None |}.

(** [performKeyExchange] answers its error (or [Ok tt] for [nil]); a
    panic of the decapsulation is a panic of the call. *)
Definition performKeyExchange (gw : APIGateway) (net : Transport) (now : time.Time)
  : outcome unit :=
  let request := keyExchangeRequest gw now in
  let requestData :=
    auth.keyExchangeRequestData (models.kx_ServiceID request)
      (models.kx_KyberPublicKey request) (models.kx_Timestamp request) in
  match pqc.Sign (dilithiumKeyPair gw) requestData with
  | Ok signature =>
      let request :=
        {| models.kx_ServiceID := models.kx_ServiceID request;
           models.kx_KyberPublicKey := models.kx_KyberPublicKey request;
           models.kx_Timestamp := models.kx_Timestamp request;
           models.kx_Signature := Some signature |} in
      let payload := models.Marshal_KeyExchangeRequest request in
      match net (http_Post (authServiceURL gw +:+ "/key-exchange")
                   "application/json" payload) with
      | None => Fail (ErrorfWrap "key exchange request failed" (Errorf "transport"))
      | Some resp =>
          if negb (http.StatusCode resp =? http.StatusOK)%nat then
            Fail (ErrorfInt "key exchange failed with status" (http.StatusCode resp))
          else
            match models.Decode_KeyExchangeResponse (http.RespBody resp) with
            | None => Fail (ErrorfWrap "failed to decode key exchange response"
                              (Errorf "json"))
            | Some response =>
                match pqc.Decapsulate (kyberKeyPair gw)
                        (slice_bytes (models.kxr_Ciphertext response)) with
                | Ok sharedSecret => Ok tt
                | Fail e => Fail (ErrorfWrap "failed to decapsulate shared secret" e)
                | Panics m => Panics m
                end
            end
      end
  | Fail e => Fail (ErrorfWrap "failed to sign key exchange request" e)
  | Panics m => Panics m
  end.

End Primitives.
End gateway.

(** ** [cmd/backend/main.go]: the Responding Party *)

Module backend.
Section Primitives.
Context `{SigS : mode3.Scheme} `{KemS : kyber768.Scheme}.

Record BackendService : Type := {
  dilithiumKeyPair : pqc.DilithiumKeyPair;
  kyberKeyPair : pqc.KyberKeyPair;
  serviceID : string;
  authServiceURL : string;
  publicKeyCache : gmap string bytes;
  requestCounter : Z;
}.

(** A Go [int] is 64 bits wide on the platforms this program is built
    for; [++] wraps around. *)
Definition wrap_int (z : Z) : Z :=
  ((z + 2 ^ 63) mod 2 ^ 64 - 2 ^ 63)%Z.

Definition with_cache (bs : BackendService) (cache : gmap string bytes) : BackendService :=
  {| dilithiumKeyPair := dilithiumKeyPair bs;
     kyberKeyPair := kyberKeyPair bs;
     serviceID := serviceID bs;
     authServiceURL := authServiceURL bs;
     publicKeyCache := cache;
     requestCounter := requestCounter bs |}.

Definition with_counter (bs : BackendService) (n : Z) : BackendService :=
  {| dilithiumKeyPair := dilithiumKeyPair bs;
     kyberKeyPair := kyberKeyPair bs;
     serviceID := serviceID bs;
     authServiceURL := authServiceURL bs;
     publicKeyCache := publicKeyCache bs;
     requestCounter := n |}.

Definition NewBackendService
    (loaded : outcome (pqc.DilithiumKeyPair * pqc.KyberKeyPair))
    (rand1 rand2 : option bytes) (authURL : string) : outcome BackendService :=
  let keys :=
    match loaded with
    | Ok kp => Ok kp
    | _ =>
        match pqc.GenerateDilithiumKeyPair rand1 with
        | Ok d =>
            match pqc.GenerateKyberKeyPair rand2 with
            | Ok k => Ok (d, k)
            | Fail e => Fail (ErrorfWrap "failed to generate Kyber keypair" e)
            | Panics m => Panics m
            end
        | Fail e => Fail (ErrorfWrap "failed to generate Dilithium keypair" e)
        | Panics m => Panics m
        end
    end in
  match keys with
  | Ok (d, k) =>
      Ok {| dilithiumKeyPair := d; kyberKeyPair := k;
            serviceID := "backend-service";
            authServiceURL := authURL;
            publicKeyCache := ∅;
            requestCounter := 0 |}
  | Fail e => Fail e
  | Panics m => Panics m
  end.

Definition registration (bs : BackendService) : http.Outbound :=
  http_Post (authServiceURL bs +:+ "/register") "application/json"
    (models.Marshal_ServiceKeyPair
       {| models.skp_ServiceID := serviceID bs;
          models.skp_PublicKey := Some (pqc.GetPublicKeyBytes (dilithiumKeyPair bs));
          models.skp_PrivateKey := None |}).

Definition registerWithAuthService (bs : BackendService) (net : Transport) : option error :=
  match net (registration bs) with
  | None => Some (ErrorfWrap "failed to register with auth service" (Errorf "transport"))
  | Some resp =>
      if negb (http.StatusCode resp =? http.StatusOK)%nat then
        Some (ErrorfInt "auth service registration failed with status"
                (http.StatusCode resp))
      else None
  end.

Definition lookup (bs : BackendService) (serviceID : string) : http.Outbound :=
  http_Get (authServiceURL bs +:+ "/public-key/" +:+ serviceID).

(** The conversion written out in [getServicePublicKey]:
    [keyData["public_key"].([]interface{})], then one [float64] per
    byte. *)
Definition publicKeyFromKeyData (keyData : list (string * json.any)) : outcome bytes :=
  match json.map_lookup keyData "public_key" with
  | Some (json.ASlice publicKeyBytes) =>
      match pqcutil.bytes_of_floats 0 publicKeyBytes with
      | inr pubKey => Ok pubKey
      | inl _ => Fail (Errorf "invalid public key byte format")
      end
  | _ => Fail (Errorf "invalid public key format")
  end.

Definition getServicePublicKey (bs : BackendService) (net : Transport) (serviceID : string)
  : BackendService * outcome bytes * list http.Outbound :=
  match publicKeyCache bs !! serviceID with
  | Some publicKey => (bs, Ok publicKey, [])
  | None =>
      let req := lookup bs serviceID in
      match net req with
      | None =>
          (bs, Fail (ErrorfWrap "failed to fetch public key" (Errorf "transport")), [req])
      | Some resp =>
          if negb (http.StatusCode resp =? http.StatusOK)%nat then
            (bs, Fail (ErrorfInt "failed to get public key, status"
                         (http.StatusCode resp)), [req])
          else
            match models.Decode_ServiceResponse (http.RespBody resp) with
            | None =>
                (bs, Fail (ErrorfWrap "failed to decode response" (Errorf "json")), [req])
            | Some response =>
                match json.Unmarshal_map (slice_bytes (models.resp_Data response)) with
                | None =>
                    (bs, Fail (ErrorfWrap "failed to unmarshal key data" (Errorf "json")),
                     [req])
                | Some keyData =>
                    match publicKeyFromKeyData keyData with
                    | Ok pubKey =>
                        (with_cache bs (<[ serviceID := pubKey ]> (publicKeyCache bs)),
                         Ok pubKey, [req])
                    | Fail e => (bs, Fail e, [req])
                    | Panics m => (bs, Panics m, [req])
                    end
                end
            end
      end
  end.

(** The envelope [verifyRequest] rebuilds: the four signed fields of the
    request, no signature. *)
Definition requestData (request : models.ServiceRequest) : models.ServiceRequest :=
  {| models.req_ServiceID := models.req_ServiceID request;
     models.req_Timestamp := models.req_Timestamp request;
     models.req_Data := models.req_Data request;
     models.req_Signature := None;
     models.req_Headers := models.req_Headers request |}.

Definition verifyRequest (bs : BackendService) (net : Transport)
    (request : models.ServiceRequest)
  : BackendService * option error * list http.Outbound :=
  match getServicePublicKey bs net (models.req_ServiceID request) with
  | (bs', Ok publicKey, calls) =>
      match models.Marshal_ServiceRequest (requestData request) with
      | Ok payload =>
          match pqc.VerifyDilithiumSignature publicKey payload
                  (slice_bytes (models.req_Signature request)) with
          | Some e => (bs', Some (ErrorfWrap "signature verification failed" e), calls)
          | None => (bs', None, calls)
          end
      | Fail e =>
          (bs', Some (ErrorfWrap "failed to marshal request for verification" e), calls)
      | Panics m => (bs', Some (Errorf m), calls)
      end
  | (bs', Fail e, calls) => (bs', Some (ErrorfWrap "failed to get public key" e), calls)
  | (bs', Panics m, calls) => (bs', Some (Errorf m), calls)
  end.

Definition signedResponse (bs : BackendService) (now : time.Time)
    (responsePayload signature : bytes) : models.ServiceResponse :=
  {| models.resp_ServiceID := serviceID bs;
     models.resp_Timestamp := now;
     models.resp_Data := Some responsePayload;
     models.resp_Signature := Some signature;
     models.resp_Headers := ∅;
     models.resp_Success := true;
     models.resp_Error := "" |}.

Definition sign_and_send (bs : BackendService) (now : time.Time) (responsePayload : bytes)
  : http.Response :=
  match pqc.Sign (dilithiumKeyPair bs) responsePayload with
  | Ok signature =>
      http.EncodeJSON ∅ http.StatusOK
        (models.Marshal_ServiceResponse (signedResponse bs now responsePayload signature))
  | _ => http.Error "Internal server error" http.StatusInternalServerError
  end.

(** [now1] and [now2] are the two readings of [time.Now()] after the
    verification; [elapsed] is [time.Since(start).String()]. *)
Definition processEcho (bs : BackendService) (net : Transport) (r : http.Request)
    (now1 now2 : time.Time) (elapsed : string)
  : BackendService * http.Response * list http.Outbound :=
  match http.Body r ≫= models.Decode_ServiceRequest with
  | None => (bs, http.Error "Invalid request format" http.StatusBadRequest, [])
  | Some request =>
      match verifyRequest bs net request with
      | (bs', Some _, calls) =>
          (bs', http.Error "Request verification failed" http.StatusUnauthorized, calls)
      | (bs', None, calls) =>
          let currentCount := wrap_int (requestCounter bs' + 1) in
          let bs'' := with_counter bs' currentCount in
          let data := slice_bytes (models.req_Data request) in
          let requestData :=
            match json.Unmarshal_any data with
            | Some v => v
            | None => json.AString data
            end in
          let responseData :=
            json.AMap [ ("message", json.AString "Echo from Backend Service");
                        ("original_data", requestData);
                        ("service_id", json.AString (serviceID bs''));
                        ("request_count", json.AInt currentCount);
                        ("timestamp", json.ATime now1);
                        ("processing_time", json.AString elapsed);
                        ("from_service", json.AString (models.req_ServiceID request)) ] in
          (bs'', sign_and_send bs'' now2 (json.Marshal_any responseData), calls)
      end
  end.

Definition processData (bs : BackendService) (net : Transport) (r : http.Request)
    (now1 now2 : time.Time) (elapsed : string)
  : BackendService * http.Response * list http.Outbound :=
  match http.Body r ≫= models.Decode_ServiceRequest with
  | None => (bs, http.Error "Invalid request format" http.StatusBadRequest, [])
  | Some request =>
      match verifyRequest bs net request with
      | (bs', Some _, calls) =>
          (bs', http.Error "Request verification failed" http.StatusUnauthorized, calls)
      | (bs', None, calls) =>
          let currentCount := wrap_int (requestCounter bs' + 1) in
          let bs'' := with_counter bs' currentCount in
          let data := slice_bytes (models.req_Data request) in
          let inputData :=
            match json.Unmarshal_any data with
            | Some (json.AMap m) => json.AMap m
            | Some json.ANil => json.ANil
            | _ => json.AMap [ ("raw_data", json.AString data) ]
            end in
          let transformedData :=
            json.AMap [ ("service_id", json.AString (serviceID bs''));
                        ("operation", json.AString "data_transformation");
                        ("input", inputData);
                        ("transformed_at", json.ATime now1);
                        ("request_count", json.AInt currentCount);
                        ("processing_time", json.AString elapsed);
                        ("metadata",
                          json.AMap [ ("quantum_safe", json.ABool true);
                                      ("algorithm", json.AString "Dilithium3");
                                      ("from_service",
                                        json.AString (models.req_ServiceID request)) ]) ] in
          (bs'', sign_and_send bs'' now2 (json.Marshal_any transformedData), calls)
      end
  end.

Definition getStatus (bs : BackendService) (now1 now2 : time.Time) (uptime : string)
  : http.Response :=
  let currentCount := requestCounter bs in
  let statusData :=
    json.AMap [ ("service_id", json.AString (serviceID bs));
                ("status", json.AString "healthy");
                ("requests_handled", json.AInt currentCount);
                ("uptime", json.AString uptime);
                ("quantum_safe", json.ABool true);
                ("algorithms",
                  json.AMap [ ("signature", json.AString "Dilithium3");
                              ("kem", json.AString "Kyber768") ]);
                ("timestamp", json.ATime now1) ] in
  sign_and_send bs now2 (json.Marshal_any statusData).

End Primitives.
End backend.

(** ** A reference instance of the primitives

    A small signature scheme and a small KEM with the shape of the circl
    interfaces.  They show that the assumptions of [mode3.Correct] can
    be met, and they let the handlers run on concrete inputs.  The
    signature scheme is a keyed checksum whose public and private key
    coincide: it is correct in the sense of [mode3.Correct] and offers no
    security. *)

Module sample.

Record Key4 : Type := { k0 : ascii; k1 : ascii; k2 : ascii; k3 : ascii }.

Definition Key4_Bytes (k : Key4) : bytes :=
  String (k0 k) (String (k1 k) (String (k2 k) (String (k3 k) ""))).

Definition Key4_Unmarshal (s : bytes) : option Key4 :=
  match s with
  | String a (String b (String c (String d EmptyString))) =>
      Some {| k0 := a; k1 := b; k2 := c; k3 := d |}
  | _ => None
  end.

Fixpoint checksum (h : N) (s : bytes) : N :=
  match s with
  | EmptyString => h
  | String c rest => checksum ((h * 31 + byte_val c) mod 4294967296) rest
  end.

Definition digest (s : bytes) : bytes :=
  let h := checksum 7 s in
  String (ascii_of_N (h / 16777216))
    (String (ascii_of_N ((h / 65536) mod 256))
       (String (ascii_of_N ((h / 256) mod 256))
          (String (ascii_of_N (h mod 256)) ""))).

Definition generate (rand : option bytes) : option (Key4 * Key4) :=
  match rand with
  | None => None
  | Some seed =>
      match Key4_Unmarshal (pad_to 4 "0" seed) with
      | Some k => Some (k, k)
      | None => None
      end
  end.

#[local] Instance sig : mode3.Scheme := {|
  mode3.PublicKey := Key4;
  mode3.PrivateKey := Key4;
  mode3.PublicKeySize := 4;
  mode3.PrivateKeySize := 4;
  mode3.SignatureSize := 8;
  mode3.GenerateKey := generate;
  mode3.PublicKey_Bytes := Key4_Bytes;
  mode3.PrivateKey_Bytes := Key4_Bytes;
  mode3.PublicKey_UnmarshalBinary := Key4_Unmarshal;
  mode3.PrivateKey_UnmarshalBinary := Key4_Unmarshal;
  mode3.SignTo := λ sk msg, Key4_Bytes sk +:+ digest msg;
  mode3.Verify := λ pk msg signature,
    String.eqb signature (Key4_Bytes pk +:+ digest msg);
|}.

Definition unpack (n : nat) (s : bytes) : option bytes :=
  if (len s =? n)%nat then Some s else None.

#[local] Instance kem : kyber768.Scheme := {|
  kyber768.PublicKey := bytes;
  kyber768.PrivateKey := bytes;
  kyber768.GenerateKeyPair := λ rand,
    match rand with
    | Some seed =>
        Some (pad_to 4 "0" seed +:+ repeat_byte "k" 1180,
              pad_to 4 "0" seed +:+ repeat_byte "s" 2396)
    | None => None
    end;
  kyber768.PublicKey_MarshalBinary := λ pk, pk;
  kyber768.PrivateKey_MarshalBinary := λ sk, sk;
  kyber768.PublicKey_Unpack := unpack 1184;
  kyber768.PrivateKey_Unpack := unpack 2400;
  kyber768.EncapsulateTo := λ pk seed,
    (pad_to 32 "s" seed +:+ repeat_byte "c" 1056, pad_to 32 "s" seed);
  kyber768.DecapsulateTo := λ sk ct,
    if (len ct =? 1088)%nat then Some (take_bytes 32 ct) else None;
|}.

(** Three parties with fresh keys. *)

Definition keys (seed : bytes) : pqc.DilithiumKeyPair * pqc.KyberKeyPair :=
  match pqc.GenerateDilithiumKeyPair (Some seed), pqc.GenerateKyberKeyPair (Some seed) with
  | Ok d, Ok k => (d, k)
  | _, _ =>
      ({| pqc.PublicKey := {| k0 := "0"; k1 := "0"; k2 := "0"; k3 := "0" |};
          pqc.PrivateKey := {| k0 := "0"; k1 := "0"; k2 := "0"; k3 := "0" |} |},
       {| pqc.KPublicKey := ""; pqc.KPrivateKey := "" |})
  end.

Definition authURL : string := "http://localhost:8080".
Definition backendURL : string := "http://localhost:8082".

Definition registry : auth.AuthService :=
  {| auth.dilithiumKeyPair := (keys "AUTH").1;
     auth.kyberKeyPair := (keys "AUTH").2;
     auth.serviceRegistry := {[ "auth-service" := Some "AUTH" ]};
     auth.serviceID := "auth-service" |}.

Definition gw : gateway.APIGateway :=
  {| gateway.dilithiumKeyPair := (keys "GATE").1;
     gateway.kyberKeyPair := (keys "GATE").2;
     gateway.serviceID := "api-gateway";
     gateway.authServiceURL := authURL;
     gateway.backendServiceURL := backendURL;
     gateway.publicKeyCache := ∅ |}.

Definition bs : backend.BackendService :=
  {| backend.dilithiumKeyPair := (keys "BACK").1;
     backend.kyberKeyPair := (keys "BACK").2;
     backend.serviceID := "backend-service";
     backend.authServiceURL := authURL;
     backend.publicKeyCache := ∅;
     backend.requestCounter := 0 |}.

Definition t0 : time.Time := {| time.RFC3339Nano := "2024-05-06T07:08:09.5Z" |}.
Definition t1 : time.Time := {| time.RFC3339Nano := "2024-05-06T07:08:10Z" |}.

(** The registry after the gateway and the backend have registered. *)
Definition registry_up : auth.AuthService :=
  let reg r rq := (auth.registerService r
                     {| http.Method := "POST"; http.Path := "/register";
                        http.Header := ∅; http.Body := Some (http.OutBody rq) |}
                     t0 t0).1 in
  reg (reg registry (gateway.registration gw)) (backend.registration bs).

(** A network on which public-key lookups reach the registry [r] and
    every other call fails. *)
Definition lookups_reach (r : auth.AuthService) : Transport :=
  λ req,
    match json.strip_prefix (authURL +:+ "/public-key/") (http.OutURL req) with
    | Some serviceID =>
        if String.eqb (http.OutMethod req) "GET"
        then Some (auth.getPublicKey r serviceID t0 t1) else None
    | None => None
    end.

(** An outbound request as the handler of the peer receives it. *)
Definition deliver (path : string) (o : http.Outbound) : http.Request :=
  {| http.Method := http.OutMethod o; http.Path := path;
     http.Header := (λ v, [v]) <$> http.OutHeader o;
     http.Body := Some (http.OutBody o) |}.

(** A network on which nothing answers. *)
Definition unreachable : Transport := λ _, None.

(** What the gateway sends to the backend for an inbound request, when
    it sends anything. *)
Definition forwarded (r : http.Request) : http.Request :=
  match (gateway.forwardToBackend gw unreachable r t0).2 with
  | o :: _ => deliver (http.Path r) o
  | [] => {| http.Method := ""; http.Path := ""; http.Header := ∅; http.Body := None |}
  end.

(** Inbound requests at the gateway. *)
Definition plain_request : http.Request :=
  {| http.Method := "POST"; http.Path := "/echo";
     http.Header := {[ "Accept" := ["*/*"]; "X-Note" := ["a<b"; "c"] ]};
     http.Body := Some ("{ " +:+ dq +:+ "n" +:+ dq +:+ " : 1 }") |}.

Definition empty_get : http.Request :=
  {| http.Method := "GET"; http.Path := "/status"; http.Header := ∅;
     http.Body := Some "" |}.

(** A header value in ISO 8859-1: the single byte 0xFF. *)
Definition latin1_request : http.Request :=
  {| http.Method := "POST"; http.Path := "/echo";
     http.Header := {[ "X-Note" := [String "255" ""] ]};
     http.Body := Some "" |}.

Definition not_json_request : http.Request :=
  {| http.Method := "POST"; http.Path := "/echo"; http.Header := ∅;
     http.Body := Some "hello" |}.

(** A backend that already holds the gateway's key in its cache. *)
Definition bs_cached : backend.BackendService :=
  backend.with_cache bs {[ "api-gateway" := "GATE" ]}.

(** A request to the backend from a sender nobody registered. *)
Definition ghost_envelope : models.ServiceRequest :=
  {| models.req_ServiceID := "svc-ghost";
     models.req_Timestamp := t0;
     models.req_Data := Some "{}";
     models.req_Signature := Some "GHOST12345";
     models.req_Headers := ∅ |}.

Definition ghost_request : http.Request :=
  {| http.Method := "POST"; http.Path := "/echo"; http.Header := ∅;
     http.Body :=
       Some (match models.Marshal_ServiceRequest ghost_envelope with
             | Ok p => p
             | _ => ""
             end) |}.

(** Key-exchange requests at the Registry: the gateway's own, and one
    from a sender nobody registered. *)
Definition kx_request (serviceID : string) (d : pqc.DilithiumKeyPair) : http.Request :=
  let rq := gateway.keyExchangeRequest gw t0 in
  let signature :=
    mode3.SignTo (pqc.PrivateKey d)
      (auth.keyExchangeRequestData serviceID (models.kx_KyberPublicKey rq)
         (models.kx_Timestamp rq)) in
  {| http.Method := "POST"; http.Path := "/key-exchange"; http.Header := ∅;
     http.Body :=
       Some (models.Marshal_KeyExchangeRequest
               {| models.kx_ServiceID := serviceID;
                  models.kx_KyberPublicKey := models.kx_KyberPublicKey rq;
                  models.kx_Timestamp := models.kx_Timestamp rq;
                  models.kx_Signature := Some signature |}) |}.

(** A reply to a key exchange that nobody signed with the Registry's
    key. *)
Definition forged_response : models.KeyExchangeResponse :=
  {| models.kxr_Ciphertext := Some (repeat_byte "c" 1088);
     models.kxr_SharedSecret := None;
     models.kxr_Timestamp := t1;
     models.kxr_Signature := Some "forged!!" |}.

Definition forged_reply : http.Response :=
  http.EncodeJSON ∅ http.StatusOK
    (Ok (models.Marshal_KeyExchangeResponse forged_response)).

(** Registrations of a service under two keys in turn. *)
Definition register_request (serviceID : string) (key : bytes) : http.Request :=
  {| http.Method := "POST"; http.Path := "/register"; http.Header := ∅;
     http.Body :=
       Some (models.Marshal_ServiceKeyPair
               {| models.skp_ServiceID := serviceID;
                  models.skp_PublicKey := Some key;
                  models.skp_PrivateKey := None |}) |}.

Definition registry_old : auth.AuthService :=
  (auth.registerService registry_up (register_request "svc-a" "OLD1") t0 t0).1.

Definition registry_new : auth.AuthService :=
  (auth.registerService registry_old (register_request "svc-a" "NEW1") t1 t1).1.

Definition gw_cached : gateway.APIGateway :=
  gateway.with_cache gw {[ "svc-a" := "OLD1" ]}.

(** The Registry's answer to the gateway's key-exchange request, and a
    network that delivers it. *)
Definition honest_reply : http.Response :=
  auth.keyExchange registry_up (kx_request "api-gateway" (keys "GATE").1)
    (Some "seed") t1.

Definition honest_response : models.KeyExchangeResponse :=
  default models.zero_KeyExchangeResponse
    (models.Decode_KeyExchangeResponse (http.RespBody honest_reply)).

Definition answers (resp : http.Response) : Transport := λ _, Some resp.

End sample.

(** ** An invariant of the mesh

    The cache of a party only ever holds service IDs that the Registry
    answered for. *)
Section Invariant.
Context `{SigS : mode3.Scheme} `{KemS : kyber768.Scheme}.

Definition cache_within_registry (as_ : auth.AuthService) (cache : gmap string bytes)
  : Prop :=
  ∀ serviceID key, cache !! serviceID = Some key →
                   is_Some (auth.serviceRegistry as_ !! serviceID).

End Invariant.

(** ** The shape of the JSON texts this program writes

    The envelopes and maps that the three services marshal are objects
    whose members hold strings, the literals [true], [false] and [null],
    and other such objects.  [render] writes such a tree the way
    [json.Marshal] does; the lemmas on the scanner and the decoders are
    stated on rendered trees. *)

Module jsontext.

Inductive doc : Type :=
| DString (s : string)
| DLiteral (text : string)
| DObject (members : list (string * doc)).

Fixpoint render (d : doc) : string :=
  match d with
  | DString s => json.appendString s
  | DLiteral text => text
  | DObject members =>
      "{" +:+ json.join ","
                (map (λ kv : string * doc, json.member kv.1 (render kv.2)) members)
          +:+ "}"
  end.

(** A string that [appendString] writes between quotes as it is:
    printable ASCII other than the quote, the backslash and the three
    HTML characters. *)
Definition plain (s : string) : bool := string_forallb json.html_safe s.

Definition is_literal (text : string) : bool :=
  String.eqb text "true" || String.eqb text "false" || String.eqb text "null".

Fixpoint well_formed (d : doc) : bool :=
  match d with
  | DString s => plain s
  | DLiteral text => is_literal text
  | DObject members =>
      forallb (λ kv : string * doc, plain kv.1 && well_formed kv.2) members
  end.

(** The fuel [json.scan] needs to read a rendered tree. *)
Fixpoint need (d : doc) : nat :=
  match d with
  | DString _ => 1
  | DLiteral _ => 1
  | DObject members =>
      S (foldr (λ (kv : string * doc) n, S (Nat.max (need kv.2) n)) 0 members)
  end.

(** How many objects of a tree are inside one another. *)
Fixpoint depth (d : doc) : N :=
  match d with
  | DString _ => 0
  | DLiteral _ => 0
  | DObject members =>
      1 + foldr (λ (kv : string * doc) n, N.max (depth kv.2) n) 0%N members
  end.

(** A tree that the scanner reads to its end: no more objects are inside
    one another than the scanner's stack holds. *)
Definition shallow (d : doc) : Prop := (depth d <= json.maxNestingDepth)%N.

(** A tree that the scanner reads to its end as a member of an object. *)
Definition nestable (d : doc) : Prop := (depth d < json.maxNestingDepth)%N.

(** What [json.Unmarshal] stores in an [interface{}] for a tree. *)
Fixpoint to_any (d : doc) : json.any :=
  match d with
  | DString s => json.AString s
  | DLiteral text =>
      if String.eqb text "true" then json.ABool true
      else if String.eqb text "false" then json.ABool false
      else json.ANil
  | DObject members =>
      json.AMap (map (λ kv : string * doc, (kv.1, to_any kv.2)) members)
  end.

End jsontext.

(** The text between the braces of a rendered object, the fuel its members
    need, and the members as [json.object_members] returns them. *)
Definition members_text (members : list (string * jsontext.doc)) : string :=
  json.join "," (map (λ kv : string * jsontext.doc,
                        json.member kv.1 (jsontext.render kv.2)) members).

Definition members_need (members : list (string * jsontext.doc)) : nat :=
  foldr (λ (kv : string * jsontext.doc) n, S (Nat.max (jsontext.need kv.2) n)) 0 members.

Definition members_depth (members : list (string * jsontext.doc)) : N :=
  foldr (λ (kv : string * jsontext.doc) n, N.max (jsontext.depth kv.2) n) 0%N members.

Definition member_texts (members : list (string * jsontext.doc)) : list (string * string) :=
  map (λ kv : string * jsontext.doc, (kv.1, jsontext.render kv.2)) members.


(** The tree of the map that [getPublicKey] marshals, its keys in the
    order [json.Marshal] writes the keys of a map. *)
Definition key_data (serviceID : string) (publicKey : bytes) (now : time.Time)
  : jsontext.doc :=
  jsontext.DObject
    [ ("public_key", jsontext.DString (base64.EncodeToString publicKey));
      ("service_id", jsontext.DString serviceID);
      ("timestamp", jsontext.DString (time.RFC3339Nano now)) ].

(** The tree of a successful [models.ServiceResponse] without headers. *)
Definition response_doc (serviceID : string) (now : time.Time) (data : jsontext.doc)
    (signature : bytes) : jsontext.doc :=
  jsontext.DObject
    [ ("service_id", jsontext.DString serviceID);
      ("timestamp", jsontext.DString (time.RFC3339Nano now));
      ("data", data);
      ("signature", jsontext.DString (base64.EncodeToString signature));
      ("success", jsontext.DLiteral "true") ].

(** The tree of a [map[string]string], its keys in the order
    [json.Marshal] writes them. *)
Definition string_map_doc (m : gmap string string) : jsontext.doc :=
  jsontext.DObject
    (map (λ kv : string * string, (kv.1, jsontext.DString kv.2))
       (json.sort_members (map_to_list m))).

(** The tree of a [models.ServiceRequest] whose [Data] is the text of the
    tree [data]. *)
Definition request_doc (serviceID : string) (now : time.Time) (data : jsontext.doc)
    (signature : option bytes) (headers : gmap string string) : jsontext.doc :=
  jsontext.DObject
    ([ ("service_id", jsontext.DString serviceID);
       ("timestamp", jsontext.DString (time.RFC3339Nano now));
       ("data", data);
       ("signature",
        match signature with
        | Some s => jsontext.DString (base64.EncodeToString s)
        | None => jsontext.DLiteral "null"
        end) ]
     ++ (if decide (headers = ∅) then []
         else [ ("headers", string_map_doc headers) ])).

(** A header map whose names and values are plain strings. *)
Definition plain_headers (m : gmap string string) : Prop :=
  map_Forall (λ k v, jsontext.plain k = true ∧ jsontext.plain v = true) m.

(** ** What the Kyber library promises

    For a key pair that [GenerateKeyPair] returned: the packed keys have
    the sizes of Kyber768, they unpack to the keys they came from, and
    decapsulating a ciphertext made for the public key gives the shared
    secret that was made with it. *)
Class kyber768_Correct (S : kyber768.Scheme) : Prop := {
  PublicKey_Marshal_size :
    ∀ rand pk sk, kyber768.GenerateKeyPair rand = Some (pk, sk) →
                  len (kyber768.PublicKey_MarshalBinary pk) = 1184;
  PrivateKey_Marshal_size :
    ∀ rand pk sk, kyber768.GenerateKeyPair rand = Some (pk, sk) →
                  len (kyber768.PrivateKey_MarshalBinary sk) = 2400;
  PublicKey_Unpack_Marshal :
    ∀ rand pk sk, kyber768.GenerateKeyPair rand = Some (pk, sk) →
                  kyber768.PublicKey_Unpack (kyber768.PublicKey_MarshalBinary pk)
                  = Some pk;
  PrivateKey_Unpack_Marshal :
    ∀ rand pk sk, kyber768.GenerateKeyPair rand = Some (pk, sk) →
                  kyber768.PrivateKey_Unpack (kyber768.PrivateKey_MarshalBinary sk)
                  = Some sk;
  Decapsulate_Encapsulate :
    ∀ rand pk sk seed, kyber768.GenerateKeyPair rand = Some (pk, sk) →
                       kyber768.DecapsulateTo sk (kyber768.EncapsulateTo pk seed).1
                       = Some (kyber768.EncapsulateTo pk seed).2;
}.

(** ** [dilithium.go]: [SignRequest]

    [data] is the [interface{}] argument, as far as it holds values of
    the kinds of [json.any]; [json.Marshal] does not fail on those.
    [now] is the reading of [time.Now()]. *)
Module pqcsign.
Section Primitives.
Context `{SigS : mode3.Scheme}.

Definition requestData (serviceID : string) (now : time.Time) (data : json.any)
  : json.any :=
  json.AMap [ ("service_id", json.AString serviceID);
              ("timestamp", json.ATime now);
              ("data", data) ].

Definition SignRequest (d : pqc.DilithiumKeyPair) (serviceID : string)
    (now : time.Time) (data : json.any) : outcome bytes :=
  let payload := json.Marshal_any (requestData serviceID now data) in
  pqc.Sign d payload.

End Primitives.
End pqcsign.

(** ** [path/filepath] on a Unix system: [Clean] and [Join] *)
Module filepath.

(** The elements of a path: the texts between its slashes. *)
Fixpoint split (path : string) : list string :=
  match path with
  | EmptyString => [""]
  | String c rest =>
      if Ascii.eqb c "/" then "" :: split rest
      else
        match split rest with
        | x :: l => String c x :: l
        | [] => [String c ""]
        end
  end.

(** One element met by [Clean]; [out] holds the elements written so
    far, the last one first.  An empty element and [.] are skipped;
    [..] removes the last element written when that is not itself [..],
    is dropped at the root, and is written otherwise; any other element
    is written. *)
Definition clean_step (rooted : bool) (out : list string) (elem : string)
  : list string :=
  if String.eqb elem "" || String.eqb elem "." then out
  else if String.eqb elem ".." then
    match out with
    | x :: out' => if String.eqb x ".." then elem :: out else out'
    | [] => if rooted then [] else [elem]
    end
  else elem :: out.

Definition is_rooted (path : string) : bool :=
  match path with
  | String c _ => Ascii.eqb c "/"
  | EmptyString => false
  end.

Definition Clean (path : string) : string :=
  if String.eqb path "" then "."
  else
    let rooted := is_rooted path in
    let out := foldl (clean_step rooted) [] (split path) in
    match out with
    | [] => if rooted then "/" else "."
    | _ => (if rooted then "/" else "") +:+ json.join "/" (reverse out)
    end.

(** [filepath.Join(a, b)]: empty elements are ignored, the others are
    joined with a slash and the result is cleaned. *)
Definition Join (a b : string) : string :=
  if negb (String.eqb a "") then Clean (a +:+ "/" +:+ b)
  else if negb (String.eqb b "") then Clean b
  else "".

End filepath.

(** ** [os]: the files a program reads and writes

    [MkdirAll] and [WriteFile] answer the file system after the call and
    whether the call succeeded; [ReadFile] answers the content of a file,
    or nothing when the call fails. *)
Module os.
Class FileSystem : Type := {
  FS : Type;
  MkdirAll : FS → string → FS * bool;
  WriteFile : FS → string → bytes → FS * bool;
  ReadFile : FS → string → option bytes;
}.

(** What the operating system promises, on a file system that nothing
    else writes to and in which different clean paths name different
    files: a file that was written holds what was written, and writing a
    file or making a directory leaves the other files as they are. *)
Class Lawful (F : FileSystem) : Prop := {
  read_written :
    ∀ fs fs' path data, WriteFile fs path data = (fs', true) →
                        ReadFile fs' path = Some data;
  read_other :
    ∀ fs fs' path data path', WriteFile fs path data = (fs', true) →
                              path' ≠ path → ReadFile fs' path' = ReadFile fs path';
  read_after_mkdir :
    ∀ fs fs' dir path, MkdirAll fs dir = (fs', true) →
                       ReadFile fs' path = ReadFile fs path;
}.
End os.

(** ** [pkg/pqc/utils.go]: [SaveKeyPair] and [LoadKeyPair] *)
Module pqcfiles.
Section Primitives.
Context `{SigS : mode3.Scheme} `{KemS : kyber768.Scheme} `{F : os.FileSystem}.

Definition keysDir : string := "keys".

Definition dilithiumPubPath (serviceID : string) : string :=
  filepath.Join keysDir (serviceID +:+ "_dilithium.pub").
Definition dilithiumPrivPath (serviceID : string) : string :=
  filepath.Join keysDir (serviceID +:+ "_dilithium.key").
Definition kyberPubPath (serviceID : string) : string :=
  filepath.Join keysDir (serviceID +:+ "_kyber.pub").
Definition kyberPrivPath (serviceID : string) : string :=
  filepath.Join keysDir (serviceID +:+ "_kyber.key").

(** [SaveKeyPair] answers the file system after the call and its error
    ([None] for [nil]). *)
Definition SaveKeyPair (fs : os.FS) (serviceID : string)
    (dilithiumKeyPair : pqc.DilithiumKeyPair) (kyberKeyPair : pqc.KyberKeyPair)
  : os.FS * option error :=
  match os.MkdirAll fs keysDir with
  | (fs, false) =>
      (fs, Some (ErrorfWrap "failed to create keys directory" (Errorf "os")))
  | (fs, true) =>
      let dilithiumPubBytes := pqc.GetPublicKeyBytes dilithiumKeyPair in
      let dilithiumPrivBytes := pqc.GetPrivateKeyBytes dilithiumKeyPair in
      let kyberPubBytes := pqc.KGetPublicKeyBytes kyberKeyPair in
      let kyberPrivBytes := pqc.KGetPrivateKeyBytes kyberKeyPair in
      match os.WriteFile fs (dilithiumPubPath serviceID) dilithiumPubBytes with
      | (fs, false) =>
          (fs, Some (ErrorfWrap "failed to save Dilithium public key" (Errorf "os")))
      | (fs, true) =>
          match os.WriteFile fs (dilithiumPrivPath serviceID) dilithiumPrivBytes with
          | (fs, false) =>
              (fs, Some (ErrorfWrap "failed to save Dilithium private key"
                           (Errorf "os")))
          | (fs, true) =>
              match os.WriteFile fs (kyberPubPath serviceID) kyberPubBytes with
              | (fs, false) =>
                  (fs, Some (ErrorfWrap "failed to save Kyber public key"
                               (Errorf "os")))
              | (fs, true) =>
                  match os.WriteFile fs (kyberPrivPath serviceID) kyberPrivBytes with
                  | (fs, false) =>
                      (fs, Some (ErrorfWrap "failed to save Kyber private key"
                                   (Errorf "os")))
                  | (fs, true) => (fs, None)
                  end
              end
          end
      end
  end.

Definition LoadKeyPair (fs : os.FS) (serviceID : string)
  : outcome (pqc.DilithiumKeyPair * pqc.KyberKeyPair) :=
  match os.ReadFile fs (dilithiumPubPath serviceID) with
  | None => Fail (ErrorfWrap "failed to read Dilithium public key" (Errorf "os"))
  | Some dilithiumPubBytes =>
      match os.ReadFile fs (dilithiumPrivPath serviceID) with
      | None => Fail (ErrorfWrap "failed to read Dilithium private key" (Errorf "os"))
      | Some dilithiumPrivBytes =>
          match os.ReadFile fs (kyberPubPath serviceID) with
          | None => Fail (ErrorfWrap "failed to read Kyber public key" (Errorf "os"))
          | Some kyberPubBytes =>
              match os.ReadFile fs (kyberPrivPath serviceID) with
              | None =>
                  Fail (ErrorfWrap "failed to read Kyber private key" (Errorf "os"))
              | Some kyberPrivBytes =>
                  bind (wrap "failed to load Dilithium keypair"
                          (pqc.LoadDilithiumKeyPair dilithiumPubBytes
                             dilithiumPrivBytes))
                    (λ dilithiumKeyPair,
                       bind (wrap "failed to load Kyber keypair"
                               (pqc.LoadKyberKeyPair kyberPubBytes kyberPrivBytes))
                         (λ kyberKeyPair, Ok (dilithiumKeyPair, kyberKeyPair)))
              end
          end
      end
  end.

End Primitives.
End pqcfiles.

(** ** More trees of the texts this program writes *)

(** A registration: a [models.ServiceKeyPair] without a private key. *)
Definition keypair_doc (serviceID : string) (publicKey : bytes) : jsontext.doc :=
  jsontext.DObject
    [ ("service_id", jsontext.DString serviceID);
      ("public_key", jsontext.DString (base64.EncodeToString publicKey)) ].

(** The map that [registerService] marshals, its keys in the order
    [json.Marshal] writes them. *)
Definition register_data (serviceID : string) (now : time.Time) : jsontext.doc :=
  jsontext.DObject
    [ ("message", jsontext.DString "Service registered successfully");
      ("service_id", jsontext.DString serviceID);
      ("status", jsontext.DString "success");
      ("timestamp", jsontext.DString (time.RFC3339Nano now)) ].

(** A [models.KeyExchangeRequest]. *)
Definition kx_request_doc (serviceID : string) (kyberPublicKey : bytes)
    (now : time.Time) (signature : bytes) : jsontext.doc :=
  jsontext.DObject
    [ ("service_id", jsontext.DString serviceID);
      ("kyber_public_key", jsontext.DString (base64.EncodeToString kyberPublicKey));
      ("timestamp", jsontext.DString (time.RFC3339Nano now));
      ("signature", jsontext.DString (base64.EncodeToString signature)) ].

(** A [models.KeyExchangeResponse] without a shared secret. *)
Definition kx_response_doc (ciphertext : bytes) (now : time.Time) (signature : bytes)
  : jsontext.doc :=
  jsontext.DObject
    [ ("ciphertext", jsontext.DString (base64.EncodeToString ciphertext));
      ("timestamp", jsontext.DString (time.RFC3339Nano now));
      ("signature", jsontext.DString (base64.EncodeToString signature)) ].

(** ** Runs of the mesh

    The three services side by side, and the steps that change the state
    of one of them: a registration handled by the Registry, an inbound
    request handled by the gateway, an envelope handled by [processEcho]
    or [processData] of the backend.  The other handlers
    ([getPublicKey], [keyExchange], [listServices], [getStatus]) and
    [performKeyExchange] write no field. *)
Section Mesh.
Context `{SigS : mode3.Scheme} `{KemS : kyber768.Scheme}.





End Mesh.

(** ** More of the reference instance: files in memory, a network that
    reaches the backend *)
Module sample_more.

(** A file system in memory on which every call succeeds. *)
#[local] Instance fs : os.FileSystem := {|
  os.FS := gmap string bytes;
  os.MkdirAll := λ fs _, (fs, true);
  os.WriteFile := λ fs path data, (<[ path := data ]> fs, true);
  os.ReadFile := λ fs path, fs !! path;
|}.

#[local] Existing Instance sample.sig.
#[local] Existing Instance sample.kem.

(** A file system without files, and the file system after the
    Registry saved its keys to it. *)
Definition empty_fs : os.FS := (∅ : gmap string bytes).

Definition saved_fs : os.FS :=
  (pqcfiles.SaveKeyPair empty_fs "auth-service"
     (sample.keys "AUTH").1 (sample.keys "AUTH").2).1.

(** A network on which [/status] of the backend is answered by
    [getStatus] and public-key lookups reach the registry. *)
Definition mesh_net : Transport :=
  λ req,
    if String.eqb (http.OutURL req) (sample.backendURL +:+ "/status")
    then Some (backend.getStatus sample.bs sample.t0 sample.t1 "1h0m0s")
    else sample.lookups_reach sample.registry_up req.




(** The gateway's key-exchange request as the Registry receives it. *)
Definition kx_payload : bytes :=
  models.Marshal_KeyExchangeRequest
    {| models.kx_ServiceID := "api-gateway";
       models.kx_KyberPublicKey :=
         Some (pqc.KGetPublicKeyBytes (gateway.kyberKeyPair sample.gw));
       models.kx_Timestamp := sample.t0;
       models.kx_Signature :=
         Some (mode3.SignTo (pqc.PrivateKey (gateway.dilithiumKeyPair sample.gw))
                 (auth.keyExchangeRequestData "api-gateway"
                    (Some (pqc.KGetPublicKeyBytes (gateway.kyberKeyPair sample.gw)))
                    sample.t0)) |}.

Definition kx_inbound : http.Request :=
  {| http.Method := "POST"; http.Path := "/key-exchange"; http.Header := ∅;
     http.Body := Some kx_payload |}.

(** An inbound request whose path holds a question mark, as the server
    hands it over for the request line [GET /a%3Fb HTTP/1.1]. *)
Definition query_path_request : http.Request :=
  {| http.Method := "GET"; http.Path := "/a?b"; http.Header := ∅;
     http.Body := Some "" |}.

(** An inbound request whose body is the text of a tree of plain
    strings, with one header. *)
Definition tree : jsontext.doc :=
  jsontext.DObject
    [ ("n", jsontext.DString "1");
      ("deep", jsontext.DObject [ ("ok", jsontext.DLiteral "true") ]) ].

Definition tree_request : http.Request :=
  {| http.Method := "POST"; http.Path := "/echo";
     http.Header := {[ "Accept" := ["text/plain"] ]};
     http.Body := Some (jsontext.render tree) |}.

End sample_more.

(** Whether the text of a served key document is read by the gateway's
    decoder as the key [key]. *)
Definition served_key_is (text : string) (key : bytes) : bool :=
  match json.Unmarshal_map text with
  | Some keyData =>
      match pqcutil.DeserializePublicKeyFromJSON keyData with
      | Ok key' => String.eqb key' key
      | _ => false
      end
  | None => false
  end.


(** * Properties *)

(** ** The reference instance meets the library's promises *)

Lemma sample_key_roundtrip (k : sample.Key4) :
  sample.Key4_Unmarshal (sample.Key4_Bytes k) = Some k.
Proof. by destruct k. Qed.

#[local] Instance sample_sig_correct : mode3.Correct sample.sig.
Proof.
  split.
  - by intros [].
  - by intros [].
  - apply sample_key_roundtrip.
  - apply sample_key_roundtrip.
  - by intros [] msg.
  - intros seed pk sk msg Hgen.
    change (sample.generate seed = Some (pk, sk)) in Hgen.
    change (String.eqb (sample.Key4_Bytes sk +:+ sample.digest msg)
              (sample.Key4_Bytes pk +:+ sample.digest msg) = true).
    unfold sample.generate in Hgen.
    destruct seed as [seed|]; [|done].
    destruct (sample.Key4_Unmarshal _); [|done].
    injection Hgen as <- <-. apply String.eqb_refl.
Qed.

(** ** Sign and verify ([dilithium.go]) *)

Section Dilithium.
Context `{SigS : mode3.Scheme} {SigC : mode3.Correct SigS}.

Lemma len_eqb_true (s : bytes) (n : nat) : len s = n → (len s =? n)%nat = true.
Proof. intros ->. apply Nat.eqb_refl. Qed.

Lemma verify_own_signature (d : pqc.DilithiumKeyPair) (data : bytes) :
  mode3.Verify (pqc.PublicKey d) data (mode3.SignTo (pqc.PrivateKey d) data) = true →
  pqc.VerifyDilithiumSignature (pqc.GetPublicKeyBytes d) data
    (mode3.SignTo (pqc.PrivateKey d) data) = None.
Proof.
  intros Hv. unfold pqc.VerifyDilithiumSignature, pqc.GetPublicKeyBytes.
  rewrite len_eqb_true by apply mode3.PublicKey_Bytes_size. simpl.
  by rewrite mode3.PublicKey_Unmarshal_Bytes, Hv.
Qed.

(** Loading the bytes of a key pair gives that key pair back. *)
Lemma load_saved_keypair (d : pqc.DilithiumKeyPair) :
  pqc.LoadDilithiumKeyPair (pqc.GetPublicKeyBytes d) (pqc.GetPrivateKeyBytes d) = Ok d.
Proof.
  unfold pqc.LoadDilithiumKeyPair, pqc.GetPublicKeyBytes, pqc.GetPrivateKeyBytes.
  rewrite len_eqb_true by apply mode3.PublicKey_Bytes_size.
  rewrite len_eqb_true by apply mode3.PrivateKey_Bytes_size. simpl.
  rewrite mode3.PublicKey_Unmarshal_Bytes, mode3.PrivateKey_Unmarshal_Bytes.
  by destruct d.
Qed.

(** C1 (as amended). For every byte string [data] and every Dilithium key
    pair [K] that was produced by [GenerateDilithiumKeyPair], or loaded by
    [LoadDilithiumKeyPair] from the public-key and private-key bytes of one
    generated pair, [Sign] returns a signature and
    [VerifyDilithiumSignature(K.GetPublicKeyBytes(), data, signature)]
    returns [nil]. *)
Theorem sign_verify_roundtrip (rand : option bytes) (K : pqc.DilithiumKeyPair)
    (data : bytes) :
  pqc.GenerateDilithiumKeyPair rand = Ok K
  ∨ (∃ K0, pqc.GenerateDilithiumKeyPair rand = Ok K0
           ∧ pqc.LoadDilithiumKeyPair (pqc.GetPublicKeyBytes K0)
               (pqc.GetPrivateKeyBytes K0) = Ok K) →
  ∃ signature,
    pqc.Sign K data = Ok signature
    ∧ pqc.VerifyDilithiumSignature (pqc.GetPublicKeyBytes K) data signature = None.
Proof.
  intros Hvalid.
  assert (Hgen : pqc.GenerateDilithiumKeyPair rand = Ok K).
  { destruct Hvalid as [H | (K0 & HK0 & Hload)]; [done|].
    rewrite load_saved_keypair in Hload. by injection Hload as <-. }
  exists (mode3.SignTo (pqc.PrivateKey K) data). split; [done|].
  apply verify_own_signature.
  unfold pqc.GenerateDilithiumKeyPair in Hgen.
  destruct (mode3.GenerateKey rand) as [[pk sk]|] eqn:Hkey; [|done].
  injection Hgen as <-. simpl. by eapply mode3.Verify_SignTo.
Qed.

(** A public key whose length is not the parameter set's is rejected by [VerifyDilithiumSignature] with the
    size error, whatever the data and the signature are; that error is
    not the one a failed verification gives. *)
Lemma verify_rejects_key_size (publicKeyBytes data signature : bytes) :
  len publicKeyBytes ≠ mode3.PublicKeySize →
  pqc.VerifyDilithiumSignature publicKeyBytes data signature
  = Some (ErrorfSize "invalid public key size" mode3.PublicKeySize (len publicKeyBytes)).
Proof.
  intros Hne. unfold pqc.VerifyDilithiumSignature.
  by apply Nat.eqb_neq in Hne as ->.
Qed.

(** With a public key of the right size, the length of the signature is
    never looked at: the outcome is [nil], the unmarshalling error, or
    the error of a failed verification. *)
Lemma verify_ignores_signature_size (publicKeyBytes data signature : bytes) :
  len publicKeyBytes = mode3.PublicKeySize →
  pqc.VerifyDilithiumSignature publicKeyBytes data signature = None
  ∨ pqc.VerifyDilithiumSignature publicKeyBytes data signature
    = Some (Errorf "invalid signature")
  ∨ pqc.VerifyDilithiumSignature publicKeyBytes data signature
    = Some (ErrorfWrap "failed to unmarshal public key"
              (Errorf "packed public key must be of mode3.PublicKeySize bytes")).
Proof.
  intros Hlen. unfold pqc.VerifyDilithiumSignature.
  rewrite len_eqb_true by done. simpl.
  destruct (mode3.PublicKey_UnmarshalBinary _); [|by auto].
  destruct (mode3.Verify _ _ _); by auto.
Qed.

End Dilithium.

Section Kyber.
Context `{KemS : kyber768.Scheme}.

Lemma encapsulate_rejects_key_size (publicKeyBytes : bytes) (rand : option bytes) :
  len publicKeyBytes ≠ 1184 →
  pqc.EncapsulateWithPublicKey publicKeyBytes rand
  = Fail (ErrorfSize "invalid public key size" 1184 (len publicKeyBytes)).
Proof.
  intros Hne. unfold pqc.EncapsulateWithPublicKey.
  by apply Nat.eqb_neq in Hne as ->.
Qed.

Lemma decapsulate_never_fails (k : pqc.KyberKeyPair) (ciphertext : bytes) :
  ∀ e, pqc.Decapsulate k ciphertext ≠ Fail e.
Proof.
  intros e. unfold pqc.Decapsulate. by destruct (kyber768.DecapsulateTo _ _).
Qed.

End Kyber.

(** C4 (as amended). A public key of the wrong length is rejected with
    an [invalid public key size] error before any primitive is called, by
    [VerifyDilithiumSignature] for a signature key and by
    [EncapsulateWithPublicKey] for a KEM key, and that error differs from
    the [invalid signature] error of a failed verification.  The length
    of a signature is not checked: with a well-sized key the result is
    [nil], the unmarshalling error or [invalid signature].  [Decapsulate]
    does not check the ciphertext and never returns an error. *)
Theorem size_checks `{SigS : mode3.Scheme} `{KemS : kyber768.Scheme} :
  (∀ publicKeyBytes data signature,
     len publicKeyBytes ≠ mode3.PublicKeySize →
     pqc.VerifyDilithiumSignature publicKeyBytes data signature
     = Some (ErrorfSize "invalid public key size" mode3.PublicKeySize
               (len publicKeyBytes))
     ∧ pqc.VerifyDilithiumSignature publicKeyBytes data signature
       ≠ Some (Errorf "invalid signature"))
  ∧ (∀ publicKeyBytes rand,
       len publicKeyBytes ≠ 1184 →
       pqc.EncapsulateWithPublicKey publicKeyBytes rand
       = Fail (ErrorfSize "invalid public key size" 1184 (len publicKeyBytes)))
  ∧ (∀ publicKeyBytes data signature,
       len publicKeyBytes = mode3.PublicKeySize →
       pqc.VerifyDilithiumSignature publicKeyBytes data signature = None
       ∨ pqc.VerifyDilithiumSignature publicKeyBytes data signature
         = Some (Errorf "invalid signature")
       ∨ pqc.VerifyDilithiumSignature publicKeyBytes data signature
         = Some (ErrorfWrap "failed to unmarshal public key"
                   (Errorf "packed public key must be of mode3.PublicKeySize bytes")))
  ∧ (∀ k ciphertext e, pqc.Decapsulate k ciphertext ≠ Fail e).
Proof.
  split; [|split; [|split]].
  - intros pk data signature Hne.
    rewrite verify_rejects_key_size by done. by split.
  - apply @encapsulate_rejects_key_size.
  - apply @verify_ignores_signature_size.
  - apply @decapsulate_never_fails.
Qed.


(** ** The Registry, the gateway and the backend *)

Section Services.
Context `{SigS : mode3.Scheme} `{KemS : kyber768.Scheme}.

(** *** The Registry *)

Lemma getPublicKey_not_found (as_ : auth.AuthService) (serviceID : string)
    (now1 now2 : time.Time) :
  auth.serviceRegistry as_ !! serviceID = None →
  auth.getPublicKey as_ serviceID now1 now2
  = http.Error "Service not found" http.StatusNotFound.
Proof. intros H. unfold auth.getPublicKey. by rewrite H. Qed.

Lemma getPublicKey_status (as_ : auth.AuthService) (serviceID : string)
    (now1 now2 : time.Time) :
  http.StatusCode (auth.getPublicKey as_ serviceID now1 now2) = http.StatusOK →
  is_Some (auth.serviceRegistry as_ !! serviceID).
Proof.
  unfold auth.getPublicKey. destruct (auth.serviceRegistry as_ !! serviceID); [eauto|].
  simpl. discriminate.
Qed.

Lemma keyExchange_unregistered (as_ : auth.AuthService) (r : http.Request)
    (rand : option bytes) (now : time.Time) (request : models.KeyExchangeRequest) :
  http.Body r ≫= models.Decode_KeyExchangeRequest = Some request →
  auth.serviceRegistry as_ !! models.kx_ServiceID request = None →
  auth.keyExchange as_ r rand now
  = http.Error "Service not registered" http.StatusUnauthorized.
Proof. intros Hd Hreg. unfold auth.keyExchange. by rewrite Hd, Hreg. Qed.

(** *** The backend *)

Lemma backend_lookup_not_ok (bs : backend.BackendService) (net : Transport)
    (serviceID : string) (resp : http.Response) :
  backend.publicKeyCache bs !! serviceID = None →
  net (backend.lookup bs serviceID) = Some resp →
  http.StatusCode resp ≠ http.StatusOK →
  backend.getServicePublicKey bs net serviceID
  = (bs, Fail (ErrorfInt "failed to get public key, status" (http.StatusCode resp)),
     [backend.lookup bs serviceID]).
Proof.
  intros Hc Hn Hs. unfold backend.getServicePublicKey. rewrite Hc, Hn.
  by apply Nat.eqb_neq in Hs as ->.
Qed.

Lemma backend_verify_unresolved (bs bs' : backend.BackendService) (net : Transport)
    (request : models.ServiceRequest) (e : error) (calls : list http.Outbound) :
  backend.getServicePublicKey bs net (models.req_ServiceID request) = (bs', Fail e, calls) →
  backend.verifyRequest bs net request
  = (bs', Some (ErrorfWrap "failed to get public key" e), calls).
Proof. intros H. unfold backend.verifyRequest. by rewrite H. Qed.

(** The cache is the only field [getServicePublicKey] writes. *)
Lemma backend_lookup_counter (bs : backend.BackendService) (net : Transport)
    (serviceID : string) :
  backend.requestCounter (backend.getServicePublicKey bs net serviceID).1.1
  = backend.requestCounter bs.
Proof.
  unfold backend.getServicePublicKey.
  repeat (case_match; simpl; try done).
Qed.

Lemma backend_verify_counter (bs : backend.BackendService) (net : Transport)
    (request : models.ServiceRequest) :
  backend.requestCounter (backend.verifyRequest bs net request).1.1
  = backend.requestCounter bs.
Proof.
  unfold backend.verifyRequest.
  pose proof (backend_lookup_counter bs net (models.req_ServiceID request)) as H.
  destruct (backend.getServicePublicKey bs net _) as [[bs' [pk|e|m]] calls];
    simpl in *; [|done..].
  destruct (models.Marshal_ServiceRequest _); [|done..].
  by destruct (pqc.VerifyDilithiumSignature _ _ _).
Qed.

Lemma processEcho_rejected (bs bs' : backend.BackendService) (net : Transport)
    (r : http.Request) (request : models.ServiceRequest) (e : error)
    (calls : list http.Outbound) (now1 now2 : time.Time) (elapsed : string) :
  http.Body r ≫= models.Decode_ServiceRequest = Some request →
  backend.verifyRequest bs net request = (bs', Some e, calls) →
  backend.processEcho bs net r now1 now2 elapsed
  = (bs', http.Error "Request verification failed" http.StatusUnauthorized, calls).
Proof. intros Hd Hv. unfold backend.processEcho. by rewrite Hd, Hv. Qed.

Lemma processData_rejected (bs bs' : backend.BackendService) (net : Transport)
    (r : http.Request) (request : models.ServiceRequest) (e : error)
    (calls : list http.Outbound) (now1 now2 : time.Time) (elapsed : string) :
  http.Body r ≫= models.Decode_ServiceRequest = Some request →
  backend.verifyRequest bs net request = (bs', Some e, calls) →
  backend.processData bs net r now1 now2 elapsed
  = (bs', http.Error "Request verification failed" http.StatusUnauthorized, calls).
Proof. intros Hd Hv. unfold backend.processData. by rewrite Hd, Hv. Qed.

(** When the counter moved, the request was decoded and verified. *)
Lemma processEcho_counted (bs : backend.BackendService) (net : Transport)
    (r : http.Request) (now1 now2 : time.Time) (elapsed : string) :
  backend.requestCounter (backend.processEcho bs net r now1 now2 elapsed).1.1
  ≠ backend.requestCounter bs →
  ∃ request,
    http.Body r ≫= models.Decode_ServiceRequest = Some request
    ∧ (backend.verifyRequest bs net request).1.2 = None
    ∧ backend.requestCounter (backend.processEcho bs net r now1 now2 elapsed).1.1
      = backend.wrap_int (backend.requestCounter bs + 1).
Proof.
  unfold backend.processEcho.
  destruct (http.Body r ≫= models.Decode_ServiceRequest) as [request|]; [|done].
  pose proof (backend_verify_counter bs net request) as Hc.
  destruct (backend.verifyRequest bs net request) as [[bs' [e|]] calls] eqn:Hv;
    simpl in *.
  - intros Hne. by destruct (Hne Hc).
  - intros _. exists request. by rewrite Hv, Hc.
Qed.

Lemma processData_counted (bs : backend.BackendService) (net : Transport)
    (r : http.Request) (now1 now2 : time.Time) (elapsed : string) :
  backend.requestCounter (backend.processData bs net r now1 now2 elapsed).1.1
  ≠ backend.requestCounter bs →
  ∃ request,
    http.Body r ≫= models.Decode_ServiceRequest = Some request
    ∧ (backend.verifyRequest bs net request).1.2 = None
    ∧ backend.requestCounter (backend.processData bs net r now1 now2 elapsed).1.1
      = backend.wrap_int (backend.requestCounter bs + 1).
Proof.
  unfold backend.processData.
  destruct (http.Body r ≫= models.Decode_ServiceRequest) as [request|]; [|done].
  pose proof (backend_verify_counter bs net request) as Hc.
  destruct (backend.verifyRequest bs net request) as [[bs' [e|]] calls] eqn:Hv;
    simpl in *.
  - intros Hne. by destruct (Hne Hc).
  - intros _. exists request. by rewrite Hv, Hc.
Qed.

(** C2. A request whose sender is absent from the Registry's map is
    rejected as Unauthorized whatever its signature is: [keyExchange]
    answers 401 when the service ID is not a key of [serviceRegistry],
    and when the backend has to look the sender up and the Registry
    answers NotFound, [verifyRequest] returns an error and [processEcho]
    and [processData] answer 401. *)
Theorem unknown_sender_rejected :
  (∀ (as_ : auth.AuthService) (r : http.Request) (rand : option bytes)
     (now : time.Time) (request : models.KeyExchangeRequest),
     http.Body r ≫= models.Decode_KeyExchangeRequest = Some request →
     auth.serviceRegistry as_ !! models.kx_ServiceID request = None →
     auth.keyExchange as_ r rand now
     = http.Error "Service not registered" http.StatusUnauthorized)
  ∧ (∀ (as_ : auth.AuthService) (bs : backend.BackendService) (net : Transport)
       (r : http.Request) (request : models.ServiceRequest) (t1 t2 : time.Time),
       http.Body r ≫= models.Decode_ServiceRequest = Some request →
       auth.serviceRegistry as_ !! models.req_ServiceID request = None →
       backend.publicKeyCache bs !! models.req_ServiceID request = None →
       net (backend.lookup bs (models.req_ServiceID request))
       = Some (auth.getPublicKey as_ (models.req_ServiceID request) t1 t2) →
       (∃ e, backend.verifyRequest bs net request
             = (bs, Some e, [backend.lookup bs (models.req_ServiceID request)]))
       ∧ ∀ now1 now2 elapsed,
           backend.processEcho bs net r now1 now2 elapsed
           = (bs, http.Error "Request verification failed" http.StatusUnauthorized,
              [backend.lookup bs (models.req_ServiceID request)])
           ∧ backend.processData bs net r now1 now2 elapsed
             = (bs, http.Error "Request verification failed" http.StatusUnauthorized,
                [backend.lookup bs (models.req_ServiceID request)])).
Proof.
  split; [apply keyExchange_unregistered|].
  intros as_ bs net r request t1 t2 Hd Hreg Hcache Hnet.
  rewrite (getPublicKey_not_found _ _ _ _ Hreg) in Hnet.
  pose proof (backend_lookup_not_ok bs net _ _ Hcache Hnet) as Hl.
  specialize (Hl ltac:(simpl; discriminate)).
  pose proof (backend_verify_unresolved _ _ _ _ _ _ Hl) as Hv.
  split; [eauto|]. intros now1 now2 elapsed. split.
  - by eapply processEcho_rejected.
  - by eapply processData_rejected.
Qed.

(** C7. When [verifyRequest] returns an error, which it does whenever
    the sender's key cannot be resolved, [processEcho] and [processData]
    answer 401 with the plain error text, and [requestCounter] keeps its
    value; whenever a call leaves [requestCounter] changed, the request
    was decoded, [verifyRequest] returned [nil] for it, and the counter
    was incremented once. *)
Theorem rejected_request_has_no_effect :
  (∀ (bs bs' : backend.BackendService) (net : Transport) (request : models.ServiceRequest)
     (e : error) (calls : list http.Outbound),
     backend.getServicePublicKey bs net (models.req_ServiceID request)
     = (bs', Fail e, calls) →
     ∃ e', backend.verifyRequest bs net request = (bs', Some e', calls))
  ∧ (∀ (bs bs' : backend.BackendService) (net : Transport) (r : http.Request)
       (request : models.ServiceRequest) (e : error) (calls : list http.Outbound)
       (now1 now2 : time.Time) (elapsed : string),
       http.Body r ≫= models.Decode_ServiceRequest = Some request →
       backend.verifyRequest bs net request = (bs', Some e, calls) →
       backend.processEcho bs net r now1 now2 elapsed
       = (bs', http.Error "Request verification failed" http.StatusUnauthorized, calls)
       ∧ backend.processData bs net r now1 now2 elapsed
         = (bs', http.Error "Request verification failed" http.StatusUnauthorized, calls)
       ∧ backend.requestCounter bs' = backend.requestCounter bs)
  ∧ (∀ (bs : backend.BackendService) (net : Transport) (r : http.Request)
       (now1 now2 : time.Time) (elapsed : string),
       (backend.requestCounter (backend.processEcho bs net r now1 now2 elapsed).1.1
        ≠ backend.requestCounter bs →
        ∃ request,
          http.Body r ≫= models.Decode_ServiceRequest = Some request
          ∧ (backend.verifyRequest bs net request).1.2 = None
          ∧ backend.requestCounter (backend.processEcho bs net r now1 now2 elapsed).1.1
            = backend.wrap_int (backend.requestCounter bs + 1))
       ∧ (backend.requestCounter (backend.processData bs net r now1 now2 elapsed).1.1
          ≠ backend.requestCounter bs →
          ∃ request,
            http.Body r ≫= models.Decode_ServiceRequest = Some request
            ∧ (backend.verifyRequest bs net request).1.2 = None
            ∧ backend.requestCounter (backend.processData bs net r now1 now2 elapsed).1.1
              = backend.wrap_int (backend.requestCounter bs + 1))).
Proof.
  split; [|split].
  - intros * H. eexists. by apply backend_verify_unresolved.
  - intros * Hd Hv. split; [|split].
    + by eapply processEcho_rejected.
    + by eapply processData_rejected.
    + pose proof (backend_verify_counter bs net request) as Hc.
      by rewrite Hv in Hc.
  - intros. split; [apply processEcho_counted | apply processData_counted].
Qed.

(** C9. Whenever [keyExchange] answers 200, the request decoded and the
    encapsulation returned a ciphertext and a shared secret, and the
    answer is made of the ciphertext, the time and the Registry's signing
    key alone: its body is the JSON form of a [KeyExchangeResponse] whose
    [SharedSecret] is [nil], an object with exactly the members
    [ciphertext], [timestamp] and [signature] followed by a line feed,
    its headers are the content type, and its signature is the one
    [Sign] makes with the Registry's key over the JSON form of the
    response before it is signed, which holds the ciphertext, the time
    and a [null] signature.  The shared secret is used nowhere. *)
Theorem key_exchange_keeps_secret (as_ : auth.AuthService) (r : http.Request)
    (rand : option bytes) (now : time.Time) :
  http.StatusCode (auth.keyExchange as_ r rand now) = http.StatusOK →
  ∃ (request : models.KeyExchangeRequest) (ciphertext sharedSecret : bytes),
    http.Body r ≫= models.Decode_KeyExchangeRequest = Some request
    ∧ pqc.EncapsulateWithPublicKey (slice_bytes (models.kx_KyberPublicKey request)) rand
      = Ok (ciphertext, sharedSecret)
    ∧ let unsigned :=
        models.object_of
          [ json.member "ciphertext" (json.Marshal_bytes (Some ciphertext));
            json.member "timestamp" (time.MarshalJSON now);
            json.member "signature" "null" ] in
      let signature :=
        mode3.SignTo (pqc.PrivateKey (auth.dilithiumKeyPair as_)) unsigned in
      let response :=
        {| models.kxr_Ciphertext := Some ciphertext;
           models.kxr_SharedSecret := None;
           models.kxr_Timestamp := now;
           models.kxr_Signature := Some signature |} in
      pqc.Sign (auth.dilithiumKeyPair as_) unsigned = Ok signature
      ∧ auth.keyExchange as_ r rand now
        = {| http.StatusCode := http.StatusOK;
             http.RespHeader := {[ "Content-Type" := "application/json" ]};
             http.RespBody :=
               models.Marshal_KeyExchangeResponse response +:+ http.newline |}
      ∧ models.Marshal_KeyExchangeResponse response
        = models.object_of
            [ json.member "ciphertext" (json.Marshal_bytes (Some ciphertext));
              json.member "timestamp" (time.MarshalJSON now);
              json.member "signature" (json.Marshal_bytes (Some signature)) ].
Proof.
  unfold auth.keyExchange.
  destruct (http.Body r ≫= models.Decode_KeyExchangeRequest) as [request|];
    [|simpl; discriminate].
  destruct (auth.serviceRegistry as_ !! _) as [pk|]; [|simpl; discriminate].
  destruct (pqc.VerifyDilithiumSignature _ _ _); [simpl; discriminate|].
  destruct (pqc.EncapsulateWithPublicKey _ _) as [[ct ss]|e|m] eqn:He;
    [|simpl; discriminate..].
  intros _. exists request, ct, ss. split; [done|]. split; [done|].
  cbv zeta. split; [done|]. split; [|done].
  unfold pqc.Sign, http.EncodeJSON. by rewrite insert_empty.
Qed.

(** *** The gateway *)

(** C3 (as amended). In [performKeyExchange], once the Registry's reply
    has status 200 and decodes, the ciphertext is decapsulated at once:
    the result of the call is the result of [Decapsulate] on the reply's
    ciphertext, whatever the reply's signature is.  The signature is
    decoded and never verified. *)
Theorem key_exchange_reply_unverified (gw : gateway.APIGateway) (net : Transport)
    (now : time.Time) (resp : http.Response) (response : models.KeyExchangeResponse) :
  (∀ req, http.OutURL req = gateway.authServiceURL gw +:+ "/key-exchange" →
          net req = Some resp) →
  http.StatusCode resp = http.StatusOK →
  models.Decode_KeyExchangeResponse (http.RespBody resp) = Some response →
  gateway.performKeyExchange gw net now
  = match pqc.Decapsulate (gateway.kyberKeyPair gw)
            (slice_bytes (models.kxr_Ciphertext response)) with
    | Ok _ => Ok tt
    | Fail e => Fail (ErrorfWrap "failed to decapsulate shared secret" e)
    | Panics m => Panics m
    end.
Proof.
  intros Hnet Hst Hd. unfold gateway.performKeyExchange. simpl.
  rewrite Hnet by done. rewrite Hst. simpl. by rewrite Hd.
Qed.

Lemma Marshal_ServiceRequest_ok (rq : models.ServiceRequest) :
  is_Some (json.Marshal_RawMessage (models.req_Data rq)) →
  ∃ p, models.Marshal_ServiceRequest rq = Ok p.
Proof.
  intros [d Hd]. unfold models.Marshal_ServiceRequest. rewrite Hd. by eexists.
Qed.

Lemma requestData_marshals (gw : gateway.APIGateway) (r : http.Request) (body : bytes)
    (now : time.Time) :
  body = "" ∨ json.Valid body = true →
  is_Some (json.Marshal_RawMessage (models.req_Data (gateway.requestData gw r body now))).
Proof.
  intros Hvalid. unfold gateway.requestData; simpl.
  destruct Hvalid as [-> | Hv]; [by eexists|].
  destruct body as [|c body']; [by eexists|]. simpl.
  unfold json.Compact. rewrite Hv. by eexists.
Qed.

(** *** Re-registration and the key caches *)

Lemma registerService_registry (as_ : auth.AuthService) (r : http.Request)
    (now1 now2 : time.Time) (keyPair : models.ServiceKeyPair) :
  http.Body r ≫= models.Decode_ServiceKeyPair = Some keyPair →
  auth.serviceRegistry (auth.registerService as_ r now1 now2).1
  = <[ models.skp_ServiceID keyPair := models.skp_PublicKey keyPair ]>
      (auth.serviceRegistry as_).
Proof. intros Hd. unfold auth.registerService. by rewrite Hd. Qed.

Lemma registerService_serviceID (as_ : auth.AuthService) (r : http.Request)
    (now1 now2 : time.Time) (keyPair : models.ServiceKeyPair) :
  http.Body r ≫= models.Decode_ServiceKeyPair = Some keyPair →
  auth.serviceID (auth.registerService as_ r now1 now2).1 = auth.serviceID as_.
Proof. intros Hd. unfold auth.registerService. by rewrite Hd. Qed.

Lemma gateway_cache_hit (gw : gateway.APIGateway) (net : Transport)
    (serviceID : string) (key : bytes) :
  gateway.publicKeyCache gw !! serviceID = Some key →
  gateway.getServicePublicKey gw net serviceID = (gw, Ok key, []).
Proof. intros H. unfold gateway.getServicePublicKey. by rewrite H. Qed.

Lemma backend_cache_hit (bs : backend.BackendService) (net : Transport)
    (serviceID : string) (key : bytes) :
  backend.publicKeyCache bs !! serviceID = Some key →
  backend.getServicePublicKey bs net serviceID = (bs, Ok key, []).
Proof. intros H. unfold backend.getServicePublicKey. by rewrite H. Qed.

Lemma backend_lookup_keeps_cache_within (as_ : auth.AuthService)
    (bs : backend.BackendService) (net : Transport) (serviceID : string)
    (t1 t2 : time.Time) :
  cache_within_registry as_ (backend.publicKeyCache bs) →
  net (backend.lookup bs serviceID) = None
  ∨ net (backend.lookup bs serviceID) = Some (auth.getPublicKey as_ serviceID t1 t2) →
  cache_within_registry as_
    (backend.publicKeyCache (backend.getServicePublicKey bs net serviceID).1.1).
Proof.
  intros Hin Hnet. unfold backend.getServicePublicKey.
  destruct (backend.publicKeyCache bs !! serviceID); [done|].
  destruct Hnet as [-> | ->]; [done|].
  destruct (negb _) eqn:Hst; [done|].
  apply negb_false_iff, Nat.eqb_eq, getPublicKey_status in Hst.
  repeat (case_match; simpl; try done).
  intros sid key. rewrite lookup_insert. case_decide; [by subst|]. apply Hin.
Qed.


End Services.

(** ** Texts: appending, lengths, spans *)

Lemma str_app_cons (c : ascii) (a b : string) : String c a +:+ b = String c (a +:+ b).
Proof. reflexivity. Qed.

Lemma str_app_nil_l (a : string) : "" +:+ a = a.
Proof. reflexivity. Qed.

Lemma str_app_nil_r (a : string) : a +:+ "" = a.
Proof. induction a as [|c a IH]; [done|]. by rewrite str_app_cons, IH. Qed.

Lemma str_app_assoc (a b c : string) : (a +:+ b) +:+ c = a +:+ (b +:+ c).
Proof. induction a as [|x a IH]; [done|]. by rewrite !str_app_cons, IH. Qed.

Lemma len_app (a b : string) : len (a +:+ b) = len a + len b.
Proof. induction a as [|x a IH]; [done|]. rewrite str_app_cons. simpl. by rewrite IH. Qed.

Lemma take_bytes_app (v rest : string) : take_bytes (len v) (v +:+ rest) = v.
Proof.
  induction v as [|x v IH].
  - by destruct rest.
  - rewrite str_app_cons. simpl. by rewrite IH.
Qed.

Lemma span_before_app (v rest : string) : span_before (v +:+ rest) rest = v.
Proof.
  unfold span_before. rewrite len_app.
  replace (len v + len rest - len rest) with (len v) by lia.
  apply take_bytes_app.
Qed.

(** ** Plain strings under the encoder, the scanner and the decoder *)

Lemma html_safe_facts (c : ascii) :
  json.html_safe c = true →
  (byte_val c <? 128)%N = true ∧ (byte_val c <? 32)%N = false
  ∧ Ascii.eqb c "034" = false ∧ Ascii.eqb c bslash = false
  ∧ Ascii.eqb c "<" = false ∧ Ascii.eqb c ">" = false ∧ Ascii.eqb c "&" = false.
Proof.
  unfold json.html_safe. rewrite !andb_true_iff, !negb_true_iff.
  intros ((((((H1 & H2) & H3) & H4) & H5) & H6) & H7).
  repeat split; try done. apply N.ltb_ge. by apply N.leb_le.
Qed.

Lemma plain_cons (c : ascii) (s : string) :
  jsontext.plain (String c s) = true ↔ json.html_safe c = true ∧ jsontext.plain s = true.
Proof. unfold jsontext.plain. simpl. apply andb_true_iff. Qed.

Lemma plain_app (a b : string) :
  jsontext.plain (a +:+ b) = true ↔ jsontext.plain a = true ∧ jsontext.plain b = true.
Proof.
  induction a as [|c a IH].
  - rewrite str_app_nil_l. split; [by intros ->|by intros [_ ?]].
  - rewrite str_app_cons, !plain_cons, IH. tauto.
Qed.

Lemma escape_plain (s : string) :
  jsontext.plain s = true → json.escape_from 0 true s = s.
Proof.
  induction s as [|c s IH]; [done|].
  rewrite plain_cons. intros [Hc Hs]. simpl.
  destruct (html_safe_facts c Hc) as (-> & _). rewrite Hc. by rewrite IH.
Qed.

Lemma appendString_plain (s : string) :
  jsontext.plain s = true → json.appendString s = dq +:+ s +:+ dq.
Proof. intros H. unfold json.appendString. by rewrite escape_plain. Qed.

Lemma scan_string_body_plain (s rest : string) :
  jsontext.plain s = true →
  json.scan_string_body (s +:+ dq +:+ rest) = Some (s, rest).
Proof.
  induction s as [|c s IH].
  - intros _. reflexivity.
  - rewrite plain_cons. intros [Hc Hs]. rewrite str_app_cons.
    destruct (html_safe_facts c Hc) as (_ & H32 & Hq & Hb & _).
    simpl. rewrite Hq, Hb, H32. by rewrite (IH Hs).
Qed.

Lemma unquote_plain (s : string) (fuel : nat) :
  jsontext.plain s = true → len s ≤ fuel → json.unquote_from fuel s = Some s.
Proof.
  revert fuel. induction s as [|c s IH]; intros fuel.
  - intros _ _. by destruct fuel.
  - rewrite plain_cons. intros [Hc Hs] Hlen. simpl in Hlen.
    destruct fuel as [|fuel]; [lia|].
    destruct (html_safe_facts c Hc) as (H128 & H32 & Hq & Hb & _).
    simpl. rewrite Hb, Hq, H32, H128. simpl. rewrite IH; [done..|lia].
Qed.

Lemma line_separator_ascii (c : ascii) (s : string) :
  (byte_val c <? 128)%N = true → json.line_separator (String c s) = None.
Proof.
  intros H. destruct c as [b0 b1 b2 b3 b4 b5 b6 b7].
  destruct b7; [|by destruct b0, b1, b2, b3, b4, b5, b6].
  exfalso. by destruct b0, b1, b2, b3, b4, b5, b6.
Qed.

(** Inside a string literal, [Compact] copies a plain body and the
    closing quote. *)
Lemma compact_plain_body (s rest : string) :
  jsontext.plain s = true →
  json.compact_from true false 0 (s +:+ dq +:+ rest)
  = s +:+ dq +:+ json.compact_from false false 0 rest.
Proof.
  induction s as [|c s IH].
  - intros _. reflexivity.
  - rewrite plain_cons. intros [Hc Hs]. rewrite !str_app_cons.
    destruct (html_safe_facts c Hc) as (H128 & H32 & Hq & Hb & Hlt & Hgt & Hamp).
    cbn [json.compact_from]. rewrite Hlt, Hgt, Hamp. cbn [orb].
    rewrite (line_separator_ascii c _ H128), Hb, Hq. by rewrite (IH Hs).
Qed.

(** ** Rendered trees under the scanner *)

Lemma doc_induction (P : jsontext.doc → Prop) :
  (∀ s, P (jsontext.DString s)) →
  (∀ text, P (jsontext.DLiteral text)) →
  (∀ members, Forall (λ kv : string * jsontext.doc, P kv.2) members →
              P (jsontext.DObject members)) →
  ∀ d, P d.
Proof.
  intros Hs Hl Ho. fix IH 1. intros [s|text|members].
  - apply Hs.
  - apply Hl.
  - apply Ho. induction members as [|[k d] members IHm]; constructor.
    + apply IH.
    + apply IHm.
Qed.

Lemma render_object (members : list (string * jsontext.doc)) :
  jsontext.render (jsontext.DObject members) = "{" +:+ members_text members +:+ "}".
Proof. reflexivity. Qed.

Lemma members_text_cons (k : string) (d : jsontext.doc)
    (members : list (string * jsontext.doc)) :
  jsontext.plain k = true →
  members_text ((k, d) :: members)
  = dq +:+ k +:+ dq +:+ ":" +:+ jsontext.render d
    +:+ match members with
        | [] => ""
        | _ => "," +:+ members_text members
        end.
Proof.
  intros Hk. unfold members_text. simpl. unfold json.member.
  rewrite (appendString_plain k Hk).
  destruct members as [|m members]; simpl.
  - by rewrite ?str_app_assoc, str_app_nil_r.
  - by rewrite ?str_app_assoc.
Qed.

Lemma is_literal_cases (text : string) :
  jsontext.is_literal text = true → text = "true" ∨ text = "false" ∨ text = "null".
Proof.
  unfold jsontext.is_literal. rewrite !orb_true_iff, !String.eqb_eq. tauto.
Qed.

(** A rendered tree starts with a quote, a brace or a letter; the
    scanner has no white space to skip in front of it. *)
Lemma render_head (d : jsontext.doc) :
  jsontext.well_formed d = true →
  ∃ c tail, jsontext.render d = String c tail ∧ json.is_space c = false
            ∧ Ascii.eqb c "}" = false ∧ Ascii.eqb c "," = false.
Proof.
  destruct d as [s|text|members]; simpl.
  - intros Hs. rewrite (appendString_plain s Hs). by eexists _, _.
  - intros Hl. destruct (is_literal_cases _ Hl) as [-> | [-> | ->]]; by eexists _, _.
  - intros _. by eexists _, _.
Qed.

Lemma skip_ws_render (d : jsontext.doc) (rest : string) :
  jsontext.well_formed d = true →
  json.skip_ws (jsontext.render d +:+ rest) = jsontext.render d +:+ rest.
Proof.
  intros Hwf. destruct (render_head d Hwf) as (c & tail & -> & Hsp & _).
  rewrite str_app_cons. simpl. by rewrite Hsp.
Qed.

(** An opening brace is pushed on the scanner's stack when the stack has
    room for it. *)
Lemma scan_open_object (fuel : nat) (dp : N) (r : string) :
  (dp + 1 <= json.maxNestingDepth)%N →
  json.scan (S fuel) dp json.MValue (String "{" r)
  = match json.skip_ws r with
    | String "}" r1 => Some r1
    | r1 => json.scan fuel (dp + 1) json.MMembers r1
    end.
Proof.
  intros Hdp. cbn [json.scan Ascii.eqb Bool.eqb].
  by apply N.ltb_ge in Hdp as ->.
Qed.

(** One member, read by [scan] in the mode [MMembers]. *)
Lemma scan_member (fuel : nat) (dp : N) (k v after : string) :
  jsontext.plain k = true →
  json.skip_ws (v +:+ after) = v +:+ after →
  json.scan fuel dp json.MValue (v +:+ after) = Some after →
  json.scan (S fuel) dp json.MMembers (dq +:+ k +:+ dq +:+ ":" +:+ v +:+ after)
  = match json.skip_ws after with
    | String "," r4 => json.scan fuel dp json.MMembers (json.skip_ws r4)
    | String "}" r4 => Some r4
    | _ => None
    end.
Proof.
  intros Hk Hws Hv.
  change (dq +:+ k +:+ dq +:+ ":" +:+ v +:+ after)
    with (String "034" (k +:+ dq +:+ String ":" (v +:+ after))).
  cbn [json.scan]. rewrite (scan_string_body_plain k _ Hk).
  cbn [json.skip_ws json.is_space Ascii.eqb Bool.eqb orb andb].
  by rewrite Hws, Hv.
Qed.

Lemma need_object (members : list (string * jsontext.doc)) :
  jsontext.need (jsontext.DObject members) = S (members_need members).
Proof. reflexivity. Qed.

Lemma depth_object (members : list (string * jsontext.doc)) :
  jsontext.depth (jsontext.DObject members) = (1 + members_depth members)%N.
Proof. reflexivity. Qed.

Lemma depth_le_members_depth (members : list (string * jsontext.doc))
    (kv : string * jsontext.doc) :
  kv ∈ members → (jsontext.depth kv.2 <= members_depth members)%N.
Proof.
  induction members as [|m members IH]; intros Hin.
  - by apply elem_of_nil in Hin.
  - unfold members_depth in *. simpl.
    apply elem_of_cons in Hin as [-> | Hin]; [lia|]. specialize (IH Hin). lia.
Qed.

(** The members of a shallow object are shallow. *)
Lemma shallow_member (members : list (string * jsontext.doc))
    (kv : string * jsontext.doc) :
  jsontext.shallow (jsontext.DObject members) → kv ∈ members →
  jsontext.shallow kv.2.
Proof.
  unfold jsontext.shallow. rewrite depth_object. intros Hd Hin.
  pose proof (depth_le_members_depth members kv Hin). lia.
Qed.

Lemma well_formed_object (members : list (string * jsontext.doc)) :
  jsontext.well_formed (jsontext.DObject members) = true
  ↔ Forall (λ kv : string * jsontext.doc,
              jsontext.plain kv.1 = true ∧ jsontext.well_formed kv.2 = true) members.
Proof.
  simpl. induction members as [|kv members IH]; simpl.
  - split; [by constructor|done].
  - rewrite !andb_true_iff, Forall_cons, IH. tauto.
Qed.

Lemma skip_ws_members (k : string) (d : jsontext.doc)
    (members : list (string * jsontext.doc)) (rest : string) :
  jsontext.plain k = true →
  json.skip_ws (members_text ((k, d) :: members) +:+ rest)
  = members_text ((k, d) :: members) +:+ rest.
Proof. intros Hk. rewrite (members_text_cons k d members Hk). reflexivity. Qed.

Lemma members_text_head (k : string) (d : jsontext.doc)
    (members : list (string * jsontext.doc)) (rest : string) :
  jsontext.plain k = true →
  ∃ tail, members_text ((k, d) :: members) +:+ rest = String "034" tail.
Proof. intros Hk. rewrite (members_text_cons k d members Hk). by eexists. Qed.

Lemma scan_members (dp : N) (members : list (string * jsontext.doc)) :
  Forall (λ kv : string * jsontext.doc,
            jsontext.plain kv.1 = true ∧ jsontext.well_formed kv.2 = true
            ∧ ∀ fuel rest, jsontext.need kv.2 ≤ fuel →
                json.scan fuel dp json.MValue (jsontext.render kv.2 +:+ rest) = Some rest)
         members →
  members ≠ [] →
  ∀ fuel rest, members_need members ≤ fuel →
    json.scan fuel dp json.MMembers (members_text members +:+ "}" +:+ rest) = Some rest.
Proof.
  induction 1 as [|[k d] members (Hk & Hwf & Hd) Hall IH]; [done|].
  intros _ fuel rest Hfuel. simpl in Hk, Hwf, Hd.
  unfold members_need in Hfuel. simpl in Hfuel.
  fold (members_need members) in Hfuel.
  destruct fuel as [|fuel]; [lia|].
  rewrite (members_text_cons k d members Hk), ?str_app_assoc.
  rewrite scan_member; [|done|..].
  - destruct members as [|[k' d'] members].
    + reflexivity.
    + assert (Hk' : jsontext.plain k' = true) by (by inversion Hall as [|?? (? & _)]).
      change ("," +:+ ?x) with (String "," x). rewrite str_app_cons.
      cbn [json.skip_ws json.is_space Ascii.eqb Bool.eqb orb andb].
      rewrite (skip_ws_members k' d' members _ Hk'). apply IH; [done|lia].
  - by apply skip_ws_render.
  - apply Hd. lia.
Qed.

(** The scanner reads a rendered tree to its end when its stack has room
    for the objects of the tree. *)
Lemma scan_render (d : jsontext.doc) :
  jsontext.well_formed d = true →
  ∀ fuel dp rest, jsontext.need d ≤ fuel →
    (dp + jsontext.depth d <= json.maxNestingDepth)%N →
    json.scan fuel dp json.MValue (jsontext.render d +:+ rest) = Some rest.
Proof.
  induction d as [s|text|members IH] using doc_induction;
    intros Hwf fuel dp rest Hfuel Hdp.
  - simpl in *. destruct fuel as [|fuel]; [lia|].
    rewrite (appendString_plain s Hwf), ?str_app_assoc.
    change (dq +:+ s +:+ dq +:+ rest) with (String "034" (s +:+ dq +:+ rest)).
    cbn [json.scan Ascii.eqb Bool.eqb]. by rewrite scan_string_body_plain.
  - simpl in *. destruct fuel as [|fuel]; [lia|].
    destruct (is_literal_cases _ Hwf) as [-> | [-> | ->]]; reflexivity.
  - rewrite need_object in Hfuel. destruct fuel as [|fuel]; [lia|].
    rewrite depth_object in Hdp.
    rewrite render_object, ?str_app_assoc.
    apply well_formed_object in Hwf.
    change ("{" +:+ ?x) with (String "{" x).
    rewrite scan_open_object by lia.
    destruct members as [|[k d] members].
    + reflexivity.
    + assert (Hk : jsontext.plain k = true) by (by inversion Hwf as [|?? [? _]]).
      destruct (members_text_head k d members ("}" +:+ rest) Hk) as [tail Htail].
      rewrite Htail.
      cbn [json.skip_ws json.is_space Ascii.eqb Bool.eqb orb andb].
      rewrite <- Htail. apply scan_members; [|done|lia].
      rewrite Forall_forall in *. intros kv Hin.
      destruct (Hwf kv Hin) as [Hkp Hkw]. split; [done|]. split; [done|].
      intros fuel' rest' Hf. apply IH; [done..|].
      pose proof (depth_le_members_depth _ kv Hin). lia.
Qed.

Lemma len_members_text_cons (k : string) (d : jsontext.doc)
    (members : list (string * jsontext.doc)) :
  jsontext.plain k = true →
  len (jsontext.render d) + 3 + len (members_text members)
  ≤ len (members_text ((k, d) :: members)).
Proof.
  intros Hk. rewrite (members_text_cons k d members Hk), !len_app.
  destruct members; simpl; [|rewrite len_app; simpl]; lia.
Qed.

Lemma need_le_len (d : jsontext.doc) :
  jsontext.well_formed d = true → jsontext.need d ≤ len (jsontext.render d).
Proof.
  induction d as [s|text|members IH] using doc_induction; intros Hwf.
  - cbn [jsontext.render jsontext.need jsontext.well_formed] in *.
    rewrite (appendString_plain s Hwf), !len_app. simpl. lia.
  - cbn [jsontext.render jsontext.need jsontext.well_formed] in *.
    destruct (is_literal_cases _ Hwf) as [-> | [-> | ->]]; simpl; lia.
  - rewrite need_object, render_object, !len_app. simpl.
    apply well_formed_object in Hwf.
    enough (members_need members ≤ len (members_text members)) by lia.
    induction members as [|[k d] members IHm]; [simpl; lia|].
    inversion Hwf as [|?? [Hk Hd] Hwf']; subst.
    inversion IH as [|?? IHd IH']; subst. simpl in *.
    pose proof (len_members_text_cons k d members Hk).
    specialize (IHm IH' Hwf'). specialize (IHd Hd).
    unfold members_need in *. simpl. lia.
Qed.

Lemma read_value_render (d : jsontext.doc) (rest : string) :
  jsontext.well_formed d = true → jsontext.shallow d →
  json.read_value (jsontext.render d +:+ rest) = Some (jsontext.render d, rest).
Proof.
  intros Hwf Hsh. unfold json.read_value. rewrite (skip_ws_render d rest Hwf).
  rewrite (scan_render d Hwf).
  - by rewrite span_before_app.
  - unfold json.scan_fuel. rewrite len_app.
    pose proof (need_le_len d Hwf). lia.
  - by rewrite N.add_0_l.
Qed.

Lemma Valid_render (d : jsontext.doc) :
  jsontext.well_formed d = true → jsontext.shallow d →
  json.Valid (jsontext.render d) = true.
Proof.
  intros Hwf Hsh. unfold json.Valid.
  rewrite <- (str_app_nil_r (jsontext.render d)), (read_value_render d "" Hwf Hsh).
  reflexivity.
Qed.

(** ** Rendered trees under [Compact] *)

Lemma compact_string (s rest : string) :
  jsontext.plain s = true →
  json.compact_from false false 0 (dq +:+ s +:+ dq +:+ rest)
  = dq +:+ s +:+ dq +:+ json.compact_from false false 0 rest.
Proof.
  intros Hs.
  change (dq +:+ s +:+ dq +:+ rest) with (String "034" (s +:+ dq +:+ rest)).
  cbn [json.compact_from json.line_separator json.is_space Ascii.eqb Bool.eqb orb andb].
  by rewrite (compact_plain_body s rest Hs).
Qed.

Lemma compact_member_key (k rest : string) :
  jsontext.plain k = true →
  json.compact_from false false 0 (dq +:+ k +:+ dq +:+ ":" +:+ rest)
  = dq +:+ k +:+ dq +:+ ":" +:+ json.compact_from false false 0 rest.
Proof. intros Hk. by rewrite compact_string. Qed.

Lemma compact_members (members : list (string * jsontext.doc)) :
  Forall (λ kv : string * jsontext.doc,
            jsontext.plain kv.1 = true
            ∧ ∀ rest, json.compact_from false false 0 (jsontext.render kv.2 +:+ rest)
                      = jsontext.render kv.2 +:+ json.compact_from false false 0 rest)
         members →
  ∀ rest,
    json.compact_from false false 0 (members_text members +:+ "}" +:+ rest)
    = members_text members +:+ "}" +:+ json.compact_from false false 0 rest.
Proof.
  induction 1 as [|[k d] members [Hk Hd] Hall IH]; intros rest.
  - reflexivity.
  - simpl in Hk, Hd. rewrite (members_text_cons k d members Hk), ?str_app_assoc.
    rewrite (compact_member_key k _ Hk), Hd.
    destruct members as [|m members].
    + reflexivity.
    + rewrite ?str_app_assoc.
      change (json.compact_from false false 0 ("," +:+ ?x))
        with ("," +:+ json.compact_from false false 0 x).
      by rewrite IH.
Qed.

Lemma compact_render (d : jsontext.doc) :
  jsontext.well_formed d = true →
  ∀ rest, json.compact_from false false 0 (jsontext.render d +:+ rest)
          = jsontext.render d +:+ json.compact_from false false 0 rest.
Proof.
  induction d as [s|text|members IH] using doc_induction; intros Hwf rest.
  - cbn [jsontext.render jsontext.well_formed] in *.
    rewrite (appendString_plain s Hwf), ?str_app_assoc.
    by apply compact_string.
  - cbn [jsontext.render jsontext.well_formed] in *.
    destruct (is_literal_cases _ Hwf) as [-> | [-> | ->]]; reflexivity.
  - rewrite render_object, ?str_app_assoc.
    change (json.compact_from false false 0 ("{" +:+ ?x))
      with ("{" +:+ json.compact_from false false 0 x).
    apply well_formed_object in Hwf.
    rewrite compact_members; [done|].
    rewrite Forall_forall in *. intros kv Hin.
    destruct (Hwf kv Hin) as [Hk Hd]. split; [done|]. by apply IH.
Qed.

Lemma Compact_render (d : jsontext.doc) :
  jsontext.well_formed d = true → jsontext.shallow d →
  json.Compact (jsontext.render d) = Some (jsontext.render d).
Proof.
  intros Hwf Hsh. unfold json.Compact. rewrite (Valid_render d Hwf Hsh).
  rewrite <- (str_app_nil_r (jsontext.render d)) at 1.
  rewrite (compact_render d Hwf ""). by rewrite str_app_nil_r.
Qed.

(** ** Rendered objects under the decoders *)

Lemma read_members_render (members : list (string * jsontext.doc)) :
  Forall (λ kv : string * jsontext.doc,
            jsontext.plain kv.1 = true ∧ jsontext.well_formed kv.2 = true
            ∧ jsontext.shallow kv.2) members →
  members ≠ [] →
  ∀ fuel rest, length members ≤ fuel →
    json.read_members fuel (members_text members +:+ "}" +:+ rest)
    = Some (member_texts members).
Proof.
  induction 1 as [|[k d] members (Hk & Hd & Hsh) Hall IH]; [done|].
  intros _ fuel rest Hfuel. simpl in Hk, Hd, Hsh, Hfuel.
  destruct fuel as [|fuel]; [lia|].
  rewrite (members_text_cons k d members Hk), ?str_app_assoc.
  change (dq +:+ k +:+ ?x) with (String "034" (k +:+ x)).
  cbn [json.read_members]. rewrite (scan_string_body_plain k _ Hk).
  change (":" +:+ ?x) with (String ":" x).
  cbn [json.skip_ws json.is_space Ascii.eqb Bool.eqb orb andb].
  rewrite (read_value_render d _ Hd Hsh).
  destruct members as [|[k' d'] members].
  - reflexivity.
  - assert (Hk' : jsontext.plain k' = true) by (by inversion Hall as [|?? [? _]]).
    change ("," +:+ ?x) with (String "," x). rewrite str_app_cons.
    cbn [json.skip_ws json.is_space Ascii.eqb Bool.eqb orb andb].
    rewrite (skip_ws_members k' d' members _ Hk').
    rewrite IH; [done|done|simpl in *; lia].
Qed.

Lemma length_le_members_text (members : list (string * jsontext.doc)) :
  Forall (λ kv : string * jsontext.doc,
            jsontext.plain kv.1 = true ∧ jsontext.well_formed kv.2 = true) members →
  length members ≤ len (members_text members).
Proof.
  induction 1 as [|[k d] members [Hk Hd] Hall IH]; [simpl; lia|].
  simpl in Hk. pose proof (len_members_text_cons k d members Hk). simpl. lia.
Qed.

Lemma object_members_render (members : list (string * jsontext.doc)) (rest : string) :
  jsontext.well_formed (jsontext.DObject members) = true →
  jsontext.shallow (jsontext.DObject members) →
  json.object_members (jsontext.render (jsontext.DObject members) +:+ rest)
  = Some (member_texts members).
Proof.
  intros Hwf Hsh. apply well_formed_object in Hwf.
  assert (Hall : Forall (λ kv : string * jsontext.doc,
                           jsontext.plain kv.1 = true ∧ jsontext.well_formed kv.2 = true
                           ∧ jsontext.shallow kv.2) members).
  { rewrite Forall_forall in *. intros kv Hin. destruct (Hwf kv Hin).
    split_and!; [done..|]. by eapply shallow_member. }
  rewrite render_object, ?str_app_assoc.
  destruct members as [|[k d] members]; [reflexivity|].
  assert (Hk : jsontext.plain k = true) by (by inversion Hwf as [|?? [? _]]).
  destruct (members_text_head k d members ("}" +:+ rest) Hk) as [tail Htail].
  change ("{" +:+ ?x) with (String "{" x). cbn [json.object_members].
  rewrite Htail.
  cbn [json.skip_ws json.is_space Ascii.eqb Bool.eqb orb andb].
  rewrite <- Htail. apply read_members_render; [done|done|].
  rewrite len_app. pose proof (length_le_members_text _ Hwf). lia.
Qed.

Lemma unquote_plain' (s : string) :
  jsontext.plain s = true → json.unquote s = Some s.
Proof. intros Hs. unfold json.unquote. by apply unquote_plain. Qed.

Lemma mapM_to_any_members (fuel : nat) (members : list (string * jsontext.doc)) :
  Forall (λ kv : string * jsontext.doc,
            jsontext.plain kv.1 = true
            ∧ json.to_any fuel (jsontext.render kv.2) = Some (jsontext.to_any kv.2))
         members →
  mapM (λ kv : string * string,
          k ← json.unquote kv.1; a ← json.to_any fuel kv.2; Some (k, a))
       (member_texts members)
  = Some (map (λ kv : string * jsontext.doc, (kv.1, jsontext.to_any kv.2)) members).
Proof.
  induction 1 as [|[k d] members [Hk Hd] Hall IH]; [done|].
  simpl in Hk, Hd. unfold member_texts in *. cbn [map mapM fst snd] in *.
  rewrite (unquote_plain' k Hk). cbn [mbind option_bind]. rewrite Hd.
  cbn [mbind option_bind]. rewrite IH. reflexivity.
Qed.

Lemma literal_body_plain (s : string) :
  jsontext.plain s = true → json.literal_body (dq +:+ s +:+ dq) = Some s.
Proof.
  intros Hs. change (dq +:+ s +:+ dq) with (String "034" (s +:+ dq +:+ "")).
  cbn [json.literal_body]. by rewrite (scan_string_body_plain s "" Hs).
Qed.

Lemma need_le_members_need (members : list (string * jsontext.doc))
    (kv : string * jsontext.doc) :
  kv ∈ members → jsontext.need kv.2 ≤ members_need members.
Proof.
  induction members as [|m members IH]; intros Hin.
  - by apply elem_of_nil in Hin.
  - unfold members_need in *. simpl.
    apply elem_of_cons in Hin as [-> | Hin]; [lia|]. specialize (IH Hin). lia.
Qed.

Lemma to_any_render (d : jsontext.doc) :
  jsontext.well_formed d = true → jsontext.shallow d →
  ∀ fuel, jsontext.need d ≤ fuel →
    json.to_any fuel (jsontext.render d) = Some (jsontext.to_any d).
Proof.
  induction d as [s|text|members IH] using doc_induction; intros Hwf Hsh fuel Hfuel.
  - cbn [jsontext.render jsontext.need jsontext.well_formed jsontext.to_any] in *.
    destruct fuel as [|fuel]; [lia|].
    rewrite (appendString_plain s Hwf).
    change (dq +:+ s +:+ dq) with (String "034" (s +:+ dq)).
    cbn [json.to_any Ascii.eqb Bool.eqb].
    change (String "034" (s +:+ dq)) with (dq +:+ s +:+ dq).
    rewrite (literal_body_plain s Hwf). cbn [mbind option_bind].
    by rewrite (unquote_plain' s Hwf).
  - cbn [jsontext.render jsontext.need jsontext.well_formed] in *.
    destruct fuel as [|fuel]; [lia|].
    destruct (is_literal_cases _ Hwf) as [-> | [-> | ->]]; reflexivity.
  - rewrite need_object in Hfuel. destruct fuel as [|fuel]; [lia|].
    pose proof (object_members_render members "" Hwf Hsh) as Hm.
    rewrite str_app_nil_r in Hm.
    rewrite render_object in *.
    change ("{" +:+ ?x) with (String "{" x) in *.
    cbn [json.to_any Ascii.eqb Bool.eqb]. rewrite Hm. cbn [mbind option_bind].
    apply well_formed_object in Hwf.
    rewrite mapM_to_any_members; [done|].
    rewrite Forall_forall in *. intros kv Hin.
    destruct (Hwf kv Hin) as [Hk Hd]. split; [done|].
    apply IH; [done|done|by eapply shallow_member|].
    pose proof (need_le_members_need members kv Hin). lia.
Qed.

Lemma Unmarshal_any_render (d : jsontext.doc) :
  jsontext.well_formed d = true → jsontext.shallow d →
  json.Unmarshal_any (jsontext.render d) = Some (jsontext.to_any d).
Proof.
  intros Hwf Hsh. unfold json.Unmarshal_any. rewrite (Valid_render d Hwf Hsh).
  rewrite <- (str_app_nil_r (jsontext.render d)) at 1.
  rewrite (read_value_render d "" Hwf Hsh).
  apply to_any_render; [done|done|]. by apply need_le_len.
Qed.

(** ** The depth of the trees this program writes *)

Lemma nestable_shallow (d : jsontext.doc) : jsontext.nestable d → jsontext.shallow d.
Proof. unfold jsontext.nestable, jsontext.shallow. lia. Qed.

Lemma shallow_string (s : string) : jsontext.nestable (jsontext.DString s).
Proof. unfold jsontext.nestable, json.maxNestingDepth. simpl. lia. Qed.

Ltac shallow :=
  unfold jsontext.shallow, jsontext.nestable, json.maxNestingDepth in *;
  cbn [jsontext.depth foldr snd fst app] in *; lia.

(** ** [base64]: decoding what was encoded *)

Lemma below_64 (f : N → bool) :
  forallb f (map N.of_nat (seq 0 64)) = true → ∀ n, (n < 64)%N → f n = true.
Proof.
  intros H n Hn. rewrite forallb_forall in H. apply H.
  apply in_map_iff. exists (N.to_nat n). split; [lia|]. apply in_seq. lia.
Qed.

Lemma sextet_roundtrip (n : N) :
  (n < 64)%N →
  base64.decode_sextet (base64.encode_sextet n) = Some n
  ∧ json.html_safe (base64.encode_sextet n) = true
  ∧ Ascii.eqb (base64.encode_sextet n) base64.pad = false
  ∧ Ascii.eqb (base64.encode_sextet n) "010" || Ascii.eqb (base64.encode_sextet n) "013"
    = false.
Proof.
  intros Hn.
  pose proof (below_64
    (λ n, match base64.decode_sextet (base64.encode_sextet n) with
          | Some m => (m =? n)%N
          | None => false
          end
          && json.html_safe (base64.encode_sextet n)
          && negb (Ascii.eqb (base64.encode_sextet n) base64.pad)
          && negb (Ascii.eqb (base64.encode_sextet n) "010"
                   || Ascii.eqb (base64.encode_sextet n) "013"))
    eq_refl n Hn) as H.
  simpl in H. rewrite !andb_true_iff, !negb_true_iff in H.
  destruct H as [[[H1 H2] H3] H4].
  destruct (base64.decode_sextet _) as [m|]; [|done].
  apply N.eqb_eq in H1 as ->. done.
Qed.

Lemma byte_of_val (c : ascii) : base64.byte_of (byte_val c) = c.
Proof.
  unfold base64.byte_of, byte_val.
  rewrite N.mod_small by apply N_ascii_bounded. apply ascii_N_embedding.
Qed.

Lemma byte_of_plus (c : ascii) (k : N) :
  base64.byte_of (k * 256 + byte_val c) = c.
Proof.
  unfold base64.byte_of.
  rewrite N.add_comm, N.Div0.mod_add. apply byte_of_val.
Qed.

Lemma sextets_of_bytes (x y z : N) :
  (x < 256)%N → (y < 256)%N → (z < 256)%N →
  (x / 4 < 64)%N ∧ (x mod 4 * 16 + y / 16 < 64)%N
  ∧ (y mod 16 * 4 + z / 64 < 64)%N ∧ (z mod 64 < 64)%N
  ∧ (x mod 4 * 16 < 64)%N ∧ (y mod 16 * 4 < 64)%N
  ∧ (x / 4 * 4 + (x mod 4 * 16 + y / 16) / 16 = x)%N
  ∧ ((x mod 4 * 16 + y / 16) * 16 + (y mod 16 * 4 + z / 64) / 4 = x mod 4 * 256 + y)%N
  ∧ ((y mod 16 * 4 + z / 64) * 64 + z mod 64 = y mod 16 * 256 + z)%N
  ∧ (x / 4 * 4 + (x mod 4 * 16) / 16 = x)%N
  ∧ ((x mod 4 * 16 + y / 16) * 16 + (y mod 16 * 4) / 4 = x mod 4 * 256 + y)%N.
Proof.
  intros Hx Hy Hz.
  assert ((x mod 4 * 16 + y / 16) / 16 = x mod 4)%N as ->.
  { rewrite N.add_comm, N.div_add by done.
    rewrite (N.div_small (y / 16) 16); [done|].
    by apply N.Div0.div_lt_upper_bound. }
  assert ((y mod 16 * 4 + z / 64) / 4 = y mod 16)%N as ->.
  { rewrite N.add_comm, N.div_add by done.
    rewrite (N.div_small (z / 64) 4); [done|].
    by apply N.Div0.div_lt_upper_bound. }
  rewrite !N.div_mul by done.
  pose proof (N.div_mod x 4 ltac:(done)). pose proof (N.mod_lt x 4 ltac:(done)).
  pose proof (N.div_mod y 16 ltac:(done)). pose proof (N.mod_lt y 16 ltac:(done)).
  pose proof (N.div_mod z 64 ltac:(done)). pose proof (N.mod_lt z 64 ltac:(done)).
  generalize dependent (x / 4)%N. generalize dependent (x mod 4)%N.
  generalize dependent (y / 16)%N. generalize dependent (y mod 16)%N.
  generalize dependent (z / 64)%N. generalize dependent (z mod 64)%N.
  intros. repeat split; lia.
Qed.

Lemma string_induction3 (P : string → Prop) :
  P "" →
  (∀ a, P (String a "")) →
  (∀ a b, P (String a (String b ""))) →
  (∀ a b c s, P s → P (String a (String b (String c s)))) →
  ∀ s, P s.
Proof.
  intros H0 H1 H2 H3. fix IH 1. intros [|a [|b [|c s]]].
  - apply H0.
  - apply H1.
  - apply H2.
  - apply H3, IH.
Qed.

Lemma decode_quanta_encode (src : bytes) :
  base64.decode_quanta (base64.EncodeToString src) = Some src.
Proof.
  induction src as [|a|a b|a b c s IH] using string_induction3.
  - reflexivity.
  - pose proof (N_ascii_bounded a) as Ha. fold (byte_val a) in Ha.
    destruct (sextets_of_bytes (byte_val a) 0 0 Ha) as
      (H1 & _ & _ & _ & H2 & _ & _ & _ & _ & E1 & _); [lia..|].
    destruct (sextet_roundtrip _ H1) as (D1 & _).
    destruct (sextet_roundtrip _ H2) as (D2 & _).
    cbn [base64.EncodeToString base64.decode_quanta]. rewrite D1, D2.
    rewrite Ascii.eqb_refl. cbn [andb String.eqb].
    by rewrite E1, byte_of_val.
  - pose proof (N_ascii_bounded a) as Ha. fold (byte_val a) in Ha.
    pose proof (N_ascii_bounded b) as Hb. fold (byte_val b) in Hb.
    destruct (sextets_of_bytes (byte_val a) (byte_val b) 0 Ha Hb) as
      (H1 & H2 & _ & _ & _ & H3 & E1 & _ & _ & _ & E2); [lia|].
    destruct (sextet_roundtrip _ H1) as (D1 & _).
    destruct (sextet_roundtrip _ H2) as (D2 & _).
    destruct (sextet_roundtrip _ H3) as (D3 & _ & P3 & _).
    cbn [base64.EncodeToString base64.decode_quanta]. rewrite D1, D2, P3, D3.
    rewrite Ascii.eqb_refl. cbn [String.eqb].
    by rewrite E1, E2, byte_of_val, byte_of_plus.
  - pose proof (N_ascii_bounded a) as Ha. fold (byte_val a) in Ha.
    pose proof (N_ascii_bounded b) as Hb. fold (byte_val b) in Hb.
    pose proof (N_ascii_bounded c) as Hc. fold (byte_val c) in Hc.
    destruct (sextets_of_bytes (byte_val a) (byte_val b) (byte_val c) Ha Hb Hc) as
      (H1 & H2 & H3 & H4 & _ & _ & E1 & E2 & E3 & _).
    destruct (sextet_roundtrip _ H1) as (D1 & _).
    destruct (sextet_roundtrip _ H2) as (D2 & _).
    destruct (sextet_roundtrip _ H3) as (D3 & _ & P3 & _).
    destruct (sextet_roundtrip _ H4) as (D4 & _ & P4 & _).
    cbn [base64.EncodeToString base64.decode_quanta].
    rewrite D1, D2, P3, D3, P4, D4, IH.
    by rewrite E1, E2, E3, byte_of_val, !byte_of_plus.
Qed.

Lemma encode_clean (src : bytes) :
  base64.drop_newlines (base64.EncodeToString src) = base64.EncodeToString src
  ∧ jsontext.plain (base64.EncodeToString src) = true.
Proof.
  induction src as [|a|a b|a b c s [IH1 IH2]] using string_induction3.
  - done.
  - pose proof (N_ascii_bounded a) as Ha. fold (byte_val a) in Ha.
    destruct (sextets_of_bytes (byte_val a) 0 0 Ha) as
      (H1 & _ & _ & _ & H2 & _); [lia..|].
    destruct (sextet_roundtrip _ H1) as (_ & S1 & _ & N1).
    destruct (sextet_roundtrip _ H2) as (_ & S2 & _ & N2).
    cbn [base64.EncodeToString base64.drop_newlines]. rewrite N1, N2.
    split; [reflexivity|]. unfold jsontext.plain. simpl. by rewrite S1, S2.
  - pose proof (N_ascii_bounded a) as Ha. fold (byte_val a) in Ha.
    pose proof (N_ascii_bounded b) as Hb. fold (byte_val b) in Hb.
    destruct (sextets_of_bytes (byte_val a) (byte_val b) 0 Ha Hb) as
      (H1 & H2 & _ & _ & _ & H3 & _); [lia|].
    destruct (sextet_roundtrip _ H1) as (_ & S1 & _ & N1).
    destruct (sextet_roundtrip _ H2) as (_ & S2 & _ & N2).
    destruct (sextet_roundtrip _ H3) as (_ & S3 & _ & N3).
    cbn [base64.EncodeToString base64.drop_newlines]. rewrite N1, N2, N3.
    split; [reflexivity|]. unfold jsontext.plain. simpl. by rewrite S1, S2, S3.
  - pose proof (N_ascii_bounded a) as Ha. fold (byte_val a) in Ha.
    pose proof (N_ascii_bounded b) as Hb. fold (byte_val b) in Hb.
    pose proof (N_ascii_bounded c) as Hc. fold (byte_val c) in Hc.
    destruct (sextets_of_bytes (byte_val a) (byte_val b) (byte_val c) Ha Hb Hc) as
      (H1 & H2 & H3 & H4 & _).
    destruct (sextet_roundtrip _ H1) as (_ & S1 & _ & N1).
    destruct (sextet_roundtrip _ H2) as (_ & S2 & _ & N2).
    destruct (sextet_roundtrip _ H3) as (_ & S3 & _ & N3).
    destruct (sextet_roundtrip _ H4) as (_ & S4 & _ & N4).
    cbn [base64.EncodeToString base64.drop_newlines]. rewrite N1, N2, N3, N4, IH1.
    split; [reflexivity|]. unfold jsontext.plain in *. simpl.
    by rewrite S1, S2, S3, S4, IH2.
Qed.

(** [DecodeString] gives back the bytes that [EncodeToString] was given. *)
Lemma base64_roundtrip (src : bytes) :
  base64.DecodeString (base64.EncodeToString src) = Some src.
Proof.
  unfold base64.DecodeString. destruct (encode_clean src) as [-> _].
  apply decode_quanta_encode.
Qed.

(** ** [time]: the text of a time is written between quotes as it is *)

Lemma is_digit_safe (c : ascii) : is_digit c = true → json.html_safe c = true.
Proof. by destruct c as [[] [] [] [] [] [] [] []]. Qed.

Lemma two_digits_safe (a b : ascii) (n : N) :
  time.two_digits a b = Some n → json.html_safe a = true ∧ json.html_safe b = true.
Proof.
  unfold time.two_digits.
  destruct (is_digit a) eqn:Ha, (is_digit b) eqn:Hb; try done.
  intros _. split; by apply is_digit_safe.
Qed.

Lemma take_digits_plain (s : string) : jsontext.plain (time.take_digits s) = true.
Proof.
  induction s as [|c s IH]; [done|]. simpl.
  destruct (is_digit c) eqn:Hc; [|done].
  apply plain_cons. split; [by apply is_digit_safe|done].
Qed.

Lemma take_digits_split (s : string) :
  s = time.take_digits s +:+ drop_bytes (len (time.take_digits s)) s.
Proof.
  induction s as [|c s IH]; [done|]. simpl.
  destruct (is_digit c); [|done].
  rewrite str_app_cons. simpl. by rewrite <- IH.
Qed.

Lemma parse_zone_plain (s zone : string) :
  time.parse_zone s = Some zone → jsontext.plain s = true.
Proof.
  destruct s as [|z [|h1 [|h2 [|c [|m1 [|m2 [|x s]]]]]]]; try done.
  - simpl. destruct (Ascii.eqb z "Z") eqn:Hz; [|done].
    apply Ascii.eqb_eq in Hz as ->. done.
  - unfold time.parse_zone.
    destruct ((Ascii.eqb z "+" || Ascii.eqb z "-") && Ascii.eqb c ":") eqn:G; [|done].
    apply andb_true_iff in G as [Hsg Hc]. apply Ascii.eqb_eq in Hc as ->.
    destruct (time.two_digits h1 h2) eqn:Hh; [|done].
    destruct (time.two_digits m1 m2) eqn:Hm; [|done].
    apply two_digits_safe in Hh as [? ?]. apply two_digits_safe in Hm as [? ?].
    intros _. rewrite !plain_cons. repeat split; try done.
    apply orb_true_iff in Hsg as [Hsg|Hsg]; by apply Ascii.eqb_eq in Hsg as ->.
Qed.

Lemma split_fraction_plain (rest after : string) (fraction : option string) :
  time.split_fraction rest = (fraction, after) →
  jsontext.plain after = true → jsontext.plain rest = true.
Proof.
  destruct rest as [|c r]; simpl.
  - by intros [= _ <-].
  - destruct (Ascii.eqb c ".") eqn:Hc.
    + apply Ascii.eqb_eq in Hc as ->. intros [= _ <-] Hafter.
      apply plain_cons. split; [done|].
      rewrite (take_digits_split r). apply plain_app. split; [|done].
      apply take_digits_plain.
    + by intros [= _ <-].
Qed.

Lemma parse_plain (s : string) (t : time.Time) :
  time.parseStrictRFC3339 s = Some t → jsontext.plain s = true.
Proof.
  destruct s as [|y1 [|y2 [|y3 [|y4 [|c1 [|mo1 [|mo2 [|c2 [|d1 [|d2 [|c3 [|h1 [|h2
    [|c4 [|mi1 [|mi2 [|c5 [|s1 [|s2 rest]]]]]]]]]]]]]]]]]]]; try done.
  unfold time.parseStrictRFC3339.
  destruct (Ascii.eqb c1 "-" && Ascii.eqb c2 "-" && Ascii.eqb c3 "T"
            && Ascii.eqb c4 ":" && Ascii.eqb c5 ":") eqn:G; [|done].
  rewrite !andb_true_iff in G. destruct G as [[[[G1 G2] G3] G4] G5].
  apply Ascii.eqb_eq in G1 as ->. apply Ascii.eqb_eq in G2 as ->.
  apply Ascii.eqb_eq in G3 as ->. apply Ascii.eqb_eq in G4 as ->.
  apply Ascii.eqb_eq in G5 as ->.
  destruct (time.two_digits y1 y2) eqn:H1; [|done].
  destruct (time.two_digits y3 y4) eqn:H2; [|done].
  destruct (time.two_digits mo1 mo2) eqn:H3; [|done].
  destruct (time.two_digits d1 d2) eqn:H4; [|done].
  destruct (time.two_digits h1 h2) eqn:H5; [|done].
  destruct (time.two_digits mi1 mi2) eqn:H6; [|done].
  destruct (time.two_digits s1 s2) eqn:H7; [|done].
  apply two_digits_safe in H1 as [? ?]. apply two_digits_safe in H2 as [? ?].
  apply two_digits_safe in H3 as [? ?]. apply two_digits_safe in H4 as [? ?].
  apply two_digits_safe in H5 as [? ?]. apply two_digits_safe in H6 as [? ?].
  apply two_digits_safe in H7 as [? ?].
  match goal with |- (if ?g then _ else _) = _ → _ => destruct g; [|done] end.
  destruct (time.split_fraction rest) as [fraction after] eqn:Hsplit.
  match goal with |- (if ?g then _ else _) = _ → _ => destruct g; [|done] end.
  destruct (time.parse_zone after) as [zone|] eqn:Hzone; [|done].
  intros _. rewrite !plain_cons. repeat split; try done.
  eapply split_fraction_plain; [done|]. by eapply parse_zone_plain.
Qed.

Lemma time_text_plain (t : time.Time) :
  time.well_formed t → jsontext.plain (time.RFC3339Nano t) = true.
Proof. apply parse_plain. Qed.

Lemma unsnoc_app (s : string) (c : ascii) :
  time.unsnoc (s +:+ String c "") = Some (s, c).
Proof.
  induction s as [|x s IH]; [done|].
  rewrite str_app_cons. simpl. rewrite IH.
  by destruct (s +:+ String c "") eqn:E; [destruct s|].
Qed.

(** [UnmarshalJSON] reads back the time that [MarshalJSON] wrote. *)
Lemma UnmarshalJSON_MarshalJSON (cur t : time.Time) :
  time.well_formed t → time.UnmarshalJSON cur (time.MarshalJSON t) = Some t.
Proof.
  intros Ht. unfold time.UnmarshalJSON, time.MarshalJSON.
  change (dq +:+ time.RFC3339Nano t +:+ dq)
    with (String "034" (time.RFC3339Nano t +:+ String "034" "")).
  cbn [String.eqb Ascii.eqb Bool.eqb]. rewrite unsnoc_app. done.
Qed.

Lemma MarshalJSON_render (t : time.Time) :
  time.well_formed t →
  time.MarshalJSON t = jsontext.render (jsontext.DString (time.RFC3339Nano t)).
Proof.
  intros Ht. cbn [jsontext.render].
  by rewrite appendString_plain by by apply time_text_plain.
Qed.

(** ** Values read into typed fields *)

Lemma is_null_quoted (s : string) : json.is_null (dq +:+ s) = false.
Proof. reflexivity. Qed.

Lemma decode_string_plain (cur s : string) :
  jsontext.plain s = true → json.decode_string cur (dq +:+ s +:+ dq) = Some s.
Proof.
  intros Hs. unfold json.decode_string. rewrite is_null_quoted.
  rewrite literal_body_plain by done. simpl. by apply unquote_plain'.
Qed.

Lemma decode_bytes_Marshal_bytes (cur : option bytes) (spare b : bytes) :
  json.decode_bytes cur spare (json.Marshal_bytes (Some b)) = Some (Some b, "").
Proof.
  unfold json.decode_bytes, json.Marshal_bytes. rewrite is_null_quoted.
  change (dq +:+ base64.EncodeToString b +:+ dq)
    with (String "034" (base64.EncodeToString b +:+ dq)).
  cbv iota beta.
  change (String "034" (base64.EncodeToString b +:+ dq))
    with (dq +:+ base64.EncodeToString b +:+ dq).
  destruct (encode_clean b) as [_ Hplain].
  rewrite literal_body_plain by done. simpl.
  rewrite unquote_plain' by done. simpl.
  by rewrite base64_roundtrip.
Qed.

Lemma Marshal_bytes_render (b : bytes) :
  json.Marshal_bytes (Some b)
  = jsontext.render (jsontext.DString (base64.EncodeToString b)).
Proof.
  cbn [jsontext.render json.Marshal_bytes].
  destruct (encode_clean b) as [_ Hplain]. by rewrite appendString_plain.
Qed.

(** ** What the Registry serves and what its clients read *)

Lemma sort_key_data {A} (a b c : A) :
  json.sort_members [("service_id", a); ("public_key", b); ("timestamp", c)]
  = [("public_key", b); ("service_id", a); ("timestamp", c)].
Proof. reflexivity. Qed.

Lemma Marshal_key_data (serviceID : string) (publicKey : bytes) (now : time.Time) :
  time.well_formed now →
  json.Marshal_any
    (json.AMap [ ("service_id", json.AString serviceID);
                 ("public_key", json.ABytes (Some publicKey));
                 ("timestamp", json.ATime now) ])
  = jsontext.render (key_data serviceID publicKey now).
Proof.
  intros Hnow. cbn [json.Marshal_any map fst snd]. rewrite sort_key_data.
  rewrite Marshal_bytes_render, MarshalJSON_render by done. reflexivity.
Qed.

Lemma key_data_well_formed (serviceID : string) (publicKey : bytes) (now : time.Time) :
  jsontext.plain serviceID = true → time.well_formed now →
  jsontext.well_formed (key_data serviceID publicKey now) = true.
Proof.
  intros Hsid Hnow. unfold key_data.
  cbn [jsontext.well_formed forallb fst snd].
  destruct (encode_clean publicKey) as [_ ->]. rewrite Hsid.
  by rewrite (time_text_plain now Hnow).
Qed.

Lemma key_data_shallow (serviceID : string) (publicKey : bytes) (now : time.Time) :
  jsontext.nestable (key_data serviceID publicKey now).
Proof. unfold key_data. shallow. Qed.

Lemma response_doc_shallow (serviceID : string) (now : time.Time)
    (data : jsontext.doc) (signature : bytes) :
  jsontext.nestable data →
  jsontext.shallow (response_doc serviceID now data signature).
Proof. intros Hd. unfold response_doc. shallow. Qed.

Lemma response_doc_well_formed (serviceID : string) (now : time.Time)
    (data : jsontext.doc) (signature : bytes) :
  jsontext.plain serviceID = true → time.well_formed now →
  jsontext.well_formed data = true →
  jsontext.well_formed (response_doc serviceID now data signature) = true.
Proof.
  intros Hsid Hnow Hdata. unfold response_doc.
  cbn [jsontext.well_formed forallb fst snd].
  destruct (encode_clean signature) as [_ ->]. rewrite Hsid, Hdata.
  by rewrite (time_text_plain now Hnow).
Qed.

Lemma Marshal_response_doc (serviceID : string) (now : time.Time)
    (data : jsontext.doc) (signature : bytes) :
  time.well_formed now → jsontext.well_formed data = true → jsontext.shallow data →
  models.Marshal_ServiceResponse
    {| models.resp_ServiceID := serviceID;
       models.resp_Timestamp := now;
       models.resp_Data := Some (jsontext.render data);
       models.resp_Signature := Some signature;
       models.resp_Headers := ∅;
       models.resp_Success := true;
       models.resp_Error := "" |}
  = Ok (jsontext.render (response_doc serviceID now data signature)).
Proof.
  intros Hnow Hdata Hsh. unfold models.Marshal_ServiceResponse.
  cbn [models.resp_ServiceID models.resp_Timestamp models.resp_Data
       models.resp_Signature models.resp_Headers models.resp_Success
       models.resp_Error json.Marshal_RawMessage String.eqb].
  rewrite (Compact_render data Hdata Hsh).
  unfold models.headers_field. rewrite decide_True by done.
  rewrite Marshal_bytes_render, MarshalJSON_render by done. reflexivity.
Qed.

Lemma set_ServiceResponse_service_id (raw : string) (r : models.ServiceResponse) (sp : json.spares) :
  models.set_ServiceResponse "service_id" raw (r, sp)
  = v ← json.decode_string (models.resp_ServiceID r) raw;
    Some ({| models.resp_ServiceID := v;
            models.resp_Timestamp := models.resp_Timestamp r;
            models.resp_Data := models.resp_Data r;
            models.resp_Signature := models.resp_Signature r;
            models.resp_Headers := models.resp_Headers r;
            models.resp_Success := models.resp_Success r;
            models.resp_Error := models.resp_Error r |}, sp).
Proof. reflexivity. Qed.

Lemma set_ServiceResponse_timestamp (raw : string) (r : models.ServiceResponse) (sp : json.spares) :
  models.set_ServiceResponse "timestamp" raw (r, sp)
  = v ← time.UnmarshalJSON (models.resp_Timestamp r) raw;
    Some ({| models.resp_ServiceID := models.resp_ServiceID r;
            models.resp_Timestamp := v;
            models.resp_Data := models.resp_Data r;
            models.resp_Signature := models.resp_Signature r;
            models.resp_Headers := models.resp_Headers r;
            models.resp_Success := models.resp_Success r;
            models.resp_Error := models.resp_Error r |}, sp).
Proof. reflexivity. Qed.

Lemma set_ServiceResponse_data (raw : string) (r : models.ServiceResponse) (sp : json.spares) :
  models.set_ServiceResponse "data" raw (r, sp)
  = Some ({| models.resp_ServiceID := models.resp_ServiceID r;
            models.resp_Timestamp := models.resp_Timestamp r;
            models.resp_Data := Some raw;
            models.resp_Signature := models.resp_Signature r;
            models.resp_Headers := models.resp_Headers r;
            models.resp_Success := models.resp_Success r;
            models.resp_Error := models.resp_Error r |}, sp).
Proof. reflexivity. Qed.

Lemma set_ServiceResponse_signature (raw : string) (r : models.ServiceResponse) (sp : json.spares) :
  models.set_ServiceResponse "signature" raw (r, sp)
  = '(v, s) ← json.decode_bytes (models.resp_Signature r) (json.spare sp "signature") raw;
    Some ({| models.resp_ServiceID := models.resp_ServiceID r;
            models.resp_Timestamp := models.resp_Timestamp r;
            models.resp_Data := models.resp_Data r;
            models.resp_Signature := v;
            models.resp_Headers := models.resp_Headers r;
            models.resp_Success := models.resp_Success r;
            models.resp_Error := models.resp_Error r |}, <[ "signature" := s ]> sp).
Proof. reflexivity. Qed.

Lemma set_ServiceResponse_success (r : models.ServiceResponse) (sp : json.spares) :
  models.set_ServiceResponse "success" "true" (r, sp)
  = Some ({| models.resp_ServiceID := models.resp_ServiceID r;
            models.resp_Timestamp := models.resp_Timestamp r;
            models.resp_Data := models.resp_Data r;
            models.resp_Signature := models.resp_Signature r;
            models.resp_Headers := models.resp_Headers r;
            models.resp_Success := true;
            models.resp_Error := models.resp_Error r |}, sp).
Proof. reflexivity. Qed.

Lemma Decode_response_doc (serviceID : string) (now : time.Time)
    (data : jsontext.doc) (signature : bytes) (rest : string) :
  jsontext.plain serviceID = true → time.well_formed now →
  jsontext.well_formed data = true → jsontext.nestable data →
  models.Decode_ServiceResponse
    (jsontext.render (response_doc serviceID now data signature) +:+ rest)
  = Some {| models.resp_ServiceID := serviceID;
            models.resp_Timestamp := now;
            models.resp_Data := Some (jsontext.render data);
            models.resp_Signature := Some signature;
            models.resp_Headers := ∅;
            models.resp_Success := true;
            models.resp_Error := "" |}.
Proof.
  intros Hsid Hnow Hdata Hnest.
  pose proof (response_doc_well_formed serviceID now data signature Hsid Hnow Hdata)
    as Hwf.
  pose proof (response_doc_shallow serviceID now data signature Hnest) as Hsh.
  unfold models.Decode_ServiceResponse, json.decode_struct.
  rewrite (read_value_render _ rest Hwf Hsh).
  assert (json.is_null (jsontext.render (response_doc serviceID now data signature))
          = false) as -> by reflexivity.
  pose proof (object_members_render _ "" Hwf Hsh) as Hms.
  rewrite str_app_nil_r in Hms. fold (response_doc serviceID now data signature) in Hms.
  rewrite Hms. clear Hms.
  cbn [member_texts map fst snd mbind option_bind foldl jsontext.render].
  change (json.unquote "service_id") with (Some "service_id").
  change (json.unquote "timestamp") with (Some "timestamp").
  change (json.unquote "data") with (Some "data").
  change (json.unquote "signature") with (Some "signature").
  change (json.unquote "success") with (Some "success").
  cbn [mbind option_bind].
  rewrite set_ServiceResponse_service_id.
  rewrite (appendString_plain serviceID Hsid), decode_string_plain by done.
  cbn [mbind option_bind].
  rewrite set_ServiceResponse_timestamp.
  change (json.appendString (time.RFC3339Nano now))
    with (jsontext.render (jsontext.DString (time.RFC3339Nano now))).
  rewrite <- MarshalJSON_render by done.
  rewrite UnmarshalJSON_MarshalJSON by done.
  cbn [mbind option_bind].
  rewrite set_ServiceResponse_data.
  cbn [mbind option_bind].
  rewrite set_ServiceResponse_signature.
  change (json.appendString (base64.EncodeToString signature))
    with (jsontext.render (jsontext.DString (base64.EncodeToString signature))).
  rewrite <- Marshal_bytes_render, decode_bytes_Marshal_bytes.
  cbn [mbind option_bind].
  rewrite set_ServiceResponse_success.
  reflexivity.
Qed.

Lemma Unmarshal_key_data (serviceID : string) (publicKey : bytes) (now : time.Time) :
  jsontext.plain serviceID = true → time.well_formed now →
  json.Unmarshal_map (jsontext.render (key_data serviceID publicKey now))
  = Some [ ("public_key", json.AString (base64.EncodeToString publicKey));
           ("service_id", json.AString serviceID);
           ("timestamp", json.AString (time.RFC3339Nano now)) ].
Proof.
  intros Hsid Hnow. unfold json.Unmarshal_map.
  rewrite Unmarshal_any_render;
    [done|by apply key_data_well_formed|apply nestable_shallow, key_data_shallow].
Qed.

Section Fetch.
Context `{SigS : mode3.Scheme} `{KemS : kyber768.Scheme}.

(** What [getPublicKey] writes for a registered service. *)
Lemma getPublicKey_serves (as_ : auth.AuthService) (serviceID : string)
    (publicKey : bytes) (now1 now2 : time.Time) :
  auth.serviceRegistry as_ !! serviceID = Some (Some publicKey) →
  jsontext.plain serviceID = true →
  time.well_formed now1 → time.well_formed now2 →
  ∃ signature,
    auth.getPublicKey as_ serviceID now1 now2
    = {| http.StatusCode := http.StatusOK;
         http.RespHeader := {[ "Content-Type" := "application/json" ]};
         http.RespBody :=
           jsontext.render
             (response_doc (auth.serviceID as_) now2
                (key_data serviceID publicKey now1) signature)
           +:+ http.newline |}.
Proof.
  intros Hreg Hsid Hnow1 Hnow2.
  unfold auth.getPublicKey. rewrite Hreg.
  rewrite (Marshal_key_data serviceID publicKey now1 Hnow1).
  unfold auth.sign_and_send, pqc.Sign, auth.signedResponse.
  eexists.
  rewrite Marshal_response_doc
    by (done || (by apply key_data_well_formed)
        || apply nestable_shallow, key_data_shallow).
  reflexivity.
Qed.

(** A gateway that holds no key for [serviceID] and reaches a Registry
    that does obtains the Registry's key and caches it. *)
Lemma gateway_fetches_registered_key (as_ : auth.AuthService)
    (gw : gateway.APIGateway) (net : Transport) (serviceID : string)
    (publicKey : bytes) (now1 now2 : time.Time) :
  auth.serviceRegistry as_ !! serviceID = Some (Some publicKey) →
  jsontext.plain serviceID = true → jsontext.plain (auth.serviceID as_) = true →
  time.well_formed now1 → time.well_formed now2 →
  gateway.publicKeyCache gw !! serviceID = None →
  net (gateway.lookup gw serviceID) = Some (auth.getPublicKey as_ serviceID now1 now2) →
  gateway.getServicePublicKey gw net serviceID
  = (gateway.with_cache gw (<[ serviceID := publicKey ]> (gateway.publicKeyCache gw)),
     Ok publicKey, [gateway.lookup gw serviceID]).
Proof.
  intros Hreg Hsid Has Hnow1 Hnow2 Hmiss Hnet.
  destruct (getPublicKey_serves as_ serviceID publicKey now1 now2 Hreg Hsid Hnow1 Hnow2)
    as [signature Hserved].
  unfold gateway.getServicePublicKey. rewrite Hmiss, Hnet, Hserved.
  cbn [http.StatusCode http.RespBody negb Nat.eqb http.StatusOK].
  change (negb (200 =? 200)%nat) with false. cbv iota.
  rewrite Decode_response_doc
    by (done || (by apply key_data_well_formed) || apply key_data_shallow).
  cbn [models.resp_Data slice_bytes default id].
  rewrite Unmarshal_key_data by done.
  unfold pqcutil.DeserializePublicKeyFromJSON.
  change (json.map_lookup _ "public_key")
    with (Some (json.AString (base64.EncodeToString publicKey))).
  cbv iota beta. by rewrite base64_roundtrip.
Qed.

(** A backend in the same position does not: its conversion expects an
    array of numbers and the Registry serves a base64 string. *)
Lemma backend_rejects_served_key (as_ : auth.AuthService)
    (bs : backend.BackendService) (net : Transport) (serviceID : string)
    (publicKey : bytes) (now1 now2 : time.Time) :
  auth.serviceRegistry as_ !! serviceID = Some (Some publicKey) →
  jsontext.plain serviceID = true → jsontext.plain (auth.serviceID as_) = true →
  time.well_formed now1 → time.well_formed now2 →
  backend.publicKeyCache bs !! serviceID = None →
  net (backend.lookup bs serviceID) = Some (auth.getPublicKey as_ serviceID now1 now2) →
  backend.getServicePublicKey bs net serviceID
  = (bs, Fail (Errorf "invalid public key format"), [backend.lookup bs serviceID]).
Proof.
  intros Hreg Hsid Has Hnow1 Hnow2 Hmiss Hnet.
  destruct (getPublicKey_serves as_ serviceID publicKey now1 now2 Hreg Hsid Hnow1 Hnow2)
    as [signature Hserved].
  unfold backend.getServicePublicKey. rewrite Hmiss, Hnet, Hserved.
  cbn [http.StatusCode http.RespBody].
  change (negb (http.StatusOK =? http.StatusOK)%nat) with false. cbv iota.
  rewrite Decode_response_doc
    by (done || (by apply key_data_well_formed) || apply key_data_shallow).
  cbn [models.resp_Data slice_bytes default id].
  rewrite Unmarshal_key_data by done.
  reflexivity.
Qed.

End Fetch.

Section Reregistration.
Context `{SigS : mode3.Scheme} `{KemS : kyber768.Scheme}.

(** C8 (as amended). After [registerService] has handled a registration
    of [serviceID] with [newKey], whether or not [serviceID] was in the
    map before, the Registry's map holds [newKey] for [serviceID]
    (last write wins) and [getPublicKey] answers 200 for it.  A gateway
    that holds no key for [serviceID] and asks the Registry obtains
    [newKey] and caches it.  A gateway or a backend whose cache already
    holds a key for [serviceID] keeps resolving that cached key without
    asking the Registry. *)
Theorem reregistration_last_write_wins (as_ : auth.AuthService) (r : http.Request)
    (now1 now2 : time.Time) (keyPair : models.ServiceKeyPair) :
  http.Body r ≫= models.Decode_ServiceKeyPair = Some keyPair →
  let as' := (auth.registerService as_ r now1 now2).1 in
  let serviceID := models.skp_ServiceID keyPair in
  auth.serviceRegistry as' !! serviceID = Some (models.skp_PublicKey keyPair)
  ∧ (∀ t1 t2, http.StatusCode (auth.getPublicKey as' serviceID t1 t2) = http.StatusOK)
  ∧ (∀ (gw : gateway.APIGateway) (net : Transport) (newKey : bytes) (t1 t2 : time.Time),
       models.skp_PublicKey keyPair = Some newKey →
       jsontext.plain serviceID = true → jsontext.plain (auth.serviceID as_) = true →
       time.well_formed t1 → time.well_formed t2 →
       gateway.publicKeyCache gw !! serviceID = None →
       net (gateway.lookup gw serviceID)
       = Some (auth.getPublicKey as' serviceID t1 t2) →
       gateway.getServicePublicKey gw net serviceID
       = (gateway.with_cache gw (<[ serviceID := newKey ]> (gateway.publicKeyCache gw)),
          Ok newKey, [gateway.lookup gw serviceID]))
  ∧ (∀ (gw : gateway.APIGateway) (net : Transport) (old : bytes),
       gateway.publicKeyCache gw !! serviceID = Some old →
       gateway.getServicePublicKey gw net serviceID = (gw, Ok old, []))
  ∧ (∀ (bs : backend.BackendService) (net : Transport) (old : bytes),
       backend.publicKeyCache bs !! serviceID = Some old →
       backend.getServicePublicKey bs net serviceID = (bs, Ok old, [])).
Proof.
  intros Hd as' serviceID.
  assert (Hreg : auth.serviceRegistry as' !! serviceID
                 = Some (models.skp_PublicKey keyPair)).
  { unfold as'. rewrite (registerService_registry _ _ _ _ _ Hd).
    apply lookup_insert_eq. }
  split; [exact Hreg|]. split; [|split; [|split]].
  - intros t1 t2. unfold auth.getPublicKey. rewrite Hreg.
    unfold auth.sign_and_send, pqc.Sign. reflexivity.
  - intros gw net newKey t1 t2 Hkey Hsid Has Ht1 Ht2 Hmiss Hnet.
    rewrite Hkey in Hreg.
    apply (gateway_fetches_registered_key as' gw net serviceID newKey t1 t2);
      try done.
    unfold as'. by rewrite (registerService_serviceID _ _ _ _ _ Hd).
  - intros gw net old. apply gateway_cache_hit.
  - intros bs net old. apply backend_cache_hit.
Qed.

End Reregistration.

Section Decoders.
Context `{SigS : mode3.Scheme} `{KemS : kyber768.Scheme}.

(** C6, as the code behaves. For every key the Registry holds for a
    service and serves from [getPublicKey], a gateway and a backend that
    both ask for it read the same response differently: the gateway's
    decoder, [DeserializePublicKeyFromJSON], returns the key bytes; the
    backend's inline conversion fails with [invalid public key format],
    because the key is served as a base64 string and the conversion
    accepts only an array of numbers. *)
Theorem backend_cannot_decode_served_key (as_ : auth.AuthService)
    (gw : gateway.APIGateway) (bs : backend.BackendService) (net : Transport)
    (serviceID : string) (publicKey : bytes) (now1 now2 : time.Time) :
  auth.serviceRegistry as_ !! serviceID = Some (Some publicKey) →
  jsontext.plain serviceID = true → jsontext.plain (auth.serviceID as_) = true →
  time.well_formed now1 → time.well_formed now2 →
  gateway.publicKeyCache gw !! serviceID = None →
  backend.publicKeyCache bs !! serviceID = None →
  net (gateway.lookup gw serviceID) = Some (auth.getPublicKey as_ serviceID now1 now2) →
  net (backend.lookup bs serviceID) = Some (auth.getPublicKey as_ serviceID now1 now2) →
  (gateway.getServicePublicKey gw net serviceID).1.2 = Ok publicKey
  ∧ (backend.getServicePublicKey bs net serviceID).1.2
    = Fail (Errorf "invalid public key format").
Proof.
  intros Hreg Hsid Has Hnow1 Hnow2 Hgw Hbs Hnet1 Hnet2. split.
  - by rewrite (gateway_fetches_registered_key as_ gw net serviceID publicKey now1 now2).
  - by rewrite (backend_rejects_served_key as_ bs net serviceID publicKey now1 now2).
Qed.

End Decoders.

(** ** Header maps: the order of the keys and the way back *)

Lemma insert_sorted_fresh {A} (k : string) (v : A) (l : list (string * A)) :
  k ∉ l.*1 → json.insert_sorted k v l ≡ₚ (k, v) :: l.
Proof.
  induction l as [|[k' v'] l IH]; simpl; intros Hk; [done|].
  destruct (String.eqb k k') eqn:E.
  - apply String.eqb_eq in E as ->. destruct Hk. apply elem_of_cons. by left.
  - destruct (String.ltb k k'); [done|].
    rewrite IH; [apply perm_swap|].
    intros Hin. apply Hk, elem_of_cons. by right.
Qed.

Lemma sort_members_from {A} (l acc : list (string * A)) :
  NoDup (acc.*1 ++ l.*1) →
  foldl (λ acc kv, json.insert_sorted kv.1 kv.2 acc) acc l ≡ₚ acc ++ l.
Proof.
  revert acc. induction l as [|[k v] l IH]; intros acc Hnd; simpl.
  - by rewrite app_nil_r.
  - simpl in Hnd. apply NoDup_app in Hnd as (Hacc & Hdis & Hl).
    apply NoDup_cons in Hl as [Hk Hl].
    assert (Hfresh : k ∉ acc.*1).
    { intros Hin. apply (Hdis k Hin), elem_of_cons. by left. }
    pose proof (insert_sorted_fresh k v acc Hfresh) as Hperm.
    rewrite IH.
    + rewrite Hperm. simpl. by rewrite Permutation_middle.
    + rewrite Hperm. simpl. apply NoDup_cons. split.
      * rewrite elem_of_app. intros [?|?]; done.
      * apply NoDup_app. split; [done|]. split; [|done].
        intros x Hx Hx'. apply (Hdis x Hx), elem_of_cons. by right.
Qed.

Lemma sort_members_perm {A} (l : list (string * A)) :
  NoDup l.*1 → json.sort_members l ≡ₚ l.
Proof. intros Hnd. unfold json.sort_members. by rewrite sort_members_from. Qed.

Lemma foldl_insert_list_to_map (l : list (string * string)) :
  NoDup l.*1 →
  foldl (λ (m : gmap string string) kv, <[kv.1 := kv.2]> m) ∅ l = list_to_map l.
Proof.
  induction l as [|[k v] l IH] using rev_ind; intros Hnd; [done|].
  rewrite foldl_app. simpl. rewrite fmap_app in Hnd.
  rewrite IH by by apply NoDup_app in Hnd as (? & _).
  assert (Hperm : l ++ [(k, v)] ≡ₚ (k, v) :: l) by by rewrite Permutation_app_comm.
  rewrite (list_to_map_proper (l ++ [(k, v)]) ((k, v) :: l)); [done| |done].
  by rewrite fmap_app.
Qed.

Lemma sorted_headers_to_map (m : gmap string string) :
  foldl (λ (acc : gmap string string) kv, <[kv.1 := kv.2]> acc) ∅
    (json.sort_members (map_to_list m)) = m.
Proof.
  pose proof (NoDup_fst_map_to_list m) as Hnd.
  pose proof (sort_members_perm (map_to_list m) Hnd) as Hperm.
  assert (Hnd' : NoDup (json.sort_members (map_to_list m)).*1) by by rewrite Hperm.
  rewrite (foldl_insert_list_to_map _ Hnd').
  rewrite (list_to_map_proper _ _ Hnd' Hperm).
  apply list_to_map_to_list.
Qed.

Lemma Marshal_string_map_render (m : gmap string string) :
  json.Marshal_string_map m = jsontext.render (string_map_doc m).
Proof.
  unfold json.Marshal_string_map, string_map_doc. cbn [jsontext.render].
  by rewrite map_map.
Qed.

Lemma sorted_headers_plain (m : gmap string string) :
  plain_headers m →
  Forall (λ kv : string * string,
            jsontext.plain kv.1 = true ∧ jsontext.plain kv.2 = true)
         (json.sort_members (map_to_list m)).
Proof.
  intros Hm. rewrite sort_members_perm by apply NoDup_fst_map_to_list.
  apply Forall_forall. intros [k v] Hin.
  apply elem_of_map_to_list in Hin. by apply (Hm k v).
Qed.

Lemma string_map_doc_well_formed (m : gmap string string) :
  plain_headers m → jsontext.well_formed (string_map_doc m) = true.
Proof.
  intros Hm. unfold string_map_doc. cbn [jsontext.well_formed].
  pose proof (sorted_headers_plain m Hm) as Hall.
  induction Hall as [|[k v] l [Hk Hv] _ IH]; [done|].
  simpl in *. by rewrite Hk, Hv, IH.
Qed.

Lemma string_members_depth (l : list (string * string)) :
  members_depth (map (λ kv : string * string, (kv.1, jsontext.DString kv.2)) l) = 0%N.
Proof. induction l as [|kv l IH]; [done|]. unfold members_depth in *. simpl. by rewrite IH. Qed.

Lemma string_map_doc_depth (m : gmap string string) :
  jsontext.depth (string_map_doc m) = 1%N.
Proof. unfold string_map_doc. by rewrite depth_object, string_members_depth. Qed.

Lemma string_map_doc_shallow (m : gmap string string) :
  jsontext.shallow (string_map_doc m).
Proof. unfold jsontext.shallow. rewrite string_map_doc_depth. done. Qed.

Lemma decode_members_plain (l : list (string * string)) (acc : gmap string string) :
  Forall (λ kv : string * string,
            jsontext.plain kv.1 = true ∧ jsontext.plain kv.2 = true) l →
  foldl (λ acc (kv : string * string),
           m ← acc; k ← json.unquote kv.1; v ← json.decode_string "" kv.2;
           Some (<[k := v]> m))
        (Some acc)
        (member_texts (map (λ kv : string * string, (kv.1, jsontext.DString kv.2)) l))
  = Some (foldl (λ (m : gmap string string) kv, <[kv.1 := kv.2]> m) acc l).
Proof.
  intros Hall. revert acc.
  induction Hall as [|[k v] l [Hk Hv] _ IH]; intros acc; [done|].
  cbn [map member_texts foldl fst snd mbind option_bind jsontext.render].
  rewrite (unquote_plain' k Hk). cbn [mbind option_bind].
  rewrite (appendString_plain v Hv), (decode_string_plain "" v Hv).
  cbn [mbind option_bind]. apply IH.
Qed.

(** A header map of plain strings is read back as it was written. *)
Lemma decode_string_map_render (m : gmap string string) :
  plain_headers m →
  json.decode_string_map ∅ (jsontext.render (string_map_doc m)) = Some m.
Proof.
  intros Hm. unfold json.decode_string_map.
  assert (json.is_null (jsontext.render (string_map_doc m)) = false) as ->
    by reflexivity.
  pose proof (object_members_render
                (map (λ kv : string * string, (kv.1, jsontext.DString kv.2))
                   (json.sort_members (map_to_list m))) ""
                (string_map_doc_well_formed m Hm) (string_map_doc_shallow m)) as Hms.
  rewrite str_app_nil_r in Hms. fold (string_map_doc m) in Hms. rewrite Hms.
  cbn [mbind option_bind].
  rewrite (decode_members_plain _ ∅ (sorted_headers_plain m Hm)).
  by rewrite sorted_headers_to_map.
Qed.

(** ** The envelope a gateway signs and a backend reads *)

Lemma Marshal_signature_render (signature : option bytes) :
  json.Marshal_bytes signature
  = jsontext.render
      match signature with
      | Some s => jsontext.DString (base64.EncodeToString s)
      | None => jsontext.DLiteral "null"
      end.
Proof. destruct signature as [s|]; [apply Marshal_bytes_render|done]. Qed.

Lemma decode_signature_render (cur signature : option bytes) (spare : bytes) :
  json.decode_bytes cur spare
    (jsontext.render
       match signature with
       | Some s => jsontext.DString (base64.EncodeToString s)
       | None => jsontext.DLiteral "null"
       end)
  = Some (signature, "").
Proof.
  destruct signature as [s|]; [|done].
  rewrite <- Marshal_bytes_render. apply decode_bytes_Marshal_bytes.
Qed.

Lemma request_doc_well_formed (serviceID : string) (now : time.Time)
    (data : jsontext.doc) (signature : option bytes) (headers : gmap string string) :
  jsontext.plain serviceID = true → time.well_formed now →
  jsontext.well_formed data = true → plain_headers headers →
  jsontext.well_formed (request_doc serviceID now data signature headers) = true.
Proof.
  intros Hsid Hnow Hdata Hh. unfold request_doc.
  cbn [jsontext.well_formed forallb fst snd app].
  rewrite Hsid, Hdata, (time_text_plain now Hnow).
  assert (jsontext.well_formed
            match signature with
            | Some s => jsontext.DString (base64.EncodeToString s)
            | None => jsontext.DLiteral "null"
            end = true) as ->.
  { destruct signature as [s|]; [|done]. by destruct (encode_clean s). }
  destruct (decide (headers = ∅)); [done|].
  cbn [forallb fst snd]. by rewrite (string_map_doc_well_formed headers Hh).
Qed.

Lemma request_doc_shallow (serviceID : string) (now : time.Time)
    (data : jsontext.doc) (signature : option bytes) (headers : gmap string string) :
  jsontext.nestable data →
  jsontext.shallow (request_doc serviceID now data signature headers).
Proof.
  intros Hd. unfold request_doc.
  assert (jsontext.depth
            match signature with
            | Some s => jsontext.DString (base64.EncodeToString s)
            | None => jsontext.DLiteral "null"
            end = 0%N) as Hs by (by destruct signature).
  pose proof (string_map_doc_depth headers) as Hh.
  unfold jsontext.shallow, jsontext.nestable, json.maxNestingDepth in *.
  destruct (decide (headers = ∅));
    cbn [jsontext.depth foldr snd fst app] in *; rewrite Hs; lia.
Qed.

Lemma Marshal_request_doc (serviceID : string) (now : time.Time)
    (data : jsontext.doc) (signature : option bytes) (headers : gmap string string) :
  time.well_formed now → jsontext.well_formed data = true → jsontext.shallow data →
  models.Marshal_ServiceRequest
    {| models.req_ServiceID := serviceID;
       models.req_Timestamp := now;
       models.req_Data := Some (jsontext.render data);
       models.req_Signature := signature;
       models.req_Headers := headers |}
  = Ok (jsontext.render (request_doc serviceID now data signature headers)).
Proof.
  intros Hnow Hdata Hsh. unfold models.Marshal_ServiceRequest.
  cbn [models.req_ServiceID models.req_Timestamp models.req_Data
       models.req_Signature models.req_Headers json.Marshal_RawMessage].
  rewrite (Compact_render data Hdata Hsh).
  unfold models.headers_field, request_doc.
  rewrite Marshal_signature_render, MarshalJSON_render by done.
  destruct (decide (headers = ∅)); [done|].
  by rewrite Marshal_string_map_render.
Qed.

Lemma set_ServiceRequest_service_id (raw : string) (r : models.ServiceRequest) (sp : json.spares) :
  models.set_ServiceRequest "service_id" raw (r, sp)
  = v ← json.decode_string (models.req_ServiceID r) raw;
    Some ({| models.req_ServiceID := v;
            models.req_Timestamp := models.req_Timestamp r;
            models.req_Data := models.req_Data r;
            models.req_Signature := models.req_Signature r;
            models.req_Headers := models.req_Headers r |}, sp).
Proof. reflexivity. Qed.

Lemma set_ServiceRequest_timestamp (raw : string) (r : models.ServiceRequest) (sp : json.spares) :
  models.set_ServiceRequest "timestamp" raw (r, sp)
  = v ← time.UnmarshalJSON (models.req_Timestamp r) raw;
    Some ({| models.req_ServiceID := models.req_ServiceID r;
            models.req_Timestamp := v;
            models.req_Data := models.req_Data r;
            models.req_Signature := models.req_Signature r;
            models.req_Headers := models.req_Headers r |}, sp).
Proof. reflexivity. Qed.

Lemma set_ServiceRequest_data (raw : string) (r : models.ServiceRequest) (sp : json.spares) :
  models.set_ServiceRequest "data" raw (r, sp)
  = Some ({| models.req_ServiceID := models.req_ServiceID r;
            models.req_Timestamp := models.req_Timestamp r;
            models.req_Data := Some raw;
            models.req_Signature := models.req_Signature r;
            models.req_Headers := models.req_Headers r |}, sp).
Proof. reflexivity. Qed.

Lemma set_ServiceRequest_signature (raw : string) (r : models.ServiceRequest) (sp : json.spares) :
  models.set_ServiceRequest "signature" raw (r, sp)
  = '(v, s) ← json.decode_bytes (models.req_Signature r) (json.spare sp "signature") raw;
    Some ({| models.req_ServiceID := models.req_ServiceID r;
            models.req_Timestamp := models.req_Timestamp r;
            models.req_Data := models.req_Data r;
            models.req_Signature := v;
            models.req_Headers := models.req_Headers r |}, <[ "signature" := s ]> sp).
Proof. reflexivity. Qed.

Lemma set_ServiceRequest_headers (raw : string) (r : models.ServiceRequest) (sp : json.spares) :
  models.set_ServiceRequest "headers" raw (r, sp)
  = v ← json.decode_string_map (models.req_Headers r) raw;
    Some ({| models.req_ServiceID := models.req_ServiceID r;
            models.req_Timestamp := models.req_Timestamp r;
            models.req_Data := models.req_Data r;
            models.req_Signature := models.req_Signature r;
            models.req_Headers := v |}, sp).
Proof. reflexivity. Qed.

(** [Decode] reads an envelope of plain strings back field by field. *)
Lemma Decode_request_doc (serviceID : string) (now : time.Time)
    (data : jsontext.doc) (signature : option bytes) (headers : gmap string string)
    (rest : string) :
  jsontext.plain serviceID = true → time.well_formed now →
  jsontext.well_formed data = true → jsontext.nestable data → plain_headers headers →
  models.Decode_ServiceRequest
    (jsontext.render (request_doc serviceID now data signature headers) +:+ rest)
  = Some {| models.req_ServiceID := serviceID;
            models.req_Timestamp := now;
            models.req_Data := Some (jsontext.render data);
            models.req_Signature := signature;
            models.req_Headers := headers |}.
Proof.
  intros Hsid Hnow Hdata Hnest Hh.
  pose proof (request_doc_well_formed serviceID now data signature headers
                Hsid Hnow Hdata Hh) as Hwf.
  pose proof (request_doc_shallow serviceID now data signature headers Hnest) as Hsh.
  unfold models.Decode_ServiceRequest, json.decode_struct.
  rewrite (read_value_render _ rest Hwf Hsh).
  assert (json.is_null
            (jsontext.render (request_doc serviceID now data signature headers))
          = false) as -> by reflexivity.
  pose proof (object_members_render _ "" Hwf Hsh) as Hms.
  rewrite str_app_nil_r in Hms.
  fold (request_doc serviceID now data signature headers) in Hms.
  rewrite Hms. clear Hms Hwf Hsh.
  cbn [mbind option_bind].
  unfold member_texts, request_doc. rewrite map_app, foldl_app.
  cbn [map fst snd mbind option_bind foldl].
  change (json.unquote "service_id") with (Some "service_id").
  change (json.unquote "timestamp") with (Some "timestamp").
  change (json.unquote "data") with (Some "data").
  change (json.unquote "signature") with (Some "signature").
  cbn [mbind option_bind].
  rewrite set_ServiceRequest_service_id.
  change (jsontext.render (jsontext.DString serviceID))
    with (json.appendString serviceID).
  rewrite (appendString_plain serviceID Hsid), decode_string_plain by done.
  cbn [mbind option_bind].
  rewrite set_ServiceRequest_timestamp, <- MarshalJSON_render by done.
  rewrite UnmarshalJSON_MarshalJSON by done.
  cbn [mbind option_bind].
  rewrite set_ServiceRequest_data.
  cbn [mbind option_bind].
  rewrite set_ServiceRequest_signature, decode_signature_render.
  cbn [mbind option_bind models.req_ServiceID models.req_Timestamp models.req_Data
       models.req_Signature models.req_Headers models.zero_ServiceRequest].
  destruct (decide (headers = ∅)) as [->|Hne]; [done|].
  cbn [map fst snd foldl mbind option_bind].
  change (json.unquote "headers") with (Some "headers").
  cbn [mbind option_bind].
  rewrite set_ServiceRequest_headers.
  cbn [models.req_Headers].
  rewrite (decode_string_map_render headers Hh). reflexivity.
Qed.

(** ** The bytes signed and the bytes verified *)

Lemma render_nonempty (d : jsontext.doc) :
  jsontext.well_formed d = true → (len (jsontext.render d) =? 0)%nat = false.
Proof.
  destruct d as [s|text|members]; cbn [jsontext.render jsontext.well_formed].
  - intros Hs. by rewrite (appendString_plain s Hs).
  - by destruct text.
  - done.
Qed.

Section Canonical.
Context `{SigS : mode3.Scheme} `{KemS : kyber768.Scheme}.

(** For an inbound request whose body is empty or the text of a tree of
    plain strings with fewer than 10000 objects inside one another, and
    whose header names and values are plain strings, the backend reads
    the gateway's signed envelope back field by field, and the bytes it
    marshals for the verification are the bytes the gateway signed. *)
Lemma canonical_bytes_agree_on_plain_requests (gw : gateway.APIGateway)
    (r : http.Request) (body : bytes) (now : time.Time) (signature : bytes) :
  body = "" ∨ (∃ d, jsontext.well_formed d = true ∧ jsontext.nestable d
                    ∧ body = jsontext.render d) →
  jsontext.plain (gateway.serviceID gw) = true →
  time.well_formed now →
  plain_headers (omap head (http.Header r)) →
  let rq := gateway.requestData gw r body now in
  ∃ signed wire : bytes,
    models.Marshal_ServiceRequest rq = Ok signed
    ∧ models.Marshal_ServiceRequest (gateway.with_signature rq (Some signature))
      = Ok wire
    ∧ models.Decode_ServiceRequest wire
      = Some (gateway.with_signature rq (Some signature))
    ∧ models.Marshal_ServiceRequest
        (backend.requestData (gateway.with_signature rq (Some signature)))
      = Ok signed.
Proof.
  intros Hbody Hsid Hnow Hh rq.
  assert (∃ d, jsontext.well_formed d = true ∧ jsontext.nestable d
               ∧ models.req_Data rq = Some (jsontext.render d))
    as (d & Hd & Hnest & Hdata).
  { destruct Hbody as [->|(d & Hd & Hnest & ->)].
    - exists (jsontext.DObject []). split; [done|]. split; [shallow|done].
    - exists d. split; [done|]. split; [done|]. unfold rq, gateway.requestData.
      cbn [models.req_Data]. by rewrite (render_nonempty d Hd). }
  pose proof (nestable_shallow d Hnest) as Hsh.
  assert (Hrq : ∀ s, gateway.with_signature rq s
                     = {| models.req_ServiceID := gateway.serviceID gw;
                          models.req_Timestamp := now;
                          models.req_Data := Some (jsontext.render d);
                          models.req_Signature := s;
                          models.req_Headers := omap head (http.Header r) |}).
  { intros s. unfold gateway.with_signature. by rewrite Hdata. }
  assert (Hrq0 : rq = gateway.with_signature rq None) by done.
  exists (jsontext.render
            (request_doc (gateway.serviceID gw) now d None (omap head (http.Header r)))),
         (jsontext.render
            (request_doc (gateway.serviceID gw) now d (Some signature)
               (omap head (http.Header r)))).
  assert (Hsigned : models.Marshal_ServiceRequest rq
                    = Ok (jsontext.render
                            (request_doc (gateway.serviceID gw) now d None
                               (omap head (http.Header r))))).
  { rewrite Hrq0, Hrq. by apply Marshal_request_doc. }
  split; [exact Hsigned|]. split; [|split].
  - rewrite Hrq. by apply Marshal_request_doc.
  - rewrite Hrq. rewrite <- (str_app_nil_r (jsontext.render _)).
    by apply Decode_request_doc.
  - exact Hsigned.
Qed.

End Canonical.

(** ** More of package [pqc]: key loading, the KEM round trip, [SignRequest] *)

Lemma len_pad_to (n : nat) (c : ascii) (s : string) : len (pad_to n c s) = n.
Proof.
  revert s. induction n as [|n IH]; intros s; [done|].
  destruct s as [|a s]; simpl; by rewrite IH.
Qed.

Lemma len_repeat_byte (c : ascii) (n : nat) : len (repeat_byte c n) = n.
Proof. induction n as [|n IH]; [done|]. simpl. by rewrite IH. Qed.

Lemma sample_unpack_sized (n : nat) (s : bytes) :
  len s = n → sample.unpack n s = Some s.
Proof. intros Hlen. unfold sample.unpack. by rewrite Hlen, Nat.eqb_refl. Qed.

#[local] Instance sample_kem_correct : kyber768_Correct sample.kem.
Proof.
  split.
  - intros [seed|] pk sk Hgen; [|done]. injection Hgen as <- <-.
    change (len (pad_to 4 "0" seed +:+ repeat_byte "k" 1180) = 1184).
    by rewrite len_app, len_pad_to, len_repeat_byte.
  - intros [seed|] pk sk Hgen; [|done]. injection Hgen as <- <-.
    change (len (pad_to 4 "0" seed +:+ repeat_byte "s" 2396) = 2400).
    by rewrite len_app, len_pad_to, len_repeat_byte.
  - intros [seed|] pk sk Hgen; [|done]. injection Hgen as <- <-.
    change (sample.unpack 1184 (pad_to 4 "0" seed +:+ repeat_byte "k" 1180)
            = Some (pad_to 4 "0" seed +:+ repeat_byte "k" 1180)).
    apply sample_unpack_sized.
    by rewrite len_app, len_pad_to, len_repeat_byte.
  - intros [seed|] pk sk Hgen; [|done]. injection Hgen as <- <-.
    change (sample.unpack 2400 (pad_to 4 "0" seed +:+ repeat_byte "s" 2396)
            = Some (pad_to 4 "0" seed +:+ repeat_byte "s" 2396)).
    apply sample_unpack_sized.
    by rewrite len_app, len_pad_to, len_repeat_byte.
  - intros rand pk sk seed _.
    change ((if (len (pad_to 32 "s" seed +:+ repeat_byte "c" 1056) =? 1088)%nat
             then Some (take_bytes 32 (pad_to 32 "s" seed +:+ repeat_byte "c" 1056))
             else None)
            = Some (pad_to 32 "s" seed)).
    rewrite len_app, len_pad_to, len_repeat_byte.
    change ((32 + 1056 =? 1088)%nat) with true. cbv iota.
    rewrite <- (len_pad_to 32 "s" seed) at 1. by rewrite take_bytes_app.
Qed.

Section PqcMore.
Context `{SigS : mode3.Scheme} {SigC : mode3.Correct SigS}.
Context `{KemS : kyber768.Scheme} {KemC : kyber768_Correct KemS}.

(** A signature made with a generated key pair verifies under the bytes
    of its public key. *)
Lemma generated_key_verifies (rand : option bytes) (d : pqc.DilithiumKeyPair)
    (data : bytes) :
  pqc.GenerateDilithiumKeyPair rand = Ok d →
  pqc.VerifyDilithiumSignature (pqc.GetPublicKeyBytes d) data
    (mode3.SignTo (pqc.PrivateKey d) data) = None.
Proof.
  intros Hgen. apply verify_own_signature.
  unfold pqc.GenerateDilithiumKeyPair in Hgen.
  destruct (mode3.GenerateKey rand) as [[pk sk]|] eqn:Hkey; [|done].
  injection Hgen as <-. simpl. by eapply mode3.Verify_SignTo.
Qed.

Lemma generated_kyber_key (rand : option bytes) (k : pqc.KyberKeyPair) :
  pqc.GenerateKyberKeyPair rand = Ok k →
  kyber768.GenerateKeyPair rand = Some (pqc.KPublicKey k, pqc.KPrivateKey k).
Proof.
  unfold pqc.GenerateKyberKeyPair.
  destruct (kyber768.GenerateKeyPair rand) as [[pk sk]|]; [|done].
  by intros [= <-].
Qed.

Lemma encapsulate_with_own_key (rand : option bytes) (k : pqc.KyberKeyPair)
    (seed : bytes) :
  pqc.GenerateKyberKeyPair rand = Ok k →
  pqc.EncapsulateWithPublicKey (pqc.KGetPublicKeyBytes k) (Some seed)
  = Ok (kyber768.EncapsulateTo (pqc.KPublicKey k) seed).
Proof.
  intros Hgen. apply generated_kyber_key in Hgen.
  unfold pqc.EncapsulateWithPublicKey, pqc.KGetPublicKeyBytes.
  rewrite (PublicKey_Marshal_size _ _ _ Hgen).
  change (negb (1184 =? 1184)%nat) with false. cbv iota.
  by rewrite (PublicKey_Unpack_Marshal _ _ _ Hgen).
Qed.

Lemma decapsulate_own_ciphertext (rand : option bytes) (k : pqc.KyberKeyPair)
    (seed : bytes) :
  pqc.GenerateKyberKeyPair rand = Ok k →
  pqc.Decapsulate k (kyber768.EncapsulateTo (pqc.KPublicKey k) seed).1
  = Ok (kyber768.EncapsulateTo (pqc.KPublicKey k) seed).2.
Proof.
  intros Hgen. apply generated_kyber_key in Hgen.
  unfold pqc.Decapsulate. by rewrite (Decapsulate_Encapsulate _ _ _ seed Hgen).
Qed.

(** The holder of a generated Kyber key pair and a party that
    encapsulates against the bytes of its public key arrive at the same
    shared secret: [EncapsulateWithPublicKey] accepts the bytes
    [GetPublicKeyBytes] gives, returns the same pair as the method
    [Encapsulate] of the holder, and [Decapsulate] turns the ciphertext
    into the shared secret of that pair. *)
Theorem kyber_shared_secret_agrees (rand : option bytes) (k : pqc.KyberKeyPair)
    (seed : bytes) :
  pqc.GenerateKyberKeyPair rand = Ok k →
  ∃ ciphertext sharedSecret : bytes,
    pqc.EncapsulateWithPublicKey (pqc.KGetPublicKeyBytes k) (Some seed)
    = Ok (ciphertext, sharedSecret)
    ∧ pqc.Encapsulate k (Some seed) = Ok (ciphertext, sharedSecret)
    ∧ pqc.Decapsulate k ciphertext = Ok sharedSecret.
Proof.
  intros Hgen.
  exists (kyber768.EncapsulateTo (pqc.KPublicKey k) seed).1,
         (kyber768.EncapsulateTo (pqc.KPublicKey k) seed).2.
  rewrite <- surjective_pairing. split; [by eapply encapsulate_with_own_key|].
  split; [done|]. by eapply decapsulate_own_ciphertext.
Qed.

Lemma load_saved_kyber_keypair (rand : option bytes) (k : pqc.KyberKeyPair) :
  pqc.GenerateKyberKeyPair rand = Ok k →
  pqc.LoadKyberKeyPair (pqc.KGetPublicKeyBytes k) (pqc.KGetPrivateKeyBytes k) = Ok k.
Proof.
  intros Hgen. apply generated_kyber_key in Hgen.
  unfold pqc.LoadKyberKeyPair, pqc.KGetPublicKeyBytes, pqc.KGetPrivateKeyBytes.
  rewrite (PublicKey_Marshal_size _ _ _ Hgen), (PrivateKey_Marshal_size _ _ _ Hgen).
  change (negb (1184 =? 1184)%nat) with false.
  change (negb (2400 =? 2400)%nat) with false. cbv iota.
  rewrite (PublicKey_Unpack_Marshal _ _ _ Hgen), (PrivateKey_Unpack_Marshal _ _ _ Hgen).
  by destruct k.
Qed.

(** [LoadDilithiumKeyPair] and [LoadKyberKeyPair] look at the length of
    the public key first and at the length of the private key second,
    and reject a wrong length with an error that carries the expected and
    the actual length; no key is unpacked before both lengths are right. *)
Theorem load_checks_sizes_in_order (publicKeyBytes privateKeyBytes : bytes) :
  (len publicKeyBytes ≠ mode3.PublicKeySize →
   pqc.LoadDilithiumKeyPair publicKeyBytes privateKeyBytes
   = Fail (ErrorfSize "invalid public key size" mode3.PublicKeySize
             (len publicKeyBytes)))
  ∧ (len publicKeyBytes = mode3.PublicKeySize →
     len privateKeyBytes ≠ mode3.PrivateKeySize →
     pqc.LoadDilithiumKeyPair publicKeyBytes privateKeyBytes
     = Fail (ErrorfSize "invalid private key size" mode3.PrivateKeySize
               (len privateKeyBytes)))
  ∧ (len publicKeyBytes ≠ 1184 →
     pqc.LoadKyberKeyPair publicKeyBytes privateKeyBytes
     = Fail (ErrorfSize "invalid public key size" 1184 (len publicKeyBytes)))
  ∧ (len publicKeyBytes = 1184 → len privateKeyBytes ≠ 2400 →
     pqc.LoadKyberKeyPair publicKeyBytes privateKeyBytes
     = Fail (ErrorfSize "invalid private key size" 2400 (len privateKeyBytes))).
Proof.
  unfold pqc.LoadDilithiumKeyPair, pqc.LoadKyberKeyPair.
  repeat split.
  - intros Hne. by apply Nat.eqb_neq in Hne as ->.
  - intros -> Hne. rewrite Nat.eqb_refl. by apply Nat.eqb_neq in Hne as ->.
  - intros Hne. by apply Nat.eqb_neq in Hne as ->.
  - intros -> Hne. by apply Nat.eqb_neq in Hne as ->.
Qed.

Lemma sort_request_data {A} (a b c : A) :
  json.sort_members [("service_id", a); ("timestamp", b); ("data", c)]
  = [("data", c); ("service_id", a); ("timestamp", b)].
Proof. reflexivity. Qed.

(** [SignRequest] signs the JSON object whose members are [data],
    [service_id] and [timestamp], in that order (the keys of a map are
    written sorted), and for a generated key pair the signature it
    returns verifies over exactly those bytes under the public key of the
    pair. *)
Theorem sign_request_verifies (rand : option bytes) (d : pqc.DilithiumKeyPair)
    (serviceID : string) (now : time.Time) (data : json.any) :
  pqc.GenerateDilithiumKeyPair rand = Ok d →
  ∃ signature,
    pqcsign.SignRequest d serviceID now data = Ok signature
    ∧ len signature = mode3.SignatureSize
    ∧ pqc.VerifyDilithiumSignature (pqc.GetPublicKeyBytes d)
        (models.object_of
           [ json.member "data" (json.Marshal_any data);
             json.member "service_id" (json.appendString serviceID);
             json.member "timestamp" (time.MarshalJSON now) ])
        signature = None.
Proof.
  intros Hgen. eexists. split; [reflexivity|]. split; [apply mode3.SignTo_size|].
  unfold pqcsign.requestData. cbn [json.Marshal_any map fst snd].
  rewrite sort_request_data.
  by apply (generated_key_verifies rand).
Qed.

End PqcMore.

(** ** Key files: [filepath.Join], [SaveKeyPair], [LoadKeyPair] *)

Lemma split_nonempty (path : string) : filepath.split path ≠ [].
Proof.
  destruct path as [|c rest]; [done|]. simpl.
  destruct (Ascii.eqb c "/"); [done|]. by destruct (filepath.split rest).
Qed.

Lemma split_slash_free (name : string) :
  string_forallb (λ c, negb (Ascii.eqb c "/")) name = true →
  filepath.split name = [name].
Proof.
  induction name as [|c name IH]; [done|]. simpl.
  intros [Hc Hname]%andb_true_iff. apply negb_true_iff in Hc as ->.
  by rewrite IH.
Qed.

(** A name without a slash that is appended to a path extends the last
    element of the path. *)
Lemma split_app_name (path name : string) :
  string_forallb (λ c, negb (Ascii.eqb c "/")) name = true →
  ∃ init last,
    filepath.split path = init ++ [last]
    ∧ filepath.split (path +:+ name) = init ++ [last +:+ name].
Proof.
  intros Hname. induction path as [|c path (init & last & Hsplit & Happ)].
  - exists [], "". split; [done|]. rewrite str_app_nil_l. by apply split_slash_free.
  - rewrite str_app_cons. simpl. rewrite Hsplit, Happ.
    destruct (Ascii.eqb c "/").
    + by exists ("" :: init), last.
    + destruct init as [|x init]; simpl.
      * by exists [], (String c last).
      * by exists (String c x :: init), last.
Qed.

Lemma clean_step_name (rooted : bool) (out : list string) (elem : string) :
  2 < len elem → filepath.clean_step rooted out elem = elem :: out.
Proof.
  intros Hlen. unfold filepath.clean_step.
  destruct elem as [|a [|b [|c elem]]]; simpl in Hlen; try lia.
  assert (String.eqb (String a (String b (String c elem))) "" = false) as ->
    by done.
  assert (String.eqb (String a (String b (String c elem))) "." = false) as ->.
  { simpl. by destruct (Ascii.eqb a "."). }
  assert (String.eqb (String a (String b (String c elem))) ".." = false) as ->.
  { simpl. destruct (Ascii.eqb a "."); [|done]. by destruct (Ascii.eqb b "."). }
  done.
Qed.

Lemma join_snoc (sep : string) (l : list string) (x : string) :
  json.join sep (l ++ [x])
  = match l with
    | [] => x
    | _ => (json.join sep l +:+ sep) +:+ x
    end.
Proof.
  induction l as [|y l IH]; [done|].
  destruct l as [|z l].
  { change (y +:+ sep +:+ x = (y +:+ sep) +:+ x). by rewrite str_app_assoc. }
  change (json.join sep ((y :: z :: l) ++ [x]))
    with (y +:+ sep +:+ json.join sep ((z :: l) ++ [x])).
  rewrite IH.
  change (json.join sep (y :: z :: l)) with (y +:+ sep +:+ json.join sep (z :: l)).
  by rewrite !str_app_assoc.
Qed.

(** The key files of one service lie side by side: the path of each is
    one prefix, fixed by the service ID, followed by the file's suffix. *)
Lemma Join_keys_suffix (serviceID : string) :
  ∃ prefix,
    ∀ suffix, string_forallb (λ c, negb (Ascii.eqb c "/")) suffix = true →
              2 < len suffix →
              filepath.Join "keys" (serviceID +:+ suffix) = prefix +:+ suffix.
Proof.
  pose (out := λ init, foldl (filepath.clean_step false) [] init).
  assert (Hall : ∀ suffix,
            string_forallb (λ c, negb (Ascii.eqb c "/")) suffix = true →
            2 < len suffix →
            ∃ init last,
              filepath.split ("keys/" +:+ serviceID) = init ++ [last]
              ∧ filepath.Join "keys" (serviceID +:+ suffix)
                = json.join "/" (reverse (out init) ++ [last +:+ suffix])).
  { intros suffix Hfree Hlen.
    destruct (split_app_name ("keys/" +:+ serviceID) suffix Hfree)
      as (init & last & Hsplit & Happ).
    exists init, last. split; [done|].
    unfold filepath.Join. change (negb (String.eqb "keys" "")) with true. cbv iota.
    change ("keys" +:+ "/" +:+ serviceID +:+ suffix)
      with ("keys/" +:+ (serviceID +:+ suffix)).
    rewrite <- str_app_assoc. unfold filepath.Clean.
    assert (String.eqb (("keys/" +:+ serviceID) +:+ suffix) "" = false) as -> by done.
    assert (filepath.is_rooted (("keys/" +:+ serviceID) +:+ suffix) = false) as ->
      by done.
    rewrite Happ, foldl_app. cbn [foldl].
    rewrite clean_step_name by (rewrite len_app; lia).
    by rewrite reverse_cons. }
  destruct (split_app_name ("keys/" +:+ serviceID) "" eq_refl)
    as (init & last & Hsplit & _).
  exists (match reverse (out init) with
          | [] => last
          | _ => (json.join "/" (reverse (out init)) +:+ "/") +:+ last
          end).
  intros suffix Hfree Hlen.
  destruct (Hall suffix Hfree Hlen) as (init' & last' & Hsplit' & ->).
  rewrite Hsplit in Hsplit'. apply app_inj_tail in Hsplit' as [<- <-].
  rewrite join_snoc. destruct (reverse (out init)); [done|].
  by rewrite !str_app_assoc.
Qed.

Lemma str_app_inv_head (a b c : string) : a +:+ b = a +:+ c → b = c.
Proof.
  induction a as [|x a IH]; [done|]. rewrite !str_app_cons. intros [= H]. by apply IH.
Qed.

(** The four key files of a service are four different files. *)
Lemma key_paths_differ (serviceID : string) :
  pqcfiles.dilithiumPubPath serviceID ≠ pqcfiles.dilithiumPrivPath serviceID
  ∧ pqcfiles.dilithiumPubPath serviceID ≠ pqcfiles.kyberPubPath serviceID
  ∧ pqcfiles.dilithiumPubPath serviceID ≠ pqcfiles.kyberPrivPath serviceID
  ∧ pqcfiles.dilithiumPrivPath serviceID ≠ pqcfiles.kyberPubPath serviceID
  ∧ pqcfiles.dilithiumPrivPath serviceID ≠ pqcfiles.kyberPrivPath serviceID
  ∧ pqcfiles.kyberPubPath serviceID ≠ pqcfiles.kyberPrivPath serviceID.
Proof.
  destruct (Join_keys_suffix serviceID) as [prefix Hjoin].
  unfold pqcfiles.dilithiumPubPath, pqcfiles.dilithiumPrivPath,
    pqcfiles.kyberPubPath, pqcfiles.kyberPrivPath, pqcfiles.keysDir.
  rewrite !Hjoin by (done || (simpl; lia)).
  repeat split; intros Heq; by apply str_app_inv_head in Heq.
Qed.

Section KeyFiles.
Context `{SigS : mode3.Scheme} {SigC : mode3.Correct SigS}.
Context `{KemS : kyber768.Scheme} {KemC : kyber768_Correct KemS}.
Context `{F : os.FileSystem} {FL : os.Lawful F}.

Lemma saved_files (fs fs' : os.FS) (serviceID : string)
    (d : pqc.DilithiumKeyPair) (k : pqc.KyberKeyPair) :
  pqcfiles.SaveKeyPair fs serviceID d k = (fs', None) →
  os.ReadFile fs' (pqcfiles.dilithiumPubPath serviceID)
  = Some (pqc.GetPublicKeyBytes d)
  ∧ os.ReadFile fs' (pqcfiles.dilithiumPrivPath serviceID)
    = Some (pqc.GetPrivateKeyBytes d)
  ∧ os.ReadFile fs' (pqcfiles.kyberPubPath serviceID)
    = Some (pqc.KGetPublicKeyBytes k)
  ∧ os.ReadFile fs' (pqcfiles.kyberPrivPath serviceID)
    = Some (pqc.KGetPrivateKeyBytes k).
Proof.
  destruct (key_paths_differ serviceID) as (H12 & H13 & H14 & H23 & H24 & H34).
  unfold pqcfiles.SaveKeyPair.
  destruct (os.MkdirAll fs pqcfiles.keysDir) as [fs0 []]; [|done].
  destruct (os.WriteFile fs0 _ _) as [fs1 []] eqn:W1; [|done].
  destruct (os.WriteFile fs1 _ _) as [fs2 []] eqn:W2; [|done].
  destruct (os.WriteFile fs2 _ _) as [fs3 []] eqn:W3; [|done].
  destruct (os.WriteFile fs3 _ _) as [fs4 []] eqn:W4; [|done].
  intros [= <-]. repeat split.
  - rewrite (os.read_other _ _ _ _ _ W4) by done.
    rewrite (os.read_other _ _ _ _ _ W3) by done.
    rewrite (os.read_other _ _ _ _ _ W2) by done.
    apply (os.read_written _ _ _ _ W1).
  - rewrite (os.read_other _ _ _ _ _ W4) by done.
    rewrite (os.read_other _ _ _ _ _ W3) by done.
    apply (os.read_written _ _ _ _ W2).
  - rewrite (os.read_other _ _ _ _ _ W4) by done.
    apply (os.read_written _ _ _ _ W3).
  - apply (os.read_written _ _ _ _ W4).
Qed.

Lemma load_saved_files (fs fs' : os.FS) (serviceID : string) (rand : option bytes)
    (d : pqc.DilithiumKeyPair) (k : pqc.KyberKeyPair) :
  pqc.GenerateKyberKeyPair rand = Ok k →
  pqcfiles.SaveKeyPair fs serviceID d k = (fs', None) →
  pqcfiles.LoadKeyPair fs' serviceID = Ok (d, k).
Proof.
  intros Hgen Hsave.
  destruct (saved_files _ _ _ _ _ Hsave) as (R1 & R2 & R3 & R4).
  unfold pqcfiles.LoadKeyPair. rewrite R1, R2, R3, R4.
  by rewrite load_saved_keypair, (load_saved_kyber_keypair rand).
Qed.

(** After [SaveKeyPair] returned without an error, whatever the service
    ID is, the four key files of the service are four different files
    that hold the packed keys, and [LoadKeyPair] for the same service ID
    gives the saved key pairs back. *)
Theorem save_then_load (fs fs' : os.FS) (serviceID : string) (rand : option bytes)
    (d : pqc.DilithiumKeyPair) (k : pqc.KyberKeyPair) :
  pqc.GenerateKyberKeyPair rand = Ok k →
  pqcfiles.SaveKeyPair fs serviceID d k = (fs', None) →
  NoDup [ pqcfiles.dilithiumPubPath serviceID; pqcfiles.dilithiumPrivPath serviceID;
          pqcfiles.kyberPubPath serviceID; pqcfiles.kyberPrivPath serviceID ]
  ∧ os.ReadFile fs' (pqcfiles.dilithiumPubPath serviceID)
    = Some (pqc.GetPublicKeyBytes d)
  ∧ os.ReadFile fs' (pqcfiles.dilithiumPrivPath serviceID)
    = Some (pqc.GetPrivateKeyBytes d)
  ∧ os.ReadFile fs' (pqcfiles.kyberPubPath serviceID)
    = Some (pqc.KGetPublicKeyBytes k)
  ∧ os.ReadFile fs' (pqcfiles.kyberPrivPath serviceID)
    = Some (pqc.KGetPrivateKeyBytes k)
  ∧ pqcfiles.LoadKeyPair fs' serviceID = Ok (d, k).
Proof.
  intros Hgen Hsave. split; [|split_and!].
  - destruct (key_paths_differ serviceID) as (H12 & H13 & H14 & H23 & H24 & H34).
    repeat (apply NoDup_cons; split); try apply NoDup_nil_2;
      rewrite ?elem_of_cons, ?elem_of_nil; tauto.
  - by destruct (saved_files _ _ _ _ _ Hsave) as (R1 & R2 & R3 & R4).
  - by destruct (saved_files _ _ _ _ _ Hsave) as (R1 & R2 & R3 & R4).
  - by destruct (saved_files _ _ _ _ _ Hsave) as (R1 & R2 & R3 & R4).
  - by destruct (saved_files _ _ _ _ _ Hsave) as (R1 & R2 & R3 & R4).
  - by apply (load_saved_files fs fs' serviceID rand).
Qed.

(** A service that starts on the key files an earlier run saved comes up
    with the saved keys and does not generate new ones: whatever the
    random sources would give, the Registry holds the saved key pairs and
    enters the saved public key under its own ID, and the gateway holds
    the saved key pairs and an empty key cache, and the backend holds the
    saved key pairs, an empty key cache and a request counter of 0. *)
Theorem restart_keeps_identity (fs fs' : os.FS) (rand : option bytes)
    (d : pqc.DilithiumKeyPair) (k : pqc.KyberKeyPair) :
  pqc.GenerateKyberKeyPair rand = Ok k →
  (pqcfiles.SaveKeyPair fs "auth-service" d k = (fs', None) →
   ∀ rand1 rand2,
     auth.NewAuthService (pqcfiles.LoadKeyPair fs' "auth-service") rand1 rand2
     = Ok {| auth.dilithiumKeyPair := d; auth.kyberKeyPair := k;
             auth.serviceRegistry :=
               {[ "auth-service" := Some (pqc.GetPublicKeyBytes d) ]};
             auth.serviceID := "auth-service" |})
  ∧ (pqcfiles.SaveKeyPair fs "api-gateway" d k = (fs', None) →
     ∀ rand1 rand2 authURL backendURL,
       gateway.NewAPIGateway (pqcfiles.LoadKeyPair fs' "api-gateway") rand1 rand2
         authURL backendURL
       = Ok {| gateway.dilithiumKeyPair := d; gateway.kyberKeyPair := k;
               gateway.serviceID := "api-gateway";
               gateway.authServiceURL := authURL;
               gateway.backendServiceURL := backendURL;
               gateway.publicKeyCache := ∅ |})
  ∧ (pqcfiles.SaveKeyPair fs "backend-service" d k = (fs', None) →
     ∀ rand1 rand2 authURL,
       backend.NewBackendService (pqcfiles.LoadKeyPair fs' "backend-service")
         rand1 rand2 authURL
       = Ok {| backend.dilithiumKeyPair := d; backend.kyberKeyPair := k;
               backend.serviceID := "backend-service";
               backend.authServiceURL := authURL;
               backend.publicKeyCache := ∅;
               backend.requestCounter := 0 |}).
Proof.
  intros Hgen. split; [|split].
  - intros Hsave rand1 rand2. by rewrite (load_saved_files _ _ _ _ _ _ Hgen Hsave).
  - intros Hsave rand1 rand2 authURL backendURL.
    by rewrite (load_saved_files _ _ _ _ _ _ Hgen Hsave).
  - intros Hsave rand1 rand2 authURL.
    by rewrite (load_saved_files _ _ _ _ _ _ Hgen Hsave).
Qed.

(** A service that finds a key file missing does not start on old keys:
    [LoadKeyPair] fails as soon as one of the four files cannot be read,
    and the constructor then holds the keys it generated from its random
    sources. *)
Theorem first_start_generates_keys (fs : os.FS) (rand1 rand2 : option bytes)
    (d : pqc.DilithiumKeyPair) (k : pqc.KyberKeyPair) :
  pqc.GenerateDilithiumKeyPair rand1 = Ok d →
  pqc.GenerateKyberKeyPair rand2 = Ok k →
  ∀ serviceID,
    os.ReadFile fs (pqcfiles.dilithiumPubPath serviceID) = None
    ∨ os.ReadFile fs (pqcfiles.dilithiumPrivPath serviceID) = None
    ∨ os.ReadFile fs (pqcfiles.kyberPubPath serviceID) = None
    ∨ os.ReadFile fs (pqcfiles.kyberPrivPath serviceID) = None →
    (∃ e, pqcfiles.LoadKeyPair fs serviceID = Fail e)
    ∧ auth.NewAuthService (pqcfiles.LoadKeyPair fs serviceID) rand1 rand2
      = Ok {| auth.dilithiumKeyPair := d; auth.kyberKeyPair := k;
              auth.serviceRegistry :=
                {[ "auth-service" := Some (pqc.GetPublicKeyBytes d) ]};
              auth.serviceID := "auth-service" |}
    ∧ (∀ authURL backendURL,
         gateway.NewAPIGateway (pqcfiles.LoadKeyPair fs serviceID) rand1 rand2
           authURL backendURL
         = Ok {| gateway.dilithiumKeyPair := d; gateway.kyberKeyPair := k;
                 gateway.serviceID := "api-gateway";
                 gateway.authServiceURL := authURL;
                 gateway.backendServiceURL := backendURL;
                 gateway.publicKeyCache := ∅ |})
    ∧ (∀ authURL,
         backend.NewBackendService (pqcfiles.LoadKeyPair fs serviceID) rand1 rand2
           authURL
         = Ok {| backend.dilithiumKeyPair := d; backend.kyberKeyPair := k;
                 backend.serviceID := "backend-service";
                 backend.authServiceURL := authURL;
                 backend.publicKeyCache := ∅;
                 backend.requestCounter := 0 |}).
Proof.
  intros Hd Hk serviceID Hmissing.
  assert (∃ e, pqcfiles.LoadKeyPair fs serviceID = Fail e) as [e He].
  { unfold pqcfiles.LoadKeyPair.
    destruct (os.ReadFile fs (pqcfiles.dilithiumPubPath serviceID)); [|by eexists].
    destruct (os.ReadFile fs (pqcfiles.dilithiumPrivPath serviceID)); [|by eexists].
    destruct (os.ReadFile fs (pqcfiles.kyberPubPath serviceID)); [|by eexists].
    destruct (os.ReadFile fs (pqcfiles.kyberPrivPath serviceID)); [|by eexists].
    by destruct Hmissing as [?|[?|[?|?]]]. }
  split; [by exists e|]. rewrite He.
  unfold auth.NewAuthService, gateway.NewAPIGateway, backend.NewBackendService.
  by rewrite Hd, Hk.
Qed.

End KeyFiles.

(** ** More of the Registry: registrations, signed answers, key exchange *)

Lemma keypair_doc_well_formed (serviceID : string) (publicKey : bytes) :
  jsontext.plain serviceID = true →
  jsontext.well_formed (keypair_doc serviceID publicKey) = true.
Proof.
  intros Hsid. unfold keypair_doc. cbn [jsontext.well_formed forallb fst snd].
  destruct (encode_clean publicKey) as [_ ->]. by rewrite Hsid.
Qed.

Lemma Marshal_keypair_doc (serviceID : string) (publicKey : bytes) :
  models.Marshal_ServiceKeyPair
    {| models.skp_ServiceID := serviceID; models.skp_PublicKey := Some publicKey;
       models.skp_PrivateKey := None |}
  = jsontext.render (keypair_doc serviceID publicKey).
Proof.
  unfold models.Marshal_ServiceKeyPair.
  cbn [models.skp_ServiceID models.skp_PublicKey models.skp_PrivateKey
       models.is_empty_bytes].
  by rewrite Marshal_bytes_render.
Qed.

Lemma set_ServiceKeyPair_service_id (raw : string) (k : models.ServiceKeyPair) (sp : json.spares) :
  models.set_ServiceKeyPair "service_id" raw (k, sp)
  = v ← json.decode_string (models.skp_ServiceID k) raw;
    Some ({| models.skp_ServiceID := v; models.skp_PublicKey := models.skp_PublicKey k;
            models.skp_PrivateKey := models.skp_PrivateKey k |}, sp).
Proof. reflexivity. Qed.

Lemma set_ServiceKeyPair_public_key (raw : string) (k : models.ServiceKeyPair) (sp : json.spares) :
  models.set_ServiceKeyPair "public_key" raw (k, sp)
  = '(v, s) ← json.decode_bytes (models.skp_PublicKey k) (json.spare sp "public_key") raw;
    Some ({| models.skp_ServiceID := models.skp_ServiceID k; models.skp_PublicKey := v;
            models.skp_PrivateKey := models.skp_PrivateKey k |}, <[ "public_key" := s ]> sp).
Proof. reflexivity. Qed.

(** The Registry reads a registration of plain strings back as it was
    written. *)
Lemma Decode_keypair_doc (serviceID : string) (publicKey : bytes) (rest : string) :
  jsontext.plain serviceID = true →
  models.Decode_ServiceKeyPair
    (jsontext.render (keypair_doc serviceID publicKey) +:+ rest)
  = Some {| models.skp_ServiceID := serviceID; models.skp_PublicKey := Some publicKey;
            models.skp_PrivateKey := None |}.
Proof.
  intros Hsid.
  pose proof (keypair_doc_well_formed serviceID publicKey Hsid) as Hwf.
  assert (Hsh : jsontext.shallow (keypair_doc serviceID publicKey))
    by (unfold keypair_doc; shallow).
  unfold models.Decode_ServiceKeyPair, json.decode_struct.
  rewrite (read_value_render _ rest Hwf Hsh).
  assert (json.is_null (jsontext.render (keypair_doc serviceID publicKey)) = false)
    as -> by reflexivity.
  pose proof (object_members_render _ "" Hwf Hsh) as Hms.
  rewrite str_app_nil_r in Hms. fold (keypair_doc serviceID publicKey) in Hms.
  rewrite Hms. clear Hms Hwf Hsh.
  cbn [member_texts map fst snd mbind option_bind foldl jsontext.render].
  change (json.unquote "service_id") with (Some "service_id").
  change (json.unquote "public_key") with (Some "public_key").
  cbn [mbind option_bind].
  rewrite set_ServiceKeyPair_service_id.
  rewrite (appendString_plain serviceID Hsid), decode_string_plain by done.
  cbn [mbind option_bind].
  rewrite set_ServiceKeyPair_public_key.
  change (json.appendString (base64.EncodeToString publicKey))
    with (jsontext.render (jsontext.DString (base64.EncodeToString publicKey))).
  rewrite <- Marshal_bytes_render, decode_bytes_Marshal_bytes.
  reflexivity.
Qed.

Lemma sort_register_data {A} (a b c d : A) :
  json.sort_members [("status", a); ("service_id", b); ("message", c); ("timestamp", d)]
  = [("message", c); ("service_id", b); ("status", a); ("timestamp", d)].
Proof. reflexivity. Qed.

Lemma Marshal_register_data (serviceID : string) (now : time.Time) :
  time.well_formed now →
  json.Marshal_any
    (json.AMap [ ("status", json.AString "success");
                 ("service_id", json.AString serviceID);
                 ("message", json.AString "Service registered successfully");
                 ("timestamp", json.ATime now) ])
  = jsontext.render (register_data serviceID now).
Proof.
  intros Hnow. cbn [json.Marshal_any map fst snd]. rewrite sort_register_data.
  rewrite MarshalJSON_render by done. reflexivity.
Qed.

Lemma register_data_well_formed (serviceID : string) (now : time.Time) :
  jsontext.plain serviceID = true → time.well_formed now →
  jsontext.well_formed (register_data serviceID now) = true.
Proof.
  intros Hsid Hnow. unfold register_data.
  cbn [jsontext.well_formed forallb fst snd].
  rewrite Hsid, (time_text_plain now Hnow). reflexivity.
Qed.

Lemma register_data_shallow (serviceID : string) (now : time.Time) :
  jsontext.nestable (register_data serviceID now).
Proof. unfold register_data. shallow. Qed.

Section RegistryMore.
Context `{SigS : mode3.Scheme} {SigC : mode3.Correct SigS}.
Context `{KemS : kyber768.Scheme}.

(** What [sign_and_send] writes for a payload that is the text of a tree,
    and what a client reads from it. *)
Lemma auth_signed_answer (as_ : auth.AuthService) (now : time.Time)
    (data : jsontext.doc) :
  jsontext.plain (auth.serviceID as_) = true → time.well_formed now →
  jsontext.well_formed data = true → jsontext.nestable data →
  let signature :=
    mode3.SignTo (pqc.PrivateKey (auth.dilithiumKeyPair as_)) (jsontext.render data) in
  http.StatusCode (auth.sign_and_send as_ now (jsontext.render data)) = http.StatusOK
  ∧ models.Decode_ServiceResponse
      (http.RespBody (auth.sign_and_send as_ now (jsontext.render data)))
    = Some {| models.resp_ServiceID := auth.serviceID as_;
              models.resp_Timestamp := now;
              models.resp_Data := Some (jsontext.render data);
              models.resp_Signature := Some signature;
              models.resp_Headers := ∅;
              models.resp_Success := true;
              models.resp_Error := "" |}.
Proof.
  intros Has Hnow Hdata Hnest signature.
  unfold auth.sign_and_send, pqc.Sign, auth.signedResponse.
  rewrite Marshal_response_doc by (done || by apply nestable_shallow).
  split; [done|]. cbn [http.EncodeJSON http.RespBody].
  by apply Decode_response_doc.
Qed.

(** Every answer of [registerService] and of [getPublicKey] to a proper
    request can be checked by a client that knows the Registry's public
    key: the body decodes to a response that names the Registry, carries
    [success], and whose signature verifies over its [Data] under the
    Registry's public key. *)
Theorem registry_answers_verify (rand : option bytes) (as_ : auth.AuthService)
    (now1 now2 : time.Time) :
  pqc.GenerateDilithiumKeyPair rand = Ok (auth.dilithiumKeyPair as_) →
  jsontext.plain (auth.serviceID as_) = true →
  time.well_formed now1 → time.well_formed now2 →
  let verifies (answer : http.Response) :=
    ∃ response,
      models.Decode_ServiceResponse (http.RespBody answer) = Some response
      ∧ models.resp_ServiceID response = auth.serviceID as_
      ∧ models.resp_Success response = true
      ∧ pqc.VerifyDilithiumSignature
          (pqc.GetPublicKeyBytes (auth.dilithiumKeyPair as_))
          (slice_bytes (models.resp_Data response))
          (slice_bytes (models.resp_Signature response)) = None in
  (∀ (r : http.Request) (keyPair : models.ServiceKeyPair),
     http.Body r ≫= models.Decode_ServiceKeyPair = Some keyPair →
     jsontext.plain (models.skp_ServiceID keyPair) = true →
     verifies (auth.registerService as_ r now1 now2).2)
  ∧ (∀ (serviceID : string) (publicKey : bytes),
       auth.serviceRegistry as_ !! serviceID = Some (Some publicKey) →
       jsontext.plain serviceID = true →
       verifies (auth.getPublicKey as_ serviceID now1 now2)).
Proof.
  intros Hgen Has Hnow1 Hnow2 verifies. split.
  - intros r keyPair Hd Hsid. unfold auth.registerService. rewrite Hd.
    cbn [snd]. rewrite Marshal_register_data by done.
    set (as' := {| auth.dilithiumKeyPair := auth.dilithiumKeyPair as_;
                   auth.kyberKeyPair := auth.kyberKeyPair as_;
                   auth.serviceRegistry := _;
                   auth.serviceID := auth.serviceID as_ |}).
    destruct (auth_signed_answer as' now2
                (register_data (models.skp_ServiceID keyPair) now1))
      as [_ Hdec];
      [done|done|by apply register_data_well_formed|apply register_data_shallow|].
    eexists. split; [exact Hdec|]. split; [done|]. split; [done|].
    by apply (generated_key_verifies rand).
  - intros serviceID publicKey Hreg Hsid. unfold auth.getPublicKey. rewrite Hreg.
    rewrite Marshal_key_data by done.
    destruct (auth_signed_answer as_ now2 (key_data serviceID publicKey now1))
      as [_ Hdec]; [done|done|by apply key_data_well_formed|apply key_data_shallow|].
    eexists. split; [exact Hdec|]. split; [done|]. split; [done|].
    by apply (generated_key_verifies rand).
Qed.

(** [registerService] touches one entry of the map and nothing else: a
    body that does not decode leaves the Registry as it was and is
    answered 400; a body that decodes changes the entry of the service ID
    it names, keeps every other entry, and never removes a registration;
    the Registry's own keys and ID are never changed. *)
Theorem register_changes_one_entry (as_ : auth.AuthService) (r : http.Request)
    (now1 now2 : time.Time) :
  let as' := (auth.registerService as_ r now1 now2).1 in
  auth.dilithiumKeyPair as' = auth.dilithiumKeyPair as_
  ∧ auth.kyberKeyPair as' = auth.kyberKeyPair as_
  ∧ auth.serviceID as' = auth.serviceID as_
  ∧ (http.Body r ≫= models.Decode_ServiceKeyPair = None →
     auth.registerService as_ r now1 now2
     = (as_, http.Error "Invalid request body" http.StatusBadRequest))
  ∧ (∀ keyPair serviceID,
       http.Body r ≫= models.Decode_ServiceKeyPair = Some keyPair →
       serviceID ≠ models.skp_ServiceID keyPair →
       auth.serviceRegistry as' !! serviceID = auth.serviceRegistry as_ !! serviceID)
  ∧ (∀ serviceID, is_Some (auth.serviceRegistry as_ !! serviceID) →
                  is_Some (auth.serviceRegistry as' !! serviceID)).
Proof.
  intros as'. subst as'. unfold auth.registerService.
  destruct (http.Body r ≫= models.Decode_ServiceKeyPair) as [keyPair|];
    cbn [fst auth.dilithiumKeyPair auth.kyberKeyPair auth.serviceID
         auth.serviceRegistry].
  - split_and!; try done.
    + intros kp sid [= <-] Hne. by rewrite lookup_insert_ne.
    + intros sid Hsome. destruct (decide (sid = models.skp_ServiceID keyPair)) as [->|].
      * rewrite lookup_insert_eq. by eexists.
      * by rewrite lookup_insert_ne.
  - by split_and!.
Qed.

(** [keyExchange] answers 200 only to a request that decodes, whose
    service ID is registered, whose signature verifies under the
    registered key over the JSON of its service ID, Kyber public key and
    timestamp, and whose Kyber public key has 1184 bytes. *)
Theorem key_exchange_only_for_verified (as_ : auth.AuthService) (r : http.Request)
    (rand : option bytes) (now : time.Time) :
  http.StatusCode (auth.keyExchange as_ r rand now) = http.StatusOK →
  ∃ (request : models.KeyExchangeRequest) (servicePublicKey : option bytes),
    http.Body r ≫= models.Decode_KeyExchangeRequest = Some request
    ∧ auth.serviceRegistry as_ !! models.kx_ServiceID request = Some servicePublicKey
    ∧ pqc.VerifyDilithiumSignature (slice_bytes servicePublicKey)
        (auth.keyExchangeRequestData (models.kx_ServiceID request)
           (models.kx_KyberPublicKey request) (models.kx_Timestamp request))
        (slice_bytes (models.kx_Signature request)) = None
    ∧ len (slice_bytes servicePublicKey) = mode3.PublicKeySize
    ∧ len (slice_bytes (models.kx_KyberPublicKey request)) = 1184.
Proof.
  unfold auth.keyExchange.
  destruct (http.Body r ≫= models.Decode_KeyExchangeRequest) as [request|];
    [|simpl; discriminate].
  destruct (auth.serviceRegistry as_ !! _) as [pk|] eqn:Hreg; [|simpl; discriminate].
  destruct (pqc.VerifyDilithiumSignature _ _ _) eqn:Hv; [simpl; discriminate|].
  destruct (pqc.EncapsulateWithPublicKey _ _) as [[ct ss]|e|m] eqn:He;
    [|simpl; discriminate..].
  intros _. exists request, pk. split_and!; try done.
  - unfold pqc.VerifyDilithiumSignature in Hv.
    destruct (len (slice_bytes pk) =? mode3.PublicKeySize)%nat eqn:Hlen; [|done].
    by apply Nat.eqb_eq in Hlen.
  - unfold pqc.EncapsulateWithPublicKey in He.
    destruct (len (slice_bytes (models.kx_KyberPublicKey request)) =? 1184)%nat
      eqn:Hlen; [|done].
    by apply Nat.eqb_eq in Hlen.
Qed.

(** [listServices] reports every registered service ID exactly once, and
    the count it reports is the number of registrations. *)
Theorem list_services_is_the_registry (as_ : auth.AuthService) (now1 now2 : time.Time) :
  ∃ services : list string,
    auth.listServices as_ now1 now2
    = auth.sign_and_send as_ now2
        (json.Marshal_any
           (json.AMap [ ("services", json.ASlice (map json.AString services));
                        ("count", json.AInt (Z.of_nat (size (auth.serviceRegistry as_))));
                        ("timestamp", json.ATime now1) ]))
    ∧ NoDup services
    ∧ ∀ serviceID, serviceID ∈ services
                   ↔ is_Some (auth.serviceRegistry as_ !! serviceID).
Proof.
  exists (map_to_list (auth.serviceRegistry as_)).*1. split_and!.
  - unfold auth.listServices. by rewrite length_fmap, length_map_to_list.
  - apply NoDup_fst_map_to_list.
  - intros serviceID. rewrite list_elem_of_fmap. split.
    + intros ([k v] & -> & Hin). apply elem_of_map_to_list in Hin. by eexists.
    + intros [v Hv]. exists (serviceID, v). split; [done|].
      by apply elem_of_map_to_list.
Qed.

End RegistryMore.

(** ** Registration and key exchange between a service and the Registry *)

Lemma kx_request_doc_well_formed (serviceID : string) (kyberPublicKey : bytes)
    (now : time.Time) (signature : bytes) :
  jsontext.plain serviceID = true → time.well_formed now →
  jsontext.well_formed (kx_request_doc serviceID kyberPublicKey now signature) = true.
Proof.
  intros Hsid Hnow. unfold kx_request_doc.
  cbn [jsontext.well_formed forallb fst snd].
  destruct (encode_clean kyberPublicKey) as [_ ->].
  destruct (encode_clean signature) as [_ ->].
  by rewrite Hsid, (time_text_plain now Hnow).
Qed.

Lemma Marshal_kx_request_doc (serviceID : string) (kyberPublicKey : bytes)
    (now : time.Time) (signature : bytes) :
  time.well_formed now →
  models.Marshal_KeyExchangeRequest
    {| models.kx_ServiceID := serviceID;
       models.kx_KyberPublicKey := Some kyberPublicKey;
       models.kx_Timestamp := now;
       models.kx_Signature := Some signature |}
  = jsontext.render (kx_request_doc serviceID kyberPublicKey now signature).
Proof.
  intros Hnow. unfold models.Marshal_KeyExchangeRequest.
  cbn [models.kx_ServiceID models.kx_KyberPublicKey models.kx_Timestamp
       models.kx_Signature].
  by rewrite !Marshal_bytes_render, MarshalJSON_render.
Qed.

Lemma set_KeyExchangeRequest_service_id (raw : string) (r : models.KeyExchangeRequest) (sp : json.spares) :
  models.set_KeyExchangeRequest "service_id" raw (r, sp)
  = v ← json.decode_string (models.kx_ServiceID r) raw;
    Some ({| models.kx_ServiceID := v;
            models.kx_KyberPublicKey := models.kx_KyberPublicKey r;
            models.kx_Timestamp := models.kx_Timestamp r;
            models.kx_Signature := models.kx_Signature r |}, sp).
Proof. reflexivity. Qed.

Lemma set_KeyExchangeRequest_kyber_public_key (raw : string) (r : models.KeyExchangeRequest) (sp : json.spares) :
  models.set_KeyExchangeRequest "kyber_public_key" raw (r, sp)
  = '(v, s) ← json.decode_bytes (models.kx_KyberPublicKey r) (json.spare sp "kyber_public_key") raw;
    Some ({| models.kx_ServiceID := models.kx_ServiceID r;
            models.kx_KyberPublicKey := v;
            models.kx_Timestamp := models.kx_Timestamp r;
            models.kx_Signature := models.kx_Signature r |}, <[ "kyber_public_key" := s ]> sp).
Proof. reflexivity. Qed.

Lemma set_KeyExchangeRequest_timestamp (raw : string) (r : models.KeyExchangeRequest) (sp : json.spares) :
  models.set_KeyExchangeRequest "timestamp" raw (r, sp)
  = v ← time.UnmarshalJSON (models.kx_Timestamp r) raw;
    Some ({| models.kx_ServiceID := models.kx_ServiceID r;
            models.kx_KyberPublicKey := models.kx_KyberPublicKey r;
            models.kx_Timestamp := v;
            models.kx_Signature := models.kx_Signature r |}, sp).
Proof. reflexivity. Qed.

Lemma set_KeyExchangeRequest_signature (raw : string) (r : models.KeyExchangeRequest) (sp : json.spares) :
  models.set_KeyExchangeRequest "signature" raw (r, sp)
  = '(v, s) ← json.decode_bytes (models.kx_Signature r) (json.spare sp "signature") raw;
    Some ({| models.kx_ServiceID := models.kx_ServiceID r;
            models.kx_KyberPublicKey := models.kx_KyberPublicKey r;
            models.kx_Timestamp := models.kx_Timestamp r;
            models.kx_Signature := v |}, <[ "signature" := s ]> sp).
Proof. reflexivity. Qed.

Lemma decode_bytes_render (cur : option bytes) (spare b : bytes) :
  json.decode_bytes cur spare (json.appendString (base64.EncodeToString b))
  = Some (Some b, "").
Proof.
  change (json.appendString (base64.EncodeToString b))
    with (jsontext.render (jsontext.DString (base64.EncodeToString b))).
  rewrite <- Marshal_bytes_render. apply decode_bytes_Marshal_bytes.
Qed.

Lemma UnmarshalJSON_render (cur now : time.Time) :
  time.well_formed now →
  time.UnmarshalJSON cur (json.appendString (time.RFC3339Nano now)) = Some now.
Proof.
  intros Hnow.
  change (json.appendString (time.RFC3339Nano now))
    with (jsontext.render (jsontext.DString (time.RFC3339Nano now))).
  rewrite <- MarshalJSON_render by done. by apply UnmarshalJSON_MarshalJSON.
Qed.

Lemma Decode_kx_request_doc (serviceID : string) (kyberPublicKey : bytes)
    (now : time.Time) (signature : bytes) (rest : string) :
  jsontext.plain serviceID = true → time.well_formed now →
  models.Decode_KeyExchangeRequest
    (jsontext.render (kx_request_doc serviceID kyberPublicKey now signature) +:+ rest)
  = Some {| models.kx_ServiceID := serviceID;
            models.kx_KyberPublicKey := Some kyberPublicKey;
            models.kx_Timestamp := now;
            models.kx_Signature := Some signature |}.
Proof.
  intros Hsid Hnow.
  pose proof (kx_request_doc_well_formed serviceID kyberPublicKey now signature
                Hsid Hnow) as Hwf.
  assert (Hsh : jsontext.shallow
                  (kx_request_doc serviceID kyberPublicKey now signature))
    by (unfold kx_request_doc; shallow).
  unfold models.Decode_KeyExchangeRequest, json.decode_struct.
  rewrite (read_value_render _ rest Hwf Hsh).
  assert (json.is_null
            (jsontext.render (kx_request_doc serviceID kyberPublicKey now signature))
          = false) as -> by reflexivity.
  pose proof (object_members_render _ "" Hwf Hsh) as Hms.
  rewrite str_app_nil_r in Hms.
  fold (kx_request_doc serviceID kyberPublicKey now signature) in Hms.
  rewrite Hms. clear Hms Hwf Hsh.
  cbn [member_texts map fst snd mbind option_bind foldl jsontext.render].
  change (json.unquote "service_id") with (Some "service_id").
  change (json.unquote "kyber_public_key") with (Some "kyber_public_key").
  change (json.unquote "timestamp") with (Some "timestamp").
  change (json.unquote "signature") with (Some "signature").
  cbn [mbind option_bind].
  rewrite set_KeyExchangeRequest_service_id.
  rewrite (appendString_plain serviceID Hsid), decode_string_plain by done.
  cbn [mbind option_bind].
  rewrite set_KeyExchangeRequest_kyber_public_key, decode_bytes_render.
  cbn [mbind option_bind].
  rewrite set_KeyExchangeRequest_timestamp, UnmarshalJSON_render by done.
  cbn [mbind option_bind].
  rewrite set_KeyExchangeRequest_signature, decode_bytes_render.
  reflexivity.
Qed.

Lemma kx_response_doc_well_formed (ciphertext : bytes) (now : time.Time)
    (signature : bytes) :
  time.well_formed now →
  jsontext.well_formed (kx_response_doc ciphertext now signature) = true.
Proof.
  intros Hnow. unfold kx_response_doc.
  cbn [jsontext.well_formed forallb fst snd].
  destruct (encode_clean ciphertext) as [_ ->].
  destruct (encode_clean signature) as [_ ->].
  by rewrite (time_text_plain now Hnow).
Qed.

Lemma Marshal_kx_response_doc (ciphertext : bytes) (now : time.Time)
    (signature : bytes) :
  time.well_formed now →
  models.Marshal_KeyExchangeResponse
    {| models.kxr_Ciphertext := Some ciphertext;
       models.kxr_SharedSecret := None;
       models.kxr_Timestamp := now;
       models.kxr_Signature := Some signature |}
  = jsontext.render (kx_response_doc ciphertext now signature).
Proof.
  intros Hnow. unfold models.Marshal_KeyExchangeResponse.
  cbn [models.kxr_Ciphertext models.kxr_SharedSecret models.kxr_Timestamp
       models.kxr_Signature models.is_empty_bytes app].
  by rewrite !Marshal_bytes_render, MarshalJSON_render.
Qed.

Lemma set_KeyExchangeResponse_ciphertext (raw : string) (r : models.KeyExchangeResponse) (sp : json.spares) :
  models.set_KeyExchangeResponse "ciphertext" raw (r, sp)
  = '(v, s) ← json.decode_bytes (models.kxr_Ciphertext r) (json.spare sp "ciphertext") raw;
    Some ({| models.kxr_Ciphertext := v;
            models.kxr_SharedSecret := models.kxr_SharedSecret r;
            models.kxr_Timestamp := models.kxr_Timestamp r;
            models.kxr_Signature := models.kxr_Signature r |}, <[ "ciphertext" := s ]> sp).
Proof. reflexivity. Qed.

Lemma set_KeyExchangeResponse_timestamp (raw : string) (r : models.KeyExchangeResponse) (sp : json.spares) :
  models.set_KeyExchangeResponse "timestamp" raw (r, sp)
  = v ← time.UnmarshalJSON (models.kxr_Timestamp r) raw;
    Some ({| models.kxr_Ciphertext := models.kxr_Ciphertext r;
            models.kxr_SharedSecret := models.kxr_SharedSecret r;
            models.kxr_Timestamp := v;
            models.kxr_Signature := models.kxr_Signature r |}, sp).
Proof. reflexivity. Qed.

Lemma set_KeyExchangeResponse_signature (raw : string) (r : models.KeyExchangeResponse) (sp : json.spares) :
  models.set_KeyExchangeResponse "signature" raw (r, sp)
  = '(v, s) ← json.decode_bytes (models.kxr_Signature r) (json.spare sp "signature") raw;
    Some ({| models.kxr_Ciphertext := models.kxr_Ciphertext r;
            models.kxr_SharedSecret := models.kxr_SharedSecret r;
            models.kxr_Timestamp := models.kxr_Timestamp r;
            models.kxr_Signature := v |}, <[ "signature" := s ]> sp).
Proof. reflexivity. Qed.

Lemma Decode_kx_response_doc (ciphertext : bytes) (now : time.Time)
    (signature : bytes) (rest : string) :
  time.well_formed now →
  models.Decode_KeyExchangeResponse
    (jsontext.render (kx_response_doc ciphertext now signature) +:+ rest)
  = Some {| models.kxr_Ciphertext := Some ciphertext;
            models.kxr_SharedSecret := None;
            models.kxr_Timestamp := now;
            models.kxr_Signature := Some signature |}.
Proof.
  intros Hnow.
  pose proof (kx_response_doc_well_formed ciphertext now signature Hnow) as Hwf.
  assert (Hsh : jsontext.shallow (kx_response_doc ciphertext now signature))
    by (unfold kx_response_doc; shallow).
  unfold models.Decode_KeyExchangeResponse, json.decode_struct.
  rewrite (read_value_render _ rest Hwf Hsh).
  assert (json.is_null (jsontext.render (kx_response_doc ciphertext now signature))
          = false) as -> by reflexivity.
  pose proof (object_members_render _ "" Hwf Hsh) as Hms.
  rewrite str_app_nil_r in Hms.
  fold (kx_response_doc ciphertext now signature) in Hms.
  rewrite Hms. clear Hms Hwf Hsh.
  cbn [member_texts map fst snd mbind option_bind foldl jsontext.render].
  change (json.unquote "ciphertext") with (Some "ciphertext").
  change (json.unquote "timestamp") with (Some "timestamp").
  change (json.unquote "signature") with (Some "signature").
  cbn [mbind option_bind].
  rewrite set_KeyExchangeResponse_ciphertext, decode_bytes_render.
  cbn [mbind option_bind].
  rewrite set_KeyExchangeResponse_timestamp, UnmarshalJSON_render by done.
  cbn [mbind option_bind].
  rewrite set_KeyExchangeResponse_signature, decode_bytes_render.
  reflexivity.
Qed.

(** The JSON forms of [types.go] read back: a registration without a
    private key, an envelope with or without a signature and with any
    headers, a successful response, a key-exchange request and a
    key-exchange response without a shared secret decode to the value
    that was marshalled, when their service ID, header names and header
    values are plain strings, their times are proper and their [Data] is
    the text of a tree of plain strings with fewer than 10000 objects
    inside one another. *)
Theorem models_json_round_trip (serviceID : string) (now : time.Time)
    (data : jsontext.doc) (headers : gmap string string) :
  jsontext.plain serviceID = true → time.well_formed now →
  jsontext.well_formed data = true → jsontext.nestable data →
  plain_headers headers →
  (∀ publicKey,
     let v := {| models.skp_ServiceID := serviceID;
                 models.skp_PublicKey := Some publicKey;
                 models.skp_PrivateKey := None |} in
     models.Decode_ServiceKeyPair (models.Marshal_ServiceKeyPair v) = Some v)
  ∧ (∀ signature,
       let v := {| models.req_ServiceID := serviceID;
                   models.req_Timestamp := now;
                   models.req_Data := Some (jsontext.render data);
                   models.req_Signature := signature;
                   models.req_Headers := headers |} in
       ∃ text, models.Marshal_ServiceRequest v = Ok text
               ∧ models.Decode_ServiceRequest text = Some v)
  ∧ (∀ signature,
       let v := {| models.resp_ServiceID := serviceID;
                   models.resp_Timestamp := now;
                   models.resp_Data := Some (jsontext.render data);
                   models.resp_Signature := Some signature;
                   models.resp_Headers := ∅;
                   models.resp_Success := true;
                   models.resp_Error := "" |} in
       ∃ text, models.Marshal_ServiceResponse v = Ok text
               ∧ models.Decode_ServiceResponse text = Some v)
  ∧ (∀ kyberPublicKey signature,
       let v := {| models.kx_ServiceID := serviceID;
                   models.kx_KyberPublicKey := Some kyberPublicKey;
                   models.kx_Timestamp := now;
                   models.kx_Signature := Some signature |} in
       models.Decode_KeyExchangeRequest (models.Marshal_KeyExchangeRequest v) = Some v)
  ∧ (∀ ciphertext signature,
       let v := {| models.kxr_Ciphertext := Some ciphertext;
                   models.kxr_SharedSecret := None;
                   models.kxr_Timestamp := now;
                   models.kxr_Signature := Some signature |} in
       models.Decode_KeyExchangeResponse (models.Marshal_KeyExchangeResponse v)
       = Some v).
Proof.
  intros Hsid Hnow Hdata Hnest Hheaders.
  pose proof (nestable_shallow data Hnest) as Hsh. split_and!.
  - intros publicKey v. unfold v. rewrite Marshal_keypair_doc.
    rewrite <- (str_app_nil_r (jsontext.render _)). by apply Decode_keypair_doc.
  - intros signature v. unfold v. eexists. split; [by apply Marshal_request_doc|].
    rewrite <- (str_app_nil_r (jsontext.render _)). by apply Decode_request_doc.
  - intros signature v. unfold v. eexists. split; [by apply Marshal_response_doc|].
    rewrite <- (str_app_nil_r (jsontext.render _)). by apply Decode_response_doc.
  - intros kyberPublicKey signature v. unfold v.
    rewrite Marshal_kx_request_doc by done.
    rewrite <- (str_app_nil_r (jsontext.render _)). by apply Decode_kx_request_doc.
  - intros ciphertext signature v. unfold v.
    rewrite Marshal_kx_response_doc by done.
    rewrite <- (str_app_nil_r (jsontext.render _)). by apply Decode_kx_response_doc.
Qed.

Section Exchange.
Context `{SigS : mode3.Scheme} {SigC : mode3.Correct SigS}.
Context `{KemS : kyber768.Scheme} {KemC : kyber768_Correct KemS}.

(** What a gateway or a backend posts to [/register] is accepted by
    [registerService]: the body holds the service ID and the public key
    and no private key, the Registry enters that public key under that
    service ID, answers 200, and [registerWithAuthService] returns
    [nil]. *)
Theorem registration_reaches_registry (as_ : auth.AuthService)
    (now1 now2 : time.Time) :
  (∀ (gw : gateway.APIGateway) (r : http.Request),
     jsontext.plain (gateway.serviceID gw) = true →
     http.Body r = Some (http.OutBody (gateway.registration gw)) →
     http.OutBody (gateway.registration gw)
     = models.object_of
         [ json.member "service_id" (json.appendString (gateway.serviceID gw));
           json.member "public_key"
             (json.Marshal_bytes
                (Some (pqc.GetPublicKeyBytes (gateway.dilithiumKeyPair gw)))) ]
     ∧ auth.serviceRegistry (auth.registerService as_ r now1 now2).1
       = <[ gateway.serviceID gw :=
              Some (pqc.GetPublicKeyBytes (gateway.dilithiumKeyPair gw)) ]>
           (auth.serviceRegistry as_)
     ∧ http.StatusCode (auth.registerService as_ r now1 now2).2 = http.StatusOK
     ∧ ∀ net : Transport,
         net (gateway.registration gw) = Some (auth.registerService as_ r now1 now2).2 →
         gateway.registerWithAuthService gw net = None)
  ∧ (∀ (bs : backend.BackendService) (r : http.Request),
       jsontext.plain (backend.serviceID bs) = true →
       http.Body r = Some (http.OutBody (backend.registration bs)) →
       http.OutBody (backend.registration bs)
       = models.object_of
           [ json.member "service_id" (json.appendString (backend.serviceID bs));
             json.member "public_key"
               (json.Marshal_bytes
                  (Some (pqc.GetPublicKeyBytes (backend.dilithiumKeyPair bs)))) ]
       ∧ auth.serviceRegistry (auth.registerService as_ r now1 now2).1
         = <[ backend.serviceID bs :=
                Some (pqc.GetPublicKeyBytes (backend.dilithiumKeyPair bs)) ]>
             (auth.serviceRegistry as_)
       ∧ http.StatusCode (auth.registerService as_ r now1 now2).2 = http.StatusOK
       ∧ ∀ net : Transport,
           net (backend.registration bs)
           = Some (auth.registerService as_ r now1 now2).2 →
           backend.registerWithAuthService bs net = None).
Proof.
  assert (Hreg : ∀ (r : http.Request) (serviceID : string) (publicKey : bytes),
            jsontext.plain serviceID = true →
            http.Body r
            = Some (models.Marshal_ServiceKeyPair
                      {| models.skp_ServiceID := serviceID;
                         models.skp_PublicKey := Some publicKey;
                         models.skp_PrivateKey := None |}) →
            auth.serviceRegistry (auth.registerService as_ r now1 now2).1
            = <[ serviceID := Some publicKey ]> (auth.serviceRegistry as_)
            ∧ http.StatusCode (auth.registerService as_ r now1 now2).2
              = http.StatusOK).
  { intros r serviceID publicKey Hsid Hbody.
    assert (Hd : http.Body r ≫= models.Decode_ServiceKeyPair
                 = Some {| models.skp_ServiceID := serviceID;
                           models.skp_PublicKey := Some publicKey;
                           models.skp_PrivateKey := None |}).
    { rewrite Hbody. cbn [mbind option_bind]. rewrite Marshal_keypair_doc.
      rewrite <- (str_app_nil_r (jsontext.render _)).
      by apply Decode_keypair_doc. }
    unfold auth.registerService. by rewrite Hd. }
  split.
  - intros gw r Hsid Hbody. split; [done|].
    destruct (Hreg r _ _ Hsid Hbody) as [Hmap Hst]. split; [done|]. split; [done|].
    intros net Hnet. unfold gateway.registerWithAuthService. by rewrite Hnet, Hst.
  - intros bs r Hsid Hbody. split; [done|].
    destruct (Hreg r _ _ Hsid Hbody) as [Hmap Hst]. split; [done|]. split; [done|].
    intros net Hnet. unfold backend.registerWithAuthService. by rewrite Hnet, Hst.
Qed.

(** A key exchange between a gateway with generated keys and a Registry
    that holds the gateway's public key succeeds end to end: the Registry
    accepts the gateway's signature and answers 200, [performKeyExchange]
    returns [nil], and the secret the gateway decapsulates is the secret
    the Registry's encapsulation made. *)
Theorem key_exchange_round_trip (gw : gateway.APIGateway) (as_ : auth.AuthService)
    (net : Transport) (r : http.Request) (rand1 rand2 : option bytes)
    (seed : bytes) (now now' : time.Time) :
  pqc.GenerateDilithiumKeyPair rand1 = Ok (gateway.dilithiumKeyPair gw) →
  pqc.GenerateKyberKeyPair rand2 = Ok (gateway.kyberKeyPair gw) →
  auth.serviceRegistry as_ !! gateway.serviceID gw
  = Some (Some (pqc.GetPublicKeyBytes (gateway.dilithiumKeyPair gw))) →
  jsontext.plain (gateway.serviceID gw) = true →
  time.well_formed now → time.well_formed now' →
  let kyberPublicKey := pqc.KGetPublicKeyBytes (gateway.kyberKeyPair gw) in
  let signature :=
    mode3.SignTo (pqc.PrivateKey (gateway.dilithiumKeyPair gw))
      (auth.keyExchangeRequestData (gateway.serviceID gw) (Some kyberPublicKey) now) in
  let payload :=
    models.Marshal_KeyExchangeRequest
      {| models.kx_ServiceID := gateway.serviceID gw;
         models.kx_KyberPublicKey := Some kyberPublicKey;
         models.kx_Timestamp := now;
         models.kx_Signature := Some signature |} in
  http.Body r = Some payload →
  net (http_Post (gateway.authServiceURL gw +:+ "/key-exchange") "application/json"
         payload)
  = Some (auth.keyExchange as_ r (Some seed) now') →
  http.StatusCode (auth.keyExchange as_ r (Some seed) now') = http.StatusOK
  ∧ gateway.performKeyExchange gw net now = Ok tt
  ∧ ∃ (response : models.KeyExchangeResponse) (ciphertext sharedSecret : bytes),
      models.Decode_KeyExchangeResponse
        (http.RespBody (auth.keyExchange as_ r (Some seed) now')) = Some response
      ∧ models.kxr_Ciphertext response = Some ciphertext
      ∧ models.kxr_SharedSecret response = None
      ∧ pqc.EncapsulateWithPublicKey kyberPublicKey (Some seed)
        = Ok (ciphertext, sharedSecret)
      ∧ pqc.Decapsulate (gateway.kyberKeyPair gw) ciphertext = Ok sharedSecret.
Proof.
  intros Hdil Hkyb Hreg Hsid Hnow Hnow' kyberPublicKey signature payload Hbody Hnet.
  set (enc := kyber768.EncapsulateTo (pqc.KPublicKey (gateway.kyberKeyPair gw)) seed).
  set (replySignature :=
         mode3.SignTo (pqc.PrivateKey (auth.dilithiumKeyPair as_))
           (models.Marshal_KeyExchangeResponse
              {| models.kxr_Ciphertext := Some enc.1;
                 models.kxr_SharedSecret := None;
                 models.kxr_Timestamp := now';
                 models.kxr_Signature := None |})).
  assert (Hanswer : auth.keyExchange as_ r (Some seed) now'
                    = http.EncodeJSON ∅ http.StatusOK
                        (Ok (jsontext.render
                               (kx_response_doc enc.1 now' replySignature)))).
  { unfold auth.keyExchange. rewrite Hbody. cbn [mbind option_bind].
    unfold payload. rewrite Marshal_kx_request_doc by done.
    rewrite <- (str_app_nil_r (jsontext.render _)).
    rewrite Decode_kx_request_doc by done.
    cbn [models.kx_ServiceID models.kx_KyberPublicKey models.kx_Timestamp
         models.kx_Signature slice_bytes default id].
    rewrite Hreg. cbn [slice_bytes default id].
    fold kyberPublicKey. fold signature.
    unfold signature. rewrite (generated_key_verifies rand1) by done.
    unfold kyberPublicKey.
    rewrite (encapsulate_with_own_key rand2) by done.
    fold enc. rewrite (surjective_pairing enc).
    unfold pqc.Sign. cbv zeta.
    cbn [models.kxr_Ciphertext models.kxr_SharedSecret models.kxr_Timestamp
         models.kxr_Signature fst snd].
    fold replySignature. by rewrite Marshal_kx_response_doc. }
  assert (Hdecode : models.Decode_KeyExchangeResponse
                      (http.RespBody (auth.keyExchange as_ r (Some seed) now'))
                    = Some {| models.kxr_Ciphertext := Some enc.1;
                              models.kxr_SharedSecret := None;
                              models.kxr_Timestamp := now';
                              models.kxr_Signature := Some replySignature |}).
  { rewrite Hanswer. cbn [http.EncodeJSON http.RespBody].
    by apply Decode_kx_response_doc. }
  split; [by rewrite Hanswer|]. split.
  - unfold gateway.performKeyExchange, pqc.Sign, gateway.keyExchangeRequest.
    cbv zeta.
    cbn [models.kx_ServiceID models.kx_KyberPublicKey models.kx_Timestamp
         models.kx_Signature].
    fold kyberPublicKey. fold signature. fold payload.
    rewrite Hnet, Hdecode. rewrite Hanswer.
    cbn [http.EncodeJSON http.StatusCode models.kxr_Ciphertext slice_bytes default id].
    change (negb (http.StatusOK =? http.StatusOK)%nat) with false. cbv iota.
    unfold enc. by rewrite (decapsulate_own_ciphertext rand2).
  - eexists _, enc.1, enc.2. split; [exact Hdecode|]. split; [done|]. split; [done|].
    rewrite <- surjective_pairing. split.
    + by apply (encapsulate_with_own_key rand2).
    + by apply (decapsulate_own_ciphertext rand2).
Qed.

End Exchange.

(** ** Key caches, decoders of served keys, and the path of a request *)

Lemma bytes_of_floats_from (l : list json.any) (index : nat) :
  match pqcutil.bytes_of_floats index l with
  | inr key =>
      len key = length l
      ∧ ∀ j c, String.get j key = Some c →
               ∃ f, l !! j = Some (json.AFloat64 f)
                       ∧ c = pqcutil.byte_of_float64 f
  | inl i =>
      index ≤ i < index + length l
      ∧ (∀ f, l !! (i - index) ≠ Some (json.AFloat64 f))
      ∧ ∀ j, j < i - index → ∃ f, l !! j = Some (json.AFloat64 f)
  end.
Proof.
  revert index. induction l as [|a l IH]; intros index.
  - simpl. split; [done|]. by intros [|j] c.
  - assert (Hbad : (∀ f, a ≠ json.AFloat64 f) →
                   index ≤ index < index + length (a :: l)
                   ∧ (∀ f, (a :: l) !! (index - index) ≠ Some (json.AFloat64 f))
                   ∧ ∀ j, j < index - index →
                          ∃ f, (a :: l) !! j = Some (json.AFloat64 f)).
    { intros Ha. rewrite Nat.sub_diag. simpl. split; [lia|]. split; [|lia].
      intros f [= ->]. by apply (Ha f). }
    destruct a as [| | f | | | | | |]; simpl; try (by apply Hbad).
    specialize (IH (S index)).
    destruct (pqcutil.bytes_of_floats (S index) l) as [i|key].
    + destruct IH as (Hi & Hbadi & Hbefore).
      split; [simpl; lia|].
      replace (i - index) with (S (i - S index)) by lia. simpl.
      split; [done|]. intros [|j] Hj; [by eexists|]. apply Hbefore. lia.
    + destruct IH as [Hlen Hget]. simpl. split; [by rewrite Hlen|].
      intros [|j] c; simpl.
      * intros [= <-]. by eexists.
      * apply Hget.
Qed.

Lemma served_key_is_true (text : string) (key : bytes) :
  served_key_is text key = true →
  ∃ keyData,
    json.Unmarshal_map text = Some keyData
    ∧ pqcutil.DeserializePublicKeyFromJSON keyData = Ok key.
Proof.
  unfold served_key_is. intros H.
  destruct (json.Unmarshal_map text) as [keyData|]; [|done].
  exists keyData. split; [done|].
  destruct (pqcutil.DeserializePublicKeyFromJSON keyData) as [key'| |];
    [|done|done].
  f_equal. by apply String.eqb_eq.
Qed.

Lemma small_numbers_decode (n : nat) :
  n < 256 →
  served_key_is
    (models.object_of
       [ json.member "public_key" ("[" +:+ strconv.itoa (Z.of_nat n) +:+ "]") ])
    (String (ascii_of_nat n) "") = true.
Proof.
  intros Hn.
  set (check := λ n : nat,
         served_key_is
           (models.object_of
              [ json.member "public_key"
                  ("[" +:+ strconv.itoa (Z.of_nat n) +:+ "]") ])
           (String (ascii_of_nat n) "")).
  assert (Hall : forallb check (seq 0 256) = true) by (vm_compute; reflexivity).
  rewrite forallb_forall in Hall. apply (Hall n). apply in_seq. lia.
Qed.

(** The loop that turns an array of numbers into key bytes, as both
    decoders run it.  On success the key has one byte per element of the
    array, and the byte is what the conversion [byte(f)] of the program as
    built for amd64 gives: the integer part of the number, the fraction
    discarded, reduced to its low eight bits (and zero when the integer
    part does not fit 32 bits).  On failure the index reported is the
    position of the first element that is not a number.  Read from the
    text of a served key, every whole number below 256 gives the byte of
    that value, and [1.5], [1e2], [1.0], [-1], [255.99], [256], [1e10] and
    [-0.5] give the bytes 1, 100, 1, 255, 255, 0, 0 and 0. *)
Theorem array_key_bytes :
  (∀ l key, pqcutil.bytes_of_floats 0 l = inr key →
            len key = length l
            ∧ ∀ j c, String.get j key = Some c →
                     ∃ f, l !! j = Some (json.AFloat64 f)
                          ∧ c = ascii_of_N
                                  (Z.to_N
                                     ((if (- 2 ^ 31 <=? strconv.trunc f)%Z
                                          && (strconv.trunc f <? 2 ^ 31)%Z
                                       then strconv.trunc f
                                       else - 2 ^ 31) mod 256)%Z))
  ∧ (∀ l i, pqcutil.bytes_of_floats 0 l = inl i →
            i < length l
            ∧ (∀ f, l !! i ≠ Some (json.AFloat64 f))
            ∧ ∀ j, j < i → ∃ f, l !! j = Some (json.AFloat64 f))
  ∧ (∀ n, n < 256 →
          ∃ keyData,
            json.Unmarshal_map
              (models.object_of
                 [ json.member "public_key"
                     ("[" +:+ strconv.itoa (Z.of_nat n) +:+ "]") ])
            = Some keyData
            ∧ pqcutil.DeserializePublicKeyFromJSON keyData
              = Ok (String (ascii_of_nat n) ""))
  ∧ (∃ keyData,
       json.Unmarshal_map
         (models.object_of
            [ json.member "public_key"
                "[1.5, 1e2, 1.0, -1, 255.99, 256, 1e10, -0.5]" ])
       = Some keyData
       ∧ pqcutil.DeserializePublicKeyFromJSON keyData
         = Ok (String "001" (String "100" (String "001" (String "255"
                 (String "255" (String "000" (String "000"
                    (String "000" ""))))))))).
Proof.
  split; [|split; [|split]].
  - intros l key Hkey.
    pose proof (bytes_of_floats_from l 0) as H. rewrite Hkey in H.
    destruct H as [Hlen Hget]. split; [done|].
    intros j c Hc. destruct (Hget j c Hc) as (f & Hf & ->). by exists f.
  - intros l i Hi.
    pose proof (bytes_of_floats_from l 0) as H. rewrite Hi in H.
    rewrite Nat.sub_0_r in H.
    destruct H as (Hlt & Hbad & Hbefore). split; [lia|]. by split.
  - intros n Hn. by apply served_key_is_true, small_numbers_decode.
  - apply served_key_is_true. vm_compute. reflexivity.
Qed.

Section MeshMore.
Context `{SigS : mode3.Scheme} {SigC : mode3.Correct SigS}.
Context `{KemS : kyber768.Scheme}.

(** Whatever the backend's conversion of a served key accepts, the
    gateway's decoder accepts with the same bytes; the conversion accepts
    nothing but an array of numbers, so it is the narrower of the two. *)
Theorem backend_decoder_is_narrower (keyData : list (string * json.any))
    (key : bytes) :
  backend.publicKeyFromKeyData keyData = Ok key ↔
  ∃ l, json.map_lookup keyData "public_key" = Some (json.ASlice l)
       ∧ pqcutil.DeserializePublicKeyFromJSON keyData = Ok key.
Proof.
  unfold backend.publicKeyFromKeyData, pqcutil.DeserializePublicKeyFromJSON.
  destruct (json.map_lookup keyData "public_key") as [a|]; [|split; [done|]].
  - destruct a as [| | | | | | |l|]; try (split; [done|by intros (l' & [=] & _)]).
    destruct (pqcutil.bytes_of_floats 0 l) as [i|pubKey] eqn:Hl.
    + split; [done|by intros (l' & _ & [=])].
    + split.
      * intros [= <-]. by exists l.
      * by intros (l' & _ & [= <-]).
  - by intros (l & [=] & _).
Qed.

(** [getServicePublicKey] of the gateway: a call that fails leaves the
    gateway as it was; a call that succeeds changes nothing but the cache
    entry of the service ID asked for, which then holds the key that was
    returned; at most one request is made, and none when the key is
    cached, so that after a success the same key is returned without the
    network. *)
Theorem gateway_cache_discipline (gw : gateway.APIGateway) (net : Transport)
    (serviceID : string) :
  let gw' := (gateway.getServicePublicKey gw net serviceID).1.1 in
  let result := (gateway.getServicePublicKey gw net serviceID).1.2 in
  let calls := (gateway.getServicePublicKey gw net serviceID).2 in
  ((∀ key, result ≠ Ok key) → gw' = gw)
  ∧ (∀ key, result = Ok key →
            gw' = gateway.with_cache gw (<[ serviceID := key ]> (gateway.publicKeyCache gw))
            ∧ gateway.publicKeyCache gw' !! serviceID = Some key
            ∧ ∀ net', gateway.getServicePublicKey gw' net' serviceID = (gw', Ok key, []))
  ∧ (calls = [] ∨ calls = [gateway.lookup gw serviceID])
  ∧ (is_Some (gateway.publicKeyCache gw !! serviceID) → calls = [] ∧ gw' = gw).
Proof.
  intros gw' result calls. subst gw' result calls.
  assert (Hhit : ∀ key, gateway.publicKeyCache gw !! serviceID = Some key →
                        gateway.with_cache gw
                          (<[ serviceID := key ]> (gateway.publicKeyCache gw)) = gw).
  { intros key Hkey. unfold gateway.with_cache. rewrite insert_id by done.
    by destruct gw. }
  unfold gateway.getServicePublicKey.
  destruct (gateway.publicKeyCache gw !! serviceID) as [cached|] eqn:Hcache.
  - cbn [fst snd]. split_and!; try done; try (by auto).
    intros key [= <-]. rewrite (Hhit cached eq_refl). split_and!; try done.
    intros net'. by rewrite Hcache.
  - destruct (net _) as [resp|]; cbn [fst snd].
    2: { split_and!; try done; try (by auto); by intros [? [=]]. }
    destruct (negb _); cbn [fst snd].
    { split_and!; try done; try (by auto); by intros [? [=]]. }
    destruct (models.Decode_ServiceResponse _) as [response|]; cbn [fst snd].
    2: { split_and!; try done; try (by auto); by intros [? [=]]. }
    destruct (json.Unmarshal_map _) as [keyData|]; cbn [fst snd].
    2: { split_and!; try done; try (by auto); by intros [? [=]]. }
    destruct (pqcutil.DeserializePublicKeyFromJSON keyData) as [key|e|m];
      cbn [fst snd].
    + split_and!.
      * intros Hne. by destruct (Hne key).
      * intros ? [= <-]. split; [done|].
        cbn [gateway.with_cache gateway.publicKeyCache].
        rewrite lookup_insert_eq. by split.
      * by auto.
      * by intros [? [=]].
    + split_and!; try done; try (by auto); by intros [? [=]].
    + split_and!; try done; try (by auto); by intros [? [=]].
Qed.

(** [getServicePublicKey] of the backend keeps the same discipline. *)
Theorem backend_cache_discipline (bs : backend.BackendService) (net : Transport)
    (serviceID : string) :
  let bs' := (backend.getServicePublicKey bs net serviceID).1.1 in
  let result := (backend.getServicePublicKey bs net serviceID).1.2 in
  let calls := (backend.getServicePublicKey bs net serviceID).2 in
  ((∀ key, result ≠ Ok key) → bs' = bs)
  ∧ (∀ key, result = Ok key →
            bs' = backend.with_cache bs (<[ serviceID := key ]> (backend.publicKeyCache bs))
            ∧ backend.requestCounter bs' = backend.requestCounter bs
            ∧ backend.publicKeyCache bs' !! serviceID = Some key
            ∧ ∀ net', backend.getServicePublicKey bs' net' serviceID = (bs', Ok key, []))
  ∧ (calls = [] ∨ calls = [backend.lookup bs serviceID])
  ∧ (is_Some (backend.publicKeyCache bs !! serviceID) → calls = [] ∧ bs' = bs).
Proof.
  intros bs' result calls. subst bs' result calls.
  assert (Hhit : ∀ key, backend.publicKeyCache bs !! serviceID = Some key →
                        backend.with_cache bs
                          (<[ serviceID := key ]> (backend.publicKeyCache bs)) = bs).
  { intros key Hkey. unfold backend.with_cache. rewrite insert_id by done.
    by destruct bs. }
  unfold backend.getServicePublicKey.
  destruct (backend.publicKeyCache bs !! serviceID) as [cached|] eqn:Hcache.
  - cbn [fst snd]. split_and!; try done; try (by auto).
    intros key [= <-]. rewrite (Hhit cached eq_refl). split_and!; try done.
    intros net'. by rewrite Hcache.
  - destruct (net _) as [resp|]; cbn [fst snd].
    2: { split_and!; try done; try (by auto); by intros [? [=]]. }
    destruct (negb _); cbn [fst snd].
    { split_and!; try done; try (by auto); by intros [? [=]]. }
    destruct (models.Decode_ServiceResponse _) as [response|]; cbn [fst snd].
    2: { split_and!; try done; try (by auto); by intros [? [=]]. }
    destruct (json.Unmarshal_map _) as [keyData|]; cbn [fst snd].
    2: { split_and!; try done; try (by auto); by intros [? [=]]. }
    destruct (backend.publicKeyFromKeyData keyData) as [key|e|m]; cbn [fst snd].
    + split_and!.
      * intros Hne. by destruct (Hne key).
      * intros ? [= <-]. split; [done|]. split; [done|].
        cbn [backend.with_cache backend.publicKeyCache].
        rewrite lookup_insert_eq. by split.
      * by auto.
      * by intros [? [=]].
    + split_and!; try done; try (by auto); by intros [? [=]].
    + split_and!; try done; try (by auto); by intros [? [=]].
Qed.

End MeshMore.

(** ** The path of a request: gateway to backend and back *)

Section Path.
Context `{SigS : mode3.Scheme} {SigC : mode3.Correct SigS}.
Context `{KemS : kyber768.Scheme}.

Lemma forward_first_call (gw : gateway.APIGateway) (net : Transport)
    (r : http.Request) (now : time.Time) (body signed wire : bytes) :
  http.Body r = Some body →
  models.Marshal_ServiceRequest (gateway.requestData gw r body now) = Ok signed →
  models.Marshal_ServiceRequest
    (gateway.with_signature (gateway.requestData gw r body now)
       (Some (mode3.SignTo (pqc.PrivateKey (gateway.dilithiumKeyPair gw)) signed)))
  = Ok wire →
  url_ok (gateway.backendServiceURL gw +:+ http.Path r) = true →
  ∃ calls, (gateway.forwardToBackend gw net r now).2
           = gateway.backendRequest gw (http.Path r) wire :: calls.
Proof.
  intros Hbody Hsigned Hwire Hurl.
  unfold gateway.forwardToBackend. rewrite Hbody, Hsigned.
  unfold pqc.Sign. cbv zeta. rewrite Hwire, Hurl. cbn [negb].
  destruct (net _) as [resp|]; [|by eexists].
  destruct (models.Decode_ServiceResponse _) as [backendResponse|]; [|by eexists].
  destruct (gateway.getServicePublicKey gw net "backend-service")
    as [[gw' [pk|e|m]] calls]; [|by eexists..].
  destruct (pqc.VerifyDilithiumSignature _ _ _); by eexists.
Qed.

(** A backend that holds the gateway's public key accepts what the
    gateway forwards for an inbound request of plain strings whose body
    is empty or a tree with fewer than 10000 objects inside one another
    (the envelope adds one object around it, and the decoder reads no
    more than 10000): the envelope the gateway posts decodes at the
    backend, [verifyRequest] returns [nil] for it without asking the
    Registry, and [processEcho] and [processData] answer 200 and count
    the request once. *)
Theorem backend_accepts_gateway_envelope (rand : option bytes)
    (gw : gateway.APIGateway) (bs : backend.BackendService) (net : Transport)
    (r : http.Request) (body : bytes) (now : time.Time) :
  pqc.GenerateDilithiumKeyPair rand = Ok (gateway.dilithiumKeyPair gw) →
  backend.publicKeyCache bs !! gateway.serviceID gw
  = Some (pqc.GetPublicKeyBytes (gateway.dilithiumKeyPair gw)) →
  http.Body r = Some body →
  body = "" ∨ (∃ d, jsontext.well_formed d = true ∧ jsontext.nestable d
                    ∧ body = jsontext.render d) →
  jsontext.plain (gateway.serviceID gw) = true →
  time.well_formed now →
  plain_headers (omap head (http.Header r)) →
  url_ok (gateway.backendServiceURL gw +:+ http.Path r) = true →
  ∃ (wire : bytes) (calls : list http.Outbound),
    (gateway.forwardToBackend gw net r now).2
    = gateway.backendRequest gw (http.Path r) wire :: calls
    ∧ ∀ (r' : http.Request) (net' : Transport) (now1 now2 : time.Time)
        (elapsed : string),
        http.Body r' = Some wire →
        ∃ request,
          http.Body r' ≫= models.Decode_ServiceRequest = Some request
          ∧ models.req_ServiceID request = gateway.serviceID gw
          ∧ backend.verifyRequest bs net' request = (bs, None, [])
          ∧ http.StatusCode (backend.processEcho bs net' r' now1 now2 elapsed).1.2
            = http.StatusOK
          ∧ backend.requestCounter
              (backend.processEcho bs net' r' now1 now2 elapsed).1.1
            = backend.wrap_int (backend.requestCounter bs + 1)
          ∧ http.StatusCode (backend.processData bs net' r' now1 now2 elapsed).1.2
            = http.StatusOK
          ∧ backend.requestCounter
              (backend.processData bs net' r' now1 now2 elapsed).1.1
            = backend.wrap_int (backend.requestCounter bs + 1).
Proof.
  intros Hgen Hcache Hbody Hplain Hsid Hnow Hheaders Hurl.
  assert (∃ signed, models.Marshal_ServiceRequest (gateway.requestData gw r body now)
                    = Ok signed) as [signed Hsigned].
  { destruct (canonical_bytes_agree_on_plain_requests gw r body now ""
                Hplain Hsid Hnow Hheaders) as (signed & _ & Hs & _).
    by exists signed. }
  set (signature := mode3.SignTo (pqc.PrivateKey (gateway.dilithiumKeyPair gw)) signed).
  destruct (canonical_bytes_agree_on_plain_requests gw r body now signature
              Hplain Hsid Hnow Hheaders)
    as (signed' & wire & Hsigned' & Hwire & Hdecode & Hrecomputed).
  rewrite Hsigned in Hsigned'. injection Hsigned' as <-.
  destruct (forward_first_call gw net r now body signed wire Hbody Hsigned Hwire Hurl)
    as [calls Hcalls].
  exists wire, calls. split; [exact Hcalls|].
  intros r' net' now1 now2 elapsed Hbody'.
  set (request := gateway.with_signature (gateway.requestData gw r body now)
                    (Some signature)).
  assert (Hd : http.Body r' ≫= models.Decode_ServiceRequest = Some request).
  { rewrite Hbody'. exact Hdecode. }
  assert (Hverify : backend.verifyRequest bs net' request = (bs, None, [])).
  { unfold backend.verifyRequest.
    change (models.req_ServiceID request) with (gateway.serviceID gw).
    rewrite (backend_cache_hit bs net' _ _ Hcache).
    fold request in Hrecomputed. rewrite Hrecomputed.
    cbn [models.req_Signature request gateway.with_signature slice_bytes default id].
    unfold signature. by rewrite (generated_key_verifies rand). }
  exists request. split; [exact Hd|]. split; [done|]. split; [exact Hverify|].
  unfold backend.processEcho, backend.processData. rewrite Hd, Hverify.
  by split_and!.
Qed.

(** The gateway relays to its client only what it verified: when its
    answer carries the header [X-Gateway-Service], the body and the status
    are those of a backend response that decoded and whose signature
    verified, over its [Data], under the key the gateway resolved for
    [backend-service]. *)
Theorem gateway_relays_only_verified (gw : gateway.APIGateway) (net : Transport)
    (r : http.Request) (now : time.Time) :
  is_Some (http.RespHeader (gateway.forwardToBackend gw net r now).1.2
             !! "X-Gateway-Service") →
  ∃ (req : http.Outbound) (answer : http.Response)
    (backendResponse : models.ServiceResponse) (backendPublicKey : bytes),
    head (gateway.forwardToBackend gw net r now).2 = Some req
    ∧ net req = Some answer
    ∧ models.Decode_ServiceResponse (http.RespBody answer) = Some backendResponse
    ∧ (gateway.getServicePublicKey gw net "backend-service").1.2 = Ok backendPublicKey
    ∧ pqc.VerifyDilithiumSignature backendPublicKey
        (slice_bytes (models.resp_Data backendResponse))
        (slice_bytes (models.resp_Signature backendResponse)) = None
    ∧ (gateway.forwardToBackend gw net r now).1.2
      = http.EncodeJSON {[ "X-Gateway-Service" := gateway.serviceID gw ]}
          (http.StatusCode answer)
          (models.Marshal_ServiceResponse backendResponse).
Proof.
  assert (Herr : ∀ msg code,
            ¬ is_Some (http.RespHeader (http.Error msg code) !! "X-Gateway-Service")).
  { intros msg code [x Hx]. cbn [http.Error http.RespHeader] in Hx.
    rewrite lookup_insert_ne in Hx by done. by rewrite lookup_singleton_ne in Hx. }
  unfold gateway.forwardToBackend.
  destruct (http.Body r) as [body|]; [|by intros ?%Herr].
  destruct (models.Marshal_ServiceRequest _) as [payload|e|m]; [|by intros ?%Herr..].
  destruct (pqc.Sign _ _) as [signature|e|m]; [|by intros ?%Herr..].
  cbv zeta. destruct (negb _); [by intros ?%Herr|].
  destruct (net _) as [answer|] eqn:Hnet; [|by intros ?%Herr].
  destruct (models.Decode_ServiceResponse _) as [backendResponse|] eqn:Hd;
    [|by intros ?%Herr].
  destruct (gateway.getServicePublicKey gw net "backend-service")
    as [[gw' [pk|e|m]] calls]; [|by intros ?%Herr..].
  destruct (pqc.VerifyDilithiumSignature _ _ _) eqn:Hv; [by intros ?%Herr|].
  intros _. by eexists _, answer, backendResponse, pk.
Qed.


End Path.

(** ** What every run of the mesh keeps *)

Section MeshRuns.
Context `{SigS : mode3.Scheme} `{KemS : kyber768.Scheme}.








End MeshRuns.

(** ** Start-up of the Registry, the forms of a served key, keys of a
    wrong size *)

Section Misc.
Context `{SigS : mode3.Scheme} `{KemS : kyber768.Scheme}.

(** [DeserializePublicKeyFromJSON], form by form: a map without
    [public_key] is an error; a string is decoded as base64, so that the
    base64 text of a key gives the key and a text that is no base64 is
    the error [failed to decode base64 public key] around the library's
    cause; an array goes through the loop over its elements, and its
    first element that is no number is reported with its index and its
    type; a byte slice is returned as it is, the [nil] slice too; [nil],
    a bool, a number, an int, a time and a map are errors that name the
    type. *)
Theorem deserialize_public_key_cases (keyData : list (string * json.any)) :
  (json.map_lookup keyData "public_key" = None →
   pqcutil.DeserializePublicKeyFromJSON keyData
   = Fail (Errorf "public_key field not found in response"))
  ∧ (∀ key, json.map_lookup keyData "public_key"
            = Some (json.AString (base64.EncodeToString key)) →
            pqcutil.DeserializePublicKeyFromJSON keyData = Ok key)
  ∧ (∀ text, json.map_lookup keyData "public_key" = Some (json.AString text) →
             pqcutil.DeserializePublicKeyFromJSON keyData
             = match base64.DecodeString text with
               | Some key => Ok key
               | None => Fail (ErrorfWrap "failed to decode base64 public key"
                                 (Errorf "illegal base64 data"))
               end)
  ∧ (∀ l, json.map_lookup keyData "public_key" = Some (json.ASlice l) →
          pqcutil.DeserializePublicKeyFromJSON keyData
          = match pqcutil.bytes_of_floats 0 l with
            | inr key => Ok key
            | inl i =>
                Fail (Errorf ("invalid public key byte format at index "
                              +:+ strconv.itoa (Z.of_nat i)
                              +:+ ": expected float64 but got "
                              +:+ pqcutil.type_name (default json.ANil (l !! i))))
            end)
  ∧ (∀ directBytes, json.map_lookup keyData "public_key"
                    = Some (json.ABytes directBytes) →
                    pqcutil.DeserializePublicKeyFromJSON keyData
                    = Ok (slice_bytes directBytes))
  ∧ (∀ a, json.map_lookup keyData "public_key" = Some a →
          match a with
          | json.AString _ | json.ASlice _ | json.ABytes _ => False
          | _ => True
          end →
          pqcutil.DeserializePublicKeyFromJSON keyData
          = Fail (Errorf ("invalid public key format: expected string (base64), "
                          +:+ "[]interface{} (JSON array), or []byte, but got "
                          +:+ pqcutil.type_name a))).
Proof.
  unfold pqcutil.DeserializePublicKeyFromJSON. split_and!.
  - by intros ->.
  - intros key ->. by rewrite base64_roundtrip.
  - by intros text ->.
  - by intros l ->.
  - by intros directBytes ->.
  - intros a -> Ha. by destruct a.
Qed.

(** A Registry that started holds one registration, its own: its ID is
    [auth-service], its map holds its own public key under that ID and
    nothing else, so that it answers 404 for every other service ID.
    Keys that were loaded are used as they are; the constructor fails only
    when no keys were loaded and a key generation failed. *)
Theorem new_registry_knows_itself
    (loaded : outcome (pqc.DilithiumKeyPair * pqc.KyberKeyPair))
    (rand1 rand2 : option bytes) :
  (∀ as_, auth.NewAuthService loaded rand1 rand2 = Ok as_ →
          auth.serviceID as_ = "auth-service"
          ∧ auth.serviceRegistry as_
            = {[ "auth-service"
                 := Some (pqc.GetPublicKeyBytes (auth.dilithiumKeyPair as_)) ]}
          ∧ (∀ d k, loaded = Ok (d, k) →
                    auth.dilithiumKeyPair as_ = d ∧ auth.kyberKeyPair as_ = k)
          ∧ (∀ serviceID now1 now2, serviceID ≠ "auth-service" →
                auth.getPublicKey as_ serviceID now1 now2
                = http.Error "Service not found" http.StatusNotFound))
  ∧ (∀ e, auth.NewAuthService loaded rand1 rand2 = Fail e →
          (∀ kp, loaded ≠ Ok kp)
          ∧ ((∃ e', pqc.GenerateDilithiumKeyPair rand1 = Fail e')
             ∨ (∃ e', pqc.GenerateKyberKeyPair rand2 = Fail e'))).
Proof.
  unfold auth.NewAuthService. split.
  - intros as_ Has.
    assert (∃ d k, as_ = {| auth.dilithiumKeyPair := d; auth.kyberKeyPair := k;
                            auth.serviceRegistry :=
                              {[ "auth-service" := Some (pqc.GetPublicKeyBytes d) ]};
                            auth.serviceID := "auth-service" |}
                   ∧ ∀ d' k', loaded = Ok (d', k') → d = d' ∧ k = k')
      as (d & k & -> & Hloaded).
    { destruct loaded as [[d k]|e|m].
      - injection Has as <-. exists d, k. split; [done|]. by intros ?? [= <- <-].
      - destruct (pqc.GenerateDilithiumKeyPair rand1) as [d|?|?]; [|done..].
        destruct (pqc.GenerateKyberKeyPair rand2) as [k|?|?]; [|done..].
        injection Has as <-. by exists d, k.
      - destruct (pqc.GenerateDilithiumKeyPair rand1) as [d|?|?]; [|done..].
        destruct (pqc.GenerateKyberKeyPair rand2) as [k|?|?]; [|done..].
        injection Has as <-. by exists d, k. }
    split_and!; try done.
    intros serviceID now1 now2 Hne. apply getPublicKey_not_found.
    cbn [auth.serviceRegistry]. by apply lookup_singleton_ne.
  - intros e He. destruct loaded as [[d k]|e0|m]; [done| |].
    + split; [done|].
      destruct (pqc.GenerateDilithiumKeyPair rand1) as [d|?|?]; [|by eauto|done].
      destruct (pqc.GenerateKyberKeyPair rand2) as [k|?|?]; [done|by eauto|done].
    + split; [done|].
      destruct (pqc.GenerateDilithiumKeyPair rand1) as [d|?|?]; [|by eauto|done].
      destruct (pqc.GenerateKyberKeyPair rand2) as [k|?|?]; [done|by eauto|done].
Qed.

(** A key of a wrong size is never good for anything: a service that is
    registered with such a key (or with none) is refused every key
    exchange with 401, whatever it signs, and a backend whose cache holds
    such a key for a sender rejects every envelope of that sender with
    401 and counts nothing. *)
Theorem wrong_size_key_always_refused :
  (∀ (as_ : auth.AuthService) (r : http.Request) (rand : option bytes)
     (now : time.Time) (request : models.KeyExchangeRequest)
     (servicePublicKey : option bytes),
     http.Body r ≫= models.Decode_KeyExchangeRequest = Some request →
     auth.serviceRegistry as_ !! models.kx_ServiceID request = Some servicePublicKey →
     len (slice_bytes servicePublicKey) ≠ mode3.PublicKeySize →
     auth.keyExchange as_ r rand now
     = http.Error "Invalid signature" http.StatusUnauthorized)
  ∧ (∀ (bs : backend.BackendService) (net : Transport) (r : http.Request)
       (now1 now2 : time.Time) (elapsed : string) (request : models.ServiceRequest)
       (cached : bytes),
       http.Body r ≫= models.Decode_ServiceRequest = Some request →
       backend.publicKeyCache bs !! models.req_ServiceID request = Some cached →
       len cached ≠ mode3.PublicKeySize →
       backend.processEcho bs net r now1 now2 elapsed
       = (bs, http.Error "Request verification failed" http.StatusUnauthorized, [])
       ∧ backend.processData bs net r now1 now2 elapsed
         = (bs, http.Error "Request verification failed" http.StatusUnauthorized, [])).
Proof.
  split.
  - intros as_ r rand now request pk Hd Hreg Hlen.
    unfold auth.keyExchange. rewrite Hd, Hreg.
    unfold pqc.VerifyDilithiumSignature.
    by apply Nat.eqb_neq in Hlen as ->.
  - intros bs net r now1 now2 elapsed request cached Hd Hcache Hlen.
    assert (∃ e, backend.verifyRequest bs net request = (bs, Some e, []))
      as [e Hv].
    { unfold backend.verifyRequest.
      rewrite (backend_cache_hit bs net _ _ Hcache).
      destruct (models.Marshal_ServiceRequest _) as [payload|e|m]; [|by eexists..].
      unfold pqc.VerifyDilithiumSignature.
      apply Nat.eqb_neq in Hlen as ->. by eexists. }
    unfold backend.processEcho, backend.processData. by rewrite Hd, Hv.
Qed.

End Misc.

(** ** The files in memory meet the promises of the operating system *)

#[local] Instance sample_fs_lawful : os.Lawful sample_more.fs.
Proof.
  split.
  - intros fs fs' path data [= <-]. apply lookup_insert_eq.
  - intros fs fs' path data path' [= <-] Hne. by apply lookup_insert_ne.
  - by intros fs fs' dir path [= <-].
Qed.
(** ** The URL the gateway posts to *)

Lemma forallb_app (p : ascii → bool) (a b : string) :
  string_forallb p (a +:+ b) = string_forallb p a && string_forallb p b.
Proof.
  induction a as [|c a IH]; [done|].
  rewrite str_app_cons. simpl. by rewrite IH, andb_assoc.
Qed.

Lemma cut_absent (sep : ascii) (s : string) :
  string_forallb (λ c, negb (Ascii.eqb c sep)) s = true → url.cut sep s = (s, None).
Proof.
  induction s as [|c s IH]; [done|]. simpl.
  intros [Hc Hs]%andb_true_iff. apply negb_true_iff in Hc as ->. by rewrite (IH Hs).
Qed.

Lemma cut_first (sep : ascii) (a b : string) :
  string_forallb (λ c, negb (Ascii.eqb c sep)) a = true →
  url.cut sep (a +:+ String sep b) = (a, Some b).
Proof.
  induction a as [|c a IH].
  - intros _. simpl. by rewrite Ascii.eqb_refl.
  - rewrite str_app_cons. simpl.
    intros [Hc Ha]%andb_true_iff. apply negb_true_iff in Hc as ->. by rewrite (IH Ha).
Qed.

Lemma count_absent (sep : ascii) (s : string) :
  string_forallb (λ c, negb (Ascii.eqb c sep)) s = true → url.count sep s = 0.
Proof.
  induction s as [|c s IH]; [done|]. simpl.
  intros [Hc Hs]%andb_true_iff. apply negb_true_iff in Hc as ->. by rewrite (IH Hs).
Qed.

Lemma forallb_weaken (p q : ascii → bool) (s : string) :
  (∀ c, p c = true → q c = true) →
  string_forallb p s = true → string_forallb q s = true.
Proof.
  intros Hpq. induction s as [|c s IH]; [done|]. simpl.
  intros [Hc Hs]%andb_true_iff. by rewrite (Hpq c Hc), (IH Hs).
Qed.

Lemma drop_bytes_app (a b : string) : drop_bytes (len a) (a +:+ b) = b.
Proof. induction a as [|c a IH]; [by destruct b|]. by rewrite str_app_cons. Qed.

Lemma scheme_end_tail (i : nat) (s rest : string) :
  string_forallb scheme_byte s = true →
  url.scheme_end (S i) (s +:+ String ":" rest) = Some (Some (S i + len s)).
Proof.
  revert i. induction s as [|c s IH]; intros i.
  - intros _. simpl. by rewrite Nat.add_0_r.
  - rewrite str_app_cons. cbn [string_forallb]. intros [Hc Hs]%andb_true_iff.
    cbn [url.scheme_end]. rewrite (IH (S i) Hs).
    replace (S (S i) + len s) with (S i + len (String c s)) by (simpl; lia).
    unfold scheme_byte in Hc. rewrite <- !orb_assoc in Hc.
    destruct (url.is_alpha c); [done|]. cbn [orb] in Hc.
    rewrite !orb_assoc in Hc. by rewrite Hc.
Qed.

Lemma getScheme_text (scheme rest : string) :
  scheme_text scheme = true →
  url.getScheme (scheme +:+ String ":" rest) = Some (scheme, rest).
Proof.
  destruct scheme as [|c s]; [done|]. cbn [scheme_text].
  intros [Hc Hs]%andb_true_iff. unfold url.getScheme.
  rewrite str_app_cons. cbn [url.scheme_end]. rewrite Hc.
  rewrite (scheme_end_tail 0 s rest Hs).
  rewrite <- str_app_cons.
  replace (1 + len s) with (len (String c s)) by done.
  rewrite take_bytes_app.
  replace (S (len (String c s))) with (len (String c s +:+ ":")) by (rewrite len_app; simpl; lia).
  replace (String c s +:+ String ":" rest) with ((String c s +:+ ":") +:+ rest) by (by rewrite str_app_assoc).
  by rewrite drop_bytes_app.
Qed.

Lemma unescape_path_plain (p : string) :
  string_forallb path_byte p = true → url.unescape url.encodePath p = Some p.
Proof.
  induction p as [|c p IH]; [done|]. simpl.
  intros [Hc Hp]%andb_true_iff. rewrite (IH Hp).
  unfold path_byte in Hc. rewrite !andb_true_iff, !negb_true_iff in Hc.
  destruct Hc as (_ & ->). done.
Qed.

Lemma no_ctl_app (a b : string) :
  string_forallb (λ c, negb (url.is_ctl c)) a = true →
  string_forallb (λ c, negb (url.is_ctl c)) b = true →
  url.stringContainsCTLByte (a +:+ b) = false.
Proof.
  intros Ha Hb. unfold url.stringContainsCTLByte. by rewrite forallb_app, Ha, Hb.
Qed.

Lemma scheme_byte_facts (c : ascii) :
  scheme_byte c = true →
  negb (url.is_ctl c) = true ∧ negb (Ascii.eqb c "?") = true
  ∧ negb (Ascii.eqb c "#") = true.
Proof.
  intros Hc.
  destruct c as [b0 b1 b2 b3 b4 b5 b6 b7].
  destruct b0, b1, b2, b3, b4, b5, b6, b7; try done; vm_compute in Hc; done.
Qed.

Lemma scheme_text_bytes (scheme : string) :
  scheme_text scheme = true → string_forallb scheme_byte scheme = true.
Proof.
  destruct scheme as [|c s]; [done|]. cbn [scheme_text string_forallb].
  intros [Hc Hs]%andb_true_iff. unfold scheme_byte at 1. by rewrite Hc, Hs.
Qed.

(** A URL made of a scheme, [://], an authority and a plain path is
    taken apart into just these, with the path as it is. *)
Lemma Parse_plain (scheme authority path : string)
    (user : option (string * option string)) (host : string) :
  scheme_text scheme = true → authority_text authority = true →
  url.parseAuthority authority = Some (user, host) →
  plain_path path = true →
  url.Parse (scheme +:+ "://" +:+ authority +:+ path)
  = Some {| url.Scheme := to_lower scheme; url.Opaque := ""; url.User := user;
            url.Host := host; url.Path := path; url.ForceQuery := false;
            url.RawQuery := ""; url.Fragment := "" |}.
Proof.
  intros Hscheme Hauth Hparse [Hslash Hpath]%andb_true_iff.
  destruct path as [|c tail]; [done|].
  assert (c = "/"%char) as ->.
  { unfold url.has_prefix in Hslash. cbn [json.strip_prefix] in Hslash.
    destruct (Ascii.eqb "/" c) eqn:E; [by apply Ascii.eqb_eq in E|done]. }
  clear Hslash.
  pose proof (scheme_text_bytes scheme Hscheme) as Hs.
  set (rest := "//" +:+ authority +:+ String "/" tail).
  assert (Hall : ∀ q : ascii → bool,
            (∀ c, scheme_byte c = true → q c = true) →
            (∀ c, authority_byte c = true → q c = true) →
            (∀ c, path_byte c = true → q c = true) →
            q ":"%char = true → q "/"%char = true →
            string_forallb q scheme = true ∧ string_forallb q rest = true).
  { intros q Hq1 Hq2 Hq3 Hcolon Hsl. split.
    - by apply (forallb_weaken scheme_byte).
    - unfold rest. rewrite forallb_app. cbn [string_forallb]. rewrite Hsl. cbn [andb].
      rewrite forallb_app.
      rewrite (forallb_weaken _ q authority Hq2 Hauth).
      by rewrite (forallb_weaken _ q _ Hq3 Hpath). }
  assert (Hsb : ∀ c, scheme_byte c = true → authority_byte c = true).
  { intros c Hc. destruct (scheme_byte_facts c Hc) as (H1 & H2 & H3).
    unfold authority_byte. rewrite H1, H2, H3.
    destruct c as [b0 b1 b2 b3 b4 b5 b6 b7].
    destruct b0, b1, b2, b3, b4, b5, b6, b7; try done; vm_compute in Hc; done. }
  assert (Hab : ∀ c, authority_byte c = true →
                     negb (url.is_ctl c) = true ∧ negb (Ascii.eqb c "?") = true
                     ∧ negb (Ascii.eqb c "#") = true ∧ negb (Ascii.eqb c "/") = true).
  { intros c Hc. unfold authority_byte in Hc. rewrite !andb_true_iff in Hc. tauto. }
  assert (Hpb : ∀ c, path_byte c = true →
                     negb (url.is_ctl c) = true ∧ negb (Ascii.eqb c "?") = true
                     ∧ negb (Ascii.eqb c "#") = true).
  { intros c Hc. unfold path_byte in Hc. rewrite !andb_true_iff in Hc. tauto. }
  destruct (Hall (λ c, negb (Ascii.eqb c "#"))) as [Hh1 Hh2]; try done.
  { intros c Hc. by apply Hab, Hsb. } { intros c Hc. by apply Hab. }
  { intros c Hc. by apply Hpb. }
  destruct (Hall (λ c, negb (Ascii.eqb c "?"))) as [Hq1 Hq2]; try done.
  { intros c Hc. by apply Hab, Hsb. } { intros c Hc. by apply Hab. }
  { intros c Hc. by apply Hpb. }
  destruct (Hall (λ c, negb (url.is_ctl c))) as [Hc1 Hc2]; try done.
  { intros c Hc. by apply Hab, Hsb. } { intros c Hc. by apply Hab. }
  { intros c Hc. by apply Hpb. }
  change (scheme +:+ "://" +:+ authority +:+ String "/" tail)
    with (scheme +:+ String ":" rest).
  unfold url.Parse.
  rewrite (cut_absent "#" (scheme +:+ String ":" rest)).
  2:{ rewrite forallb_app. cbn [string_forallb]. by rewrite Hh1, Hh2. }
  unfold url.parse, url.stringContainsCTLByte.
  assert (string_forallb (λ c, negb (url.is_ctl c)) (scheme +:+ String ":" rest) = true)
    as ->.
  { rewrite forallb_app. cbn [string_forallb]. by rewrite Hc1, Hc2. }
  cbn [negb].
  assert (String.eqb (scheme +:+ String ":" rest) "*" = false) as ->.
  { destruct scheme as [|c [|c' s]]; [done| |].
    - rewrite str_app_cons. simpl. by destruct (Ascii.eqb c "*").
    - rewrite !str_app_cons. simpl. by destruct (Ascii.eqb c "*"). }
  rewrite (getScheme_text scheme _ Hscheme). cbn [mbind option_bind].
  rewrite (cut_absent "?" rest Hq2), (count_absent "?" rest Hq2).
  assert (match time.unsnoc rest with
          | Some (init, c) =>
              if Ascii.eqb c "?" && (0 =? 1)%nat then (init, true, "")
              else (rest, false, default "" None)
          | None => (rest, false, default "" None)
          end = (rest, false, "")) as ->.
  { destruct (time.unsnoc rest) as [[init c]|]; [|done]. by rewrite andb_false_r. }
  assert (url.has_prefix "/" rest = true) as -> by done.
  assert (url.has_prefix "//" rest = true) as -> by done.
  cbn [negb andb].
  assert (negb (String.eqb (to_lower scheme) "") = true) as ->.
  { by destruct scheme. }
  cbn [orb andb].
  change (drop_bytes 2 rest) with (authority +:+ String "/" tail).
  rewrite (cut_first "/" authority tail).
  - rewrite Hparse. cbn [mbind option_bind].
    rewrite (unescape_path_plain _ Hpath). done.
  - apply (forallb_weaken authority_byte); [|done].
    intros c Hc. by apply Hab.
Qed.

Section Forward.
Context `{SigS : mode3.Scheme} `{KemS : kyber768.Scheme}.

(** C10 (as amended). For every inbound request on a path other than
    [/health], whatever its method, whose body could be read and is empty
    or valid JSON, whose path holds no [?], no [#], no [%] and no control
    byte, at a gateway whose backend URL is a scheme, [://] and an
    authority: the gateway's first outbound call is a POST to the backend
    URL followed by the path, and the URL of that request has the inbound
    path as its path and no query.  The body of the POST is the JSON of
    the envelope with its signature, and the signature is the one [Sign]
    makes with the gateway's key over the JSON of the envelope without
    signature, so that it verifies under the public key of a gateway
    whose key pair was generated.  When the inbound body is empty the
    envelope's [Data] is the object [{}], and that is what the member
    [data] of the body holds. *)
Theorem gateway_forwards_as_post (gw : gateway.APIGateway) (net : Transport)
    (r : http.Request) (now : time.Time) (body scheme authority : string)
    (user : option (string * option string)) (host : string) :
  http.Path r ≠ "/health" →
  http.Body r = Some body →
  body = "" ∨ json.Valid body = true →
  gateway.backendServiceURL gw = scheme +:+ "://" +:+ authority →
  scheme_text scheme = true → authority_text authority = true →
  url.parseAuthority authority = Some (user, host) →
  plain_path (http.Path r) = true →
  let unsigned := gateway.requestData gw r body now in
  ∃ (requestPayload signedPayload : bytes) (calls : list http.Outbound),
    let signature :=
      mode3.SignTo (pqc.PrivateKey (gateway.dilithiumKeyPair gw)) requestPayload in
    models.Marshal_ServiceRequest unsigned = Ok requestPayload
    ∧ pqc.Sign (gateway.dilithiumKeyPair gw) requestPayload = Ok signature
    ∧ models.Marshal_ServiceRequest (gateway.with_signature unsigned (Some signature))
      = Ok signedPayload
    ∧ (gateway.handleRequest gw net r now).2
      = {| http.OutMethod := "POST";
           http.OutURL := gateway.backendServiceURL gw +:+ http.Path r;
           http.OutHeader := {[ "Content-Type" := "application/json";
                                "X-Service-ID" := gateway.serviceID gw ]};
           http.OutBody := signedPayload |} :: calls
    ∧ url.Parse (gateway.backendServiceURL gw +:+ http.Path r)
      = Some {| url.Scheme := to_lower scheme; url.Opaque := ""; url.User := user;
                url.Host := host; url.Path := http.Path r; url.ForceQuery := false;
                url.RawQuery := ""; url.Fragment := "" |}
    ∧ (body = "" →
       models.req_Data unsigned = Some "{}"
       ∧ signedPayload
         = models.object_of
             ([ json.member "service_id" (json.appendString (gateway.serviceID gw));
                json.member "timestamp" (time.MarshalJSON now);
                json.member "data" "{}";
                json.member "signature" (json.Marshal_bytes (Some signature)) ]
              ++ models.headers_field (omap head (http.Header r))))
    ∧ (body ≠ "" → models.req_Data unsigned = Some body)
    ∧ (mode3.Correct SigS →
       ∀ rand, pqc.GenerateDilithiumKeyPair rand = Ok (gateway.dilithiumKeyPair gw) →
               pqc.VerifyDilithiumSignature
                 (pqc.GetPublicKeyBytes (gateway.dilithiumKeyPair gw))
                 requestPayload signature = None).
Proof.
  intros Hpath Hbody Hvalid Hbase Hscheme Hauth Hparse Hplain unsigned.
  pose proof (Parse_plain scheme authority (http.Path r) user host
                Hscheme Hauth Hparse Hplain) as Hurl.
  replace (scheme +:+ "://" +:+ authority +:+ http.Path r)
    with (gateway.backendServiceURL gw +:+ http.Path r) in Hurl
    by (rewrite Hbase; by rewrite !str_app_assoc).
  assert (Hok : url_ok (gateway.backendServiceURL gw +:+ http.Path r) = true)
    by (unfold url_ok; by rewrite Hurl).
  pose proof (requestData_marshals gw r body now Hvalid) as Hdata.
  destruct (Marshal_ServiceRequest_ok _ Hdata) as [p Hp].
  set (signature := mode3.SignTo (pqc.PrivateKey (gateway.dilithiumKeyPair gw)) p).
  destruct (Marshal_ServiceRequest_ok
              (gateway.with_signature (gateway.requestData gw r body now)
                 (Some signature)) Hdata) as [p' Hp'].
  destruct (forward_first_call gw net r now body p p' Hbody Hp Hp' Hok)
    as [calls Hcalls].
  exists p, p', calls. cbv zeta. fold signature.
  split; [exact Hp|]. split; [done|]. split; [exact Hp'|]. split.
  { unfold gateway.handleRequest. by apply String.eqb_neq in Hpath as ->. }
  split; [exact Hurl|]. split; [|split].
  - intros ->. split; [done|].
    unfold models.Marshal_ServiceRequest in Hp'.
    cbn [models.req_Data gateway.with_signature gateway.requestData
         json.Marshal_RawMessage] in Hp'.
    change (json.Compact "{}") with (Some "{}") in Hp'.
    by injection Hp' as <-.
  - intros Hne. unfold unsigned, gateway.requestData. cbn [models.req_Data].
    by destruct body.
  - intros HC rand Hgen. by apply (@generated_key_verifies _ HC rand).
Qed.

End Forward.

(** * The properties on concrete inputs

    Runs of the program with the reference instance of the primitives. *)

Section Runs.
#[local] Existing Instance sample.sig.
#[local] Existing Instance sample.kem.

(** Witness of [sign_verify_roundtrip]: a generated key pair of the
    reference instance. *)
Lemma sign_verify_roundtrip_witness :
  pqc.GenerateDilithiumKeyPair (Some "seed") = Ok (sample.keys "seed").1
  ∧ ∃ signature,
      pqc.Sign (sample.keys "seed").1 "payload" = Ok signature
      ∧ pqc.VerifyDilithiumSignature (pqc.GetPublicKeyBytes (sample.keys "seed").1)
          "payload" signature = None.
Proof.
  split; [reflexivity|].
  apply (@sign_verify_roundtrip sample.sig sample_sig_correct (Some "seed")).
  left. reflexivity.
Defined.

(** C1, counterexample. [LoadDilithiumKeyPair] accepts any two byte
    strings of the right sizes; when the private key is not the one that
    belongs to the public key, the signature it makes does not verify. *)
Lemma loaded_keypair_may_not_verify :
  ¬ (∀ (SigS : mode3.Scheme), mode3.Correct SigS →
     ∀ (publicKeyBytes privateKeyBytes : bytes) (K : pqc.DilithiumKeyPair)
       (data signature : bytes),
       len publicKeyBytes = mode3.PublicKeySize →
       len privateKeyBytes = mode3.PrivateKeySize →
       pqc.LoadDilithiumKeyPair publicKeyBytes privateKeyBytes = Ok K →
       pqc.Sign K data = Ok signature →
       pqc.VerifyDilithiumSignature (pqc.GetPublicKeyBytes K) data signature = None).
Proof.
  intros H.
  specialize (H sample.sig sample_sig_correct "AAAA" "BBBB" _ "payload" _
                eq_refl eq_refl eq_refl eq_refl).
  vm_compute in H. discriminate H.
Qed.

(** Witness of [size_checks] on the reference instance. *)
Lemma size_checks_witness :
  len ("short" : bytes) ≠ mode3.PublicKeySize
  ∧ pqc.VerifyDilithiumSignature "short" "payload" "signature"
    = Some (ErrorfSize "invalid public key size" 4 5)
  ∧ pqc.EncapsulateWithPublicKey "short" (Some "seed")
    = Fail (ErrorfSize "invalid public key size" 1184 5).
Proof.
  destruct (@size_checks sample.sig sample.kem) as (Hv & He & _ & _).
  split; [vm_compute; discriminate|].
  split.
  - apply (Hv "short" "payload" "signature"). vm_compute. discriminate.
  - apply (He "short" (Some "seed")). vm_compute. discriminate.
Defined.

(** C4, counterexample. A signature of the wrong length (here the empty
    one, where the parameter set asks for 8 bytes) gets the very error
    of a failed verification, the one a well-sized wrong signature gets;
    a ciphertext of the wrong length makes [Decapsulate] panic instead of
    returning an error. *)
Lemma wrong_size_signature_not_told_apart :
  len ("" : bytes) ≠ mode3.SignatureSize
  ∧ pqc.VerifyDilithiumSignature "GATE" "payload" ""
    = Some (Errorf "invalid signature")
  ∧ pqc.VerifyDilithiumSignature "GATE" "payload" "8 bytes!"
    = Some (Errorf "invalid signature")
  ∧ len ("short" : bytes) ≠ 1088
  ∧ pqc.Decapsulate (sample.keys "GATE").2 "short"
    = Panics "ct must be of length CiphertextSize".
Proof. vm_compute. repeat split; discriminate. Qed.

(** Witness of [unknown_sender_rejected]: the sender [svc-ghost], which
    is not in the Registry's map. *)
Lemma unknown_sender_rejected_witness :
  auth.serviceRegistry sample.registry_up !! "svc-ghost" = None
  ∧ auth.keyExchange sample.registry_up
      (sample.kx_request "svc-ghost" (sample.keys "GHST").1) (Some "seed") sample.t1
    = http.Error "Service not registered" http.StatusUnauthorized
  ∧ backend.processEcho sample.bs (sample.lookups_reach sample.registry_up)
      sample.ghost_request sample.t0 sample.t1 "1ms"
    = (sample.bs, http.Error "Request verification failed" http.StatusUnauthorized,
       [backend.lookup sample.bs (models.req_ServiceID sample.ghost_envelope)]).
Proof.
  destruct (@unknown_sender_rejected sample.sig sample.kem) as [Hregistry Hbackend].
  split; [vm_compute; reflexivity|]. split.
  - apply (Hregistry sample.registry_up
             (sample.kx_request "svc-ghost" (sample.keys "GHST").1) (Some "seed")
             sample.t1
             (default models.zero_KeyExchangeRequest
                (http.Body (sample.kx_request "svc-ghost" (sample.keys "GHST").1)
                   ≫= models.Decode_KeyExchangeRequest)));
      vm_compute; reflexivity.
  - destruct (Hbackend sample.registry_up sample.bs
                (sample.lookups_reach sample.registry_up) sample.ghost_request
                sample.ghost_envelope sample.t0 sample.t1) as [_ Hhandlers].
    + vm_compute; reflexivity.
    + vm_compute; reflexivity.
    + vm_compute; reflexivity.
    + vm_compute; reflexivity.
    + apply (Hhandlers sample.t0 sample.t1 "1ms").
Defined.

(** Witness of [key_exchange_reply_unverified]: the Registry's own reply
    to the gateway. *)
Lemma key_exchange_reply_unverified_witness :
  http.StatusCode sample.honest_reply = http.StatusOK
  ∧ gateway.performKeyExchange sample.gw (sample.answers sample.honest_reply) sample.t0
    = match pqc.Decapsulate (gateway.kyberKeyPair sample.gw)
              (slice_bytes (models.kxr_Ciphertext sample.honest_response)) with
      | Ok _ => Ok tt
      | Fail e => Fail (ErrorfWrap "failed to decapsulate shared secret" e)
      | Panics m => Panics m
      end.
Proof.
  split; [vm_compute; reflexivity|].
  apply (key_exchange_reply_unverified sample.gw (sample.answers sample.honest_reply)
           sample.t0 sample.honest_reply sample.honest_response).
  - intros req _. reflexivity.
  - vm_compute; reflexivity.
  - vm_compute; reflexivity.
Defined.

(** C3, counterexample. A reply whose signature does not verify under
    the Registry's public key is decapsulated all the same, and
    [performKeyExchange] returns [nil]. *)
Lemma forged_reply_is_decapsulated :
  models.Decode_KeyExchangeResponse (http.RespBody sample.forged_reply)
  = Some sample.forged_response
  ∧ pqc.VerifyDilithiumSignature
      (pqc.GetPublicKeyBytes (auth.dilithiumKeyPair sample.registry_up))
      (models.Marshal_KeyExchangeResponse
         {| models.kxr_Ciphertext := models.kxr_Ciphertext sample.forged_response;
            models.kxr_SharedSecret := None;
            models.kxr_Timestamp := models.kxr_Timestamp sample.forged_response;
            models.kxr_Signature := None |})
      (slice_bytes (models.kxr_Signature sample.forged_response))
    = Some (Errorf "invalid signature")
  ∧ gateway.performKeyExchange sample.gw (sample.answers sample.forged_reply) sample.t0
    = Ok tt.
Proof. vm_compute. done. Qed.

(** Witness of [rejected_request_has_no_effect]: a request whose sender
    cannot be resolved, and the gateway's envelope for a plain request at
    a backend that holds the gateway's key. *)
Lemma rejected_request_has_no_effect_witness :
  (backend.verifyRequest sample.bs (sample.lookups_reach sample.registry_up)
     sample.ghost_envelope
   = (sample.bs,
      Some (ErrorfWrap "failed to get public key"
              (ErrorfInt "failed to get public key, status" 404)),
      [backend.lookup sample.bs "svc-ghost"])
   ∧ backend.processEcho sample.bs (sample.lookups_reach sample.registry_up)
       sample.ghost_request sample.t0 sample.t1 "1ms"
     = (sample.bs, http.Error "Request verification failed" http.StatusUnauthorized,
        [backend.lookup sample.bs "svc-ghost"]))
  ∧ ∃ request,
      http.Body (sample.forwarded sample.plain_request) ≫= models.Decode_ServiceRequest
      = Some request
      ∧ (backend.verifyRequest sample.bs_cached sample.unreachable request).1.2 = None
      ∧ backend.requestCounter
          (backend.processEcho sample.bs_cached sample.unreachable
             (sample.forwarded sample.plain_request) sample.t0 sample.t1 "1ms").1.1
        = backend.wrap_int (backend.requestCounter sample.bs_cached + 1).
Proof.
  destruct (@rejected_request_has_no_effect sample.sig sample.kem)
    as (_ & Hrejected & Hcounted).
  assert (Hv : backend.verifyRequest sample.bs
                 (sample.lookups_reach sample.registry_up) sample.ghost_envelope
               = (sample.bs,
                  Some (ErrorfWrap "failed to get public key"
                          (ErrorfInt "failed to get public key, status" 404)),
                  [backend.lookup sample.bs "svc-ghost"]))
    by (vm_compute; reflexivity).
  split.
  - split; [exact Hv|].
    destruct (Hrejected sample.bs sample.bs (sample.lookups_reach sample.registry_up)
                sample.ghost_request sample.ghost_envelope _ _
                sample.t0 sample.t1 "1ms" ltac:(vm_compute; reflexivity) Hv)
      as (Hecho & _ & _).
    exact Hecho.
  - destruct (Hcounted sample.bs_cached sample.unreachable
                (sample.forwarded sample.plain_request) sample.t0 sample.t1 "1ms")
      as [Hecho _].
    apply Hecho. vm_compute. discriminate.
Defined.

(** Witness of [key_exchange_keeps_secret]: the gateway's key exchange
    with the Registry. *)
Lemma key_exchange_keeps_secret_witness :
  http.StatusCode sample.honest_reply = http.StatusOK
  ∧ ∃ (request : models.KeyExchangeRequest) (ciphertext sharedSecret : bytes),
      http.Body (sample.kx_request "api-gateway" (sample.keys "GATE").1)
        ≫= models.Decode_KeyExchangeRequest = Some request
      ∧ pqc.EncapsulateWithPublicKey (slice_bytes (models.kx_KyberPublicKey request))
          (Some "seed") = Ok (ciphertext, sharedSecret)
      ∧ let unsigned :=
          models.object_of
            [ json.member "ciphertext" (json.Marshal_bytes (Some ciphertext));
              json.member "timestamp" (time.MarshalJSON sample.t1);
              json.member "signature" "null" ] in
        let signature :=
          mode3.SignTo (pqc.PrivateKey (auth.dilithiumKeyPair sample.registry_up))
            unsigned in
        let response :=
          {| models.kxr_Ciphertext := Some ciphertext;
             models.kxr_SharedSecret := None;
             models.kxr_Timestamp := sample.t1;
             models.kxr_Signature := Some signature |} in
        pqc.Sign (auth.dilithiumKeyPair sample.registry_up) unsigned = Ok signature
        ∧ sample.honest_reply
          = {| http.StatusCode := http.StatusOK;
               http.RespHeader := {[ "Content-Type" := "application/json" ]};
               http.RespBody :=
                 models.Marshal_KeyExchangeResponse response +:+ http.newline |}
        ∧ models.Marshal_KeyExchangeResponse response
          = models.object_of
              [ json.member "ciphertext" (json.Marshal_bytes (Some ciphertext));
                json.member "timestamp" (time.MarshalJSON sample.t1);
                json.member "signature" (json.Marshal_bytes (Some signature)) ].
Proof.
  split; [vm_compute; reflexivity|].
  apply (key_exchange_keeps_secret sample.registry_up
           (sample.kx_request "api-gateway" (sample.keys "GATE").1) (Some "seed")
           sample.t1).
  vm_compute; reflexivity.
Defined.

(** Witness of [gateway_forwards_as_post]: a GET with an empty body on
    the path [/status], forwarded to the backend at
    [http://localhost:8082]. *)
Lemma gateway_forwards_as_post_witness :
  http.Method sample.empty_get = "GET"
  ∧ ∃ (requestPayload signedPayload : bytes) (calls : list http.Outbound),
      let unsigned := gateway.requestData sample.gw sample.empty_get "" sample.t0 in
      let signature :=
        mode3.SignTo (pqc.PrivateKey (gateway.dilithiumKeyPair sample.gw))
          requestPayload in
      models.Marshal_ServiceRequest unsigned = Ok requestPayload
      ∧ models.Marshal_ServiceRequest
          (gateway.with_signature unsigned (Some signature)) = Ok signedPayload
      ∧ (gateway.handleRequest sample.gw sample.unreachable sample.empty_get
           sample.t0).2
        = {| http.OutMethod := "POST";
             http.OutURL := "http://localhost:8082/status";
             http.OutHeader := {[ "Content-Type" := "application/json";
                                  "X-Service-ID" := "api-gateway" ]};
             http.OutBody := signedPayload |} :: calls
      ∧ url.Parse "http://localhost:8082/status"
        = Some {| url.Scheme := "http"; url.Opaque := ""; url.User := None;
                  url.Host := "localhost:8082"; url.Path := "/status";
                  url.ForceQuery := false; url.RawQuery := "";
                  url.Fragment := "" |}
      ∧ models.req_Data unsigned = Some "{}"
      ∧ pqc.VerifyDilithiumSignature
          (pqc.GetPublicKeyBytes (gateway.dilithiumKeyPair sample.gw))
          requestPayload signature = None.
Proof.
  split; [reflexivity|].
  destruct (gateway_forwards_as_post sample.gw sample.unreachable sample.empty_get
              sample.t0 "" "http" "localhost:8082" None "localhost:8082")
    as (p & p' & calls & Hp & _ & Hp' & Hcall & Hurl & Hempty & _ & Hverify).
  - vm_compute. discriminate.
  - reflexivity.
  - left. reflexivity.
  - reflexivity.
  - vm_compute. reflexivity.
  - vm_compute. reflexivity.
  - vm_compute. reflexivity.
  - vm_compute. reflexivity.
  - exists p, p', calls. split; [exact Hp|]. split; [exact Hp'|].
    split; [exact Hcall|]. split; [exact Hurl|].
    split; [by apply Hempty|].
    apply (Hverify sample_sig_correct (Some "GATE")). vm_compute. reflexivity.
Defined.

(** C10, counterexamples.  A body that is not JSON is not forwarded: the
    gateway answers 500 and makes no outbound call.  And a request whose
    path holds a question mark (the request line [GET /a%3Fb]) is
    forwarded as a POST to a URL whose path is [/a] and whose query is
    [b]: the backend is asked for another path than the one the gateway
    was asked for. *)
Lemma invalid_body_not_forwarded :
  http.Path sample.not_json_request ≠ "/health"
  ∧ http.Body sample.not_json_request = Some "hello"
  ∧ gateway.handleRequest sample.gw sample.unreachable sample.not_json_request sample.t0
    = (sample.gw,
       http.Error "Internal server error" http.StatusInternalServerError, [])
  ∧ http.Path sample_more.query_path_request = "/a?b"
  ∧ http.Body sample_more.query_path_request = Some ""
  ∧ http.OutMethod
      <$> head (gateway.handleRequest sample.gw sample.unreachable
                  sample_more.query_path_request sample.t0).2 = Some "POST"
  ∧ http.OutURL
      <$> head (gateway.handleRequest sample.gw sample.unreachable
                  sample_more.query_path_request sample.t0).2
      = Some "http://localhost:8082/a?b"
  ∧ url.Parse "http://localhost:8082/a?b"
    = Some {| url.Scheme := "http"; url.Opaque := ""; url.User := None;
              url.Host := "localhost:8082"; url.Path := "/a";
              url.ForceQuery := false; url.RawQuery := "b";
              url.Fragment := "" |}.
Proof.
  split; [discriminate|]. split; [reflexivity|].
  split; [vm_compute; reflexivity|].
  split; [reflexivity|]. split; [reflexivity|].
  split; [vm_compute; reflexivity|].
  split; [vm_compute; reflexivity|].
  vm_compute; reflexivity.
Qed.

(** C5, at the failing input. An inbound request carries the header
    value 0xFF.  The gateway signs an envelope in which the value is
    written as the escape of U+FFFD; the backend decodes the value to the
    three bytes of U+FFFD and writes them back raw, so the bytes it
    verifies are not the bytes that were signed, and it answers 401 to
    the gateway's envelope although it holds the gateway's key. *)
Lemma canonical_bytes_differ_for_latin1_header :
  ∃ (signed recomputed : bytes) (request : models.ServiceRequest),
    models.Marshal_ServiceRequest
      (gateway.requestData sample.gw sample.latin1_request "" sample.t0) = Ok signed
    ∧ http.Body (sample.forwarded sample.latin1_request)
        ≫= models.Decode_ServiceRequest = Some request
    ∧ models.req_Signature request
      = Some (mode3.SignTo (pqc.PrivateKey (gateway.dilithiumKeyPair sample.gw)) signed)
    ∧ models.Marshal_ServiceRequest (backend.requestData request) = Ok recomputed
    ∧ signed ≠ recomputed
    ∧ (backend.processEcho sample.bs_cached sample.unreachable
         (sample.forwarded sample.latin1_request) sample.t0 sample.t1 "1ms").1.2
      = http.Error "Request verification failed" http.StatusUnauthorized.
Proof.
  eexists _, _, _. split; [vm_compute; reflexivity|].
  split; [vm_compute; reflexivity|].
  split; [vm_compute; reflexivity|].
  split; [vm_compute; reflexivity|].
  split; [vm_compute; discriminate|].
  vm_compute; reflexivity.
Qed.

(** Witness of [backend_cannot_decode_served_key], and the failing input
    of C6: the Registry serves the gateway's key; the gateway's decoder
    returns the key, the backend's decoder returns an error. *)
Lemma backend_cannot_decode_served_key_witness :
  auth.serviceRegistry sample.registry_up !! "api-gateway" = Some (Some "GATE")
  ∧ (gateway.getServicePublicKey sample.gw (sample.lookups_reach sample.registry_up)
       "api-gateway").1.2 = Ok "GATE"
  ∧ (backend.getServicePublicKey sample.bs (sample.lookups_reach sample.registry_up)
       "api-gateway").1.2 = Fail (Errorf "invalid public key format").
Proof.
  split; [vm_compute; reflexivity|].
  apply (backend_cannot_decode_served_key sample.registry_up sample.gw sample.bs
           (sample.lookups_reach sample.registry_up) "api-gateway" "GATE"
           sample.t0 sample.t1); vm_compute; reflexivity.
Defined.

(** C8, counterexample. After [svc-a] is registered again with a new
    key, a gateway whose cache holds the old key still resolves the old
    key. *)
Lemma cached_key_survives_reregistration :
  auth.serviceRegistry sample.registry_old !! "svc-a" = Some (Some "OLD1")
  ∧ auth.serviceRegistry sample.registry_new !! "svc-a" = Some (Some "NEW1")
  ∧ gateway.publicKeyCache sample.gw_cached !! "svc-a" = Some "OLD1"
  ∧ (gateway.getServicePublicKey sample.gw_cached
       (sample.lookups_reach sample.registry_new) "svc-a").1.2 = Ok "OLD1".
Proof. vm_compute. done. Qed.

(** Witness of [reregistration_last_write_wins]: [svc-a] registered
    under a second key; a gateway with an empty cache then obtains the
    second key, a gateway that cached the first keeps it. *)
Lemma reregistration_last_write_wins_witness :
  auth.serviceRegistry sample.registry_old !! "svc-a" = Some (Some "OLD1")
  ∧ auth.serviceRegistry sample.registry_new !! "svc-a" = Some (Some "NEW1")
  ∧ (gateway.getServicePublicKey sample.gw
       (sample.lookups_reach sample.registry_new) "svc-a").1.2 = Ok "NEW1"
  ∧ gateway.getServicePublicKey sample.gw_cached
      (sample.lookups_reach sample.registry_new) "svc-a"
    = (sample.gw_cached, Ok "OLD1", []).
Proof.
  destruct (reregistration_last_write_wins sample.registry_old
              (sample.register_request "svc-a" "NEW1") sample.t1 sample.t1
              {| models.skp_ServiceID := "svc-a"; models.skp_PublicKey := Some "NEW1";
                 models.skp_PrivateKey := None |})
    as (Hnew & _ & Hfetch & Hgw & _).
  - vm_compute; reflexivity.
  - split; [vm_compute; reflexivity|]. split; [exact Hnew|]. split.
    + pose proof (Hfetch sample.gw (sample.lookups_reach sample.registry_new) "NEW1"
                    sample.t0 sample.t1) as Hf.
      cbn [models.skp_ServiceID models.skp_PublicKey] in Hf.
      rewrite Hf; [reflexivity|..]; vm_compute; reflexivity.
    + apply Hgw. vm_compute; reflexivity.
Defined.

(** *** Runs for the properties beyond the claims *)

#[local] Existing Instance sample_more.fs.

(** Witness of [kyber_shared_secret_agrees]: the gateway's Kyber key
    pair and the seed [seed]. *)
Lemma kyber_shared_secret_agrees_witness :
  ∃ ciphertext sharedSecret : bytes,
    pqc.EncapsulateWithPublicKey (pqc.KGetPublicKeyBytes (sample.keys "GATE").2)
      (Some "seed") = Ok (ciphertext, sharedSecret)
    ∧ pqc.Encapsulate (sample.keys "GATE").2 (Some "seed")
      = Ok (ciphertext, sharedSecret)
    ∧ pqc.Decapsulate (sample.keys "GATE").2 ciphertext = Ok sharedSecret.
Proof.
  apply (kyber_shared_secret_agrees (Some "GATE")). vm_compute; reflexivity.
Defined.

(** Witness of [load_checks_sizes_in_order]: a public key of three bytes. *)
Lemma load_checks_sizes_in_order_witness :
  pqc.LoadDilithiumKeyPair "abc" "wxyz"
  = Fail (ErrorfSize "invalid public key size" 4 3).
Proof.
  destruct (load_checks_sizes_in_order "abc" "wxyz") as (H & _).
  apply H. vm_compute. discriminate.
Defined.

(** Witness of [sign_request_verifies]: the gateway signs a request that
    carries a string. *)
Lemma sign_request_verifies_witness :
  ∃ signature,
    pqcsign.SignRequest (sample.keys "GATE").1 "api-gateway" sample.t0
      (json.AString "hello") = Ok signature
    ∧ len signature = mode3.SignatureSize
    ∧ pqc.VerifyDilithiumSignature (pqc.GetPublicKeyBytes (sample.keys "GATE").1)
        (models.object_of
           [ json.member "data" (json.Marshal_any (json.AString "hello"));
             json.member "service_id" (json.appendString "api-gateway");
             json.member "timestamp" (time.MarshalJSON sample.t0) ])
        signature = None.
Proof.
  apply (sign_request_verifies (Some "GATE") (sample.keys "GATE").1 "api-gateway"
           sample.t0 (json.AString "hello")).
  vm_compute; reflexivity.
Defined.

(** Witness of [save_then_load]: the Registry's keys saved to an empty
    file system. *)
Lemma save_then_load_witness :
  pqcfiles.LoadKeyPair sample_more.saved_fs "auth-service" = Ok (sample.keys "AUTH").
Proof.
  destruct (save_then_load sample_more.empty_fs sample_more.saved_fs
              "auth-service" (Some "AUTH") (sample.keys "AUTH").1
              (sample.keys "AUTH").2)
    as (_ & _ & _ & _ & _ & H).
  - vm_compute; reflexivity.
  - vm_compute; reflexivity.
  - rewrite H. vm_compute; reflexivity.
Defined.

(** Witness of [restart_keeps_identity]: the Registry restarted on the
    files it saved, with random sources that fail. *)
Lemma restart_keeps_identity_witness :
  auth.NewAuthService (pqcfiles.LoadKeyPair sample_more.saved_fs "auth-service")
    None None
  = Ok sample.registry.
Proof.
  destruct (restart_keeps_identity sample_more.empty_fs sample_more.saved_fs
              (Some "AUTH") (sample.keys "AUTH").1 (sample.keys "AUTH").2)
    as (H & _).
  - vm_compute; reflexivity.
  - rewrite H; [|vm_compute; reflexivity]. vm_compute; reflexivity.
Defined.

(** Witness of [registry_answers_verify]: the Registry serves the
    gateway's key. *)
Lemma registry_answers_verify_witness :
  ∃ response,
    models.Decode_ServiceResponse
      (http.RespBody
         (auth.getPublicKey sample.registry_up "api-gateway" sample.t0 sample.t1))
    = Some response
    ∧ models.resp_ServiceID response = auth.serviceID sample.registry_up
    ∧ models.resp_Success response = true
    ∧ pqc.VerifyDilithiumSignature
        (pqc.GetPublicKeyBytes (auth.dilithiumKeyPair sample.registry_up))
        (slice_bytes (models.resp_Data response))
        (slice_bytes (models.resp_Signature response)) = None.
Proof.
  destruct (registry_answers_verify (Some "AUTH") sample.registry_up
              sample.t0 sample.t1) as [_ H]; [vm_compute; reflexivity..|].
  apply (H "api-gateway" "GATE"); vm_compute; reflexivity.
Defined.

(** Witness of [key_exchange_only_for_verified]: the Registry's answer to
    the gateway's key-exchange request. *)
Lemma key_exchange_only_for_verified_witness :
  ∃ (request : models.KeyExchangeRequest) (servicePublicKey : option bytes),
    http.Body (sample.kx_request "api-gateway" (sample.keys "GATE").1)
      ≫= models.Decode_KeyExchangeRequest = Some request
    ∧ auth.serviceRegistry sample.registry_up !! models.kx_ServiceID request
      = Some servicePublicKey
    ∧ pqc.VerifyDilithiumSignature (slice_bytes servicePublicKey)
        (auth.keyExchangeRequestData (models.kx_ServiceID request)
           (models.kx_KyberPublicKey request) (models.kx_Timestamp request))
        (slice_bytes (models.kx_Signature request)) = None
    ∧ len (slice_bytes servicePublicKey) = mode3.PublicKeySize
    ∧ len (slice_bytes (models.kx_KyberPublicKey request)) = 1184.
Proof.
  apply (key_exchange_only_for_verified sample.registry_up
           (sample.kx_request "api-gateway" (sample.keys "GATE").1)
           (Some "seed") sample.t1).
  vm_compute; reflexivity.
Defined.

(** Witness of [key_exchange_round_trip]: the gateway and the Registry
    that holds its key. *)
Lemma key_exchange_round_trip_witness :
  gateway.performKeyExchange sample.gw
    (sample.answers
       (auth.keyExchange sample.registry_up sample_more.kx_inbound (Some "seed")
          sample.t1))
    sample.t0
  = Ok tt.
Proof.
  destruct (key_exchange_round_trip sample.gw sample.registry_up
              (sample.answers
                 (auth.keyExchange sample.registry_up sample_more.kx_inbound
                    (Some "seed") sample.t1))
              sample_more.kx_inbound (Some "GATE") (Some "GATE") "seed"
              sample.t0 sample.t1) as (_ & H & _);
    [vm_compute; reflexivity..|exact H].
Defined.

(** Witness of [backend_accepts_gateway_envelope]: a POST whose body is
    an object inside an object, with one header, forwarded to a backend
    that holds the gateway's key. *)
Lemma backend_accepts_gateway_envelope_witness :
  http.Body sample_more.tree_request
  = Some ("{" +:+ json.member "n" (json.appendString "1") +:+ ","
          +:+ json.member "deep" ("{" +:+ json.member "ok" "true" +:+ "}") +:+ "}")
  ∧ ∃ (wire : bytes) (calls : list http.Outbound),
      (gateway.forwardToBackend sample.gw sample.unreachable sample_more.tree_request
         sample.t0).2
      = gateway.backendRequest sample.gw "/echo" wire :: calls
      ∧ http.StatusCode
          (backend.processEcho sample.bs_cached sample.unreachable
             {| http.Method := "POST"; http.Path := "/echo"; http.Header := ∅;
                http.Body := Some wire |} sample.t0 sample.t1 "1ms").1.2
        = http.StatusOK.
Proof.
  split; [vm_compute; reflexivity|].
  destruct (backend_accepts_gateway_envelope (Some "GATE") sample.gw
              sample.bs_cached sample.unreachable sample_more.tree_request
              (jsontext.render sample_more.tree)
              sample.t0) as (wire & calls & Hcalls & Haccepts).
  - vm_compute; reflexivity.
  - vm_compute; reflexivity.
  - reflexivity.
  - right. exists sample_more.tree. split; [vm_compute; reflexivity|].
    split; [vm_compute; reflexivity|reflexivity].
  - vm_compute; reflexivity.
  - vm_compute; reflexivity.
  - unfold plain_headers. cbn [sample_more.tree_request http.Header].
    rewrite omap_singleton_Some with (y := "text/plain") by reflexivity.
    apply map_Forall_singleton. split; vm_compute; reflexivity.
  - vm_compute; reflexivity.
  - exists wire, calls. split; [exact Hcalls|].
    destruct (Haccepts {| http.Method := "POST"; http.Path := "/echo";
                          http.Header := ∅; http.Body := Some wire |}
                sample.unreachable sample.t0 sample.t1 "1ms" eq_refl)
      as (request & _ & _ & _ & H & _).
    exact H.
Defined.

(** Witness of [gateway_relays_only_verified]: a GET of [/status] that
    the backend answers and the gateway relays. *)
Lemma gateway_relays_only_verified_witness :
  ∃ (req : http.Outbound) (answer : http.Response)
    (backendResponse : models.ServiceResponse) (backendPublicKey : bytes),
    head (gateway.forwardToBackend sample.gw sample_more.mesh_net sample.empty_get
            sample.t0).2 = Some req
    ∧ sample_more.mesh_net req = Some answer
    ∧ models.Decode_ServiceResponse (http.RespBody answer) = Some backendResponse
    ∧ (gateway.getServicePublicKey sample.gw sample_more.mesh_net
         "backend-service").1.2 = Ok backendPublicKey
    ∧ pqc.VerifyDilithiumSignature backendPublicKey
        (slice_bytes (models.resp_Data backendResponse))
        (slice_bytes (models.resp_Signature backendResponse)) = None
    ∧ (gateway.forwardToBackend sample.gw sample_more.mesh_net sample.empty_get
         sample.t0).1.2
      = http.EncodeJSON {[ "X-Gateway-Service" := gateway.serviceID sample.gw ]}
          (http.StatusCode answer)
          (models.Marshal_ServiceResponse backendResponse).
Proof.
  apply (gateway_relays_only_verified sample.gw sample_more.mesh_net
           sample.empty_get sample.t0).
  eexists. vm_compute. reflexivity.
Defined.


(** Witness of [first_start_generates_keys]: the Registry started on a
    file system without files. *)
Lemma first_start_generates_keys_witness :
  auth.NewAuthService (pqcfiles.LoadKeyPair sample_more.empty_fs "auth-service")
    (Some "AUTH") (Some "AUTH")
  = Ok sample.registry.
Proof.
  destruct (first_start_generates_keys sample_more.empty_fs (Some "AUTH") (Some "AUTH")
              (sample.keys "AUTH").1 (sample.keys "AUTH").2) with "auth-service"
    as (_ & H & _).
  - vm_compute; reflexivity.
  - vm_compute; reflexivity.
  - left. vm_compute; reflexivity.
  - rewrite H. vm_compute; reflexivity.
Defined.

(** Witness of [models_json_round_trip]: an envelope of the gateway
    with a signature, one header and an object inside an object as its
    data, and a response and a registration of the same service. *)
Lemma models_json_round_trip_witness :
  (let v := {| models.req_ServiceID := "api-gateway";
               models.req_Timestamp := sample.t0;
               models.req_Data := Some (jsontext.render sample_more.tree);
               models.req_Signature := Some "GATE1234";
               models.req_Headers := {[ "Accept" := "text/plain" ]} |} in
   ∃ text, models.Marshal_ServiceRequest v = Ok text
           ∧ models.Decode_ServiceRequest text = Some v)
  ∧ (let v := {| models.resp_ServiceID := "api-gateway";
                 models.resp_Timestamp := sample.t0;
                 models.resp_Data := Some (jsontext.render sample_more.tree);
                 models.resp_Signature := Some "GATE1234";
                 models.resp_Headers := ∅;
                 models.resp_Success := true;
                 models.resp_Error := "" |} in
     ∃ text, models.Marshal_ServiceResponse v = Ok text
             ∧ models.Decode_ServiceResponse text = Some v)
  ∧ models.Decode_ServiceKeyPair
      (models.Marshal_ServiceKeyPair
         {| models.skp_ServiceID := "api-gateway";
            models.skp_PublicKey := Some "GATE";
            models.skp_PrivateKey := None |})
    = Some {| models.skp_ServiceID := "api-gateway";
              models.skp_PublicKey := Some "GATE";
              models.skp_PrivateKey := None |}.
Proof.
  destruct (models_json_round_trip "api-gateway" sample.t0 sample_more.tree
              {[ "Accept" := "text/plain" ]})
    as (Hkeys & Hrequest & Hresponse & _).
  - vm_compute; reflexivity.
  - vm_compute; reflexivity.
  - vm_compute; reflexivity.
  - vm_compute; reflexivity.
  - apply map_Forall_singleton. split; vm_compute; reflexivity.
  - split; [apply (Hrequest (Some "GATE1234"))|].
    split; [apply (Hresponse "GATE1234")|]. apply (Hkeys "GATE").
Defined.


End Runs.
